(* ===== verification/_CoqProject ===== *)
-Q . S2P
Prelude.v
JsCore.v
Regex.v
Forms.v
Auth.v
FormState.v
JsSort.v
JsDate.v
Json.v
Tailwind.v
PandaLogo.v
Components.v
Home.v
Reports.v
Url.v
NodePath.v
ScanServer.v
EventLoop.v
Express.v
ScannerPage.v
Dashboard.v
Styles.v
Site.v
