(* ===== verification/Prelude.v ===== *)
(** * PandaScanPro: a verification development of the scan server and its front end

    The repository is a demo web application for a "web vulnerability
    scanner".  [src/server/index.js] is an Express server whose
    [POST /scan] handler validates a JSON body, derives a hostname with the
    WHATWG [URL] parser, awaits seven mock probes of [MockScanner] in
    sequence (each a [setTimeout] sleep, two drawing [Math.random()]) and
    answers with a JSON envelope; [GET /download_report] and [GET *] are
    the other routes.  The React front end under [src/src] has six pages
    routed by [App.tsx]: the report list of [Reports.tsx] (search, severity
    filter, three sort orders over a seed list), the scan form of
    [Scanner.tsx] (a URL pattern, a progress sequence, a [fetch] of
    [/scan], the results tabs), the [Login.tsx] and [SignUp.tsx] forms
    (react-hook-form rules, mock authentication with [localStorage], a
    password-strength meter), the animated counters of [Dashboard.tsx];
    [ScanProgress.tsx] and [LoadingScreen.tsx] are components.  The
    Scanner page calls the server: the model runs both on one world.

    ** Files (dependency order of _CoqProject), what they model, what they prove

    - [Prelude.v] (this file): the scope [pscan_scope], the hint databases
      [pscan] and [pscan_rw], the tactics [case_bool] and [bool_to_prop],
      and lemmas on [List.filter] and [Sorted].
    - [JsCore.v]: JS numbers as integer or NaN ([jsnum]), JSON values
      ([jsval]) and truthiness, [toLowerCase] on Latin-1, [includes],
      [startsWith]; lemmas on string concatenation and substrings.
    - [Regex.v]: [RegExp.prototype.test] for the pages' patterns: syntax
      with character classes (with the [i] flag's [Canonicalize] on
      Latin-1), its language [accepts], and a Brzozowski-derivative matcher
      [matchb] with simplifying constructors.  [regex_test_correct]: the
      matcher decides the language; [regex_search_class]: an unanchored
      search for a class finds a character of the class.
    - [Forms.v]: react-hook-form's [validateField] (required, minLength,
      pattern, validate; first error wins) and [handleSubmit]; the effects
      of the pages' handlers ([ui_effect]); the submission machine shared
      by Login and SignUp ([submit_step]: [handleSubmit], [isLoading],
      the disabled button, the code before and after the [await]) with
      its invariant [submit_inv], proved for every reachable state, and
      [submit_timer_idle]: clicks while a submission is pending change
      nothing and the next timer always brings the page back to idle.
    - [Auth.v] (Modules [Login], [SignUp]): the forms, rules, handlers,
      toggles and views of [Login.tsx] and [SignUp.tsx], the email
      pattern and [passwordStrength].  Theorems: the demo credentials sign
      in; any other submission writes nothing; no token but the demo one
      is ever stored; the button is disabled exactly while a submission
      is pending; every accepted address has one [@]; strength is total,
      bounded by 5, positive on non-empty passwords and monotone under
      typing; mismatched confirmation and unchecked terms are rejected;
      every valid sign-up stores its token.
    - [FormState.v] (Module [FormState]): react-hook-form's [errors]
      between submissions under the default modes ([mode: 'onSubmit'],
      [reValidateMode: 'onChange']): [form_step] stores a changed value,
      re-validates only the changed field once the form is submitted
      ([on_change]: [set]/[unset] of [errors]), and validates every field
      on [handleSubmit] ([on_submit]); [login_set_field],
      [signup_set_field] and [ScannerPage.scan_set_field] are the values
      the inputs' [onChange] writes.
      Theorems: from a fresh form nothing is shown before the first
      submission and afterwards every field of Login, and every field of
      SignUp but [confirmPassword], and the Scanner's URL
      ([ScannerPage.scanner_errors_current]), shows the error of its
      current value ([errors_current], by induction on
      [form_reachable]); a change of
      [password] leaves the [confirmPassword] error as it was, so
      [Passwords do not match] can stay under two equal passwords.
    - [JsSort.v]: [Array.prototype.sort] as the stable insertion sort
      (V8's binary insertion sort on short arrays agrees with it for
      consistent comparators), NaN comparisons counting as 0; the result is
      a permutation, sorted and stable for [key b - key a] comparators, and
      unique with these properties, so any conforming engine ([SortImpl])
      gives the same list.
    - [JsDate.v]: [new Date(s).getTime()] on [YYYY-MM-DD] (ECMAScript
      [MakeDay]; other strings are NaN here) and [toISOString];
      [date_time_chronological]: time values follow the calendar.
    - [Json.v] (Module [Json]): [Number::toString] on integers (decimal
      below 10^21, exponent form above), [JSON.stringify] with and
      without an indent ([ser]: SerializeJSONProperty, QuoteJSONString)
      and [JSON.parse] as a recursive-descent parser on fuel that builds
      objects as the runtime does ([define_property], [own_keys_order]:
      a repeated key keeps its first place and its last value, array
      indices come first).  [json_parse_stringify]: every well-formed
      value ([json_wf]) printed with any indent of spaces parses back to
      itself; [json_parse_wf]: everything [JSON.parse] returns is well
      formed; [json_parse_fuel]: the fuel [json_parse] gives is never
      exhausted.
    - [Tailwind.v] (Module [Tailwind]): [theme.extend.colors] of
      [src/tailwind.config.js] merged into Tailwind's default palette, and
      the reading of a colour utility ([hover:text-primary-400],
      [bg-primary-500/10], [to-secondary-900/20]): [undefined_colors]
      lists the classes of a [className] whose shade the palette lacks,
      for which Tailwind generates no CSS; the [content] globs with a
      glob matcher ([*], [**], brace expansion, dot files excluded) and
      the [fontFamily], [animation] and [keyframes] entries.  Theorems:
      every front-end source under [src/] is scanned and the server is
      not; every animation names well-formed keyframes.
    - [PandaLogo.v] (Module [PandaLogo]): the props and defaults, hover
      variants, [defs] and every SVG shape of [PandaLogo.tsx] with its
      paint, stroke, filter and motion as a function of [animated]; the
      path data parsed from the [d] strings and the points of its lines
      and quadratic curves at every rational parameter.  Theorems: every
      shape with its stroke lies in the viewBox; every [url(#id)] resolves
      to the right kind of definition; what [animated=false] switches off
      (all but the check mark).
    - [Components.v] (Modules [ScanProgress], [LoadingScreen], [App]): the
      step indicator's states, the loading screen (logo, text, bar width,
      dots) and the router's paths; the link targets that match no route.
    - [Home.v] (Module [Home]): the landing page: features, stats, links,
      the floating dots' template-literal positions, the cards and every
      [className].  Theorems: distinct React keys, links reaching their
      routes, dot positions and timings; the classes naming shades
      missing from the palette.
    - [Reports.v] (Module [Reports]): [ReportSummary], [mockReports],
      [severityOrder] as a JS object literal (prototype properties found
      by lookup), the comparators, [filteredReports], the page state and
      the report cards.  Theorems: the view lists exactly the matching
      reports, stably sorted by the chosen key; idempotence; the seed
      results of the specification; prototype-named severities rank NaN.
    - [Url.v]: [new URL(u).hostname] through the WHATWG states the handler
      reaches (trimming, scheme, special-scheme slashes, userinfo, port,
      host) and the IPv4 parser and serializer for hosts that end in a
      number ([ipv4_number]: hex, octal, decimal parts; [ipv4_parse]:
      at most four parts, 255 per part but the last, which fills the
      remaining bytes), after the host is percent-decoded
      ([percent_decode]); a host in brackets is an IPv6 address
      ([ipv6_parse]: hex pieces, one [::], an embedded IPv4 tail;
      [ipv6_serialize]: the shortest form, the first longest run of two
      or more zero pieces compressed); IDNA is [HostUnmodelled].
      [url_hostname_plain]: a plain host after [https://] is its own
      lowercase; [url_hostname_percent]: a percent-encoded host is that
      of its decoding, or throws when the decoding holds a forbidden code
      point; [url_hostname_ipv4]: a numeric host is the dotted form of its
      address, which parses back to it; [url_hostname_ipv6]: a host in
      brackets is the serialization of the address the IPv6 parser reads,
      and every serialization parses back to its address.
    - [NodePath.v] (Modules [NodePath], [Bootstrap]): Node's POSIX
      [path.normalize], [path.join], [path.dirname] and
      [url.fileURLToPath], and the start-up lines of [index.js]
      ([__filename], [__dirname], the static root, the [GET *] file,
      [PORT]).  [server_dirs]: from [<d>/server/index.js] the server
      serves [<d>/dist] and falls back to its [index.html].
    - [ScanServer.v] (Module [ScanServer]): the monad [ScanM] over a
      [World] (clock, [Math.random] stream, timer log, error log), the
      probes, the [/scan] handler and the router.  Theorems: the 200/400/
      500 taxonomy with no partial effects, the exact result keys, the
      subdomains, the timers and timestamp, the probability thresholds,
      the [https://] derivation for plain hosts and its [httpbin.org]
      exception.  The router answers [HEAD] with the GET routes.
    - [EventLoop.v] (Module [EventLoop]): concurrent [/scan] requests.
      The handler and the probes are split at each awaited [setTimeout]
      ([prog], a free monad over [setTimeout], [Math.random], [new Date]
      and [console.error]); [run] reads a program in [ScanM] and
      [run_handle_scan] shows it is [handle_scan].  [run_loop] is Node's
      timers phase: the earliest timer fires at its deadline and its
      handler runs to its next await before the next timer.  A request
      alone is answered as [handle_scan] says ([scan_alone_on_loop]).
      Theorems: two requests arriving together alternate their timers
      and share the [Math.random] stream ([scan_two_requests]), so a
      request's results depend on the requests that overlap it
      ([xss_depends_on_overlap]); whatever their bodies, both are answered
      with the status they get alone, an error at once and a success
      8500 ms after arrival ([scan_overlap_status_latency]).
    - [Express.v] (Module [Express]): the middleware stack of [index.js]
      on a request as Node hands it over: [cors()] (the CORS header on
      every reply, the [OPTIONS] preflight), [express.json()] as
      body-parser (the [Content-Type] read with media-typer's grammar in
      a state machine over its parameters, the UTF charset check, the
      100kb limit, the empty body, the strict first-character test,
      [JSON.parse]), [express.static], the router and the final handler,
      composed in [app].  Theorems: the Scanner page's request reaches
      the handler as the page's model assumes ([scan_request_reaches_handler],
      a refinement of [ScannerPage]'s [wire] abstraction); body-parser's
      400/413/415 before any route; a body of another type or none is
      [{}] and gets "URL is required"; the CORS header on every reply;
      [HEAD] as [GET] without a body.
    - [ScannerPage.v] (Module [ScannerPage]): the Scanner page in the state
      monad [PageM] over the page state, the shared [World], the rendered
      snapshots, the toasts and the console (stdpp's [MBind]); [onSubmit]
      calls the server's [route], the request and the response crossing
      the network through [JSON.stringify] and [JSON.parse] ([wire]).
      Theorems: the rendered progress sequence for any server answer, the
      success and failure outcomes end to end (every body the handler
      sends is well formed, so [wire] delivers it unchanged), the tabs'
      [JSON.stringify(x, null, 2)] texts, which parse back to the server's
      values, the inputs [http<h>.<t>] (such as [httpbin.org]) that
      pass the page's pattern and end in the server's "Invalid URL"
      ([scanner_http_prefix_rejected]), and the tab buttons' and step indicators' classes
      naming missing shades ([tab_button_class], [render_step]).  The
      page hands the parsed body to [route]; [Express.v] proves that the
      whole middleware stack does the same with the text the page sends.
    - [Dashboard.v] (Module [Dashboard]): binary64 addition, comparison and
      [Math.floor] on non-negative doubles ([round_div], ties to even),
      [animateCounter] and the four interleaved intervals; the static
      [recentScans], [chartData] and [pieData], the pie labels and cells,
      the stat cards and scan rows of the rendered page.  Theorems: no
      update is lost between the four counters; every counter stops on its
      target (51 ticks for 247 and 158, 50 for 89 and 12); the final cards;
      the pie labels are the sectors' exact shares; distinct keys, the
      ["1 vulnerabilities"] row and the missing shades of the page.

    - [Styles.v] (Module [Styles]): every [className] the pages render,
      static ones as written and computed ones from the modelled
      functions; [site_undefined_colors]: page by page, the colour
      classes that generate no CSS.
    - [Site.v] (Module [Site]): a page load: the browser's [GET] through
      [Express.app], then [App] ([render]: its classes, its two absent
      children, the page of the location) when the reply is the shell.
      Theorems: the six routes load their pages; other paths load a
      shell with no page, [/download_report] loads raw JSON.

    ** Bounds and fuel

    [Dashboard.fuel] is 100 ticks; [counters_stop_on_target] shows every
    loop stops on its target within 51, and that more fuel changes
    nothing.  [number_to_string] ([Json.v]) takes [Z.log2 n + 1] steps
    for the digits of [n], enough since [n < 2^(log2 n + 1) <= 10^(log2 n + 1)].
    [json_parse] runs [parse_value] with one unit of fuel more than the
    input has characters: every nested call consumes a character, so
    [json_parse_fuel] shows the fuel is never exhausted.  The regex
    matcher and the date and URL parsers are structural recursions and
    need no fuel, and so is the [Content-Type] parameter machine of
    [Express.v].  Body-parser's limit is 102400 bytes: the page's body,
    at most six bytes per code unit of the URL plus ten, stays within it
    for URLs of up to 17000 code units, the bound of
    [scan_request_reaches_handler].  IPv4 addresses are kept as [Z] below
    2^32, which [ipv4_parse] guarantees ([ipv4_parse_range]).  The IPv6
    parser's main loop runs on the fuel [8 - pieceIndex] and its IPv4
    tail on [4 - numbersSeen]: each turn advances the counter, and the
    standard itself fails when the counter reaches its bound with input
    left, so the fuel is exact; [to_hex] takes at most four digits, enough
    for pieces below 2^16 ([to_hex_spec]).  The react-hook-form machine
    of [FormState.v] is a step function on events and needs no fuel.
    [run_loop] fires one timer per unit of fuel: a [/scan] handler awaits
    seven timers, so 7 units serve one request and 14 two, and
    [loop_alone] shows that more fuel than a handler's awaits changes
    nothing once no timer is left.

    ** What is not modelled

    Animations beyond their [animate] targets, delays and durations (the
    frame-by-frame motion of framer-motion); Tailwind utilities other
    than colours (the catalogue of Tailwind itself), and the component
    classes [gradient-text], [glass-effect], [scan-button] and
    [text-shadow], which no file of the repository defines; the recharts
    line chart beyond its data; the element structure of the markup
    beyond texts, links, keys and classes; [app.listen] and its console
    message (I/O); [Navbar] and
    [ParticleBackground], imported by [App.tsx] but absent from the
    repository; request bodies with a [Content-Encoding] (the page sends
    none); non-ASCII or [xn--] hosts (IDNA, whose Unicode tables are out
    of reach of the model), which
    the handler leaves to a parameter; JSON numbers that are not integers up to 2^53 and [\u] escapes
    above 255 (the parser answers [JUnmodelled]); network
    failures of [fetch]; react-hook-form's [touchedFields], [dirtyFields]
    and [isSubmitting], which no page reads; the bar
    widths that divide in binary64 in [ScanProgress.tsx]. *)

From stdpp Require Export base list strings.
From Stdlib Require Export ZArith Lia Ascii String Sorted Permutation.

Declare Scope pscan_scope.
Delimit Scope pscan_scope with pscan.

Create HintDb pscan discriminated.
Create Rewrite HintDb pscan_rw.

(** ** Tactics shared by the development *)

(** Turn the boolean tests the code performs into propositions. *)
Ltac bool_to_prop :=
  repeat match goal with
  | H : (_ && _)%bool = true |- _ => apply andb_true_iff in H as [? ?]
  | H : (_ || _)%bool = false |- _ => apply orb_false_iff in H as [? ?]
  | H : negb _ = true |- _ => apply negb_true_iff in H
  | H : negb _ = false |- _ => apply negb_false_iff in H
  | H : String.eqb _ _ = true |- _ => apply String.eqb_eq in H
  | H : Z.ltb _ _ = true |- _ => apply Z.ltb_lt in H
  | H : Z.ltb _ _ = false |- _ => apply Z.ltb_ge in H
  | H : Z.leb _ _ = true |- _ => apply Z.leb_le in H
  | H : Z.leb _ _ = false |- _ => apply Z.leb_gt in H
  | H : Z.eqb _ _ = true |- _ => apply Z.eqb_eq in H
  | H : Z.eqb _ _ = false |- _ => apply Z.eqb_neq in H
  end.

(** Case on every boolean condition of the goal, keeping the equation. *)
Ltac case_bool :=
  repeat match goal with
  | |- context [if ?b then _ else _] =>
      lazymatch b with
      | true => fail
      | false => fail
      | _ => let E := fresh "Eb" in destruct b eqn:E
      end
  end.

(** ** Generic lemmas on filters and orders *)

Section FilterLemmas.
Context {A : Type}.
Implicit Types (f g : A -> bool) (l : list A).

Lemma filter_idem f l : List.filter f (List.filter f l) = List.filter f l.
Proof.
  induction l as [|x l IH]; simpl; [done|].
  destruct (f x) eqn:E; simpl; [rewrite E|]; congruence.
Qed.

Lemma filter_filter_comm f g l :
  List.filter f (List.filter g l) = List.filter g (List.filter f l).
Proof.
  induction l as [|x l IH]; simpl; [done|].
  destruct (f x) eqn:Ef, (g x) eqn:Eg; simpl; rewrite ?Ef, ?Eg; congruence.
Qed.

Lemma filter_subsumed f g l :
  (forall x, In x l -> f x = true -> g x = true) ->
  List.filter g (List.filter f l) = List.filter f l.
Proof.
  intros Hfg. induction l as [|x l IH]; simpl; [done|].
  destruct (f x) eqn:E; simpl.
  - rewrite (Hfg x (or_introl eq_refl) E). f_equal. auto with datatypes.
  - auto with datatypes.
Qed.

Lemma filter_all_true f l :
  (forall x, In x l -> f x = true) -> List.filter f l = l.
Proof.
  intros H. induction l as [|x l IH]; simpl; [done|].
  rewrite (H x (or_introl eq_refl)). f_equal. auto with datatypes.
Qed.

Lemma filter_all_false f l :
  (forall x, In x l -> f x = false) -> List.filter f l = [].
Proof.
  intros H. induction l as [|x l IH]; simpl; [done|].
  rewrite (H x (or_introl eq_refl)). auto with datatypes.
Qed.

Lemma filter_ext_in_eq f g l :
  (forall x, In x l -> f x = g x) -> List.filter f l = List.filter g l.
Proof. apply filter_ext_in. Qed.

(** [List.filter] keeps a subsequence. *)
Lemma filter_sublist f l : sublist (List.filter f l) l.
Proof.
  induction l as [|x l IH]; simpl; [constructor|].
  destruct (f x); [apply sublist_skip|apply sublist_cons]; done.
Qed.
End FilterLemmas.

#[export] Hint Resolve filter_sublist : pscan.
#[export] Hint Rewrite @filter_idem : pscan_rw.

(** Sortedness of a filtered list, for a transitive order. *)
Lemma Sorted_filter {A} (R : A -> A -> Prop) (f : A -> bool) (l : list A) :
  Transitive R -> Sorted R l -> Sorted R (List.filter f l).
Proof.
  intros HT Hs. apply StronglySorted_Sorted.
  apply Sorted_StronglySorted in Hs; [|exact HT].
  induction Hs as [|x l Hs IH Hall]; simpl; [constructor|].
  destruct (f x); [|exact IH]. constructor; [exact IH|].
  apply List.Forall_forall. intros y Hy. apply filter_In in Hy as [Hy _].
  eapply List.Forall_forall in Hall; eauto.
Qed.
