(* ===== verification/JsCore.v ===== *)
(** * JsCore: the JavaScript runtime operations the code applies to strings and numbers

    A JS number is modelled as an integer or NaN ([jsnum]): every number
    the modelled code computes with (counts, severity ranks, time values in
    ms, random draws scaled by 2^53) is an integer below 2^53, where double
    arithmetic is exact.  Strings are sequences of UTF-16 code units below
    256 (Latin-1), one [ascii] per code unit; [toLowerCase] is exact on
    that range.  JSON values reaching the server ([jsval]) carry their JS
    truthiness ([truthy]); a non-integer JSON number is truthy and not a
    string, which is all the code observes of it, so it is represented by
    a non-zero integer. *)

From S2P Require Import Prelude.

Local Open Scope string_scope.

(** ** Numbers *)

Inductive jsnum := JNum (z : Z) | JNaN.

#[export] Instance jsnum_eq_dec : EqDecision jsnum.
Proof. solve_decision. Defined.

(** [a - b] on JS numbers: NaN is absorbing. *)
Definition jsnum_sub (a b : jsnum) : jsnum :=
  match a, b with
  | JNum x, JNum y => JNum (x - y)
  | _, _ => JNaN
  end.

(** ** JSON values and truthiness *)

#[warnings="-register-all"]
Inductive jsval :=
  | JUndefined
  | JNull
  | JBool (b : bool)
  | JNumber (n : jsnum)
  | JStr (s : string)
  | JArr (xs : list jsval)
  | JObj (kvs : list (string * jsval)).

(** Induction on values through the lists of arrays and objects. *)
Section jsval_rect.
Context (P : jsval -> Prop)
  (HU : P JUndefined) (HN : P JNull) (HB : forall b, P (JBool b)) (HNum : forall n, P (JNumber n))
  (HS : forall s, P (JStr s)) (HA : forall xs, Forall P xs -> P (JArr xs))
  (HO : forall kvs, Forall (fun kv => P kv.2) kvs -> P (JObj kvs)).

Fixpoint jsval_ind' (v : jsval) : P v :=
  match v with
  | JUndefined => HU
  | JNull => HN
  | JBool b => HB b
  | JNumber n => HNum n
  | JStr s => HS s
  | JArr xs =>
      HA xs ((fix go (xs : list jsval) : Forall P xs :=
                match xs with
                | [] => List.Forall_nil _
                | x :: xs' => List.Forall_cons P x xs' (jsval_ind' x) (go xs')
                end) xs)
  | JObj kvs =>
      HO kvs ((fix go (kvs : list (string * jsval)) : Forall (fun kv => P kv.2) kvs :=
                 match kvs with
                 | [] => List.Forall_nil _
                 | (k, x) :: kvs' => List.Forall_cons (fun kv => P kv.2) (k, x) kvs' (jsval_ind' x) (go kvs')
                 end) kvs)
  end.
End jsval_rect.

(** [!v] is true exactly for the falsy values: undefined, null, false, 0,
    NaN and the empty string. *)
Definition truthy (v : jsval) : bool :=
  match v with
  | JUndefined | JNull => false
  | JBool b => b
  | JNumber (JNum z) => negb (z =? 0)%Z
  | JNumber JNaN => false
  | JStr s => negb (String.eqb s "")
  | JArr _ | JObj _ => true
  end.

(** ** [String.prototype.toLowerCase] on Latin-1 code units *)

(** Upper-case Latin-1 letters are A-Z (65-90) and 192-222 except the
    multiplication sign 215; each maps to the code unit 32 above. *)
Definition is_upper_code (n : nat) : bool :=
  (Nat.leb 65 n && Nat.leb n 90) || (Nat.leb 192 n && Nat.leb n 222 && negb (Nat.eqb n 215)).

Definition lower_char (c : ascii) : ascii :=
  let n := nat_of_ascii c in
  if is_upper_code n then ascii_of_nat (n + 32) else c.

Fixpoint toLowerCase (s : string) : string :=
  match s with
  | EmptyString => EmptyString
  | String c s' => String (lower_char c) (toLowerCase s')
  end.

(** ** [includes] and [startsWith] *)

(** [s.startsWith(p)] *)
Definition startsWith (s p : string) : bool := String.prefix p s.

(** [s.includes(t)]: [t] occurs in [s] at some index. *)
Fixpoint includes (s t : string) : bool :=
  String.prefix t s ||
  match s with
  | EmptyString => false
  | String _ s' => includes s' t
  end.

(** [s.split(sep)] for a one-character separator. *)
Fixpoint split_on (sep : ascii) (s : string) : list string :=
  match s with
  | EmptyString => [""]
  | String c s' =>
      let parts := split_on sep s' in
      if Ascii.eqb c sep then "" :: parts
      else match parts with p :: ps => String c p :: ps | [] => [String c ""] end
  end.

Notation "t '⊑ₛ' s" := (includes s t = true) (at level 70) : pscan_scope.
Local Open Scope pscan_scope.

(** ** Lemmas *)

(** Stdpp makes [String.append] [simpl never]; its two equations. *)
Lemma string_app_nil_l s : "" ++ s = s.
Proof. reflexivity. Qed.

Lemma string_app_cons c s t : String c s ++ t = String c (s ++ t).
Proof. reflexivity. Qed.

#[export] Hint Rewrite string_app_nil_l string_app_cons : pscan_rw.

Lemma string_app_nil_r s : s ++ "" = s.
Proof. induction s as [|c s IH]; autorewrite with pscan_rw; congruence. Qed.

Lemma string_app_assoc s t u : s ++ (t ++ u) = (s ++ t) ++ u.
Proof. induction s as [|c s IH]; autorewrite with pscan_rw; congruence. Qed.

#[export] Hint Rewrite string_app_nil_r : pscan_rw.

Lemma list_ascii_of_string_app s t :
  list_ascii_of_string (s ++ t) = (list_ascii_of_string s ++ list_ascii_of_string t)%list.
Proof. induction s as [|c s IH]; [done|]. rewrite string_app_cons. simpl. by rewrite IH. Qed.

Lemma string_of_list_ascii_app l1 l2 :
  string_of_list_ascii (l1 ++ l2)%list = string_of_list_ascii l1 ++ string_of_list_ascii l2.
Proof. induction l1 as [|c l1 IH]; [done|]. simpl. rewrite string_app_cons. by rewrite IH. Qed.

Lemma length_list_ascii_of_string s : List.length (list_ascii_of_string s) = String.length s.
Proof. induction s as [|c s IH]; cbn; lia. Qed.

Lemma string_length_app s t : String.length (s ++ t) = (String.length s + String.length t)%nat.
Proof. induction s as [|c s IH]; [done|]. rewrite string_app_cons. simpl. by rewrite IH. Qed.


Lemma split_on_nosep sep s : ~ In sep (list_ascii_of_string s) -> split_on sep s = [s].
Proof.
  induction s as [|c s IH]; intros H; [done|]. cbn [split_on list_ascii_of_string In] in *.
  rewrite IH by tauto. destruct (Ascii.eqb c sep) eqn:E; [|done].
  apply Ascii.eqb_eq in E. tauto.
Qed.

Lemma split_on_app sep s t :
  ~ In sep (list_ascii_of_string s) -> split_on sep (s ++ String sep t) = s :: split_on sep t.
Proof.
  induction s as [|c s IH]; intros H.
  - rewrite string_app_nil_l. cbn [split_on]. by rewrite Ascii.eqb_refl.
  - rewrite string_app_cons. cbn [split_on list_ascii_of_string In] in *.
    rewrite IH by tauto. destruct (Ascii.eqb c sep) eqn:E; [|done].
    apply Ascii.eqb_eq in E. tauto.
Qed.

(** Splitting a join on its separator gives the pieces back. *)
Lemma split_on_concat sep ss :
  Forall (fun s => ~ In sep (list_ascii_of_string s)) ss -> ss <> [] ->
  split_on sep (String.concat (String sep "") ss) = ss.
Proof.
  induction ss as [|s [|s' ss] IH]; intros Hf Hne; [done| |].
  - inversion_clear Hf. by apply split_on_nosep.
  - inversion_clear Hf as [|? ? Hs Hf']. change (String.concat (String sep "") (s :: s' :: ss))
      with (s ++ String sep "" ++ String.concat (String sep "") (s' :: ss)).
    rewrite string_app_cons, string_app_nil_l, split_on_app by done. by rewrite IH.
Qed.

Lemma lower_char_idem c : lower_char (lower_char c) = lower_char c.
Proof. destruct c as [[] [] [] [] [] [] [] []]; reflexivity. Qed.

Lemma toLowerCase_idem s : toLowerCase (toLowerCase s) = toLowerCase s.
Proof. induction s as [|c s IH]; simpl; [done|]. by rewrite lower_char_idem, IH. Qed.

Lemma toLowerCase_app s t : toLowerCase (s ++ t) = toLowerCase s ++ toLowerCase t.
Proof.
  induction s as [|c s IH]; [done|].
  rewrite !string_app_cons. simpl. by rewrite IH.
Qed.

Lemma toLowerCase_length s : String.length (toLowerCase s) = String.length s.
Proof. induction s as [|c s IH]; simpl; [done|]. by rewrite IH. Qed.

#[export] Hint Rewrite toLowerCase_idem toLowerCase_app : pscan_rw.

Lemma prefix_iff p s : String.prefix p s = true <-> exists q, s = p ++ q.
Proof.
  revert s. induction p as [|a p IH]; intros s.
  - destruct s; simpl; split; eauto.
  - destruct s as [|b s]; simpl.
    + split; [discriminate|]. intros [q Hq]. discriminate.
    + destruct (ascii_dec a b) as [->|Hne].
      * rewrite IH. split; intros [q Hq]; exists q; [by subst|by injection Hq].
      * split; [discriminate|]. intros [q Hq]. injection Hq as Hab _. congruence.
Qed.

Lemma includes_iff s t : t ⊑ₛ s <-> exists p q, s = p ++ t ++ q.
Proof.
  induction s as [|c s IH]; cbn [includes]; rewrite orb_true_iff, prefix_iff.
  - split.
    + intros [[q Hq]|H]; [|discriminate]. by exists "", q.
    + intros [p [q Hpq]]. left. exists q. destruct p; [done|discriminate].
  - rewrite IH. split.
    + intros [[q Hq]|[p [q Hpq]]].
      * by exists "", q.
      * exists (String c p), q. by rewrite Hpq.
    + intros [[|c' p] [q Hpq]]; [left; eauto|right].
      injection Hpq as -> ->. eauto.
Qed.

Lemma includes_empty s : "" ⊑ₛ s.
Proof. apply includes_iff. exists "", s. done. Qed.

Lemma includes_refl s : s ⊑ₛ s.
Proof. apply includes_iff. exists "", "". by rewrite string_app_nil_r. Qed.

Lemma includes_trans s t u : t ⊑ₛ s -> u ⊑ₛ t -> u ⊑ₛ s.
Proof.
  rewrite !includes_iff. intros [p1 [q1 ->]] [p2 [q2 ->]].
  exists (p1 ++ p2), (q2 ++ q1).
  by rewrite !string_app_assoc.
Qed.

Lemma includes_lower s t : t ⊑ₛ s -> toLowerCase t ⊑ₛ toLowerCase s.
Proof.
  rewrite !includes_iff. intros [p [q ->]].
  exists (toLowerCase p), (toLowerCase q). by rewrite !toLowerCase_app.
Qed.

#[export] Hint Resolve includes_empty includes_refl includes_lower : pscan.
