(* ===== verification/Regex.v ===== *)
(** * Regex: [RegExp.prototype.test] for the anchored patterns of the pages

    The pages validate with anchored regular expressions ([^...$]) built
    from character classes, concatenation, alternation, [?], [*], [+] and
    bounded repetition; for such a pattern [re.test(s)] holds exactly when
    [s] is in the pattern's language, whatever order the backtracking
    engine tries.  [regex] is that syntax, with character classes as
    lists of code ranges (possibly negated); [accepts] is its language (the
    reference semantics) and [matchb] the executable matcher by
    Brzozowski derivatives, built with the simplifying constructors [scat]
    and [salt] so that nested stars keep small derivatives.
    Theorem [matchb_correct]: the matcher decides the language. *)

From S2P Require Import Prelude.

Inductive regex :=
  | RNone
  | REps
  | RClass (icase negated : bool) (ranges : list (nat * nat))
  | RCat (r1 r2 : regex)
  | RAlt (r1 r2 : regex)
  | RStar (r : regex).

#[export] Instance regex_eq_dec : EqDecision regex.
Proof. solve_decision. Defined.

Definition in_ranges (ranges : list (nat * nat)) (n : nat) : bool :=
  existsb (fun '(lo, hi) => Nat.leb lo n && Nat.leb n hi) ranges.

(** [Canonicalize(ch)] of ECMA-262 22.2.2.7.3 for a pattern with the [i]
    flag and without [u], on Latin-1: [toUpperCase], kept only when it is
    one code unit and does not map a non-ASCII character to ASCII.  The
    letters a-z and the lower-case letters 224-254 but 247 map 32 below;
    181 and 255 map outside Latin-1, to characters no other Latin-1
    character maps to, so they are kept as they are. *)
Definition canonicalize (n : nat) : nat :=
  if (Nat.leb 97 n && Nat.leb n 122) || (Nat.leb 224 n && Nat.leb n 254 && negb (Nat.eqb n 247))
  then n - 32 else n.

(** CharacterSetMatcher: the character matches when some member of the
    class has the same canonical form (with [i]) or is the character
    (without [i]); a negated class inverts the answer. *)
Definition class_match (icase negated : bool) (ranges : list (nat * nat)) (c : ascii) : bool :=
  let n := nat_of_ascii c in
  xorb negated
    (if icase then existsb (fun m => in_ranges ranges m && Nat.eqb (canonicalize m) (canonicalize n)) (seq 0 256)
     else in_ranges ranges n).

Inductive accepts : regex -> list ascii -> Prop :=
  | acc_eps : accepts REps []
  | acc_class i n rs c : class_match i n rs c = true -> accepts (RClass i n rs) [c]
  | acc_cat r1 r2 s1 s2 : accepts r1 s1 -> accepts r2 s2 -> accepts (RCat r1 r2) (s1 ++ s2)
  | acc_alt_l r1 r2 s : accepts r1 s -> accepts (RAlt r1 r2) s
  | acc_alt_r r1 r2 s : accepts r2 s -> accepts (RAlt r1 r2) s
  | acc_star_nil r : accepts (RStar r) []
  | acc_star_cons r s1 s2 : accepts r s1 -> accepts (RStar r) s2 -> accepts (RStar r) (s1 ++ s2).

(** ** Pattern syntax *)

(** A literal character, [r?], [r+], [r{n}], [r{n,m}], [r{n,}]. *)
Definition RChr (n : nat) : regex := RClass false false [(n, n)].
Definition ROpt (r : regex) : regex := RAlt REps r.
Definition RPlus (r : regex) : regex := RCat r (RStar r).

Fixpoint RRep (n : nat) (r : regex) : regex :=
  match n with O => REps | S n' => RCat r (RRep n' r) end.

Definition RRange (n m : nat) (r : regex) : regex := RCat (RRep n r) (RRep (m - n) (ROpt r)).
Definition RAtLeast (n : nat) (r : regex) : regex := RCat (RRep n r) (RStar r).

(** A sequence of atoms, left to right. *)
Fixpoint RSeq (rs : list regex) : regex :=
  match rs with [] => REps | [r] => r | r :: rs' => RCat r (RSeq rs') end.

(** ** The matcher *)

Definition is_none (r : regex) : bool := match r with RNone => true | _ => false end.
Definition is_eps (r : regex) : bool := match r with REps => true | _ => false end.

Definition scat (r1 r2 : regex) : regex :=
  if is_none r1 || is_none r2 then RNone
  else if is_eps r1 then r2 else if is_eps r2 then r1 else RCat r1 r2.

Definition salt (r1 r2 : regex) : regex :=
  if is_none r1 then r2 else if is_none r2 then r1
  else if decide (r1 = r2) then r1 else RAlt r1 r2.

Fixpoint nullable (r : regex) : bool :=
  match r with
  | RNone | RClass _ _ _ => false
  | REps | RStar _ => true
  | RCat r1 r2 => nullable r1 && nullable r2
  | RAlt r1 r2 => nullable r1 || nullable r2
  end.

Fixpoint deriv (c : ascii) (r : regex) : regex :=
  match r with
  | RNone | REps => RNone
  | RClass i n rs => if class_match i n rs c then REps else RNone
  | RCat r1 r2 =>
      if nullable r1 then salt (scat (deriv c r1) r2) (deriv c r2) else scat (deriv c r1) r2
  | RAlt r1 r2 => salt (deriv c r1) (deriv c r2)
  | RStar r' => scat (deriv c r') (RStar r')
  end.

Fixpoint matchb (r : regex) (s : list ascii) : bool :=
  match s with
  | [] => nullable r
  | c :: s' => matchb (deriv c r) s'
  end.

(** [re.test(s)] for an anchored pattern. *)
Definition regex_test (r : regex) (s : string) : bool := matchb r (list_ascii_of_string s).

(** Any character: the empty negated class. *)
Definition RAny : regex := RClass false true [].

(** [re.test(s)] for a pattern without anchors: some substring matches. *)
Definition regex_search (r : regex) (s : string) : bool :=
  regex_test (RCat (RStar RAny) (RCat r (RStar RAny))) s.

(** The characters a pattern can consume: those some class of it matches. *)
Fixpoint char_possible (r : regex) (c : ascii) : bool :=
  match r with
  | RNone | REps => false
  | RClass i n rs => class_match i n rs c
  | RCat r1 r2 | RAlt r1 r2 => char_possible r1 c || char_possible r2 c
  | RStar r' => char_possible r' c
  end.

(** ** Correctness *)

#[export] Hint Constructors accepts : pscan.

Lemma accepts_none s : ~ accepts RNone s.
Proof. inversion 1. Qed.

Lemma accepts_eps s : accepts REps s <-> s = [].
Proof. split; [by inversion 1|intros ->; constructor]. Qed.

Lemma accepts_cat_inv r1 r2 s :
  accepts (RCat r1 r2) s <-> exists s1 s2, s = s1 ++ s2 /\ accepts r1 s1 /\ accepts r2 s2.
Proof. split; [inversion 1; subst; eauto|intros (s1 & s2 & -> & ? & ?); auto with pscan]. Qed.

Lemma accepts_alt_inv r1 r2 s : accepts (RAlt r1 r2) s <-> accepts r1 s \/ accepts r2 s.
Proof. split; [inversion 1; auto|intros [?|?]; auto with pscan]. Qed.

Lemma is_none_true r : is_none r = true -> r = RNone.
Proof. by destruct r. Qed.

Lemma is_eps_true r : is_eps r = true -> r = REps.
Proof. by destruct r. Qed.

Lemma scat_correct r1 r2 s : accepts (scat r1 r2) s <-> accepts (RCat r1 r2) s.
Proof.
  unfold scat. rewrite accepts_cat_inv.
  destruct (is_none r1) eqn:N1; [apply is_none_true in N1 as ->|].
  { simpl. split; [intros H; by apply accepts_none in H|].
    intros (? & ? & _ & H & _); by apply accepts_none in H. }
  destruct (is_none r2) eqn:N2; [apply is_none_true in N2 as ->|].
  { simpl. split; [intros H; by apply accepts_none in H|].
    intros (? & ? & _ & _ & H); by apply accepts_none in H. }
  simpl. destruct (is_eps r1) eqn:E1; [apply is_eps_true in E1 as ->|].
  { split; [intros H; exists [], s; rewrite accepts_eps; auto|].
    intros (s1 & s2 & -> & H1 & H2). apply accepts_eps in H1 as ->. done. }
  destruct (is_eps r2) eqn:E2; [apply is_eps_true in E2 as ->|].
  { split; [intros H; exists s, []; rewrite accepts_eps, app_nil_r; auto|].
    intros (s1 & s2 & -> & H1 & H2). apply accepts_eps in H2 as ->. by rewrite app_nil_r. }
  apply accepts_cat_inv.
Qed.

Lemma salt_correct r1 r2 s : accepts (salt r1 r2) s <-> accepts (RAlt r1 r2) s.
Proof.
  unfold salt. rewrite accepts_alt_inv. pose proof (accepts_none s).
  destruct (is_none r1) eqn:N1; [apply is_none_true in N1 as ->; tauto|].
  destruct (is_none r2) eqn:N2; [apply is_none_true in N2 as ->; tauto|].
  case_decide; [subst; tauto|]. apply accepts_alt_inv.
Qed.

Lemma nullable_correct r : nullable r = true <-> accepts r [].
Proof.
  split.
  - induction r; simpl; intros H; try discriminate; eauto with pscan.
    + apply andb_true_iff in H as [H1 H2]. change (@nil ascii) with ([] ++ @nil ascii). eauto with pscan.
    + apply orb_true_iff in H as [H|H]; eauto with pscan.
  - remember [] as s eqn:Hs. induction 1; simpl; try discriminate; auto.
    + apply app_eq_nil in Hs as [-> ->]. rewrite IHaccepts1, IHaccepts2; auto.
    + rewrite IHaccepts; auto.
    + rewrite IHaccepts; auto. by rewrite orb_true_r.
Qed.

(** Strings in [r*] starting with [c]: skip the empty iterations. *)
Lemma accepts_star_cons_inv r c s :
  accepts (RStar r) (c :: s) ->
  exists s1 s2, s = s1 ++ s2 /\ accepts r (c :: s1) /\ accepts (RStar r) s2.
Proof.
  remember (RStar r) as rs eqn:Hr. remember (c :: s) as cs eqn:Hcs.
  intros H. revert c s Hcs. induction H; intros c' s' Hcs; try discriminate; injection Hr as ->.
  destruct s1 as [|c1 s1].
  - simpl in Hcs. subst. by apply IHaccepts2.
  - injection Hcs as <- <-. eauto.
Qed.

Lemma deriv_correct c r s : accepts (deriv c r) s <-> accepts r (c :: s).
Proof.
  revert s. induction r as [| |i n rs|r1 IH1 r2 IH2|r1 IH1 r2 IH2|r IH]; intros s; simpl.
  - split; inversion 1.
  - split; inversion 1.
  - destruct (class_match i n rs c) eqn:E; rewrite ?accepts_eps; split; intros H.
    + subst. by constructor.
    + by inversion H.
    + by apply accepts_none in H.
    + inversion H; congruence.
  - rewrite accepts_cat_inv. destruct (nullable r1) eqn:N.
    + rewrite salt_correct, accepts_alt_inv, scat_correct, accepts_cat_inv, IH2.
      split.
      * intros [(s1 & s2 & -> & H1 & H2)|H]; [apply IH1 in H1; by exists (c :: s1), s2|].
        exists [], (c :: s). split; [done|]. split; [by apply nullable_correct|done].
      * intros ([|c1 s1] & s2 & Hs & H1 & H2); [simpl in Hs; subst; by right|].
        injection Hs as -> ->. left. exists s1, s2. rewrite IH1. done.
    + rewrite scat_correct, accepts_cat_inv. split.
      * intros (s1 & s2 & -> & H1 & H2). apply IH1 in H1. by exists (c :: s1), s2.
      * intros ([|c1 s1] & s2 & Hs & H1 & H2).
        -- simpl in Hs. subst. apply nullable_correct in H1. congruence.
        -- injection Hs as -> ->. exists s1, s2. rewrite IH1. done.
  - by rewrite salt_correct, !accepts_alt_inv, IH1, IH2.
  - rewrite scat_correct, accepts_cat_inv. split.
    + intros (s1 & s2 & -> & H1 & H2). apply IH in H1.
      change (c :: s1 ++ s2) with ((c :: s1) ++ s2). auto with pscan.
    + intros H. apply accepts_star_cons_inv in H as (s1 & s2 & -> & H1 & H2).
      exists s1, s2. rewrite IH. done.
Qed.

(** The derivative matcher decides the language of the pattern. *)
Theorem matchb_correct r s : matchb r s = true <-> accepts r s.
Proof.
  revert r. induction s as [|c s IH]; intros r; simpl.
  - apply nullable_correct.
  - rewrite IH. apply deriv_correct.
Qed.

(** C27: [re.test(s)] for an anchored pattern, computed by derivatives with
    simplifying constructors, is true exactly when the string is in the
    language of the pattern ([accepts], the inductive semantics of
    concatenation, alternation, star and classes, with the [i] flag's
    case folding). *)
Theorem regex_test_correct r s : regex_test r s = true <-> accepts r (list_ascii_of_string s).
Proof. apply matchb_correct. Qed.

(** Every character of an accepted string is matched by a class of the pattern. *)
Lemma accepts_chars r s c : accepts r s -> c ∈ s -> char_possible r c = true.
Proof.
  induction 1; simpl; intros Hc; rewrite ?elem_of_app in Hc; try (by apply not_elem_of_nil in Hc);
    repeat match goal with H : _ \/ _ |- _ => destruct H end; rewrite ?orb_true_iff; auto.
  apply list_elem_of_singleton in Hc as ->. done.
Qed.

Lemma accepts_any_star s : accepts (RStar RAny) s.
Proof.
  induction s as [|c s IH]; [constructor|].
  change (c :: s) with ([c] ++ s). constructor; [by constructor|done].
Qed.

(** An unanchored search for one class finds a character of the class. *)
Lemma regex_search_class i n rs s :
  regex_search (RClass i n rs) s = existsb (class_match i n rs) (list_ascii_of_string s).
Proof.
  apply Bool.eq_true_iff_eq. unfold regex_search, regex_test.
  rewrite matchb_correct, accepts_cat_inv, existsb_exists. split.
  - intros (s1 & s2 & -> & _ & H). apply accepts_cat_inv in H as (s3 & s4 & -> & H & _).
    inversion H; subst. exists c. split; [apply in_or_app; simpl; auto|done].
  - intros (c & Hin & Hc). apply in_split in Hin as (l1 & l2 & ->).
    exists l1, (c :: l2). split; [done|]. split; [apply accepts_any_star|].
    change (c :: l2) with ([c] ++ l2). constructor; [by constructor|apply accepts_any_star].
Qed.

(** ** Repetitions of a class *)

Lemma accepts_star_all r s : Forall (fun c => accepts r [c]) s -> accepts (RStar r) s.
Proof.
  induction 1 as [|c s Hc _ IH]; [constructor|].
  change (c :: s) with ([c] ++ s). by constructor.
Qed.

Lemma accepts_rep n r s : List.length s = n -> Forall (fun c => accepts r [c]) s -> accepts (RRep n r) s.
Proof.
  revert s. induction n as [|n IH]; intros [|c s] Hn Hs; try done; [constructor|].
  apply Forall_cons in Hs as [Hc Hs]. change (c :: s) with ([c] ++ s). constructor; [done|].
  apply IH; [cbn in Hn; lia|done].
Qed.

Lemma accepts_rep_opt n r s :
  (List.length s <= n)%nat -> Forall (fun c => accepts r [c]) s -> accepts (RRep n (ROpt r)) s.
Proof.
  revert s. induction n as [|n IH]; intros s Hn Hs.
  - destruct s; [constructor|cbn in Hn; lia].
  - destruct s as [|c s].
    + change (@nil ascii) with ([] ++ @nil ascii). constructor; [do 2 constructor|apply IH; [cbn; lia|done]].
    + apply Forall_cons in Hs as [Hc Hs]. change (c :: s) with ([c] ++ s).
      constructor; [by apply acc_alt_r|apply IH; [cbn in Hn; lia|done]].
Qed.

(** [r{n,m}] accepts every string of [n] to [m] characters of [r]. *)
Lemma accepts_range n m r s :
  (n <= List.length s <= m)%nat -> Forall (fun c => accepts r [c]) s -> accepts (RRange n m r) s.
Proof.
  intros Hn Hs. rewrite <- (take_drop n s). unfold RRange. constructor.
  - apply accepts_rep; [rewrite length_take; lia|by apply Forall_take].
  - apply accepts_rep_opt; [rewrite length_drop; lia|by apply Forall_drop].
Qed.

(** A character of a class without the code [n] is not [n]. *)
Lemma class_char_not rs c n :
  accepts (RClass false false rs) [c] -> in_ranges rs n = false -> Nat.eqb (nat_of_ascii c) n = false.
Proof.
  intros H Hn. apply Nat.eqb_neq. intros <-.
  inversion H as [| ? ? ? ? Hc | | | | |]; subst. unfold class_match in Hc. cbn [xorb] in Hc. congruence.
Qed.
