(* ===== verification/Forms.v ===== *)
(** * Forms: react-hook-form validation and the effects of the pages

    The Login, SignUp and Scanner pages register their inputs with
    react-hook-form ([register(name, rules)]) and submit through
    [handleSubmit(onSubmit)].  [rules] holds the rules the pages use
    ([required], [minLength], [pattern], [validate]); [validate_field] is
    the library's [validateField] on one field with the default
    [criteriaMode: 'firstError']: the rules are tried in the order
    required, minLength, pattern, validate and the first failing rule's
    message is the field's error.  [minLength] and [pattern] are skipped on
    an empty text; a checkbox is [required] when it is unchecked.
    [handle_submit] validates every field and calls [onSubmit] only when no
    field has an error.

    [ui_effect] lists the effects the pages' handlers perform, in order: a
    state setter, an awaited timer, a toast, a [localStorage] write, a
    navigation, a fetch. *)

From S2P Require Import Prelude JsCore Regex.



(** ** Field values and rules *)

Inductive field_value := FText (s : string) | FCheck (checked : bool).

#[export] Instance field_value_eq_dec : EqDecision field_value.
Proof. solve_decision. Defined.

(** A [validate] function returns [true] or a message string; [None] is
    [true] here. *)
Record rules := mkRules {
  r_required : option string;
  r_minLength : option (nat * string);
  r_pattern : option (regex * string);
  r_validate : option (field_value -> option string)
}.

Definition no_rules : rules := mkRules None None None None.

(** [isEmpty]: an empty text ([ref.value === '']). *)
Definition field_empty (v : field_value) : bool :=
  match v with FText s => String.eqb s ""%string | FCheck _ => false end.

(** The [required] test: an empty text, or an unchecked checkbox. *)
Definition required_fails (v : field_value) : bool :=
  match v with FText s => String.eqb s ""%string | FCheck b => negb b end.

Definition check_required (r : rules) (v : field_value) : option string :=
  match r_required r with
  | Some msg => if required_fails v then Some msg else None
  | None => None
  end.

Definition check_minLength (r : rules) (v : field_value) : option string :=
  match r_minLength r, v with
  | Some (n, msg), FText s =>
      if negb (field_empty v) && Nat.ltb (String.length s) n then Some msg else None
  | _, _ => None
  end.

Definition check_pattern (r : rules) (v : field_value) : option string :=
  match r_pattern r, v with
  | Some (re, msg), FText s =>
      if negb (field_empty v) && negb (regex_test re s) then Some msg else None
  | _, _ => None
  end.

Definition check_validate (r : rules) (v : field_value) : option string :=
  match r_validate r with Some f => f v | None => None end.

(** [validateField] with [criteriaMode: 'firstError']. *)
Definition validate_field (r : rules) (v : field_value) : option string :=
  match check_required r v with
  | Some m => Some m
  | None =>
      match check_minLength r v with
      | Some m => Some m
      | None =>
          match check_pattern r v with
          | Some m => Some m
          | None => check_validate r v
          end
      end
  end.

(** The [errors] object: the fields with an error and their messages, in
    registration order. *)
Fixpoint form_errors (fields : list (string * rules * field_value)) : list (string * string) :=
  match fields with
  | [] => []
  | (name, r, v) :: fs =>
      match validate_field r v with
      | Some m => (name, m) :: form_errors fs
      | None => form_errors fs
      end
  end.

(** [errors[name]?.message] *)
Fixpoint error_of (name : string) (errs : list (string * string)) : option string :=
  match errs with
  | [] => None
  | (n, m) :: errs' => if String.eqb n name then Some m else error_of name errs'
  end.

(** [handleSubmit(onSubmit)]: the handler runs when no field has an error. *)
Inductive submit_outcome (A : Type) := Rejected (errors : list (string * string)) | Submitted (a : A).
Arguments Rejected {A} errors.
Arguments Submitted {A} a.

Definition handle_submit {A} (fields : list (string * rules * field_value)) (onSubmit : A)
  : submit_outcome A :=
  match form_errors fields with
  | [] => Submitted onSubmit
  | errs => Rejected errs
  end.

(** ** Effects of the handlers *)

Inductive ui_effect :=
  | SetLoading (b : bool)
  | Sleep (ms : Z)
  | ToastSuccess (msg : string)
  | ToastError (msg : string)
  | StoreItem (key value : string)
  | Navigate (path : string)
  | SetProgress (p : Z)
  | Fetch (path : string).

#[export] Instance ui_effect_eq_dec : EqDecision ui_effect.
Proof. solve_decision. Defined.

(** The [localStorage] writes of a trace. *)
Definition stored_items (tr : list ui_effect) : list (string * string) :=
  omap (fun e => match e with StoreItem k v => Some (k, v) | _ => None end) tr.

(** ** The submission machine of an [async onSubmit] page

    Login and SignUp share one shape: [onSubmit] sets [isLoading], awaits
    a timer, performs its effects and, in [finally], clears [isLoading];
    the submit button is [disabled={isLoading}], which also bars implicit
    submission (Enter in a field).  [submit_step] splits [onSubmit] at its
    [await]: [EvSubmit] runs [handleSubmit] and the code before the timer,
    [EvTimer] the code after it.  [localStorage] is an association list,
    latest write first. *)

Record submit_state {F : Type} := mkSubmit {
  ss_loading : bool;
  ss_errors : list (string * string);
  ss_pending : option F;
  ss_storage : list (string * string);
  ss_route : string;
  ss_toasts : list ui_effect
}.
Arguments submit_state : clear implicits.

Inductive submit_event {F : Type} := EvSubmit (f : F) | EvTimer.
Arguments submit_event : clear implicits.

Section SubmitMachine.
Context {F : Type}.
Context (fields : F -> list (string * rules * field_value)).
Context (after : F -> list ui_effect).

Definition apply_effect (st : submit_state F) (e : ui_effect) : submit_state F :=
  match e with
  | SetLoading b => mkSubmit F b (ss_errors st) (ss_pending st) (ss_storage st) (ss_route st) (ss_toasts st)
  | StoreItem k v =>
      mkSubmit F (ss_loading st) (ss_errors st) (ss_pending st) ((k, v) :: ss_storage st) (ss_route st) (ss_toasts st)
  | Navigate p => mkSubmit F (ss_loading st) (ss_errors st) (ss_pending st) (ss_storage st) p (ss_toasts st)
  | ToastSuccess _ | ToastError _ =>
      mkSubmit F (ss_loading st) (ss_errors st) (ss_pending st) (ss_storage st) (ss_route st) (ss_toasts st ++ [e])
  | _ => st
  end.

Definition apply_effects (st : submit_state F) (es : list ui_effect) : submit_state F :=
  fold_left apply_effect es st.

Definition submit_step (st : submit_state F) (ev : submit_event F) : submit_state F :=
  match ev with
  | EvSubmit f =>
      if ss_loading st then st
      else match handle_submit (fields f) f with
           | Rejected errs =>
               mkSubmit F (ss_loading st) errs (ss_pending st) (ss_storage st) (ss_route st) (ss_toasts st)
           | Submitted f' =>
               mkSubmit F true [] (Some f') (ss_storage st) (ss_route st) (ss_toasts st)
           end
  | EvTimer =>
      match ss_pending st with
      | Some f =>
          apply_effects (mkSubmit F (ss_loading st) (ss_errors st) None (ss_storage st) (ss_route st) (ss_toasts st))
            (after f ++ [SetLoading false])
      | None => st
      end
  end.

(** The states a page reaches from an idle state by a sequence of events. *)
Inductive submit_reachable (st0 : submit_state F) : submit_state F -> Prop :=
  | sr_init : submit_reachable st0 st0
  | sr_step st ev : submit_reachable st0 st -> submit_reachable st0 (submit_step st ev).

Definition submit_idle (st : submit_state F) : Prop := ss_loading st = false /\ ss_pending st = None.

End SubmitMachine.

(** ** Lemmas *)

Lemma validate_field_none r v :
  validate_field r v = None <->
  check_required r v = None /\ check_minLength r v = None /\ check_pattern r v = None /\
  check_validate r v = None.
Proof.
  unfold validate_field.
  destruct (check_required r v), (check_minLength r v), (check_pattern r v); naive_solver.
Qed.

Lemma form_errors_nil fields :
  form_errors fields = [] <-> Forall (fun '(_, r, v) => validate_field r v = None) fields.
Proof.
  induction fields as [|[[n r] v] fs IH]; simpl; [split; auto|].
  rewrite Forall_cons, <- IH. destruct (validate_field r v); naive_solver.
Qed.

Lemma handle_submit_submitted {A} fields (a b : A) :
  handle_submit fields a = Submitted b <-> form_errors fields = [] /\ b = a.
Proof. unfold handle_submit. destruct (form_errors fields); naive_solver. Qed.

Lemma stored_items_app tr1 tr2 : stored_items (tr1 ++ tr2) = stored_items tr1 ++ stored_items tr2.
Proof. apply omap_app. Qed.

#[export] Hint Rewrite stored_items_app : pscan_rw.

Section SubmitLemmas.
Context {F : Type}.
Context (fields : F -> list (string * rules * field_value)).
Context (after : F -> list ui_effect).

Lemma apply_effects_app (st : submit_state F) es1 es2 :
  apply_effects st (es1 ++ es2) = apply_effects (apply_effects st es1) es2.
Proof. apply fold_left_app. Qed.

Lemma apply_effects_pending (st : submit_state F) es : ss_pending (apply_effects st es) = ss_pending st.
Proof.
  revert st. induction es as [|e es IH]; intros st; [done|].
  unfold apply_effects in *. simpl. rewrite IH. by destruct e.
Qed.

Lemma apply_effects_storage (st : submit_state F) es :
  ss_storage (apply_effects st es) = rev (stored_items es) ++ ss_storage st.
Proof.
  revert st. induction es as [|e es IH]; intros st; [done|].
  unfold apply_effects in *. simpl. rewrite IH. destruct e; simpl; rewrite ?app_nil_r; try done.
  by rewrite <- app_assoc.
Qed.

Lemma apply_effects_loading_last (st : submit_state F) es :
  ss_loading (apply_effects st (es ++ [SetLoading false])) = false.
Proof. by rewrite apply_effects_app. Qed.

(** The machine's invariant: [isLoading] is set exactly while a submission
    awaits its timer, a pending submission passed validation, and every
    [localStorage] entry is the initial storage's or was written by the
    handler of a submission that passed validation. *)
Definition submit_inv (st0 st : submit_state F) : Prop :=
  (ss_loading st = true <-> ss_pending st <> None) /\
  (forall f, ss_pending st = Some f -> form_errors (fields f) = []) /\
  (forall kv, kv ∈ ss_storage st -> kv ∈ ss_storage st0 \/
     exists f, form_errors (fields f) = [] /\ kv ∈ stored_items (after f)).

Lemma submit_inv_step st0 st ev :
  submit_inv st0 st -> submit_inv st0 (submit_step fields after st ev).
Proof.
  intros Hi. pose proof Hi as (HL & HP & HS). destruct ev as [f|]; simpl.
  - destruct (ss_loading st) eqn:E; [done|].
    unfold handle_submit. destruct (form_errors (fields f)) eqn:Ef; simpl.
    + split; [|split]; simpl; [naive_solver|by intros ? [= <-]|done].
    + split; [|split]; simpl; [exact HL|exact HP|exact HS].
  - destruct (ss_pending st) as [f|] eqn:Ep; [|done].
    split; [|split].
    + rewrite apply_effects_loading_last, apply_effects_pending. simpl. naive_solver.
    + by rewrite apply_effects_pending.
    + intros kv. rewrite apply_effects_storage, stored_items_app. simpl.
      rewrite app_nil_r, elem_of_app, (list_elem_of_In (rev _)), <- in_rev, <- list_elem_of_In.
      intros [Hkv|Hkv]; [|by apply HS].
      right. exists f. split; [by apply HP|done].
Qed.

Lemma submit_inv_reachable st0 st :
  submit_idle st0 -> submit_reachable fields after st0 st -> submit_inv st0 st.
Proof.
  intros [HL HP] Hr. induction Hr as [|st ev _ IH]; [|by apply submit_inv_step].
  split; [|split]; [rewrite HL, HP; naive_solver|by rewrite HP|auto].
Qed.

(** A valid submission from an idle page, then its timer: the effects of
    [onSubmit] after the loading flag is set, then the flag cleared. *)
Lemma submit_run (st : submit_state F) f :
  submit_idle st -> form_errors (fields f) = [] ->
  submit_step fields after (submit_step fields after st (EvSubmit f)) EvTimer =
  apply_effects (mkSubmit F true [] None (ss_storage st) (ss_route st) (ss_toasts st))
    (after f ++ [SetLoading false]).
Proof. intros [HL _] Hf. simpl. rewrite HL. unfold handle_submit. by rewrite Hf. Qed.

Lemma submit_clicks_ignored (st : submit_state F) fs :
  ss_loading st = true -> fold_left (fun s f => submit_step fields after s (EvSubmit f)) fs st = st.
Proof. intros HL. induction fs as [|f fs IH]; [done|]. cbn [fold_left submit_step]. by rewrite HL. Qed.

(** C15: the submit button always comes back: in every state reachable
    from an idle page, while a submission is pending any number of
    further clicks (or Enter presses) change nothing, and the next timer
    returns the page to idle ([isLoading] false, nothing pending), so the
    form can be submitted again. *)
Theorem submit_timer_idle st0 st :
  submit_idle st0 -> submit_reachable fields after st0 st ->
  (ss_pending st <> None ->
   forall fs, fold_left (fun s f => submit_step fields after s (EvSubmit f)) fs st = st) /\
  submit_idle (submit_step fields after st EvTimer).
Proof.
  intros H0 Hr. destruct (submit_inv_reachable st0 st H0 Hr) as (HL & _ & _). split.
  - intros Hp fs. apply submit_clicks_ignored. by apply HL.
  - unfold submit_idle. cbn [submit_step]. destruct (ss_pending st) as [f|] eqn:Ep.
    + by rewrite apply_effects_loading_last, apply_effects_pending.
    + rewrite Ep. split; [|done]. destruct (ss_loading st); [|done]. by destruct (proj1 HL eq_refl).
Qed.

End SubmitLemmas.

Lemma submit_timer_idle_witness :
  let st0 := mkSubmit unit false [] None [] "/" [] in
  let st1 := submit_step (fun _ => []) (fun _ => [Navigate "/dashboard"]) st0 (EvSubmit tt) in
  submit_idle st0 /\ submit_reachable (fun _ => []) (fun _ => [Navigate "/dashboard"]) st0 st1 /\
  submit_idle (submit_step (fun _ => []) (fun _ => [Navigate "/dashboard"]) st1 EvTimer).
Proof.
  cbn zeta. assert (H0 : submit_idle (mkSubmit unit false [] None [] "/" [])) by (split; reflexivity).
  assert (Hr : submit_reachable (fun _ => []) (fun _ => [Navigate "/dashboard"]) (mkSubmit unit false [] None [] "/" [])
                 (submit_step (fun _ => []) (fun _ => [Navigate "/dashboard"]) (mkSubmit unit false [] None [] "/" [])
                    (EvSubmit tt))) by (apply sr_step, sr_init).
  split; [exact H0|]. split; [exact Hr|].
  exact (proj2 (submit_timer_idle (fun _ => []) (fun _ => [Navigate "/dashboard"]) _ _ H0 Hr)).
Defined.

(** The error shown under a field is that field's first failing rule, when
    no field before it has the same name. *)
Lemma error_of_form_errors pre n r v post :
  Forall (fun '(n', _, _) => n' <> n) pre ->
  error_of n (form_errors (pre ++ (n, r, v) :: post)) =
  match validate_field r v with Some m => Some m | None => error_of n (form_errors post) end.
Proof.
  induction pre as [|[[n' r'] v'] pre IH]; intros Hpre; simpl.
  - destruct (validate_field r v); simpl; [by rewrite String.eqb_refl|done].
  - apply Forall_cons in Hpre as [Hn Hpre].
    destruct (validate_field r' v'); simpl; [|by apply IH].
    apply String.eqb_neq in Hn. rewrite Hn. by apply IH.
Qed.

Lemma handle_submit_rejected {A} fields (a : A) n m :
  error_of n (form_errors fields) = Some m ->
  exists errs, handle_submit fields a = Rejected errs /\ error_of n errs = Some m.
Proof. unfold handle_submit. destruct (form_errors fields); [done|]. eauto. Qed.

(** A rejected submission changes nothing but the displayed errors. *)
Lemma submit_step_rejected {F} fields after (st : submit_state F) f errs :
  ss_loading st = false -> handle_submit (fields f) f = Rejected errs ->
  submit_step fields after st (EvSubmit f) =
  mkSubmit F false errs (ss_pending st) (ss_storage st) (ss_route st) (ss_toasts st).
Proof. intros HL Hr. simpl. by rewrite HL, Hr. Qed.
