(* ===== verification/Auth.v ===== *)
(** * Auth: the Login and SignUp pages ([src/src/pages/Login.tsx], [SignUp.tsx])

    Both pages are react-hook-form forms ([Forms.validate_field]) whose
    [onSubmit] sets [isLoading], awaits a timer (2000 ms, 2500 ms), shows
    a toast, writes an [auth_token] to [localStorage] and navigates to
    [/dashboard]; Login does so only for the demo credentials.  Module
    [Login] and Module [SignUp] hold each page's form, rules, handler
    ([onSubmit], split at its [await] into [Forms.submit_step]) and view;
    SignUp also has [passwordStrength], the strength meter. *)

From S2P Require Import Prelude JsCore Regex Forms.

Local Open Scope string_scope.

(** [/^[A-Z0-9._%+-]+@[A-Z0-9.-]+\.[A-Z]{2,}$/i], the email pattern of both pages. *)
Definition email_local_class : regex :=
  RClass true false [(65, 90); (48, 57); (46, 46); (95, 95); (37, 37); (43, 43); (45, 45)].
Definition email_domain_class : regex := RClass true false [(65, 90); (48, 57); (46, 46); (45, 45)].
Definition email_alpha_class : regex := RClass true false [(65, 90)].

Definition email_pattern : regex :=
  RSeq [RPlus email_local_class; RChr 64; RPlus email_domain_class; RChr 46; RAtLeast 2 email_alpha_class].

(** The toggle of a password field: input type and icon. *)
Definition password_input_type (show : bool) : string := if show then "text" else "password".
Definition eye_icon (show : bool) : string := if show then "EyeOff" else "Eye".

Module Login.

Record LoginForm := mkLoginForm { email : string; password : string; rememberMe : bool }.

Definition email_rules : rules :=
  mkRules (Some "Email is required") None (Some (email_pattern, "Invalid email address")) None.

Definition password_rules : rules :=
  mkRules (Some "Password is required") (Some (6%nat, "Password must be at least 6 characters")) None None.

Definition login_fields (d : LoginForm) : list (string * rules * field_value) :=
  [("email", email_rules, FText (email d)); ("password", password_rules, FText (password d));
   ("rememberMe", no_rules, FCheck (rememberMe d))].

Definition demo_email : string := "demo@pandascanpro.com".
Definition demo_password : string := "demo123".

(** The body of [onSubmit] after [await]: the mock authentication. *)
Definition onSubmit_after (d : LoginForm) : list ui_effect :=
  if String.eqb (email d) demo_email && String.eqb (password d) demo_password then
    [ToastSuccess "Welcome back to PandaScanPro!"; StoreItem "auth_token" "demo_token_123";
     Navigate "/dashboard"]
  else [ToastError "Invalid credentials. Try demo@pandascanpro.com / demo123"].

(** [onSubmit] in full: [setIsLoading(true)], the 2000 ms timer, the body,
    and [setIsLoading(false)] in [finally]. *)
Definition onSubmit (d : LoginForm) : list ui_effect :=
  [SetLoading true; Sleep 2000] ++ onSubmit_after d ++ [SetLoading false].

Record LoginPage := mkLoginPage { showPassword : bool; sub : submit_state LoginForm }.

Inductive login_event := LTogglePassword | LSubmit (d : LoginForm) | LTimer.

Definition login_step (p : LoginPage) (ev : login_event) : LoginPage :=
  match ev with
  | LTogglePassword => mkLoginPage (negb (showPassword p)) (sub p)
  | LSubmit d => mkLoginPage (showPassword p) (submit_step login_fields onSubmit_after (sub p) (EvSubmit d))
  | LTimer => mkLoginPage (showPassword p) (submit_step login_fields onSubmit_after (sub p) EvTimer)
  end.

Record LoginView := mkLoginView {
  v_password_type : string;
  v_eye_icon : string;
  v_submit_disabled : bool;
  v_button_label : option string;
  v_email_error : option string;
  v_password_error : option string
}.

(** The parts of the JSX that depend on state; the spinner shows while
    loading, "Sign In" otherwise. *)
Definition render (p : LoginPage) : LoginView :=
  let st := sub p in
  mkLoginView (password_input_type (showPassword p)) (eye_icon (showPassword p)) (ss_loading st)
    (if ss_loading st then None else Some "Sign In")
    (error_of "email" (ss_errors st)) (error_of "password" (ss_errors st)).

Inductive login_reachable (p0 : LoginPage) : LoginPage -> Prop :=
  | lr_init : login_reachable p0 p0
  | lr_step p ev : login_reachable p0 p -> login_reachable p0 (login_step p ev).

End Login.

Module SignUp.

Record SignUpForm := mkSignUpForm {
  firstName : string; lastName : string; email : string; password : string;
  confirmPassword : string; agreeToTerms : bool
}.

(** [validate: value => value === password || 'Passwords do not match'],
    with [password = watch('password')]. *)
Definition confirm_rules (password : string) : rules :=
  mkRules (Some "Please confirm your password") None None
    (Some (fun v => match v with
                    | FText s => if String.eqb s password then None else Some "Passwords do not match"
                    | FCheck _ => Some "Passwords do not match"
                    end)).

Definition signup_fields (d : SignUpForm) : list (string * rules * field_value) :=
  [("firstName", mkRules (Some "First name is required") None None None, FText (firstName d));
   ("lastName", mkRules (Some "Last name is required") None None None, FText (lastName d));
   ("email", Login.email_rules, FText (email d));
   ("password", mkRules (Some "Password is required") (Some (8%nat, "Password must be at least 8 characters")) None None,
      FText (password d));
   ("confirmPassword", confirm_rules (password d), FText (confirmPassword d));
   ("agreeToTerms", mkRules (Some "You must agree to the terms") None None None, FCheck (agreeToTerms d))].

Definition onSubmit_after (d : SignUpForm) : list ui_effect :=
  [ToastSuccess "Account created successfully! Welcome to PandaScanPro!";
   StoreItem "auth_token" "new_user_token_123"; Navigate "/dashboard"].

Definition onSubmit (d : SignUpForm) : list ui_effect :=
  [SetLoading true; Sleep 2500] ++ onSubmit_after d ++ [SetLoading false].

(** ** [passwordStrength] *)

Record level := mkLevel { strength : nat; label : string; color : string }.

Definition levels : list level :=
  [mkLevel 0 "" ""; mkLevel 1 "Very Weak" "bg-red-500"; mkLevel 2 "Weak" "bg-orange-500";
   mkLevel 3 "Fair" "bg-yellow-500"; mkLevel 4 "Good" "bg-blue-500"; mkLevel 5 "Strong" "bg-green-500"].

Definition b2n (b : bool) : nat := if b then 1 else 0.

(** The five tests, each adding one. *)
Definition strength_count (p : string) : nat :=
  b2n (Nat.leb 8 (String.length p)) +
  b2n (regex_search (RClass false false [(65, 90)]) p) +
  b2n (regex_search (RClass false false [(97, 122)]) p) +
  b2n (regex_search (RClass false false [(48, 57)]) p) +
  b2n (regex_search (RClass false true [(65, 90); (97, 122); (48, 57)]) p).

(** [levels[strength]]; [None] would be [undefined]. *)
Definition passwordStrength (p : string) : option level :=
  if String.eqb p "" then Some (mkLevel 0 "" "") else nth_error levels (strength_count p).

(** The strength bar: shown when [password] is truthy, [(strength / 5) * 100]
    per cent wide (exact in binary64 for strengths 0 to 5). *)
Definition strength_bar (password : string) : option (Z * string * string) :=
  if String.eqb password "" then None
  else match passwordStrength password with
       | Some l => Some (20 * Z.of_nat (strength l), color l, label l)%Z
       | None => None
       end.

Record SignUpPage := mkSignUpPage {
  showPassword : bool; showConfirmPassword : bool; sub : submit_state SignUpForm
}.

Inductive signup_event :=
  | STogglePassword | SToggleConfirm | SSubmit (d : SignUpForm) | STimer.

Definition signup_step (p : SignUpPage) (ev : signup_event) : SignUpPage :=
  match ev with
  | STogglePassword => mkSignUpPage (negb (showPassword p)) (showConfirmPassword p) (sub p)
  | SToggleConfirm => mkSignUpPage (showPassword p) (negb (showConfirmPassword p)) (sub p)
  | SSubmit d =>
      mkSignUpPage (showPassword p) (showConfirmPassword p)
        (submit_step signup_fields onSubmit_after (sub p) (EvSubmit d))
  | STimer =>
      mkSignUpPage (showPassword p) (showConfirmPassword p)
        (submit_step signup_fields onSubmit_after (sub p) EvTimer)
  end.

Inductive signup_reachable (p0 : SignUpPage) : SignUpPage -> Prop :=
  | sgr_init : signup_reachable p0 p0
  | sgr_step p ev : signup_reachable p0 p -> signup_reachable p0 (signup_step p ev).

End SignUp.

(** ** Sample pages and forms *)

Definition login_idle : Login.LoginPage :=
  Login.mkLoginPage false (mkSubmit Login.LoginForm false [] None [] "/login" []).

Definition signup_idle : SignUp.SignUpPage :=
  SignUp.mkSignUpPage false false (mkSubmit SignUp.SignUpForm false [] None [] "/signup" []).

Definition signup_sample : SignUp.SignUpForm :=
  SignUp.mkSignUpForm "Ada" "Lovelace" "ada@example.com" "Engine#1843" "Engine#1843" true.

(** ** The email pattern *)

Lemma email_rest_no_at :
  char_possible (RCat (RPlus email_domain_class) (RCat (RChr 46) (RAtLeast 2 email_alpha_class))) "@"%char = false.
Proof. vm_compute. reflexivity. Qed.

Lemma email_local_no_at : char_possible (RPlus email_local_class) "@"%char = false.
Proof. vm_compute. reflexivity. Qed.

Lemma chr_accepts n s : accepts (RChr n) s -> exists c, s = [c] /\ nat_of_ascii c = n.
Proof.
  inversion 1 as [|i neg rs c Hc| | | | |]; subst. exists c. split; [done|].
  unfold class_match, in_ranges in Hc. simpl in Hc. rewrite orb_false_r in Hc.
  apply andb_true_iff in Hc as [H1 H2]. apply Nat.leb_le in H1, H2. lia.
Qed.

Lemma not_possible_not_in r s c : accepts r s -> char_possible r c = false -> c ∉ s.
Proof. intros Ha Hc Hin. pose proof (accepts_chars r s c Ha Hin). congruence. Qed.

(** An address the email pattern accepts has exactly one [@]: it is a
    local part without [@], then [@], then a domain without [@]. *)
Theorem email_pattern_one_at s :
  regex_test email_pattern s = true ->
  exists local domain, list_ascii_of_string s = (local ++ "@"%char :: domain)%list /\
    ("@"%char ∉ local) /\ ("@"%char ∉ domain).
Proof.
  unfold regex_test. rewrite matchb_correct. cbn [email_pattern RSeq].
  rewrite accepts_cat_inv. intros (s1 & s2 & Hs & H1 & H2).
  apply accepts_cat_inv in H2 as (s3 & s4 & -> & H3 & H4).
  apply chr_accepts in H3 as (c & -> & Hc).
  assert (c = "@"%char) as ->.
  { rewrite <- (ascii_nat_embedding c), Hc. reflexivity. }
  exists s1, s4. split; [exact Hs|].
  split; [exact (not_possible_not_in _ _ _ H1 email_local_no_at)|].
  exact (not_possible_not_in _ _ _ H4 email_rest_no_at).
Qed.

Lemma email_pattern_one_at_witness :
  regex_test email_pattern "demo@pandascanpro.com" = true /\
  exists local domain, list_ascii_of_string "demo@pandascanpro.com" = (local ++ "@"%char :: domain)%list /\
    ("@"%char ∉ local) /\ ("@"%char ∉ domain).
Proof.
  split; [vm_compute; reflexivity|].
  apply email_pattern_one_at. vm_compute. reflexivity.
Defined.

(** ** Login *)

Lemma login_demo_valid r :
  form_errors (Login.login_fields (Login.mkLoginForm Login.demo_email Login.demo_password r)) = [].
Proof. destruct r; vm_compute; reflexivity. Qed.

Lemma login_reachable_inv p0 p :
  submit_idle (Login.sub p0) -> Login.login_reachable p0 p ->
  submit_inv Login.login_fields Login.onSubmit_after (Login.sub p0) (Login.sub p).
Proof.
  intros Hidle Hr. induction Hr as [|p ev _ IH].
  - by apply submit_inv_reachable; [|constructor].
  - destruct ev; cbn [Login.login_step Login.sub]; [done|apply submit_inv_step; done..].
Qed.

Lemma login_after_storage d kv :
  kv ∈ stored_items (Login.onSubmit_after d) -> kv = ("auth_token", "demo_token_123").
Proof.
  unfold Login.onSubmit_after. case_bool; simpl; [|by intros ?%not_elem_of_nil].
  by intros ->%list_elem_of_singleton.
Qed.

(** C14: signing in with the demo credentials from an idle page: after the
    2000 ms timer the token [demo_token_123] is stored under [auth_token],
    the page navigates to [/dashboard], the success toast is shown and the
    button is enabled again. *)
Theorem login_demo_signs_in p r :
  submit_idle (Login.sub p) ->
  let p' := Login.login_step (Login.login_step p
              (Login.LSubmit (Login.mkLoginForm Login.demo_email Login.demo_password r))) Login.LTimer in
  ss_storage (Login.sub p') = ("auth_token", "demo_token_123") :: ss_storage (Login.sub p) /\
  ss_route (Login.sub p') = "/dashboard" /\ ss_loading (Login.sub p') = false /\
  ss_toasts (Login.sub p') = (ss_toasts (Login.sub p) ++ [ToastSuccess "Welcome back to PandaScanPro!"])%list.
Proof.
  intros Hidle. cbn [Login.login_step Login.sub].
  rewrite submit_run; [|done|apply login_demo_valid]. repeat split.
Qed.

(** Any other submission, valid or not, leaves [localStorage] and the
    route as they were once its timer (if any) has fired, and the button
    is enabled again. *)
Theorem login_other_rejected p d :
  submit_idle (Login.sub p) ->
  (Login.email d, Login.password d) <> (Login.demo_email, Login.demo_password) ->
  let p' := Login.login_step (Login.login_step p (Login.LSubmit d)) Login.LTimer in
  ss_storage (Login.sub p') = ss_storage (Login.sub p) /\ ss_route (Login.sub p') = ss_route (Login.sub p) /\
  ss_loading (Login.sub p') = false.
Proof.
  intros [HL HP] Hd. cbn [Login.login_step Login.sub].
  destruct (handle_submit (Login.login_fields d) d) as [errs|d'] eqn:Hs.
  - rewrite (submit_step_rejected _ _ _ _ _ HL Hs). simpl. by rewrite HP.
  - apply handle_submit_submitted in Hs as [Hv ->].
    rewrite submit_run; [|done|done]. unfold Login.onSubmit_after.
    replace (String.eqb (Login.email d) Login.demo_email && String.eqb (Login.password d) Login.demo_password)
      with false; [done|].
    symmetry. apply not_true_iff_false. intros E. bool_to_prop. apply Hd. by f_equal.
Qed.

(** C13: on every page state reachable from an idle page, each
    [localStorage] entry was there initially or is
    [auth_token = demo_token_123]: no other token is ever written. *)
Theorem login_storage_safety p0 p kv :
  submit_idle (Login.sub p0) -> Login.login_reachable p0 p ->
  kv ∈ ss_storage (Login.sub p) -> kv ∈ ss_storage (Login.sub p0) \/ kv = ("auth_token", "demo_token_123").
Proof.
  intros Hidle Hr Hkv. destruct (login_reachable_inv p0 p Hidle Hr) as (_ & _ & HS).
  destruct (HS kv Hkv) as [?|(d & _ & Hd)]; [by left|right]. by apply login_after_storage in Hd.
Qed.

(** On every reachable page state the submit button is disabled
    exactly while a submission awaits its timer, and a pending submission
    passed validation. *)
Theorem login_disabled_iff_pending p0 p :
  submit_idle (Login.sub p0) -> Login.login_reachable p0 p ->
  (Login.v_submit_disabled (Login.render p) = true <-> ss_pending (Login.sub p) <> None) /\
  (forall d, ss_pending (Login.sub p) = Some d -> form_errors (Login.login_fields d) = []).
Proof. intros Hidle Hr. destruct (login_reachable_inv p0 p Hidle Hr) as (HL & HP & _). done. Qed.

(** ** SignUp *)

Lemma b2n_le b : (SignUp.b2n b <= 1)%nat.
Proof. destruct b; simpl; lia. Qed.

Lemma b2n_orb b1 b2 : (SignUp.b2n b1 <= SignUp.b2n (b1 || b2))%nat.
Proof. destruct b1, b2; simpl; lia. Qed.

Lemma b2n_leb_mono k a b : (SignUp.b2n (Nat.leb k a) <= SignUp.b2n (Nat.leb k (a + b)))%nat.
Proof.
  destruct (Nat.leb k a) eqn:E; simpl; [|lia]. apply Nat.leb_le in E.
  replace (Nat.leb k (a + b)) with true; [simpl; lia|]. symmetry. apply Nat.leb_le. lia.
Qed.

Lemma strength_count_le p : (SignUp.strength_count p <= 5)%nat.
Proof.
  unfold SignUp.strength_count.
  repeat match goal with |- context [SignUp.b2n ?b] => generalize (b2n_le b); generalize (SignUp.b2n b) end.
  lia.
Qed.

(** Every character is an upper-case letter, a lower-case letter, a digit
    or something else: one of the last four tests holds. *)
Lemma char_classes_cover c :
  class_match false false [(65, 90)] c || class_match false false [(97, 122)] c ||
  class_match false false [(48, 57)] c || class_match false true [(65, 90); (97, 122); (48, 57)] c = true.
Proof.
  unfold class_match, in_ranges. cbn [existsb xorb]. set (n := nat_of_ascii c).
  destruct (Nat.leb 65 n && Nat.leb n 90), (Nat.leb 97 n && Nat.leb n 122), (Nat.leb 48 n && Nat.leb n 57); done.
Qed.

Lemma strength_count_pos p : p <> ""%string -> (1 <= SignUp.strength_count p)%nat.
Proof.
  destruct p as [|c p]; [done|]. intros _. unfold SignUp.strength_count. rewrite !regex_search_class.
  cbn [list_ascii_of_string existsb]. pose proof (char_classes_cover c).
  destruct (class_match false false [(65, 90)] c), (class_match false false [(97, 122)] c),
    (class_match false false [(48, 57)] c), (class_match false true [(65, 90); (97, 122); (48, 57)] c);
    cbn [orb SignUp.b2n]; try lia; discriminate.
Qed.

Lemma strength_count_app p q : (SignUp.strength_count p <= SignUp.strength_count (p ++ q))%nat.
Proof.
  unfold SignUp.strength_count. rewrite !regex_search_class, list_ascii_of_string_app, string_length_app, !existsb_app.
  repeat apply Nat.add_le_mono; [apply b2n_leb_mono|apply b2n_orb..].
Qed.

Lemma nth_levels n : (n <= 5)%nat -> exists l, nth_error SignUp.levels n = Some l /\ SignUp.strength l = n.
Proof. intros Hn. do 6 (destruct n as [|n]; [eexists; split; reflexivity|]). lia. Qed.

Lemma passwordStrength_count p :
  p <> ""%string -> SignUp.passwordStrength p = nth_error SignUp.levels (SignUp.strength_count p).
Proof. intros Hp. unfold SignUp.passwordStrength. by apply String.eqb_neq in Hp as ->. Qed.

(** [passwordStrength] always finds its level ([levels[strength]] is
    never [undefined]): a strength from 0 to 5, at least 1 for a non-empty
    password. *)
Theorem passwordStrength_total p :
  exists l, SignUp.passwordStrength p = Some l /\ (SignUp.strength l <= 5)%nat /\
    (p <> ""%string -> (1 <= SignUp.strength l)%nat).
Proof.
  destruct (String.eqb p "") eqn:E.
  - apply String.eqb_eq in E as ->. eexists. split; [reflexivity|]. simpl. split; [lia|done].
  - apply String.eqb_neq in E. rewrite passwordStrength_count by done.
    destruct (nth_levels (SignUp.strength_count p) (strength_count_le p)) as (l & -> & Hl).
    exists l. rewrite Hl. split; [done|]. split; [apply strength_count_le|]. intros. by apply strength_count_pos.
Qed.

(** Typing more characters never lowers the strength of a non-empty password. *)
Theorem passwordStrength_mono p q :
  p <> ""%string ->
  exists l l', SignUp.passwordStrength p = Some l /\ SignUp.passwordStrength (p ++ q) = Some l' /\
    (SignUp.strength l <= SignUp.strength l')%nat.
Proof.
  intros Hp. assert (Hpq : (p ++ q)%string <> ""%string) by (destruct p; [done|discriminate]).
  rewrite !passwordStrength_count by done.
  destruct (nth_levels _ (strength_count_le p)) as (l & -> & Hl).
  destruct (nth_levels _ (strength_count_le (p ++ q))) as (l' & -> & Hl').
  exists l, l'. rewrite Hl, Hl'. split; [done|]. split; [done|]. apply strength_count_app.
Qed.

Lemma signup_fields_split d :
  SignUp.signup_fields d =
  (take 4 (SignUp.signup_fields d) ++
   ("confirmPassword", SignUp.confirm_rules (SignUp.password d), FText (SignUp.confirmPassword d)) ::
   [("agreeToTerms", mkRules (Some "You must agree to the terms") None None None, FCheck (SignUp.agreeToTerms d))])%list.
Proof. reflexivity. Qed.

Lemma signup_fields_split_terms d :
  SignUp.signup_fields d =
  (take 5 (SignUp.signup_fields d) ++
   [("agreeToTerms", mkRules (Some "You must agree to the terms") None None None, FCheck (SignUp.agreeToTerms d))])%list.
Proof. reflexivity. Qed.

(** A non-empty confirmation that differs from the password is
    rejected with "Passwords do not match"; [onSubmit] does not run. *)
Theorem signup_mismatch_rejected d :
  SignUp.confirmPassword d <> ""%string -> SignUp.confirmPassword d <> SignUp.password d ->
  exists errs, handle_submit (SignUp.signup_fields d) d = Rejected errs /\
    error_of "confirmPassword" errs = Some "Passwords do not match".
Proof.
  intros Hne Hmis. apply handle_submit_rejected.
  rewrite signup_fields_split, error_of_form_errors by (repeat constructor; discriminate).
  unfold validate_field, check_required, check_minLength, check_pattern, check_validate. cbn [SignUp.confirm_rules r_required r_minLength r_pattern r_validate required_fails].
  apply String.eqb_neq in Hne, Hmis. by rewrite Hne, Hmis.
Qed.

(** An unchecked terms box is rejected with "You must agree to the terms". *)
Theorem signup_terms_required d :
  SignUp.agreeToTerms d = false ->
  exists errs, handle_submit (SignUp.signup_fields d) d = Rejected errs /\
    error_of "agreeToTerms" errs = Some "You must agree to the terms".
Proof.
  intros Ht. apply handle_submit_rejected.
  rewrite signup_fields_split_terms, error_of_form_errors by (repeat constructor; discriminate).
  by rewrite Ht.
Qed.

(** Every submission that passes validation, from an idle page, stores
    [auth_token = new_user_token_123] and navigates to [/dashboard] after
    the 2500 ms timer, whatever the data. *)
Theorem signup_valid_signs_in p d :
  submit_idle (SignUp.sub p) -> form_errors (SignUp.signup_fields d) = [] ->
  let p' := SignUp.signup_step (SignUp.signup_step p (SignUp.SSubmit d)) SignUp.STimer in
  ss_storage (SignUp.sub p') = ("auth_token", "new_user_token_123") :: ss_storage (SignUp.sub p) /\
  ss_route (SignUp.sub p') = "/dashboard" /\ ss_loading (SignUp.sub p') = false.
Proof.
  intros Hidle Hv. cbn [SignUp.signup_step SignUp.sub].
  rewrite submit_run by done. repeat split.
Qed.

(** ** Witnesses *)

Lemma login_demo_signs_in_witness :
  submit_idle (Login.sub login_idle) /\
  let p' := Login.login_step (Login.login_step login_idle
              (Login.LSubmit (Login.mkLoginForm Login.demo_email Login.demo_password true))) Login.LTimer in
  ss_storage (Login.sub p') = ("auth_token", "demo_token_123") :: ss_storage (Login.sub login_idle) /\
  ss_route (Login.sub p') = "/dashboard" /\ ss_loading (Login.sub p') = false /\
  ss_toasts (Login.sub p') = (ss_toasts (Login.sub login_idle) ++ [ToastSuccess "Welcome back to PandaScanPro!"])%list.
Proof. split; [split; reflexivity|]. apply login_demo_signs_in. split; reflexivity. Defined.

Lemma login_other_rejected_witness :
  let d := Login.mkLoginForm Login.demo_email "demo1234" false in
  let p' := Login.login_step (Login.login_step login_idle (Login.LSubmit d)) Login.LTimer in
  ss_storage (Login.sub p') = ss_storage (Login.sub login_idle) /\
  ss_route (Login.sub p') = ss_route (Login.sub login_idle) /\ ss_loading (Login.sub p') = false.
Proof. apply login_other_rejected; [split; reflexivity|discriminate]. Defined.

Lemma login_storage_safety_witness :
  let p := Login.login_step (Login.login_step login_idle
             (Login.LSubmit (Login.mkLoginForm Login.demo_email Login.demo_password false))) Login.LTimer in
  ("auth_token", "demo_token_123") ∈ ss_storage (Login.sub login_idle) \/
  ("auth_token", "demo_token_123") = ("auth_token", "demo_token_123").
Proof.
  intros p. apply (login_storage_safety login_idle p); [split; reflexivity|repeat constructor|].
  vm_compute. left.
Defined.

Lemma login_disabled_iff_pending_witness :
  let p := Login.login_step login_idle (Login.LSubmit (Login.mkLoginForm Login.demo_email Login.demo_password false)) in
  (Login.v_submit_disabled (Login.render p) = true <-> ss_pending (Login.sub p) <> None) /\
  (forall d, ss_pending (Login.sub p) = Some d -> form_errors (Login.login_fields d) = []).
Proof. intros p. apply (login_disabled_iff_pending login_idle p); [split; reflexivity|repeat constructor]. Defined.

Lemma passwordStrength_mono_witness :
  exists l l', SignUp.passwordStrength "pass" = Some l /\ SignUp.passwordStrength ("pass" ++ "Word#1") = Some l' /\
    (SignUp.strength l <= SignUp.strength l')%nat.
Proof. apply passwordStrength_mono. discriminate. Defined.

Lemma signup_mismatch_rejected_witness :
  exists errs, handle_submit (SignUp.signup_fields (SignUp.mkSignUpForm "Ada" "L" "ada@example.com" "Engine#1843" "engine#1843" true))
    (SignUp.mkSignUpForm "Ada" "L" "ada@example.com" "Engine#1843" "engine#1843" true) = Rejected errs /\
    error_of "confirmPassword" errs = Some "Passwords do not match".
Proof. apply signup_mismatch_rejected; discriminate. Defined.

Lemma signup_terms_required_witness :
  exists errs, handle_submit (SignUp.signup_fields (SignUp.mkSignUpForm "Ada" "L" "ada@example.com" "Engine#1843" "Engine#1843" false))
    (SignUp.mkSignUpForm "Ada" "L" "ada@example.com" "Engine#1843" "Engine#1843" false) = Rejected errs /\
    error_of "agreeToTerms" errs = Some "You must agree to the terms".
Proof. apply signup_terms_required. reflexivity. Defined.

Lemma signup_valid_signs_in_witness :
  let p' := SignUp.signup_step (SignUp.signup_step signup_idle (SignUp.SSubmit signup_sample)) SignUp.STimer in
  ss_storage (SignUp.sub p') = ("auth_token", "new_user_token_123") :: ss_storage (SignUp.sub signup_idle) /\
  ss_route (SignUp.sub p') = "/dashboard" /\ ss_loading (SignUp.sub p') = false.
Proof. apply signup_valid_signs_in; [split; reflexivity|vm_compute; reflexivity]. Defined.
