(* ===== verification/FormState.v ===== *)
(** * FormState: react-hook-form's [errors] between two submissions

    Login and SignUp call [useForm()] with its defaults, [mode: 'onSubmit']
    and [reValidateMode: 'onChange'] ([src/src/pages/Login.tsx] line 20,
    [SignUp.tsx] line 24), and spread [register(name, rules)] on every
    input.  The library then behaves as follows, which [form_step] models:
    a change of a field before the first submission stores the value and
    validates nothing; [handleSubmit] validates every field
    ([Forms.form_errors]) and marks the form submitted, valid or not;
    after that, the [onChange] of a field re-validates that field alone
    against the rules of the latest render ([validateField], then
    [set(errors, name, error)] or [unset(errors, name)]), and a field with
    no rule ([register('rememberMe')]) is not validated.  Blur events are
    not validated in either mode and change nothing here.

    [fs_errors] is the [errors] object, one entry per name; the pages read
    [errors.<name>] only ([Forms.error_of]).  SignUp's [confirmPassword]
    rule compares with [watch('password')] of the latest render, so a
    change of [password] re-renders the rule but does not re-validate
    [confirmPassword]: [confirm_error_stale] shows the message that
    outlives its cause. *)

From S2P Require Import Prelude JsCore Regex Forms Auth.

Local Open Scope string_scope.

Module FormState.

Record form_state (F : Type) := mkForm {
  fs_values : F;
  fs_errors : list (string * string);
  fs_submitted : bool    (* [formState.isSubmitted] *)
}.
Arguments mkForm {F}.
Arguments fs_values {F}.
Arguments fs_errors {F}.
Arguments fs_submitted {F}.

(** An input's [onChange] with its new value, or a [handleSubmit]. *)
Inductive form_event := FChange (name : string) (v : field_value) | FSubmit.

(** [hasValidation]: the field has at least one rule. *)
Definition has_validation (r : rules) : bool :=
  match r with mkRules None None None None => false | _ => true end.

(** [get(_fields, name)]: the rules and value of a registered field. *)
Fixpoint field_lookup (name : string) (fs : list (string * rules * field_value))
  : option (rules * field_value) :=
  match fs with
  | [] => None
  | (n, r, v) :: fs' => if String.eqb n name then Some (r, v) else field_lookup name fs'
  end.

Definition field_names (fs : list (string * rules * field_value)) : list string :=
  map (fun '(n, _, _) => n) fs.

(** [set(errors, name, error)]: an existing key keeps its place. *)
Definition error_set (name msg : string) (errs : list (string * string)) : list (string * string) :=
  if existsb (fun e => String.eqb e.1 name) errs
  then map (fun e => if String.eqb e.1 name then (name, msg) else e) errs
  else errs ++ [(name, msg)].

(** [unset(errors, name)] *)
Definition error_unset (name : string) (errs : list (string * string)) : list (string * string) :=
  List.filter (fun e => negb (String.eqb e.1 name)) errs.

Section Machine.
Context {F : Type}.
Context (fields : F -> list (string * rules * field_value)).
Context (set_field : string -> field_value -> F -> F).

(** The error the field's rules give its current value. *)
Definition current_error (name : string) (d : F) : option string :=
  match field_lookup name (fields d) with Some (r, v) => validate_field r v | None => None end.

(** The [onChange] of [register(name)]: the value is stored; once the
    form is submitted the field is validated with the rules of the new
    render and its error is set or cleared. *)
Definition on_change (st : form_state F) (name : string) (v : field_value) : form_state F :=
  let d := set_field name v (fs_values st) in
  let errs :=
    if fs_submitted st then
      match field_lookup name (fields d) with
      | Some (r, v') =>
          if has_validation r then
            match validate_field r v' with
            | Some m => error_set name m (fs_errors st)
            | None => error_unset name (fs_errors st)
            end
          else fs_errors st
      | None => fs_errors st
      end
    else fs_errors st in
  mkForm d errs (fs_submitted st).

(** [handleSubmit]: every field is validated; the form is submitted. *)
Definition on_submit (st : form_state F) : form_state F :=
  mkForm (fs_values st) (form_errors (fields (fs_values st))) true.

Definition form_step (st : form_state F) (ev : form_event) : form_state F :=
  match ev with FChange name v => on_change st name v | FSubmit => on_submit st end.

Definition form_run (st : form_state F) (evs : list form_event) : form_state F :=
  fold_left form_step evs st.

Inductive form_reachable (st0 : form_state F) : form_state F -> Prop :=
  | fr_init : form_reachable st0 st0
  | fr_step st ev : form_reachable st0 st -> form_reachable st0 (form_step st ev).

(** A fresh form: [useForm()] before any event. *)
Definition fresh (d : F) : form_state F := mkForm d [] false.

End Machine.

(** ** The two pages *)

(** The value the [onChange] of [register(name)] stores: an input's
    [value], a checkbox's [checked]; another name or kind changes nothing. *)
Definition login_set_field (name : string) (v : field_value) (d : Login.LoginForm) : Login.LoginForm :=
  let '(Login.mkLoginForm e p r) := d in
  match v with
  | FText s =>
      if String.eqb name "email" then Login.mkLoginForm s p r
      else if String.eqb name "password" then Login.mkLoginForm e s r
      else d
  | FCheck b => if String.eqb name "rememberMe" then Login.mkLoginForm e p b else d
  end.

Definition signup_set_field (name : string) (v : field_value) (d : SignUp.SignUpForm) : SignUp.SignUpForm :=
  let '(SignUp.mkSignUpForm f l e p c a) := d in
  match v with
  | FText s =>
      if String.eqb name "firstName" then SignUp.mkSignUpForm s l e p c a
      else if String.eqb name "lastName" then SignUp.mkSignUpForm f s e p c a
      else if String.eqb name "email" then SignUp.mkSignUpForm f l s p c a
      else if String.eqb name "password" then SignUp.mkSignUpForm f l e s c a
      else if String.eqb name "confirmPassword" then SignUp.mkSignUpForm f l e p s a
      else d
  | FCheck b => if String.eqb name "agreeToTerms" then SignUp.mkSignUpForm f l e p c b else d
  end.

(** ** The [errors] object *)

Lemma error_of_app n errs1 errs2 :
  error_of n (errs1 ++ errs2) = match error_of n errs1 with Some m => Some m | None => error_of n errs2 end.
Proof. induction errs1 as [|[k m] errs1 IH]; simpl; [done|]. by destruct (String.eqb k n). Qed.

Lemma error_of_set n m errs k :
  error_of k (error_set n m errs) = if String.eqb n k then Some m else error_of k errs.
Proof.
  unfold error_set. destruct (existsb _ errs) eqn:Ex.
  - destruct (String.eqb_spec n k) as [<-|Hnk].
    + induction errs as [|[j mj] errs IH]; simpl in *; [done|].
      destruct (String.eqb_spec j n) as [->|Hjn]; simpl; [by rewrite String.eqb_refl|].
      apply String.eqb_neq in Hjn. rewrite Hjn. by apply IH.
    + clear Ex. induction errs as [|[j mj] errs IH]; simpl; [done|].
      destruct (String.eqb_spec j n) as [->|Hjn]; simpl.
      * apply String.eqb_neq in Hnk. by rewrite Hnk.
      * by rewrite IH.
  - rewrite error_of_app. destruct (String.eqb_spec n k) as [->|Hnk].
    + replace (error_of k errs) with (@None string); [simpl; by rewrite String.eqb_refl|].
      induction errs as [|[j mj] errs IH]; simpl in *; [done|].
      apply orb_false_iff in Ex as [Ej Ex]. by rewrite Ej, IH.
    + destruct (error_of k errs); [done|]. simpl. by destruct (String.eqb_spec n k).
Qed.

Lemma error_of_unset n errs k :
  error_of k (error_unset n errs) = if String.eqb n k then None else error_of k errs.
Proof.
  induction errs as [|[j mj] errs IH]; simpl; [by destruct (String.eqb n k)|].
  destruct (String.eqb_spec j n) as [->|Hjn]; simpl; rewrite IH.
  - by destruct (String.eqb n k).
  - destruct (String.eqb_spec j k) as [->|]; [|done].
    by destruct (String.eqb_spec n k) as [->|].
Qed.

(** A field without rules has no error. *)
Lemma validate_no_rules r v : has_validation r = false -> validate_field r v = None.
Proof. by destruct r as [[] [[]|] [[]|] []]. Qed.

(** With distinct names, [errors.<name>] after a full validation is the
    error of the field's current value. *)
Lemma error_of_form_errors_lookup fs n :
  NoDup (field_names fs) ->
  error_of n (form_errors fs) =
    match field_lookup n fs with Some (r, v) => validate_field r v | None => None end.
Proof.
  induction fs as [|[[k r] v] fs IH]; intros Hnd; simpl; [done|].
  inversion Hnd as [|? ? Hk Hnd']; subst.
  assert (Hnone : n ∉ field_names fs -> error_of n (form_errors fs) = None).
  { intros Hn. rewrite IH by done. clear -Hn. induction fs as [|[[k' r'] v'] fs IH']; simpl in *; [done|].
    apply not_elem_of_cons in Hn as [Hn1 Hn2].
    destruct (String.eqb_spec k' n) as [->|]; [done|]. by apply IH'. }
  destruct (String.eqb_spec k n) as [->|Hkn].
  - destruct (validate_field r v); simpl; [by rewrite String.eqb_refl|by apply Hnone].
  - rewrite <- IH by done. destruct (validate_field r v); simpl; [|done].
    by apply String.eqb_neq in Hkn as ->.
Qed.

#[export] Hint Rewrite error_of_set error_of_unset : pscan_rw.

(** ** Fields whose error stays current *)

Section Current.
Context {F : Type}.
Context (fields : F -> list (string * rules * field_value)).
Context (set_field : string -> field_value -> F -> F).
Hypothesis fields_nodup : forall d, NoDup (field_names (fields d)).

(** A field is local when its rules are the same in every render and its
    value changes only with its own input. *)
Definition local_field (n : string) : Prop :=
  (exists r, forall d, exists v, field_lookup n (fields d) = Some (r, v)) /\
  (forall m v d, m <> n -> field_lookup n (fields (set_field m v d)) = field_lookup n (fields d)).

(** The invariant of a form that starts fresh: nothing is shown before
    the first submission, and after it every local field shows the error
    of its current value. *)
Definition errors_current (st : form_state F) : Prop :=
  (fs_submitted st = false -> fs_errors st = []) /\
  (fs_submitted st = true -> forall n, local_field n ->
     error_of n (fs_errors st) = current_error fields n (fs_values st)).

Lemma errors_current_step st ev :
  errors_current st -> errors_current (form_step fields set_field st ev).
Proof.
  intros [Hpre Hpost]. destruct ev as [m v|]; cbn.
  - unfold on_change. destruct (fs_submitted st) eqn:Hs; cbn;
      (split; [intros Hf; try discriminate; by apply Hpre|]); [|by intros ?].
    intros _ n [[r Hr] Hoth]. unfold current_error. cbn [fs_errors fs_values fs_submitted].
    destruct (String.eqb_spec m n) as [->|Hmn].
    + destruct (Hr (set_field n v (fs_values st))) as [v' ->]. destruct (has_validation r) eqn:Hv.
      * destruct (validate_field r v') eqn:E; autorewrite with pscan_rw; by rewrite String.eqb_refl.
      * rewrite validate_no_rules by done. rewrite Hpost by (done || by split; [exists r|]).
        unfold current_error. destruct (Hr (fs_values st)) as [v0 ->]. by apply validate_no_rules.
    + rewrite (Hoth m v _ Hmn). fold (current_error fields n (fs_values st)).
      rewrite <- (Hpost eq_refl n) by (split; [exists r|]; done).
      apply String.eqb_neq in Hmn.
      destruct (field_lookup m _) as [[r' v']|]; [|done].
      destruct (has_validation r'); [|done].
      destruct (validate_field r' v'); autorewrite with pscan_rw; by rewrite Hmn.
  - split; [done|]. intros _ n _. by apply error_of_form_errors_lookup.
Qed.

Lemma errors_current_reachable st0 st :
  errors_current st0 -> form_reachable fields set_field st0 st -> errors_current st.
Proof. intros H0 Hr. induction Hr; [done|]. by apply errors_current_step. Qed.

Lemma errors_current_fresh d : errors_current (fresh d).
Proof. split; [done|]. discriminate. Qed.

End Current.

Lemma form_run_reachable {F} fields set_field (st0 : form_state F) evs :
  form_reachable fields set_field st0 (form_run fields set_field st0 evs).
Proof.
  unfold form_run. enough (forall st, form_reachable fields set_field st0 st ->
    form_reachable fields set_field st0 (fold_left (form_step fields set_field) evs st)) by (apply H; constructor).
  induction evs as [|ev evs IH]; intros st Hst; simpl; [done|]. apply IH. by constructor.
Qed.

(** Locality of a page's field, by computation on each name. *)
Ltac local_field_tac set_field :=
  split; [eexists; intros []; eexists; reflexivity|];
  intros m v [] Hmn; destruct v; unfold set_field;
  repeat match goal with |- context [String.eqb m ?k] => destruct (String.eqb_spec m k) as [->|] end;
  done.

Lemma login_fields_nodup d : NoDup (field_names (Login.login_fields d)).
Proof. destruct d. apply (bool_decide_eq_true_1 _). vm_compute. reflexivity. Qed.

Lemma signup_fields_nodup d : NoDup (field_names (SignUp.signup_fields d)).
Proof. destruct d. apply (bool_decide_eq_true_1 _). vm_compute. reflexivity. Qed.

Lemma login_local n :
  In n ["email"; "password"; "rememberMe"] -> local_field Login.login_fields login_set_field n.
Proof. intros Hn; repeat destruct Hn as [<-|Hn]; [..|done]; local_field_tac login_set_field. Qed.

Lemma signup_local n :
  In n ["firstName"; "lastName"; "email"; "password"; "agreeToTerms"] ->
  local_field SignUp.signup_fields signup_set_field n.
Proof. intros Hn; repeat destruct Hn as [<-|Hn]; [..|done]; local_field_tac signup_set_field. Qed.

(** ** Properties *)

(** C25: react-hook-form's default modes on both pages: from a fresh form,
    whatever the changes and submissions, no error is shown before the
    first submission, and after it every field of Login, and every field
    of SignUp but [confirmPassword], shows exactly the error of its
    current value. *)
Theorem forms_errors_current :
  (forall d st, form_reachable Login.login_fields login_set_field (fresh d) st ->
     (fs_submitted st = false -> fs_errors st = []) /\
     (fs_submitted st = true -> forall n, In n ["email"; "password"; "rememberMe"] ->
        error_of n (fs_errors st) = current_error Login.login_fields n (fs_values st))) /\
  (forall d st, form_reachable SignUp.signup_fields signup_set_field (fresh d) st ->
     (fs_submitted st = false -> fs_errors st = []) /\
     (fs_submitted st = true -> forall n, In n ["firstName"; "lastName"; "email"; "password"; "agreeToTerms"] ->
        error_of n (fs_errors st) = current_error SignUp.signup_fields n (fs_values st))).
Proof.
  split; intros d st Hr.
  - destruct (errors_current_reachable _ _ login_fields_nodup _ _ (errors_current_fresh _ _ d) Hr) as [H1 H2].
    split; [done|]. intros Hs n Hn. by apply H2, login_local.
  - destruct (errors_current_reachable _ _ signup_fields_nodup _ _ (errors_current_fresh _ _ d) Hr) as [H1 H2].
    split; [done|]. intros Hs n Hn. by apply H2, signup_local.
Qed.

(** C26: on SignUp, a change of [password] after a submission re-renders
    the [confirmPassword] rule with the new password but does not
    re-validate [confirmPassword]: the error shown under it stays what it
    was, while the rule now fails only when the confirmation is empty or
    differs from the new password.  A change of [confirmPassword]
    re-validates it against the current password. *)
Theorem confirm_error_stale st p c :
  fs_submitted st = true ->
  (let st' := form_step SignUp.signup_fields signup_set_field st (FChange "password" (FText p)) in
   error_of "confirmPassword" (fs_errors st') = error_of "confirmPassword" (fs_errors st) /\
   current_error SignUp.signup_fields "confirmPassword" (fs_values st') =
     (if String.eqb (SignUp.confirmPassword (fs_values st)) "" then Some "Please confirm your password"
      else if String.eqb (SignUp.confirmPassword (fs_values st)) p then None
      else Some "Passwords do not match")) /\
  (let st' := form_step SignUp.signup_fields signup_set_field st (FChange "confirmPassword" (FText c)) in
   error_of "confirmPassword" (fs_errors st') = current_error SignUp.signup_fields "confirmPassword" (fs_values st')).
Proof.
  destruct st as [[f l e pw cp a] errs sub]; cbn -[validate_field error_set error_unset].
  intros ->. split; [split|].
  - destruct (validate_field _ (FText p)); autorewrite with pscan_rw; reflexivity.
  - unfold current_error, validate_field, check_required, check_minLength, check_pattern, check_validate.
    cbn. by destruct (String.eqb cp ""), (String.eqb cp p).
  - unfold current_error. cbn -[validate_field error_set error_unset].
    destruct (validate_field _ (FText c)); autorewrite with pscan_rw; reflexivity.
Qed.

(** ** Witnesses *)

Lemma forms_errors_current_witness :
  let st := form_run SignUp.signup_fields signup_set_field
              (fresh (SignUp.mkSignUpForm "Ada" "Lovelace" "ada@example.com" "secret123" "secret123" true))
              [FSubmit; FChange "password" (FText "short")] in
  error_of "password" (fs_errors st) = current_error SignUp.signup_fields "password" (fs_values st) /\
  current_error SignUp.signup_fields "password" (fs_values st) = Some "Password must be at least 8 characters".
Proof.
  intros st. split.
  - apply (proj2 (proj2 forms_errors_current _ st (form_run_reachable _ _ _ _))); [reflexivity|].
    simpl; tauto.
  - vm_compute. reflexivity.
Defined.

Lemma confirm_error_stale_witness :
  let st1 := form_run SignUp.signup_fields signup_set_field
               (fresh (SignUp.mkSignUpForm "Ada" "Lovelace" "ada@example.com" "secret123" "secret124" true))
               [FSubmit] in
  let st2 := form_step SignUp.signup_fields signup_set_field st1 (FChange "password" (FText "secret124")) in
  error_of "confirmPassword" (fs_errors st2) = Some "Passwords do not match" /\
  current_error SignUp.signup_fields "confirmPassword" (fs_values st2) = None.
Proof.
  intros st1 st2. pose proof (confirm_error_stale st1 "secret124" "secret124" eq_refl) as H.
  cbv zeta in H. destruct H as [[H1 H2] _]. split.
  - unfold st2. rewrite H1. vm_compute. reflexivity.
  - unfold st2. rewrite H2. vm_compute. reflexivity.
Defined.

End FormState.
