(* ===== verification/JsSort.v ===== *)
(** * JsSort: [Array.prototype.sort(comparefn)]

    ECMAScript requires the sort to be stable and, for a consistent
    comparator, to return the elements sorted by it; a comparator result
    of NaN counts as +0 ([SortCompare]).  The model [js_sort] is the
    left-to-right insertion sort: each element is inserted into the
    sorted prefix before the first element it compares strictly below.
    V8 sorts arrays of fewer than 64 elements by binary insertion sort,
    which inserts at the same place whenever the comparator is consistent.

    Main results: [js_sort] is a permutation; for comparators
    [desc_by key] (the [key b - key a] shape of every comparator of
    [Reports.tsx]) it is sorted by decreasing key and stable; and a list
    that is sorted and stable for [key] is unique ([stable_sort_unique]),
    so every sort meeting the class [SortImpl] agrees with [js_sort]. *)

From S2P Require Import Prelude JsCore.

Section JsSort.
Context {A : Type}.
Implicit Types (cmp : A -> A -> jsnum) (l acc : list A) (key : A -> Z).

(** [SortCompare]: NaN counts as +0. *)
Definition sort_compare cmp (x y : A) : Z :=
  match cmp x y with JNum z => z | JNaN => 0%Z end.

Fixpoint insert_by cmp (x : A) l : list A :=
  match l with
  | [] => [x]
  | y :: l' => if (sort_compare cmp x y <? 0)%Z then x :: l else y :: insert_by cmp x l'
  end.

Fixpoint sort_acc cmp acc l : list A :=
  match l with
  | [] => acc
  | x :: l' => sort_acc cmp (insert_by cmp x acc) l'
  end.

Definition js_sort cmp l : list A := sort_acc cmp [] l.

(** The comparator [(a, b) => key(b) - key(a)]. *)
Definition desc_by key (a b : A) : jsnum := JNum (key b - key a).

Definition sorted_desc key : list A -> Prop := Sorted (fun a b => key b <= key a)%Z.

Definition key_filter key (k : Z) l : list A := List.filter (fun y => key y =? k)%Z l.

(** The contract of a stable sort by decreasing key. *)
Definition is_stable_sort key l l' : Prop :=
  sorted_desc key l' /\ forall k, key_filter key k l' = key_filter key k l.

(** ** Permutation *)

Lemma insert_by_perm cmp x l : Permutation (insert_by cmp x l) (x :: l).
Proof.
  induction l as [|y l IH]; simpl; [done|]. case_bool; [done|].
  etrans; [apply perm_skip, IH|]. apply perm_swap.
Qed.

Lemma sort_acc_perm cmp acc l : Permutation (sort_acc cmp acc l) (acc ++ l).
Proof.
  revert acc. induction l as [|x l IH]; intros acc; simpl; [by rewrite app_nil_r|].
  rewrite IH, insert_by_perm. by rewrite <- Permutation_middle.
Qed.

Lemma js_sort_perm cmp l : Permutation (js_sort cmp l) l.
Proof. apply sort_acc_perm. Qed.

(** ** Extensionality: only the comparisons between elements matter *)

Lemma insert_by_ext cmp cmp' x l :
  (forall y, In y l -> cmp x y = cmp' x y) -> insert_by cmp x l = insert_by cmp' x l.
Proof.
  intros H. induction l as [|y l IH]; simpl; [done|].
  unfold sort_compare. rewrite (H y (or_introl eq_refl)).
  rewrite IH; [done|]. intros z Hz. apply H. by right.
Qed.

Lemma sort_acc_ext cmp cmp' acc l :
  (forall a b, In a (acc ++ l) -> In b (acc ++ l) -> cmp a b = cmp' a b) ->
  sort_acc cmp acc l = sort_acc cmp' acc l.
Proof.
  revert acc. induction l as [|x l IH]; intros acc H; simpl; [done|].
  rewrite (insert_by_ext cmp cmp'); [apply IH|].
  - intros a b Ha Hb. apply H; eapply Permutation_in; try eassumption;
      rewrite insert_by_perm, <- Permutation_middle; done.
  - intros y Hy. apply H; apply in_or_app; simpl; auto.
Qed.

Lemma js_sort_ext cmp cmp' l :
  (forall a b, In a l -> In b l -> cmp a b = cmp' a b) -> js_sort cmp l = js_sort cmp' l.
Proof. intros H. by apply sort_acc_ext. Qed.

(** ** Comparators that never ask for a swap keep the order *)

Lemma insert_by_nonneg cmp x l :
  (forall y, sort_compare cmp x y >= 0)%Z -> insert_by cmp x l = l ++ [x].
Proof.
  intros H. induction l as [|y l IH]; simpl; [done|].
  specialize (H y). case_bool; bool_to_prop; [lia|]. by rewrite IH.
Qed.

Lemma js_sort_nonneg cmp l :
  (forall x y, sort_compare cmp x y >= 0)%Z -> js_sort cmp l = l.
Proof.
  intros H. unfold js_sort. change l with ([] ++ l) at 2.
  generalize (@nil A) as acc. induction l as [|x l IH]; intros acc; simpl.
  - by rewrite app_nil_r.
  - rewrite insert_by_nonneg by auto. rewrite IH. by rewrite <- app_assoc.
Qed.
End JsSort.

(** ** Comparators by decreasing key: sorted, stable, unique *)

Section KeySort.
Context {A : Type} (key : A -> Z).
Implicit Types (l acc : list A).

Let R (a b : A) : Prop := (key b <= key a)%Z.
Let F (k : Z) l := key_filter key k l.

Lemma sorted_desc_strong l : sorted_desc key l <-> StronglySorted R l.
Proof.
  split; [|apply StronglySorted_Sorted].
  apply Sorted_StronglySorted. unfold R. intros a b c ? ?. lia.
Qed.

Lemma key_filter_lt k l : List.Forall (fun z => key z < k)%Z l -> F k l = [].
Proof.
  induction 1 as [|z l Hz _ IH]; [done|]. unfold F, key_filter in *; simpl.
  case_bool; bool_to_prop; [lia|done].
Qed.

Lemma key_filter_in x l : In x l -> In x (F (key x) l).
Proof. intros Hx. apply filter_In. split; [done|]. apply Z.eqb_refl. Qed.

Lemma insert_desc_sorted x l :
  StronglySorted R l -> StronglySorted R (insert_by (desc_by key) x l).
Proof.
  induction 1 as [|y l Hs IH Hall]; simpl; [repeat constructor|].
  unfold sort_compare, desc_by. case_bool; bool_to_prop.
  - constructor; [by constructor|]. constructor; [unfold R; lia|].
    eapply List.Forall_impl; [|exact Hall]. unfold R. intros z Hz. lia.
  - constructor; [done|]. apply List.Forall_forall. intros z Hz.
    eapply Permutation_in in Hz; [|apply insert_by_perm].
    destruct Hz as [<-|Hz]; [unfold R; lia|]. by eapply List.Forall_forall in Hall.
Qed.

Lemma key_filter_cons k x l : F k (x :: l) = if (key x =? k)%Z then x :: F k l else F k l.
Proof. reflexivity. Qed.

Lemma insert_desc_filter x l k :
  StronglySorted R l ->
  F k (insert_by (desc_by key) x l) = if (key x =? k)%Z then F k l ++ [x] else F k l.
Proof.
  induction 1 as [|y l Hs IH Hall]; cbn [insert_by]; [rewrite key_filter_cons; by case_bool|].
  change (sort_compare (desc_by key) x y) with (key y - key x)%Z. destruct (key y - key x <? 0)%Z eqn:Hyx; bool_to_prop.
  - rewrite key_filter_cons. destruct (key x =? k)%Z eqn:Hxk; bool_to_prop; [|done]. subst k.
    rewrite (key_filter_lt (key x) (y :: l)); [done|].
    constructor; [lia|]. eapply List.Forall_impl; [|exact Hall]. unfold R. intros z Hz. lia.
  - rewrite !key_filter_cons, IH. by case_bool.
Qed.

Lemma sort_acc_desc_spec acc l :
  StronglySorted R acc ->
  StronglySorted R (sort_acc (desc_by key) acc l) /\
  forall k, F k (sort_acc (desc_by key) acc l) = F k acc ++ F k l.
Proof.
  revert acc. induction l as [|x l IH]; intros acc Hacc; cbn [sort_acc].
  - split; [done|]. intros k. by rewrite app_nil_r.
  - destruct (IH (insert_by (desc_by key) x acc)) as [Hs Hf]; [by apply insert_desc_sorted|].
    split; [done|]. intros k. rewrite Hf, insert_desc_filter, key_filter_cons by done.
    case_bool; [by rewrite <- app_assoc|done].
Qed.

(** [js_sort] meets the contract of a stable sort by decreasing key. *)
Lemma js_sort_stable_sort l : is_stable_sort key l (js_sort (desc_by key) l).
Proof.
  destruct (sort_acc_desc_spec [] l) as [Hs Hf]; [constructor|].
  split; [by apply sorted_desc_strong|]. intros k. apply Hf.
Qed.

Lemma stable_sorted_unique l1 l2 :
  StronglySorted R l1 -> StronglySorted R l2 -> (forall k, F k l1 = F k l2) -> l1 = l2.
Proof.
  revert l2. induction l1 as [|x l1 IH]; intros [|y l2] Hs1 Hs2 Hf; [done| | |].
  - specialize (Hf (key y)). rewrite key_filter_cons, Z.eqb_refl in Hf. discriminate.
  - specialize (Hf (key x)). rewrite key_filter_cons, Z.eqb_refl in Hf. discriminate.
  - apply StronglySorted_inv in Hs1 as [Hs1 Hall1].
    apply StronglySorted_inv in Hs2 as [Hs2 Hall2].
    assert (Hle : forall z l, List.Forall (R z) l -> forall w, In w (z :: l) -> (key w <= key z)%Z).
    { intros z l Hall w [<-|Hw]; [lia|]. by eapply List.Forall_forall in Hall. }
    assert (Hyx : (key y <= key x)%Z).
    { apply (Hle x l1 Hall1). pose proof (key_filter_in y (y :: l2) (or_introl eq_refl)) as Hy.
      rewrite <- Hf in Hy. unfold F, key_filter in Hy. by apply filter_In in Hy as [? _]. }
    assert (Hxy : (key x <= key y)%Z).
    { apply (Hle y l2 Hall2). pose proof (key_filter_in x (x :: l1) (or_introl eq_refl)) as Hx.
      rewrite Hf in Hx. unfold F, key_filter in Hx. by apply filter_In in Hx as [? _]. }
    assert (Hk : key y = key x) by lia.
    pose proof (Hf (key x)) as Hx. rewrite !key_filter_cons, Hk, Z.eqb_refl in Hx.
    injection Hx as -> _. f_equal. apply IH; [done..|]. intros k.
    specialize (Hf k). rewrite !key_filter_cons in Hf.
    destruct (key y =? k)%Z; [by injection Hf|done].
Qed.

(** The stable sort by decreasing key is unique: whatever list meets the
    contract is the one [js_sort] computes. *)
Theorem stable_sort_unique l l' : is_stable_sort key l l' -> l' = js_sort (desc_by key) l.
Proof.
  intros [Hs Hf]. destruct (js_sort_stable_sort l) as [Hs' Hf'].
  apply stable_sorted_unique; [by apply sorted_desc_strong..|]. intros k. by rewrite Hf, Hf'.
Qed.

(** Sorting an already sorted list again changes nothing. *)
Lemma js_sort_desc_idem l :
  js_sort (desc_by key) (js_sort (desc_by key) l) = js_sort (desc_by key) l.
Proof.
  symmetry. apply stable_sort_unique. split; [|done]. apply js_sort_stable_sort.
Qed.
End KeySort.

(** [js_sort] with a [key b - key a] comparator returns a permutation
    of its input, sorted by decreasing key, with elements of equal key in
    their input order. *)
Theorem js_sort_spec {A} (key : A -> Z) l :
  Permutation (js_sort (desc_by key) l) l /\ is_stable_sort key l (js_sort (desc_by key) l).
Proof. split; [apply js_sort_perm|apply js_sort_stable_sort]. Qed.

(** ** The interface a JavaScript engine's sort offers to the pages *)

Class SortImpl := {
  impl_sort : forall {A : Type}, (A -> A -> jsnum) -> list A -> list A;
  impl_sort_perm : forall A (cmp : A -> A -> jsnum) l, Permutation (impl_sort cmp l) l;
  impl_sort_stable : forall A (key : A -> Z) l, is_stable_sort key l (impl_sort (desc_by key) l)
}.

#[export] Instance js_sort_impl : SortImpl := {|
  impl_sort := @js_sort;
  impl_sort_perm := @js_sort_perm;
  impl_sort_stable := @js_sort_stable_sort
|}.

(** Any engine sort meeting [SortImpl] orders a [key b - key a] comparator
    exactly as [js_sort] does. *)
Theorem impl_sort_agrees `{SortImpl} {A} (key : A -> Z) l :
  impl_sort (desc_by key) l = js_sort (desc_by key) l.
Proof. apply stable_sort_unique, impl_sort_stable. Qed.
