(* ===== verification/JsDate.v ===== *)
(** * JsDate: [new Date(s).getTime()] on ISO dates and [toISOString]

    [Reports.tsx] sorts by [new Date(b.date).getTime() - new Date(a.date).getTime()]
    with dates written [YYYY-MM-DD].  That string form is the date-only
    form of the ECMAScript Date Time String Format and denotes UTC
    midnight.  The model [date_time] parses exactly that form: four year
    digits, a month 01-12 and a day 01-31 (V8 accepts any day up to 31 and
    lets [MakeDay] carry [2024-02-30] into March); every other string is
    NaN here (the other ISO forms and V8's fallback parser for free-form
    dates are not modelled).  The time value is [MakeDay(y, m-1, d)] times
    86400000 ms, with [DayFromYear] and the month offsets of ECMA-262
    21.4.1.

    Theorem [make_day_lt]: on calendar dates, [make_day] is strictly
    increasing in the lexicographic order of (year, month, day), so the
    time values order dates chronologically.

    [to_iso_string] is [Date.prototype.toISOString] on a time value
    (civil date from a day number, zero-padded fields, expanded years
    outside 0-9999). *)

From S2P Require Import Prelude JsCore.

Local Open Scope Z_scope.

(** ** Calendar arithmetic of ECMA-262 21.4.1 *)

Definition ms_per_day : Z := 86400000.

Definition leap_year (y : Z) : bool :=
  (y mod 4 =? 0) && (negb (y mod 100 =? 0) || (y mod 400 =? 0)).

Definition days_in_year (y : Z) : Z := if leap_year y then 366 else 365.

(** [DayFromYear(y)] *)
Definition day_from_year (y : Z) : Z :=
  365 * (y - 1970) + (y - 1969) / 4 - (y - 1901) / 100 + (y - 1601) / 400.

(** Day of the year on which month [m] (0-based) starts. *)
Definition month_offset (y m : Z) : Z :=
  let l := if leap_year y then 1 else 0 in
  match m with
  | 0 => 0 | 1 => 31 | 2 => 59 + l | 3 => 90 + l | 4 => 120 + l | 5 => 151 + l
  | 6 => 181 + l | 7 => 212 + l | 8 => 243 + l | 9 => 273 + l | 10 => 304 + l
  | _ => 334 + l
  end.

Definition days_in_month (y m : Z) : Z :=
  match m with
  | 1 => if leap_year y then 29 else 28
  | 3 | 5 | 8 | 10 => 30
  | _ => 31
  end.

(** [MakeDay(y, m, d)] for a month index [m] in 0-11. *)
Definition make_day (y m d : Z) : Z := day_from_year y + month_offset y m + d - 1.

(** ** Parsing [YYYY-MM-DD] *)

Definition digit (c : ascii) : option Z :=
  let n := nat_of_ascii c in
  if Nat.leb 48 n && Nat.leb n 57 then Some (Z.of_nat n - 48) else None.

Fixpoint digits (cs : list ascii) : option Z :=
  match cs with
  | [] => Some 0
  | c :: cs' =>
      match digit c, digits cs' with
      | Some d, Some v => Some (d * 10 ^ Z.of_nat (List.length cs') + v)
      | _, _ => None
      end
  end.

Definition parse_iso_date (s : string) : option (Z * Z * Z) :=
  match list_ascii_of_string s with
  | [y1; y2; y3; y4; h1; m1; m2; h2; d1; d2] =>
      if (Ascii.eqb h1 "-"%char && Ascii.eqb h2 "-"%char)%bool then
        match digits [y1; y2; y3; y4], digits [m1; m2], digits [d1; d2] with
        | Some y, Some m, Some d =>
            if (1 <=? m) && (m <=? 12) && (1 <=? d) && (d <=? 31) then Some (y, m, d) else None
        | _, _, _ => None
        end
      else None
  | _ => None
  end.

(** [new Date(s).getTime()] *)
Definition date_time (s : string) : jsnum :=
  match parse_iso_date s with
  | Some (y, m, d) => JNum (make_day y (m - 1) d * ms_per_day)
  | None => JNaN
  end.

(** ** [Date.prototype.toISOString] *)

(** Civil date (year, month 1-12, day 1-31) of a day number. *)
Definition civil_from_days (days : Z) : Z * Z * Z :=
  let z := days + 719468 in
  let era := z / 146097 in
  let doe := z - era * 146097 in
  let yoe := (doe - doe / 1460 + doe / 36524 - doe / 146096) / 365 in
  let doy := doe - (365 * yoe + yoe / 4 - yoe / 100) in
  let mp := (5 * doy + 2) / 153 in
  let d := doy - (153 * mp + 2) / 5 + 1 in
  let m := if mp <? 10 then mp + 3 else mp - 9 in
  let y := yoe + era * 400 + (if m <=? 2 then 1 else 0) in
  (y, m, d).

Definition digit_char (d : Z) : ascii := ascii_of_nat (Z.to_nat (48 + d)).

(** The last [w] decimal digits of [n >= 0], zero-padded. *)
Fixpoint pad (w : nat) (n : Z) : string :=
  match w with
  | O => EmptyString
  | S w' => (pad w' (n / 10) ++ String (digit_char (n mod 10)) EmptyString)%string
  end.

Definition iso_year (y : Z) : string :=
  if (0 <=? y) && (y <=? 9999) then pad 4 y
  else if y <? 0 then ("-" ++ pad 6 (- y))%string else ("+" ++ pad 6 y)%string.

Definition to_iso_string (t : Z) : string :=
  let days := t / ms_per_day in
  let ms := t mod ms_per_day in
  let '(y, m, d) := civil_from_days days in
  (iso_year y ++ "-" ++ pad 2 m ++ "-" ++ pad 2 d ++ "T" ++
   pad 2 (ms / 3600000) ++ ":" ++ pad 2 (ms / 60000 mod 60) ++ ":" ++
   pad 2 (ms / 1000 mod 60) ++ "." ++ pad 3 (ms mod 1000) ++ "Z")%string.

(** Formatting a symbolic time value is never useful to [simpl]. *)
Arguments to_iso_string t : simpl never.

(** ** Calendar order *)

Lemma day_from_year_succ y : day_from_year (y + 1) = day_from_year y + days_in_year y.
Proof.
  unfold day_from_year, days_in_year, leap_year.
  destruct (y mod 4 =? 0) eqn:H4, (y mod 100 =? 0) eqn:H100, (y mod 400 =? 0) eqn:H400;
    simpl; bool_to_prop; Z.to_euclidean_division_equations; lia.
Qed.

Lemma day_from_year_mono y n : 0 <= n -> day_from_year y + 365 * n <= day_from_year (y + n).
Proof.
  intros Hn. pattern n. apply natlike_ind; [| |exact Hn].
  - cbv beta. rewrite !Z.add_0_r. lia.
  - intros k Hk IH. cbv beta in *.
    replace (y + Z.succ k) with ((y + k) + 1) by lia. rewrite day_from_year_succ.
    unfold days_in_year. destruct (leap_year (y + k)); lia.
Qed.

(** A calendar date: month index 0-11 and a day that exists in that month. *)
Definition valid_date (y m d : Z) : Prop := 0 <= m <= 11 /\ 1 <= d <= days_in_month y m.

(** Twelve-way case split on a month index. *)
Ltac month_cases m :=
  let Hc := fresh "Hc" in
  assert (m = 0 \/ m = 1 \/ m = 2 \/ m = 3 \/ m = 4 \/ m = 5 \/ m = 6 \/ m = 7 \/
          m = 8 \/ m = 9 \/ m = 10 \/ m = 11) as Hc by lia;
  repeat destruct Hc as [->|Hc]; [..|subst m].

Lemma month_next_le y m1 m2 : 0 <= m1 -> m1 < m2 <= 11 ->
  month_offset y m1 + days_in_month y m1 <= month_offset y m2.
Proof.
  intros H1 H2. unfold month_offset, days_in_month.
  destruct (leap_year y); month_cases m1; month_cases m2; simpl; lia.
Qed.

Lemma day_in_year_bounds y m d : valid_date y m d ->
  0 <= month_offset y m + d - 1 < days_in_year y.
Proof.
  intros [Hm Hd]. unfold month_offset, days_in_month, days_in_year in *.
  destruct (leap_year y); month_cases m; simpl in *; lia.
Qed.

(** Time values follow the calendar: [MakeDay] is strictly increasing in
    the lexicographic order of (year, month, day) on calendar dates. *)
Lemma make_day_lt y1 m1 d1 y2 m2 d2 :
  valid_date y1 m1 d1 -> valid_date y2 m2 d2 ->
  y1 < y2 \/ (y1 = y2 /\ (m1 < m2 \/ (m1 = m2 /\ d1 < d2))) ->
  make_day y1 m1 d1 < make_day y2 m2 d2.
Proof.
  intros V1 V2 Hlex. unfold make_day.
  pose proof (day_in_year_bounds _ _ _ V1). pose proof (day_in_year_bounds _ _ _ V2).
  destruct Hlex as [Hy|[-> [Hm|[-> Hd]]]].
  - pose proof (day_from_year_succ y1).
    pose proof (day_from_year_mono (y1 + 1) (y2 - y1 - 1) ltac:(lia)).
    replace (y1 + 1 + (y2 - y1 - 1)) with y2 in * by lia. lia.
  - destruct V1 as [? ?], V2 as [? ?].
    pose proof (month_next_le y2 m1 m2 ltac:(lia) ltac:(lia)). lia.
  - lia.
Qed.

Lemma parse_iso_date_range s y m d :
  parse_iso_date s = Some (y, m, d) -> 1 <= m <= 12 /\ 1 <= d <= 31.
Proof.
  unfold parse_iso_date. intros H. repeat case_match; simplify_eq; bool_to_prop; lia.
Qed.

(** Two [YYYY-MM-DD] strings naming calendar dates get time values in
    calendar order: the earlier date has the smaller time value. *)
Theorem date_time_chronological s1 s2 y1 m1 d1 y2 m2 d2 :
  parse_iso_date s1 = Some (y1, m1, d1) -> parse_iso_date s2 = Some (y2, m2, d2) ->
  d1 <= days_in_month y1 (m1 - 1) -> d2 <= days_in_month y2 (m2 - 1) ->
  y1 < y2 \/ (y1 = y2 /\ (m1 < m2 \/ (m1 = m2 /\ d1 < d2))) ->
  exists t1 t2, date_time s1 = JNum t1 /\ date_time s2 = JNum t2 /\ t1 < t2.
Proof.
  intros P1 P2 D1 D2 Hlex. unfold date_time. rewrite P1, P2.
  apply parse_iso_date_range in P1, P2.
  eexists _, _. split; [reflexivity|]. split; [reflexivity|].
  apply Z.mul_lt_mono_pos_r; [unfold ms_per_day; lia|].
  apply make_day_lt; [split; lia..|lia].
Qed.

Lemma date_time_chronological_witness :
  exists t1 t2, date_time "2024-01-13" = JNum t1 /\ date_time "2024-01-15" = JNum t2 /\ t1 < t2.
Proof.
  apply (date_time_chronological "2024-01-13" "2024-01-15" 2024 1 13 2024 1 15);
    [reflexivity|reflexivity|vm_compute; discriminate|vm_compute; discriminate|lia].
Defined.
