(* ===== verification/Json.v ===== *)
(** * Json: [Number::toString], [JSON.stringify] and [JSON.parse]

    The Scanner page sends [JSON.stringify({ url: data.url })]
    ([src/src/pages/Scanner.tsx], line 73), the server reads it with
    [express.json()] ([src/server/index.js], line 14) and answers with
    [res.json(...)], which the page reads with [response.json()]; the
    result tabs print [JSON.stringify(x, null, 2)].  This file models the
    ECMAScript algorithms on the values of [JsCore]: [ser] is
    SerializeJSONProperty with its [gap] and [indent], [quote] is
    QuoteJSONString, and [parse_value] is a recursive-descent parser of
    the JSON grammar that builds objects as [JSON.parse] does (a
    duplicate key keeps its first position and its last value, and
    array-index keys come first in ascending order).

    Numbers are the integers of [jsnum]: the parser answers
    [PUnmodelled] for a number literal whose value is not an integer of
    magnitude at most 2^53, and for a [\u] escape above 255 (strings
    are Latin-1 code units).  The parser runs on fuel; [json_parse] gives
    it one unit per input character, which [json_parse_fuel] shows is
    never exhausted. *)

From S2P Require Import Prelude JsCore JsDate.

(** ** [Number::toString] on integers *)

(** The decimal digits of [n > 0], least significant first. *)
Fixpoint decimal_rev (fuel : nat) (n : Z) : list ascii :=
  match fuel with
  | O => []
  | S f => if (n <=? 0)%Z then [] else digit_char (n mod 10) :: decimal_rev f (n / 10)
  end.

(** The decimal digits of [n >= 0]; [Z.log2 n + 1] digits are enough. *)
Definition decimal (n : Z) : list ascii :=
  if (n =? 0)%Z then ["0"%char] else rev (decimal_rev (S (Z.to_nat (Z.log2 n))) n).

(** The list without its leading ['0'] characters. *)
Fixpoint drop_zeros (l : list ascii) : list ascii :=
  match l with
  | c :: l' => if Ascii.eqb c "0"%char then drop_zeros l' else l
  | [] => []
  end.

(** Number::toString(x) for an integer [x]: the digits when there are at
    most 21 of them, else the exponent form [d.ddde+N] with the trailing
    zeros of the significand dropped. *)
Definition number_to_string (z : Z) : string :=
  let sign := if (z <? 0)%Z then "-"%string else ""%string in
  let ds := decimal (Z.abs z) in
  if (List.length ds <=? 21)%nat then (sign ++ string_of_list_ascii ds)%string
  else
    let s := rev (drop_zeros (rev ds)) in
    let e := list_ascii_of_string "e+" ++ decimal (Z.of_nat (List.length ds) - 1) in
    match s with
    | [] => sign
    | [d] => (sign ++ string_of_list_ascii (d :: e))%string
    | d :: r => (sign ++ string_of_list_ascii (d :: "."%char :: r ++ e))%string
    end.

Module Json.

Local Open Scope char_scope.

Definition bs : ascii := "092".
Definition dq : ascii := "034".
Definition nl : ascii := "010".

(** ** [JSON.stringify] *)

(** The lower-case hexadecimal digit of [n < 16]. *)
Definition hex_digit (n : nat) : ascii := ascii_of_nat (if Nat.ltb n 10 then 48 + n else 87 + n).

(** QuoteJSONString on one code unit. *)
Definition quote_char (c : ascii) : list ascii :=
  let n := nat_of_ascii c in
  if Nat.eqb n 8 then [bs; "b"] else if Nat.eqb n 9 then [bs; "t"]
  else if Nat.eqb n 10 then [bs; "n"] else if Nat.eqb n 12 then [bs; "f"]
  else if Nat.eqb n 13 then [bs; "r"] else if Nat.eqb n 34 then [bs; dq]
  else if Nat.eqb n 92 then [bs; bs]
  else if Nat.ltb n 32 then [bs; "u"; "0"; "0"; hex_digit (n / 16); hex_digit (n mod 16)]
  else [c].

Definition quote (s : string) : list ascii :=
  dq :: flat_map quote_char (list_ascii_of_string s) ++ [dq].

Fixpoint join (sep : list ascii) (items : list (list ascii)) : list ascii :=
  match items with
  | [] => []
  | [x] => x
  | x :: items' => x ++ sep ++ join sep items'
  end.

(** SerializeJSONArray / SerializeJSONObject once the members are
    serialized: [stepback] is the enclosing indent, [ind] this level's. *)
Definition wrap (o c : ascii) (gap stepback ind : list ascii) (items : list (list ascii))
  : list ascii :=
  match items, gap with
  | [], _ => [o; c]
  | _, [] => o :: join [","] items ++ [c]
  | _, _ => o :: nl :: ind ++ join ([","; nl] ++ ind) items ++ nl :: stepback ++ [c]
  end.

Definition null_text : list ascii := list_ascii_of_string "null".

(** SerializeJSONProperty: [None] is [undefined] (no text). *)
Fixpoint ser (gap ind : list ascii) (v : jsval) : option (list ascii) :=
  match v with
  | JUndefined => None
  | JNull => Some null_text
  | JBool b => Some (list_ascii_of_string (if b then "true" else "false"))
  | JNumber (JNum z) => Some (list_ascii_of_string (number_to_string z))
  | JNumber JNaN => Some null_text
  | JStr s => Some (quote s)
  | JArr xs =>
      Some (wrap "[" "]" gap ind (ind ++ gap)
              (map (fun x => default null_text (ser gap (ind ++ gap) x)) xs))
  | JObj kvs =>
      Some (wrap "{" "}" gap ind (ind ++ gap)
              (flat_map (fun '(k, x) =>
                           match ser gap (ind ++ gap) x with
                           | Some t => [quote k ++ [":"] ++ (if gap is [] then [] else [" "]) ++ t]
                           | None => []
                           end) kvs))
  end.

(** [JSON.stringify(v, null, space)] with [gap] the spaces of [space]. *)
Definition json_stringify_gap (gap : list ascii) (v : jsval) : option string :=
  string_of_list_ascii <$> ser gap [] v.

(** [JSON.stringify(v)] *)
Definition json_stringify (v : jsval) : option string := json_stringify_gap [] v.

(** The gap of a number [space]: [min(10, space)] spaces. *)
Definition space_gap (space : Z) : list ascii := repeat " " (Z.to_nat (Z.min 10 space)).

(** ** [JSON.parse] *)

(** The outcome of a parser on a prefix of its input: the value and the
    rest, a [SyntaxError], a text outside the model, or no fuel left. *)
Inductive presult (A : Type) :=
  | POk (a : A) (rest : list ascii)
  | PError
  | PUnmodelled
  | PFuel.
Arguments POk {A} a rest.
Arguments PError {A}.
Arguments PUnmodelled {A}.
Arguments PFuel {A}.

Definition pbind {A B} (r : presult A) (k : A -> list ascii -> presult B) : presult B :=
  match r with
  | POk a s => k a s
  | PError => PError
  | PUnmodelled => PUnmodelled
  | PFuel => PFuel
  end.

Definition pmap {A B} (f : A -> B) (r : presult A) : presult B :=
  pbind r (fun a s => POk (f a) s).

Definition is_ws (c : ascii) : bool :=
  let n := nat_of_ascii c in Nat.eqb n 32 || Nat.eqb n 9 || Nat.eqb n 10 || Nat.eqb n 13.

Fixpoint skip_ws (s : list ascii) : list ascii :=
  match s with
  | c :: s' => if is_ws c then skip_ws s' else s
  | [] => []
  end.

(** The next token, when it is the one-character token [c]. *)
Definition token (c : ascii) (s : list ascii) : option (list ascii) :=
  match skip_ws s with
  | c' :: s' => if Ascii.eqb c' c then Some s' else None
  | [] => None
  end.

Definition hex_val (c : ascii) : option nat :=
  let n := nat_of_ascii c in
  if Nat.leb 48 n && Nat.leb n 57 then Some (n - 48)
  else if Nat.leb 97 n && Nat.leb n 102 then Some (n - 87)
  else if Nat.leb 65 n && Nat.leb n 70 then Some (n - 55)
  else None.

(** The one-character escapes: a backslash then a quote, a backslash, a
    slash or one of [b f n r t]. *)
Definition escape (e : ascii) : option ascii :=
  let n := nat_of_ascii e in
  if Nat.eqb n 34 then Some dq else if Nat.eqb n 92 then Some bs
  else if Nat.eqb n 47 then Some "/" else if Nat.eqb n 98 then Some "008"
  else if Nat.eqb n 102 then Some "012" else if Nat.eqb n 110 then Some nl
  else if Nat.eqb n 114 then Some "013" else if Nat.eqb n 116 then Some "009"
  else None.

Definition pcons (c : ascii) (r : presult (list ascii)) : presult (list ascii) := pmap (cons c) r.

(** The code units of a string literal, after its opening quote. *)
Fixpoint parse_chars (s : list ascii) : presult (list ascii) :=
  match s with
  | [] => PError
  | c :: s' =>
      if Ascii.eqb c dq then POk [] s'
      else if Ascii.eqb c bs then
        match s' with
        | [] => PError
        | e :: s'' =>
            match escape e with
            | Some c' => pcons c' (parse_chars s'')
            | None =>
                if Ascii.eqb e "u" then
                  match s'' with
                  | h1 :: h2 :: h3 :: h4 :: s3 =>
                      match hex_val h1, hex_val h2, hex_val h3, hex_val h4 with
                      | Some a, Some b, Some c0, Some d =>
                          let n := ((a * 16 + b) * 16 + c0) * 16 + d in
                          if Nat.ltb n 256 then pcons (ascii_of_nat n) (parse_chars s3)
                          else PUnmodelled
                      | _, _, _, _ => PError
                      end
                  | _ => PError
                  end
                else PError
            end
        end
      else if Nat.ltb (nat_of_ascii c) 32 then PError
      else pcons c (parse_chars s')
  end.

Definition is_digit (c : ascii) : bool :=
  let n := nat_of_ascii c in Nat.leb 48 n && Nat.leb n 57.

Fixpoint span_digits (s : list ascii) : list ascii * list ascii :=
  match s with
  | c :: s' => if is_digit c then let '(ds, r) := span_digits s' in (c :: ds, r) else ([], s)
  | [] => ([], [])
  end.

Definition digits_val (ds : list ascii) : Z :=
  fold_left (fun acc c => (acc * 10 + (Z.of_nat (nat_of_ascii c) - 48))%Z) ds 0%Z.

(** [int]: [0], or a non-zero digit and more digits. *)
Definition int_part (s : list ascii) : option (list ascii * list ascii) :=
  match s with
  | c :: s' =>
      if Ascii.eqb c "0" then Some (["0"], s')
      else if is_digit c then let '(ds, r) := span_digits s' in Some (c :: ds, r)
      else None
  | [] => None
  end.

(** [frac]: a point and at least one digit, if the next character is a point. *)
Definition frac_part (s : list ascii) : option (list ascii * list ascii) :=
  match s with
  | c :: s' =>
      if Ascii.eqb c "." then
        match span_digits s' with ([], _) => None | (ds, r) => Some (ds, r) end
      else Some ([], s)
  | [] => Some ([], [])
  end.

(** [exp]: [e] or [E], an optional sign and at least one digit. *)
Definition exp_part (s : list ascii) : option (Z * list ascii) :=
  match s with
  | c :: s' =>
      if Ascii.eqb c "e" || Ascii.eqb c "E" then
        let '(sg, s'') :=
          match s' with
          | d :: r => if Ascii.eqb d "-" then ((-1)%Z, r) else if Ascii.eqb d "+" then (1%Z, r) else (1%Z, s')
          | [] => (1%Z, s')
          end in
        match span_digits s'' with ([], _) => None | (ds, r) => Some ((sg * digits_val ds)%Z, r) end
      else Some (0%Z, s)
  | [] => Some (0%Z, [])
  end.

(** 2^53: the integers up to it in magnitude are exact doubles. *)
Definition max_safe : Z := 9007199254740992.

(** [m * 10^scale] with its sign, when it is an integer of magnitude at
    most 2^53; [m] has [nd] digits.  The guards keep the powers small. *)
Definition number_value (neg : bool) (m scale : Z) (nd : nat) : option Z :=
  let signed v := if neg then (- v)%Z else v in
  if (m =? 0)%Z then Some 0%Z
  else if (16 <? scale)%Z then None
  else if (0 <=? scale)%Z then
    let v := (m * 10 ^ scale)%Z in if (v <=? max_safe)%Z then Some (signed v) else None
  else if (Z.of_nat nd <? - scale)%Z then None
  else if (m mod 10 ^ (- scale) =? 0)%Z then
    let v := (m / 10 ^ (- scale))%Z in if (v <=? max_safe)%Z then Some (signed v) else None
  else None.

Definition parse_number (s : list ascii) : presult jsval :=
  let '(neg, s1) :=
    match s with
    | c :: s' => if Ascii.eqb c "-" then (true, s') else (false, s)
    | [] => (false, s)
    end in
  match int_part s1 with
  | None => PError
  | Some (ip, s2) =>
      match frac_part s2 with
      | None => PError
      | Some (fp, s3) =>
          match exp_part s3 with
          | None => PError
          | Some (e, s4) =>
              match number_value neg (digits_val (ip ++ fp)) (e - Z.of_nat (List.length fp))
                      (List.length (ip ++ fp)) with
              | Some z => POk (JNumber (JNum z)) s4
              | None => PUnmodelled
              end
          end
      end
  end.

Fixpoint strip_prefix (w s : list ascii) : option (list ascii) :=
  match w, s with
  | [], _ => Some s
  | a :: w', b :: s' => if Ascii.eqb a b then strip_prefix w' s' else None
  | _ :: _, [] => None
  end.

(** The rest of [true], [false] or [null] after its first letter. *)
Definition literal (w : string) (v : jsval) (s : list ascii) : presult jsval :=
  match strip_prefix (list_ascii_of_string w) s with
  | Some r => POk v r
  | None => PError
  end.

(** ** Objects as [JSON.parse] builds them *)

(** CreateDataProperty: a new key goes last, an existing one keeps its place. *)
Fixpoint define_property (kvs : list (string * jsval)) (k : string) (v : jsval)
  : list (string * jsval) :=
  match kvs with
  | [] => [(k, v)]
  | (k', v') :: kvs' =>
      if String.eqb k k' then (k', v) :: kvs' else (k', v') :: define_property kvs' k v
  end.

(** The array index a key denotes: a canonical numeric string below 2^32 - 1. *)
Definition array_index (k : string) : option Z :=
  let cs := list_ascii_of_string k in
  let z := digits_val cs in
  if forallb is_digit cs && negb (Nat.eqb (List.length cs) 0) && String.eqb (number_to_string z) k
     && (z <? 4294967295)%Z
  then Some z else None.

Definition index_of (kv : string * jsval) : Z := default 0%Z (array_index kv.1).
Definition is_index (kv : string * jsval) : bool := bool_decide (is_Some (array_index kv.1)).

Fixpoint insert_by_index (kv : string * jsval) (l : list (string * jsval)) : list (string * jsval) :=
  match l with
  | [] => [kv]
  | kv' :: l' => if (index_of kv <? index_of kv')%Z then kv :: l else kv' :: insert_by_index kv l'
  end.

(** OrdinaryOwnPropertyKeys: array indices ascending, then the other keys
    in creation order. *)
Definition own_keys_order (kvs : list (string * jsval)) : list (string * jsval) :=
  fold_right insert_by_index [] (List.filter is_index kvs) ++
  List.filter (fun kv => negb (is_index kv)) kvs.

(** A member's key and colon. *)
Definition member_key (s : list ascii) : presult string :=
  match skip_ws s with
  | c :: s1 =>
      if Ascii.eqb c dq then
        pbind (parse_chars s1) (fun k s2 =>
          match token ":" s2 with Some s3 => POk (string_of_list_ascii k) s3 | None => PError end)
      else PError
  | [] => PError
  end.

(** The recursive descent, one unit of fuel per nested call. *)
Fixpoint parse_value (fuel : nat) (s : list ascii) {struct fuel} : presult jsval :=
  match fuel with
  | O => PFuel
  | S f =>
      match skip_ws s with
      | [] => PError
      | c :: s1 =>
          if Ascii.eqb c "[" then
            match token "]" s1 with
            | Some s2 => POk (JArr []) s2
            | None => pbind (parse_value f s1) (fun v s2 => parse_elements f s2 [v])
            end
          else if Ascii.eqb c "{" then
            match token "}" s1 with
            | Some s2 => POk (JObj []) s2
            | None =>
                pbind (member_key s1) (fun k s2 =>
                  pbind (parse_value f s2) (fun v s3 => parse_members f s3 [(k, v)]))
            end
          else if Ascii.eqb c dq then pmap (fun cs => JStr (string_of_list_ascii cs)) (parse_chars s1)
          else if Ascii.eqb c "t" then literal "rue" (JBool true) s1
          else if Ascii.eqb c "f" then literal "alse" (JBool false) s1
          else if Ascii.eqb c "n" then literal "ull" JNull s1
          else parse_number (c :: s1)
      end
  end
with parse_elements (fuel : nat) (s : list ascii) (acc : list jsval) {struct fuel} : presult jsval :=
  match fuel with
  | O => PFuel
  | S f =>
      match skip_ws s with
      | c :: s1 =>
          if Ascii.eqb c "," then pbind (parse_value f s1) (fun v s2 => parse_elements f s2 (acc ++ [v]))
          else if Ascii.eqb c "]" then POk (JArr acc) s1
          else PError
      | [] => PError
      end
  end
with parse_members (fuel : nat) (s : list ascii) (acc : list (string * jsval)) {struct fuel}
  : presult jsval :=
  match fuel with
  | O => PFuel
  | S f =>
      match skip_ws s with
      | c :: s1 =>
          if Ascii.eqb c "," then
            pbind (member_key s1) (fun k s2 =>
              pbind (parse_value f s2) (fun v s3 => parse_members f s3 (define_property acc k v)))
          else if Ascii.eqb c "}" then POk (JObj (own_keys_order acc)) s1
          else PError
      | [] => PError
      end
  end.

Inductive json_result := JParsed (v : jsval) | JSyntaxError | JUnmodelled.

(** [JSON.parse(text)]: white space, one value, white space. *)
Definition json_parse (text : string) : json_result :=
  let cs := list_ascii_of_string text in
  match parse_value (S (List.length cs)) cs with
  | POk v r => if skip_ws r is [] then JParsed v else JSyntaxError
  | PError => JSyntaxError
  | PUnmodelled | PFuel => JUnmodelled
  end.

(** ** Well-formed values *)

(** Keys in the order OrdinaryOwnPropertyKeys lists them: an array index
    is followed by larger indices and other keys only, another key by
    other keys only. *)
Fixpoint keys_ordered (kvs : list (string * jsval)) : bool :=
  match kvs with
  | [] => true
  | kv :: kvs' =>
      forallb (fun kv' => if is_index kv then negb (is_index kv') || (index_of kv <? index_of kv')%Z
                          else negb (is_index kv')) kvs'
      && keys_ordered kvs'
  end.

(** The values [JSON.parse] produces: no [undefined], no NaN, integers of
    magnitude at most 2^53, objects with distinct keys in property order. *)
Fixpoint json_wf (v : jsval) : bool :=
  match v with
  | JUndefined | JNumber JNaN => false
  | JNumber (JNum z) => (Z.abs z <=? max_safe)%Z
  | JNull | JBool _ | JStr _ => true
  | JArr xs => forallb json_wf xs
  | JObj kvs =>
      bool_decide (NoDup (map fst kvs)) && keys_ordered kvs && forallb (fun kv => json_wf kv.2) kvs
  end.

Definition all_ws (l : list ascii) : Prop := forallb is_ws l = true.

(** The characters that may follow a number without extending it. *)
Definition stops_number (rest : list ascii) : bool :=
  match rest with
  | c :: _ => negb (is_digit c || Ascii.eqb c "." || Ascii.eqb c "e" || Ascii.eqb c "E")
  | [] => true
  end.

(** The first character of a value's text. *)
Definition value_start (c : ascii) : bool :=
  Ascii.eqb c "[" || Ascii.eqb c "{" || Ascii.eqb c dq || Ascii.eqb c "t" || Ascii.eqb c "f"
  || Ascii.eqb c "n" || Ascii.eqb c "-" || is_digit c.

(** ** Lemmas: characters and white space *)

Lemma skip_ws_app w s : all_ws w -> skip_ws (w ++ s) = skip_ws s.
Proof.
  induction w as [|c w IH]; [done|]. unfold all_ws. cbn [forallb app skip_ws].
  intros [-> H]%andb_true_iff. by apply IH.
Qed.

Lemma skip_ws_stop c s : is_ws c = false -> skip_ws (c :: s) = c :: s.
Proof. intros H. cbn [skip_ws]. by rewrite H. Qed.

Lemma all_ws_app w1 w2 : all_ws w1 -> all_ws w2 -> all_ws (w1 ++ w2).
Proof. unfold all_ws. rewrite forallb_app. by intros -> ->. Qed.

Lemma all_ws_nil : all_ws [].
Proof. done. Qed.

Lemma all_ws_nl w : all_ws w -> all_ws (nl :: w).
Proof. done. Qed.

Lemma all_ws_spaces n : all_ws (repeat " " n).
Proof. induction n; [done|]. exact IHn. Qed.

#[local] Hint Resolve all_ws_app all_ws_nil all_ws_nl all_ws_spaces : pscan.

(** ** Lemmas: string literals *)

Lemma parse_chars_quote_char c s : parse_chars (quote_char c ++ s) = pcons c (parse_chars s).
Proof. destruct c as [[] [] [] [] [] [] [] []]; reflexivity. Qed.

Lemma parse_chars_quote cs rest :
  parse_chars (flat_map quote_char cs ++ dq :: rest) = POk cs rest.
Proof.
  induction cs as [|c cs IH]; [reflexivity|].
  cbn [flat_map]. rewrite <- app_assoc, parse_chars_quote_char, IH. reflexivity.
Qed.

Lemma quote_parse k rest :
  exists s1, quote k ++ rest = dq :: s1 /\ parse_chars s1 = POk (list_ascii_of_string k) rest.
Proof.
  exists (flat_map quote_char (list_ascii_of_string k) ++ dq :: rest). split; [|apply parse_chars_quote].
  unfold quote. cbn [app]. by rewrite <- app_assoc.
Qed.

(** ** Lemmas: numbers *)

Lemma digit_char_nat d : (0 <= d < 10)%Z -> nat_of_ascii (digit_char d) = Z.to_nat (48 + d).
Proof. intros Hd. unfold digit_char. apply nat_ascii_embedding. lia. Qed.

Lemma digit_char_digit d : (0 <= d < 10)%Z -> is_digit (digit_char d) = true.
Proof.
  intros Hd. unfold is_digit. rewrite digit_char_nat by done.
  apply andb_true_iff; split; apply Nat.leb_le; lia.
Qed.

Lemma digit_char_value d : (0 <= d < 10)%Z -> (Z.of_nat (nat_of_ascii (digit_char d)) - 48)%Z = d.
Proof. intros Hd. rewrite digit_char_nat by done. lia. Qed.

Lemma decimal_rev_digits f n : Forall (fun c => is_digit c = true) (decimal_rev f n).
Proof.
  revert n. induction f as [|f IH]; intros n; [constructor|]. cbn [decimal_rev].
  destruct (n <=? 0)%Z; [constructor|]. constructor; [|apply IH].
  apply digit_char_digit. pose proof (Z.mod_pos_bound n 10). lia.
Qed.

Lemma digits_val_rev f n : (0 <= n < 10 ^ Z.of_nat f)%Z -> digits_val (rev (decimal_rev f n)) = n.
Proof.
  revert n. induction f as [|f IH]; intros n Hn; cbn [decimal_rev].
  - cbn in Hn. cbn. lia.
  - destruct (Z.leb_spec n 0); [cbn; lia|].
    cbn [rev]. unfold digits_val. rewrite fold_left_app. cbn [fold_left]. fold (digits_val (rev (decimal_rev f (n / 10)))).
    rewrite IH; [rewrite digit_char_value; [|pose proof (Z.mod_pos_bound n 10); lia]|].
    + pose proof (Z.div_mod n 10). lia.
    + rewrite Nat2Z.inj_succ, Z.pow_succ_r in Hn by lia.
      split; [apply Z.div_pos; lia|]. apply Z.div_lt_upper_bound; lia.
Qed.

Lemma decimal_rev_length f n k : (n < 10 ^ Z.of_nat k)%Z -> (List.length (decimal_rev f n) <= k)%nat.
Proof.
  revert n k. induction f as [|f IH]; intros n k Hn; cbn [decimal_rev]; [simpl; lia|].
  destruct (Z.leb_spec n 0); [simpl; lia|]. destruct k as [|k]; [cbn in Hn; lia|].
  cbn [List.length]. apply le_n_S, IH.
  rewrite Nat2Z.inj_succ, Z.pow_succ_r in Hn by lia. apply Z.div_lt_upper_bound; lia.
Qed.

(** The most significant digit of a positive number is not 0. *)
Lemma decimal_rev_last f n :
  (0 < n < 10 ^ Z.of_nat f)%Z -> exists l d, decimal_rev f n = l ++ [digit_char d] /\ (1 <= d < 10)%Z.
Proof.
  revert n. induction f as [|f IH]; intros n Hn; [cbn in Hn; lia|]. cbn [decimal_rev].
  destruct (Z.leb_spec n 0); [lia|].
  destruct (Z.lt_ge_cases n 10) as [Hlt|Hge].
  - exists [], n. rewrite Z.mod_small, Z.div_small by lia. split; [|lia].
    destruct f; cbn [decimal_rev]; [done|]. by rewrite Z.leb_refl.
  - destruct (IH (n / 10)%Z) as (l & d & -> & Hd).
    + rewrite Nat2Z.inj_succ, Z.pow_succ_r in Hn by lia.
      split; [apply Z.div_str_pos; lia|]. apply Z.div_lt_upper_bound; lia.
    + by exists (digit_char (n mod 10) :: l), d.
Qed.

Lemma log2_fuel n : (0 < n)%Z -> (n < 10 ^ Z.of_nat (S (Z.to_nat (Z.log2 n))))%Z.
Proof.
  intros Hn. pose proof (Z.log2_spec n Hn) as [_ H]. pose proof (Z.log2_nonneg n).
  rewrite Nat2Z.inj_succ, Z2Nat.id, <- Z.add_1_r by lia.
  eapply Z.lt_le_trans; [exact H|]. apply Z.pow_le_mono_l. lia.
Qed.

Lemma span_digits_app ds rest :
  Forall (fun c => is_digit c = true) ds -> stops_number rest = true -> span_digits (ds ++ rest) = (ds, rest).
Proof.
  intros Hds Hr. induction Hds as [|c ds Hc _ IH]; cbn [app span_digits].
  - destruct rest as [|c rest]; [done|]. cbn [stops_number] in Hr. cbn [span_digits].
    destruct (is_digit c); [done|reflexivity].
  - by rewrite Hc, IH.
Qed.

Lemma int_part_nonempty s ds r : int_part s = Some (ds, r) -> ds <> [].
Proof.
  unfold int_part. destruct s as [|c s]; [done|].
  destruct (Ascii.eqb c "0"); [congruence|]. destruct (is_digit c); [|done].
  destruct (span_digits s). congruence.
Qed.

Lemma number_value_int neg n nd :
  (0 <= n <= max_safe)%Z -> number_value neg n (0 - Z.of_nat 0) nd = Some (if neg then (- n)%Z else n).
Proof.
  intros Hn. unfold number_value. simpl. destruct (Z.eqb_spec n 0) as [->|]; [by destruct neg|].
  rewrite Z.mul_1_r. destruct (Z.leb_spec n max_safe); [done|lia].
Qed.

(** The decimal digits of a number up to 2^53: at most sixteen, read back
    by [digits_val] and by the integer part of the number grammar. *)
Lemma decimal_spec n rest :
  (0 <= n <= max_safe)%Z -> stops_number rest = true ->
  exists ds, decimal n = ds /\ Forall (fun c => is_digit c = true) ds /\
    (List.length ds <= 16)%nat /\ digits_val ds = n /\ int_part (ds ++ rest) = Some (ds, rest).
Proof.
  intros Hn Hr.
  unfold decimal. destruct (Z.eqb_spec n 0) as [E|E].
  - exists ["0"]. rewrite E. split; [done|]. split; [repeat constructor|].
    split; [simpl; lia|]. split; reflexivity.
  - assert (Hpos : (0 < n)%Z) by lia. pose proof (log2_fuel n Hpos) as Hf.
    destruct (decimal_rev_last _ n (conj Hpos Hf)) as (l & d & Hl & Hd).
    exists (rev (decimal_rev (S (Z.to_nat (Z.log2 n))) n)).
    pose proof (decimal_rev_digits (S (Z.to_nat (Z.log2 n))) n) as Hdig.
    split; [done|]. split; [by apply Forall_rev|]. split.
    { rewrite length_rev. apply (decimal_rev_length _ _ 16). unfold max_safe in *. simpl. lia. }
    split; [apply digits_val_rev; lia|].
    rewrite Hl in *. rewrite rev_app_distr. cbn [rev app].
    apply Forall_rev in Hdig. rewrite rev_app_distr in Hdig. cbn [rev app] in Hdig.
    inversion Hdig as [|? ? Hc Hrest]; subst.
    cbn [int_part]. replace (Ascii.eqb (digit_char d) "0") with false.
    + rewrite Hc, span_digits_app; done.
    + symmetry. apply Ascii.eqb_neq. intros Hc0.
      apply (f_equal nat_of_ascii) in Hc0. rewrite digit_char_nat in Hc0 by lia. change (nat_of_ascii "0") with 48 in Hc0. lia.
Qed.

(** The text of an integer of magnitude at most 2^53 reads back as it. *)
Lemma parse_number_text z rest :
  (Z.abs z <= max_safe)%Z -> stops_number rest = true ->
  parse_number (list_ascii_of_string (number_to_string z) ++ rest) = POk (JNumber (JNum z)) rest.
Proof.
  intros Hz Hr. set (n := Z.abs z).
  destruct (decimal_spec n rest ltac:(lia) Hr) as (ds & Hds & Hdig & Hlen & Hval & Hint).
  assert (Hfr : frac_part rest = Some ([], rest) /\ exp_part rest = Some (0%Z, rest)).
  { destruct rest as [|c r]; [done|]. cbn [stops_number] in Hr.
    cbn [frac_part exp_part]. destruct (is_digit c), (Ascii.eqb c "."), (Ascii.eqb c "e"), (Ascii.eqb c "E");
      done. }
  destruct Hfr as [Hfr Hexp].
  unfold number_to_string. fold n. rewrite Hds.
  replace (List.length ds <=? 21)%nat with true by (symmetry; apply Nat.leb_le; lia).
  unfold parse_number. destruct (Z.ltb_spec z 0) as [Hneg|Hneg].
  - rewrite list_ascii_of_string_app. cbn [list_ascii_of_string app].
    rewrite list_ascii_of_string_of_list_ascii, Ascii.eqb_refl. cbv beta iota.
    rewrite Hint, Hfr, Hexp, app_nil_r, Hval, number_value_int by lia. cbv beta iota. unfold n. do 3 f_equal. lia.
  - rewrite string_app_nil_l, list_ascii_of_string_of_list_ascii.
    destruct ds as [|c ds']; [by apply int_part_nonempty in Hint|].
    inversion Hdig as [|? ? Hc _]; subst c.
    cbn [app]. replace (Ascii.eqb _ "-") with false; cycle 1.
    { symmetry. apply Ascii.eqb_neq. intros ->. discriminate. }
    cbv beta iota.
    cbn [app] in Hint. rewrite Hint, Hfr, Hexp, app_nil_r, Hval, number_value_int by lia.
    cbv beta iota. unfold n. do 3 f_equal. lia.
Qed.

Lemma number_text_shape z :
  (Z.abs z <= max_safe)%Z ->
  list_ascii_of_string (number_to_string z) = (if (z <? 0)%Z then ["-"] else []) ++ decimal (Z.abs z).
Proof.
  intros Hz. destruct (decimal_spec (Z.abs z) [] ltac:(lia) eq_refl) as (ds & Hds & _ & Hlen & _).
  unfold number_to_string. rewrite Hds.
  replace (List.length ds <=? 21)%nat with true by (symmetry; apply Nat.leb_le; lia).
  destruct (z <? 0)%Z; cbn [app]; [rewrite list_ascii_of_string_app|rewrite string_app_nil_l];
    by rewrite list_ascii_of_string_of_list_ascii.
Qed.

(** ** Lemmas: the shape of a value's text *)

Lemma value_start_facts c :
  value_start c = true ->
  is_ws c = false /\ Ascii.eqb c "]" = false /\ Ascii.eqb c "}" = false /\ Ascii.eqb c "," = false.
Proof. destruct c as [[] [] [] [] [] [] [] []]; cbv; intuition discriminate. Qed.

Lemma ser_head gap ind v t :
  json_wf v = true -> ser gap ind v = Some t -> exists c r, t = c :: r /\ value_start c = true.
Proof.
  intros Hwf Hser. destruct v as [| |b|[z|]|s|xs|kvs]; cbn [ser] in Hser; simplify_eq/=; try discriminate.
  - by eexists _, _.
  - destruct b; by eexists _, _.
  - apply Z.leb_le in Hwf. rewrite number_text_shape by done.
    destruct (decimal_spec (Z.abs z) [] ltac:(lia) eq_refl) as (ds & -> & Hdig & _ & _ & Hint).
    destruct ds as [|c ds]; [by apply int_part_nonempty in Hint|].
    destruct (z <? 0)%Z; cbn [app]; eexists _, _; (split; [reflexivity|]).
    + reflexivity.
    + inversion Hdig as [|? ? Hc]; subst. unfold value_start. rewrite Hc. by rewrite !orb_true_r.
  - by eexists _, _.
  - unfold wrap. destruct (map _ xs), gap; by eexists _, _.
  - unfold wrap. destruct (flat_map _ kvs), gap; by eexists _, _.
Qed.

(** Where the next character is a number's first, [parse_value] reads a number. *)
Lemma parse_value_number f c s :
  (Ascii.eqb c "-" || is_digit c) = true -> parse_value (S f) (c :: s) = parse_number (c :: s).
Proof. destruct c as [[] [] [] [] [] [] [] []]; cbv [orb Ascii.eqb is_digit]; try discriminate; reflexivity. Qed.

Lemma parse_value_ws f w s : all_ws w -> parse_value f (w ++ s) = parse_value f s.
Proof. intros Hw. destruct f; [done|]. cbn [parse_value]. by rewrite skip_ws_app. Qed.

Lemma join_cons sep x xs : join sep (x :: xs) = x ++ List.concat (map (fun t => sep ++ t) xs).
Proof.
  revert x. induction xs as [|y xs IH]; intros x; [by rewrite app_nil_r|].
  change (join sep (x :: y :: xs)) with (x ++ sep ++ join sep (y :: xs)).
  rewrite IH. cbn [map List.concat]. by rewrite <- !app_assoc.
Qed.

Lemma wrap_shape o c gap stepback ind items :
  items <> [] -> all_ws stepback -> all_ws ind ->
  exists lead sepw tail, all_ws lead /\ all_ws sepw /\ all_ws tail /\
    wrap o c gap stepback ind items = o :: lead ++ join ("," :: sepw) items ++ tail ++ [c].
Proof.
  intros Hne Hsb Hind. unfold wrap. destruct items as [|x items]; [done|].
  destruct gap as [|g gap].
  - by exists [], [], [].
  - exists (nl :: ind), (nl :: ind), (nl :: stepback). do 3 (split; [done|]).
    reflexivity.
Qed.

Lemma stops_number_close c r :
  (Ascii.eqb c "," || Ascii.eqb c "]" || Ascii.eqb c "}" || is_ws c) = true -> stops_number (c :: r) = true.
Proof. destruct c as [[] [] [] [] [] [] [] []]; cbv; intuition discriminate. Qed.

(** ** Lemmas: objects *)

Lemma insert_by_index_front kv l :
  Forall (fun kv' => (index_of kv < index_of kv')%Z) l -> insert_by_index kv l = kv :: l.
Proof. intros Hl. destruct Hl as [|kv' l' H _]; [done|]. cbn [insert_by_index]. by rewrite (proj2 (Z.ltb_lt _ _) H). Qed.

Lemma keys_ordered_indices kvs :
  keys_ordered kvs = true -> fold_right insert_by_index [] (List.filter is_index kvs) = List.filter is_index kvs.
Proof.
  induction kvs as [|kv kvs IH]; [done|]. cbn [keys_ordered List.filter].
  intros [Hall Hord]%andb_true_iff. destruct (is_index kv) eqn:Ekv; cbn [fold_right]; rewrite IH by done; [|done].
  apply insert_by_index_front, List.Forall_forall. intros kv' Hin.
  apply List.filter_In in Hin as [Hin Hidx]. eapply List.forallb_forall in Hall; [|exact Hin].
  rewrite Hidx in Hall. by apply Z.ltb_lt.
Qed.

(** An object already in property order is unchanged by [own_keys_order]. *)
Lemma own_keys_order_id kvs : keys_ordered kvs = true -> own_keys_order kvs = kvs.
Proof.
  unfold own_keys_order. intros Hord. rewrite keys_ordered_indices by done.
  induction kvs as [|kv kvs IH]; [done|]. cbn [keys_ordered] in Hord. apply andb_true_iff in Hord as [Hall Hord].
  cbn [List.filter]. destruct (is_index kv) eqn:Ekv; cbn [negb app].
  - by rewrite IH.
  - f_equal. rewrite filter_all_false, filter_all_true; [done| |];
      intros kv' Hin; eapply List.forallb_forall in Hall; try exact Hin; [done|].
    by apply negb_true_iff.
Qed.

Lemma define_property_fresh kvs k v : k ∉ map fst kvs -> define_property kvs k v = kvs ++ [(k, v)].
Proof.
  induction kvs as [|[k' v'] kvs IH]; intros Hk; [done|]. cbn [define_property].
  cbn [map fst] in Hk. apply not_elem_of_cons in Hk as [Hne Hk].
  destruct (String.eqb_spec k k'); [done|]. by rewrite IH.
Qed.

Lemma member_key_text w k s : all_ws w -> member_key (w ++ quote k ++ ":" :: s) = POk k s.
Proof.
  intros Hw. unfold member_key. rewrite skip_ws_app by done.
  destruct (quote_parse k (":" :: s)) as (s1 & -> & Hs1). cbn [skip_ws is_ws nat_of_ascii].
  change (is_ws dq) with false. cbv iota. rewrite Ascii.eqb_refl, Hs1. cbn [pbind]. unfold token. cbn.
  by rewrite string_of_list_ascii_of_string.
Qed.

(** ** The round trip *)

Lemma ser_some gap ind v : json_wf v = true -> exists t, ser gap ind v = Some t.
Proof. destruct v as [| | |[]| | |]; cbn [json_wf ser]; try discriminate; eauto. Qed.

Lemma parse_value_array f s :
  token "]" s = None -> parse_value (S f) ("[" :: s) = pbind (parse_value f s) (fun v s2 => parse_elements f s2 [v]).
Proof. intros H. change (match token "]" s with Some s2 => POk (JArr []) s2 | None => pbind (parse_value f s) (fun v s2 => parse_elements f s2 [v]) end = pbind (parse_value f s) (fun v s2 => parse_elements f s2 [v])). by rewrite H. Qed.

Lemma parse_value_object f s :
  token "}" s = None ->
  parse_value (S f) ("{" :: s) =
  pbind (member_key s) (fun k s2 => pbind (parse_value f s2) (fun v s3 => parse_members f s3 [(k, v)])).
Proof.
  intros H. change (match token "}" s with Some s2 => POk (JObj []) s2 | None => pbind (member_key s) (fun k s2 => pbind (parse_value f s2) (fun v s3 => parse_members f s3 [(k, v)])) end = pbind (member_key s) (fun k s2 => pbind (parse_value f s2) (fun v s3 => parse_members f s3 [(k, v)]))).
  by rewrite H.
Qed.

Lemma token_before_value d w c s :
  all_ws w -> value_start c = true -> Ascii.eqb c d = false -> token d (w ++ c :: s) = None.
Proof.
  intros Hw Hc Hd. unfold token. rewrite skip_ws_app by done.
  destruct (value_start_facts c Hc) as (Hws & _). by rewrite skip_ws_stop, Hd.
Qed.

Lemma stops_number_list sepw tail close ts rest :
  all_ws tail -> (Ascii.eqb close "]" || Ascii.eqb close "}") = true ->
  stops_number (List.concat (map (fun t => ("," :: sepw) ++ t) ts) ++ tail ++ close :: rest) = true.
Proof.
  intros Ht Hc. destruct ts as [|t ts]; [|done]. cbn [map List.concat app].
  destruct tail as [|c tail]; cbn [app].
  - apply orb_true_iff in Hc as [Hc|Hc]; apply Ascii.eqb_eq in Hc; by subst.
  - apply stops_number_close. apply andb_true_iff in Ht as [-> _]. by rewrite !orb_true_r.
Qed.

Lemma parse_value_string f s1 :
  parse_value (S f) (dq :: s1) = pmap (fun cs => JStr (string_of_list_ascii cs)) (parse_chars s1).
Proof. reflexivity. Qed.

Lemma parse_value_number_text f z rest :
  (Z.abs z <= max_safe)%Z ->
  parse_value (S f) (list_ascii_of_string (number_to_string z) ++ rest) =
  parse_number (list_ascii_of_string (number_to_string z) ++ rest).
Proof.
  intros Hz. rewrite number_text_shape by done.
  destruct (decimal_spec (Z.abs z) [] ltac:(lia) eq_refl) as (ds & -> & Hdig & _ & _ & Hint).
  destruct ds as [|c ds]; [by apply int_part_nonempty in Hint|].
  inversion Hdig as [|? ? Hc]; subst.
  destruct (z <? 0)%Z; cbn [app]; apply parse_value_number; [done|]. by rewrite Hc, orb_true_r.
Qed.

Section RoundTrip.
Context (gap : list ascii) (Hgap : all_ws gap).

(** [x] serialized at indent [ind] reads back as itself. *)
Definition round (ind : list ascii) (x : jsval) : Prop :=
  forall t f rest, ser gap ind x = Some t -> (List.length t < f)%nat -> stops_number rest = true ->
  parse_value f (t ++ rest) = POk x rest.

Lemma parse_elements_text ind sepw tail xs acc f rest :
  all_ws sepw -> all_ws tail -> Forall (fun x => json_wf x = true /\ round ind x) xs ->
  let text := List.concat (map (fun t => ("," :: sepw) ++ t) (map (fun x => default null_text (ser gap ind x)) xs)) in
  (List.length (text ++ tail ++ ["]"]) <= f)%nat ->
  parse_elements f (text ++ tail ++ "]" :: rest) acc = POk (JArr (acc ++ xs)) rest.
Proof.
  intros Hs Ht Hall. revert acc f. induction Hall as [|x xs [Hwf Hx] Hall IH]; intros acc f; cbn zeta; intros Hlen.
  - destruct f as [|f]; [rewrite !length_app in Hlen; simpl in Hlen; lia|].
    cbn [map List.concat app parse_elements]. rewrite skip_ws_app by done. rewrite app_nil_r. reflexivity.
  - destruct (ser_some gap ind x Hwf) as [tx Htx].
    cbn [map List.concat] in *. rewrite Htx in *. cbn [default id] in *.
    destruct f as [|f]; [rewrite !length_app in Hlen; simpl in Hlen; lia|].
    rewrite <- !app_assoc. cbn [app parse_elements skip_ws].
    change (is_ws ",") with false. cbv iota. rewrite Ascii.eqb_refl.
    rewrite ?length_app in Hlen. cbn [List.length] in Hlen. rewrite ?length_app in Hlen.
    rewrite parse_value_ws, (Hx tx f) by first [done | lia | apply stops_number_list; done].
    cbn [pbind]. rewrite IH; [by rewrite <- app_assoc|]. rewrite ?length_app. cbn [List.length]. lia.
Qed.

Lemma all_ws_colon_space : all_ws (if gap is [] then [] else [" "]).
Proof. by destruct gap. Qed.

Lemma parse_members_text ind sepw tail kvs acc f rest :
  all_ws sepw -> all_ws tail -> Forall (fun kv => json_wf kv.2 = true /\ round ind kv.2) kvs ->
  NoDup (map fst (acc ++ kvs)) ->
  let text := List.concat (map (fun t => ("," :: sepw) ++ t)
                (map (fun '(k, x) => quote k ++ [":"] ++ (if gap is [] then [] else [" "]) ++
                                     default null_text (ser gap ind x)) kvs)) in
  (List.length (text ++ tail ++ ["}"]) <= f)%nat ->
  parse_members f (text ++ tail ++ "}" :: rest) acc = POk (JObj (own_keys_order (acc ++ kvs))) rest.
Proof.
  intros Hs Ht Hall. revert acc f. induction Hall as [|[k x] kvs [Hwf Hx] Hall IH]; intros acc f Hnd; cbn zeta;
    intros Hlen.
  - destruct f as [|f]; [rewrite !length_app in Hlen; simpl in Hlen; lia|].
    cbn [map List.concat app parse_members]. rewrite skip_ws_app by done. rewrite app_nil_r. reflexivity.
  - destruct (ser_some gap ind x Hwf) as [tx Htx].
    cbn [map List.concat] in *. rewrite Htx in *. cbn [default id] in *.
    destruct f as [|f]; [rewrite !length_app in Hlen; simpl in Hlen; lia|].
    rewrite <- !app_assoc. cbn [app parse_members skip_ws].
    change (is_ws ",") with false. cbv iota. rewrite Ascii.eqb_refl.
    rewrite ?length_app in Hlen. cbn [List.length] in Hlen. rewrite ?length_app in Hlen.
    rewrite member_key_text by done. cbn [pbind].
    rewrite parse_value_ws, (Hx tx f) by first [done | apply all_ws_colon_space | lia | apply stops_number_list; done].
    cbn [pbind]. rewrite define_property_fresh; cycle 1.
    { rewrite map_app in Hnd. cbn [map fst] in Hnd. apply NoDup_app in Hnd as (_ & Hdis & _).
      intros Hin. apply (Hdis k Hin). by left. }
    rewrite IH; [by rewrite <- app_assoc|by rewrite <- app_assoc|].
    rewrite ?length_app. cbn [List.length]. lia.
Qed.

(** A well-formed value serialized at any white-space indent reads back as
    itself, with one unit of fuel per character. *)
Lemma ser_parse v : json_wf v = true -> forall ind, all_ws ind -> round ind v.
Proof.
  induction v as [| |b|n|s|xs IH|kvs IH] using jsval_ind';
    intros Hwf ind Hind t f rest Hser Hlen Hstop; cbn [json_wf ser] in Hwf, Hser; try discriminate;
    (destruct f as [|f]; [lia|]).
  - by injection Hser as <-.
  - injection Hser as <-. by destruct b.
  - destruct n as [z|]; [|discriminate]. injection Hser as <-. apply Z.leb_le in Hwf.
    rewrite parse_value_number_text by done. by apply parse_number_text.
  - injection Hser as <-. destruct (quote_parse s rest) as (s1 & -> & Hs1).
    rewrite parse_value_string, Hs1. cbn [pmap pbind]. by rewrite string_of_list_ascii_of_string.
  - injection Hser as <-. rewrite List.forallb_forall in Hwf.
    assert (Hall : Forall (fun x => json_wf x = true /\ round (ind ++ gap) x) xs).
    { apply List.Forall_forall. intros x Hin. eapply List.Forall_forall in IH; [|exact Hin].
      pose proof (Hwf _ Hin). split; [done|]. apply IH; auto with pscan. }
    destruct Hall as [|x xs [Hwx Hx] Hall]; [reflexivity|].
    destruct (wrap_shape "[" "]" gap ind (ind ++ gap) (map (fun x => default null_text (ser gap (ind ++ gap) x)) (x :: xs)))
      as (lead & sepw & tail & Hl & Hs & Ht & Hw); [done|done|auto with pscan|].
    destruct (ser_some gap (ind ++ gap) x Hwx) as [tx Htx].
    rewrite Hw in Hlen |- *. cbn [map] in Hlen |- *. rewrite join_cons, Htx in Hlen |- *.
    cbn [default id] in Hlen |- *. rewrite <- !app_assoc. cbn [app].
    destruct (ser_head gap (ind ++ gap) x tx Hwx Htx) as (c & r & -> & Hc).
    cbn [app]. rewrite <- !app_assoc. cbn [app].
    rewrite parse_value_array; [|apply token_before_value; [done|done|by apply value_start_facts]].
    cbn [List.length] in Hlen. rewrite ?length_app in Hlen. cbn [List.length] in Hlen. rewrite ?length_app in Hlen.
    rewrite parse_value_ws, <- ?app_assoc, app_comm_cons by done. change (["]"] ++ rest) with ("]" :: rest).
    rewrite (Hx (c :: r) f) by first [done | cbn [List.length]; lia | apply stops_number_list; done].
    cbn [pbind]. refine (eq_trans (parse_elements_text (ind ++ gap) sepw tail xs [x] f rest Hs Ht Hall _) eq_refl).
    rewrite ?length_app. cbn [List.length] in *. lia.
  - injection Hser as <-. apply andb_true_iff in Hwf as [[Hnd Hord]%andb_true_iff Hwf].
    apply bool_decide_eq_true in Hnd. rewrite List.forallb_forall in Hwf.
    assert (Hall : Forall (fun kv => json_wf kv.2 = true /\ round (ind ++ gap) kv.2) kvs).
    { apply List.Forall_forall. intros kv Hin. eapply List.Forall_forall in IH; [|exact Hin].
      pose proof (Hwf _ Hin). split; [done|]. apply IH; auto with pscan. }
    assert (Hitems : forall kvs', Forall (fun kv => json_wf kv.2 = true) kvs' ->
      flat_map (fun '(k, x) => match ser gap (ind ++ gap) x with
                               | Some t => [quote k ++ [":"] ++ (if gap is [] then [] else [" "]) ++ t]
                               | None => [] end) kvs' =
      map (fun '(k, x) => quote k ++ [":"] ++ (if gap is [] then [] else [" "]) ++
                          default null_text (ser gap (ind ++ gap) x)) kvs').
    { induction 1 as [|[k x] kvs' Hx _ IHk]; [done|]. cbn [flat_map map].
      destruct (ser_some gap (ind ++ gap) x Hx) as [tx ->]. by rewrite IHk. }
    rewrite Hitems in Hlen |- * by (eapply List.Forall_impl; [|exact Hall]; by intros ? []).
    destruct Hall as [|[k x] kvs [Hwx Hx] Hall]; [reflexivity|].
    destruct (wrap_shape "{" "}" gap ind (ind ++ gap) (map (fun '(k, x) => quote k ++ [":"] ++ (if gap is [] then [] else [" "]) ++
                          default null_text (ser gap (ind ++ gap) x)) ((k, x) :: kvs)))
      as (lead & sepw & tail & Hl & Hs & Ht & Hw); [done|done|auto with pscan|].
    destruct (ser_some gap (ind ++ gap) x Hwx) as [tx Htx].
    rewrite Hw in Hlen |- *. cbn [map] in Hlen |- *. rewrite join_cons, Htx in Hlen |- *.
    cbn [default id] in Hlen |- *. rewrite <- !app_assoc. cbn [app].
    rewrite <- ?app_assoc. cbn [app]. rewrite <- ?app_assoc.
    cbn [List.length] in Hlen. rewrite ?length_app in Hlen. cbn [List.length] in Hlen. rewrite ?length_app in Hlen.
    rewrite parse_value_object; [|unfold quote at 1; cbn [app]; by apply token_before_value].
    rewrite member_key_text by done. cbn [pbind].
    rewrite parse_value_ws, <- ?app_assoc by apply all_ws_colon_space. change (["}"] ++ rest) with ("}" :: rest).
    rewrite (Hx tx f) by first [done | lia | apply stops_number_list; done].
    cbn [pbind]. refine (eq_trans (parse_members_text (ind ++ gap) sepw tail kvs [(k, x)] f rest Hs Ht Hall Hnd _) _).
    2: by cbn [app]; rewrite (own_keys_order_id _ Hord).
    rewrite ?length_app. cbn [List.length] in *. lia.
Qed.

End RoundTrip.

(** ** The parser consumes its input and never runs out of fuel *)

Lemma pbind_ok {A B} (m : presult A) (k : A -> list ascii -> presult B) v r :
  pbind m k = POk v r -> exists a s, m = POk a s /\ k a s = POk v r.
Proof. destruct m; cbn [pbind]; try discriminate. eauto. Qed.

Lemma pbind_not_fuel {A B} (m : presult A) (k : A -> list ascii -> presult B) :
  m <> PFuel -> (forall a s, m = POk a s -> k a s <> PFuel) -> pbind m k <> PFuel.
Proof. destruct m; cbn [pbind]; try discriminate; eauto. Qed.

Lemma skip_ws_length s : (List.length (skip_ws s) <= List.length s)%nat.
Proof. induction s as [|c s IH]; cbn [skip_ws]; [done|]. destruct (is_ws c); simpl; lia. Qed.

Lemma token_length c s r : token c s = Some r -> (List.length r < List.length s)%nat.
Proof.
  unfold token. pose proof (skip_ws_length s). destruct (skip_ws s) as [|c' s']; [done|].
  destruct (Ascii.eqb c' c); [|done]. intros [= <-]. simpl in *. lia.
Qed.

Lemma pcons_ok c m cs r : pcons c m = POk cs r -> exists cs', m = POk cs' r.
Proof. unfold pcons, pmap. intros (a & s & -> & [= _ ->])%pbind_ok. eauto. Qed.

Lemma parse_chars_length s cs r : parse_chars s = POk cs r -> (List.length r < List.length s)%nat.
Proof.
  revert cs. induction s as [s IH] using (induction_ltof1 _ (@List.length ascii)); unfold ltof in IH.
  intros cs. destruct s as [|c s']; cbn [parse_chars]; [done|].
  destruct (Ascii.eqb c dq); [intros [= _ <-]; simpl; lia|].
  destruct (Ascii.eqb c bs).
  - destruct s' as [|e s'']; [done|]. destruct (escape e).
    + intros (cs' & Hm)%pcons_ok. apply IH in Hm; simpl in *; lia.
    + destruct (Ascii.eqb e "u"); [|done].
      destruct s'' as [|h1 [|h2 [|h3 [|h4 s3]]]]; try done.
      destruct (hex_val h1), (hex_val h2), (hex_val h3), (hex_val h4); try done.
      case_bool; [|done]. intros (cs' & Hm)%pcons_ok. apply IH in Hm; simpl in *; lia.
  - destruct (Nat.ltb (nat_of_ascii c) 32); [done|].
    intros (cs' & Hm)%pcons_ok. apply IH in Hm; simpl in *; lia.
Qed.

Lemma span_digits_length s : (List.length (span_digits s).2 <= List.length s)%nat.
Proof.
  induction s as [|c s IH]; cbn [span_digits]; [done|].
  destruct (is_digit c); [|done]. destruct (span_digits s) as [ds r]. simpl in *. lia.
Qed.

Lemma parse_number_length s v r : parse_number s = POk v r -> (List.length r < List.length s)%nat.
Proof.
  unfold parse_number. intros H.
  assert (E : (List.length (match s with c :: s' => if Ascii.eqb c "-" then (true, s') else (false, s)
                                         | [] => (false, s) end).2 <= List.length s)%nat).
  { destruct s as [|c s']; [done|]. destruct (Ascii.eqb c "-"); simpl; lia. }
  destruct (match s with c :: s' => _ | [] => _ end) as [neg s1]. cbn [snd] in E.
  destruct (int_part s1) as [[ip s2]|] eqn:Ei; [|done].
  assert (Hi : (List.length s2 < List.length s1)%nat).
  { unfold int_part in Ei. destruct s1 as [|c s1']; [done|].
    destruct (Ascii.eqb c "0"); [injection Ei as _ <-; simpl; lia|]. destruct (is_digit c); [|done].
    pose proof (span_digits_length s1'). destruct (span_digits s1') as [ds r']. injection Ei as _ <-. simpl in *. lia. }
  destruct (frac_part s2) as [[fp s3]|] eqn:Ef; [|done].
  assert (Hf : (List.length s3 <= List.length s2)%nat).
  { unfold frac_part in Ef. destruct s2 as [|c s2']; [by injection Ef as _ <-|].
    destruct (Ascii.eqb c "."); [|by injection Ef as _ <-].
    pose proof (span_digits_length s2'). destruct (span_digits s2') as [[|d ds] r']; [done|].
    injection Ef as _ <-. simpl in *. lia. }
  destruct (exp_part s3) as [[e s4]|] eqn:Ee; [|done].
  assert (He : (List.length s4 <= List.length s3)%nat).
  { unfold exp_part in Ee. destruct s3 as [|c s3']; [by injection Ee as _ <-|].
    destruct (Ascii.eqb c "e" || Ascii.eqb c "E"); [|by injection Ee as _ <-].
    set (p := match s3' with d :: r0 => _ | [] => _ end) in Ee.
    assert (Hp : (List.length p.2 <= List.length s3')%nat).
    { subst p. destruct s3' as [|d r0]; [done|]. destruct (Ascii.eqb d "-"); [simpl; lia|].
      destruct (Ascii.eqb d "+"); simpl; lia. }
    destruct p as [sg s'']. pose proof (span_digits_length s''). destruct (span_digits s'') as [[|d ds] r']; [done|].
    injection Ee as _ <-. simpl in *. lia. }
  destruct (number_value _ _ _ _); [|done]. injection H as _ <-. lia.
Qed.

Lemma strip_prefix_length w s r : strip_prefix w s = Some r -> (List.length r <= List.length s)%nat.
Proof.
  revert s. induction w as [|a w IH]; intros s; cbn [strip_prefix]; [by intros [= ->]|].
  destruct s as [|b s]; [done|]. destruct (Ascii.eqb a b); [|done]. intros H%IH. simpl. lia.
Qed.

Lemma member_key_length s k r : member_key s = POk k r -> (List.length r < List.length s)%nat.
Proof.
  unfold member_key. pose proof (skip_ws_length s). destruct (skip_ws s) as [|c s1]; [done|].
  destruct (Ascii.eqb c dq); [|done]. intros (ks & s2 & Hc & Hk)%pbind_ok.
  apply parse_chars_length in Hc. destruct (token ":" s2) as [s3|] eqn:Et; [|done].
  apply token_length in Et. injection Hk as _ <-. simpl in *. lia.
Qed.

Lemma parse_chars_not_fuel s : parse_chars s <> PFuel.
Proof.
  induction s as [s IH] using (induction_ltof1 _ (@List.length ascii)); unfold ltof in IH.
  assert (Hp : forall c s', (List.length s' < List.length s)%nat -> pcons c (parse_chars s') <> PFuel).
  { intros c s' Hlt. unfold pcons, pmap. apply pbind_not_fuel; [by apply IH|done]. }
  destruct s as [|c s']; cbn [parse_chars]; [done|].
  destruct (Ascii.eqb c dq); [done|]. destruct (Ascii.eqb c bs).
  - destruct s' as [|e s'']; [done|]. destruct (escape e); [apply Hp; simpl; lia|].
    destruct (Ascii.eqb e "u"); [|done]. destruct s'' as [|h1 [|h2 [|h3 [|h4 s3]]]]; try done.
    destruct (hex_val h1), (hex_val h2), (hex_val h3), (hex_val h4); try done.
    case_bool; [apply Hp; simpl; lia|done].
  - destruct (Nat.ltb (nat_of_ascii c) 32); [done|]. apply Hp. simpl. lia.
Qed.

Lemma member_key_not_fuel s : member_key s <> PFuel.
Proof.
  unfold member_key. destruct (skip_ws s) as [|c s1]; [done|]. destruct (Ascii.eqb c dq); [|done].
  apply pbind_not_fuel; [apply parse_chars_not_fuel|]. intros a s2 _. by destruct (token ":" s2).
Qed.

Lemma parse_number_not_fuel s : parse_number s <> PFuel.
Proof.
  unfold parse_number. destruct (match s with c :: s' => _ | [] => _ end) as [neg s1].
  destruct (int_part s1) as [[ip s2]|]; [|done]. destruct (frac_part s2) as [[fp s3]|]; [|done].
  destruct (exp_part s3) as [[e s4]|]; [|done]. by destruct (number_value _ _ _ _).
Qed.

Lemma literal_not_fuel w v s : literal w v s <> PFuel.
Proof. unfold literal. by destruct (strip_prefix _ _). Qed.

Lemma literal_length w v s v' r : literal w v s = POk v' r -> (List.length r <= List.length s)%nat.
Proof.
  unfold literal. destruct (strip_prefix _ _) eqn:Es; [|done]. intros [= _ <-]. by apply strip_prefix_length in Es.
Qed.

(** Each parser returns a strict suffix of its input. *)
Lemma parse_suffix f :
  (forall s v r, parse_value f s = POk v r -> (List.length r < List.length s)%nat) /\
  (forall s acc v r, parse_elements f s acc = POk v r -> (List.length r < List.length s)%nat) /\
  (forall s acc v r, parse_members f s acc = POk v r -> (List.length r < List.length s)%nat).
Proof.
  induction f as [|f (IHv & IHe & IHm)]; [repeat split; intros; discriminate|].
  split; [|split].
  - intros s v r. cbn [parse_value]. pose proof (skip_ws_length s) as Hw.
    destruct (skip_ws s) as [|c s1]; [discriminate|]. cbn [List.length] in Hw.
    destruct (Ascii.eqb c "[").
    { destruct (token "]" s1) as [s2|] eqn:Et; [intros [= _ <-]; apply token_length in Et; lia|].
      intros (a & s2 & Ha & Hk)%pbind_ok. apply IHv in Ha. apply IHe in Hk. lia. }
    destruct (Ascii.eqb c "{").
    { destruct (token "}" s1) as [s2|] eqn:Et; [intros [= _ <-]; apply token_length in Et; lia|].
      intros (k & s2 & Hk1 & (a & s3 & Ha & Hm)%pbind_ok)%pbind_ok.
      apply member_key_length in Hk1. apply IHv in Ha. apply IHm in Hm. lia. }
    destruct (Ascii.eqb c dq).
    { unfold pmap. intros (cs & s2 & Hc & [= _ <-])%pbind_ok. apply parse_chars_length in Hc. lia. }
    destruct (Ascii.eqb c "t"); [intros ?%literal_length; lia|].
    destruct (Ascii.eqb c "f"); [intros ?%literal_length; lia|].
    destruct (Ascii.eqb c "n"); [intros ?%literal_length; lia|].
    intros Hn%parse_number_length. simpl in Hn. lia.
  - intros s acc v r. cbn [parse_elements]. pose proof (skip_ws_length s) as Hw.
    destruct (skip_ws s) as [|c s1]; [discriminate|]. cbn [List.length] in Hw.
    destruct (Ascii.eqb c ",").
    + intros (a & s2 & Ha & Hk)%pbind_ok. apply IHv in Ha. apply IHe in Hk. lia.
    + destruct (Ascii.eqb c "]"); [intros [= _ <-]; lia|discriminate].
  - intros s acc v r. cbn [parse_members]. pose proof (skip_ws_length s) as Hw.
    destruct (skip_ws s) as [|c s1]; [discriminate|]. cbn [List.length] in Hw.
    destruct (Ascii.eqb c ",").
    + intros (k & s2 & Hk1 & (a & s3 & Ha & Hm)%pbind_ok)%pbind_ok.
      apply member_key_length in Hk1. apply IHv in Ha. apply IHm in Hm. lia.
    + destruct (Ascii.eqb c "}"); [intros [= _ <-]; lia|discriminate].
Qed.

(** With more fuel than input characters, no parser runs out of fuel. *)
Lemma parse_not_fuel f :
  (forall s, (List.length s < f)%nat -> parse_value f s <> PFuel) /\
  (forall s acc, (List.length s < f)%nat -> parse_elements f s acc <> PFuel) /\
  (forall s acc, (List.length s < f)%nat -> parse_members f s acc <> PFuel).
Proof.
  induction f as [|f (IHv & IHe & IHm)]; [repeat split; intros; lia|].
  destruct (parse_suffix f) as (Sv & _ & _).
  split; [|split].
  - intros s Hs. cbn [parse_value]. pose proof (skip_ws_length s) as Hw.
    destruct (skip_ws s) as [|c s1]; [discriminate|]. cbn [List.length] in Hw.
    destruct (Ascii.eqb c "[").
    { destruct (token "]" s1); [discriminate|]. apply pbind_not_fuel; [apply IHv; lia|].
      intros a s2 Ha%Sv. apply IHe. lia. }
    destruct (Ascii.eqb c "{").
    { destruct (token "}" s1); [discriminate|]. apply pbind_not_fuel; [apply member_key_not_fuel|].
      intros k s2 Hk%member_key_length. apply pbind_not_fuel; [apply IHv; lia|].
      intros a s3 Ha%Sv. apply IHm. lia. }
    destruct (Ascii.eqb c dq); [unfold pmap; apply pbind_not_fuel; [apply parse_chars_not_fuel|done]|].
    destruct (Ascii.eqb c "t"); [apply literal_not_fuel|].
    destruct (Ascii.eqb c "f"); [apply literal_not_fuel|].
    destruct (Ascii.eqb c "n"); [apply literal_not_fuel|]. apply parse_number_not_fuel.
  - intros s acc Hs. cbn [parse_elements]. pose proof (skip_ws_length s) as Hw.
    destruct (skip_ws s) as [|c s1]; [discriminate|]. cbn [List.length] in Hw.
    destruct (Ascii.eqb c ",").
    + apply pbind_not_fuel; [apply IHv; lia|]. intros a s2 Ha%Sv. apply IHe. lia.
    + by destruct (Ascii.eqb c "]").
  - intros s acc Hs. cbn [parse_members]. pose proof (skip_ws_length s) as Hw.
    destruct (skip_ws s) as [|c s1]; [discriminate|]. cbn [List.length] in Hw.
    destruct (Ascii.eqb c ",").
    + apply pbind_not_fuel; [apply member_key_not_fuel|].
      intros k s2 Hk%member_key_length. apply pbind_not_fuel; [apply IHv; lia|].
      intros a s3 Ha%Sv. apply IHm. lia.
    + by destruct (Ascii.eqb c "}").
Qed.

(** [json_parse] gives the parser one unit of fuel per character, which
    is never exhausted: its only [JUnmodelled] answers come from text the
    model does not cover, and the fuel bound adds none. *)
Theorem json_parse_fuel text :
  parse_value (S (List.length (list_ascii_of_string text))) (list_ascii_of_string text) <> PFuel.
Proof. apply (parse_not_fuel _). lia. Qed.

(** ** What [JSON.parse] produces is well formed *)

Lemma is_digit_range c : is_digit c = true -> (48 <= nat_of_ascii c <= 57)%nat.
Proof. unfold is_digit. intros [H1 H2]%andb_true_iff. apply Nat.leb_le in H1, H2. lia. Qed.

Lemma digits_val_nonneg l : Forall (fun c => is_digit c = true) l -> (0 <= digits_val l)%Z.
Proof.
  unfold digits_val. intros Hl.
  cut (forall acc, (0 <= acc)%Z ->
         (0 <= fold_left (fun acc c => (acc * 10 + (Z.of_nat (nat_of_ascii c) - 48))%Z) l acc)%Z);
    [intros H; apply H; lia|].
  induction Hl as [|c l Hc _ IH]; intros acc Hacc; cbn [fold_left]; [done|].
  apply IH. apply is_digit_range in Hc. lia.
Qed.

Lemma span_digits_digits s : Forall (fun c => is_digit c = true) (span_digits s).1.
Proof.
  induction s as [|c s IH]; cbn [span_digits]; [constructor|].
  destruct (is_digit c) eqn:E; [|constructor]. destruct (span_digits s) as [ds r]. by constructor.
Qed.

Lemma number_value_bound neg m scale nd z :
  (0 <= m)%Z -> number_value neg m scale nd = Some z -> (Z.abs z <= max_safe)%Z.
Proof.
  intros Hm. unfold number_value. unfold max_safe.
  destruct (Z.eqb_spec m 0); [intros [= <-]; lia|]. destruct (Z.ltb_spec 16 scale); [done|].
  destruct (Z.leb_spec 0 scale).
  - destruct (Z.leb_spec (m * 10 ^ scale) 9007199254740992); [|done].
    assert (0 <= m * 10 ^ scale)%Z by (apply Z.mul_nonneg_nonneg; [lia|apply Z.pow_nonneg; lia]).
    destruct neg; intros [= <-]; lia.
  - destruct (Z.ltb_spec (Z.of_nat nd) (- scale)); [done|]. destruct (Z.eqb_spec (m mod 10 ^ (- scale)) 0); [|done].
    destruct (Z.leb_spec (m / 10 ^ (- scale)) 9007199254740992); [|done].
    assert (0 <= m / 10 ^ (- scale))%Z by (apply Z.div_pos; [lia|apply Z.pow_pos_nonneg; lia]).
    destruct neg; intros [= <-]; lia.
Qed.

Lemma parse_number_wf s v r : parse_number s = POk v r -> json_wf v = true.
Proof.
  unfold parse_number. destruct (match s with c :: s' => _ | [] => _ end) as [neg s1].
  destruct (int_part s1) as [[ip s2]|] eqn:Ei; [|done]. destruct (frac_part s2) as [[fp s3]|] eqn:Ef; [|done].
  destruct (exp_part s3) as [[e s4]|]; [|done].
  destruct (number_value _ _ _ _) as [z|] eqn:En; [|done]. intros [= <- _]. cbn [json_wf]. apply Z.leb_le.
  refine (number_value_bound _ _ _ _ _ (digits_val_nonneg _ _) En). apply Forall_app; split.
  - unfold int_part in Ei. destruct s1 as [|c s1']; [done|].
    destruct (Ascii.eqb c "0"); [injection Ei as <- _; by repeat constructor|].
    destruct (is_digit c) eqn:Ec; [|done]. pose proof (span_digits_digits s1').
    destruct (span_digits s1') as [ds r']. injection Ei as <- _. by constructor.
  - unfold frac_part in Ef. destruct s2 as [|c s2']; [by injection Ef as <- _|].
    destruct (Ascii.eqb c "."); [|by injection Ef as <- _]. pose proof (span_digits_digits s2').
    destruct (span_digits s2') as [[|d ds] r']; [done|]. by injection Ef as <- _.
Qed.

Lemma define_property_keys kvs k v x :
  x ∈ map fst (define_property kvs k v) -> x ∈ map fst kvs \/ x = k.
Proof.
  induction kvs as [|[k' v'] kvs IH]; cbn [define_property map fst].
  - rewrite list_elem_of_singleton. auto.
  - destruct (String.eqb k k'); cbn [map fst]; rewrite !elem_of_cons; [tauto|].
    intros [->|Hx]; [auto|]. destruct (IH Hx); auto.
Qed.

Lemma define_property_nodup kvs k v : NoDup (map fst kvs) -> NoDup (map fst (define_property kvs k v)).
Proof.
  induction kvs as [|[k' v'] kvs IH]; cbn [define_property map fst].
  - intros _. apply NoDup_singleton.
  - intros [Hk' Hnd]%NoDup_cons. destruct (String.eqb_spec k k'); cbn [map fst]; apply NoDup_cons.
    + done.
    + split; [|by apply IH]. intros [Hin| ->]%define_property_keys; done.
Qed.

Lemma define_property_values (P : jsval -> Prop) kvs k v :
  Forall (fun kv => P kv.2) kvs -> P v -> Forall (fun kv => P kv.2) (define_property kvs k v).
Proof.
  intros Hkvs Hv. induction Hkvs as [|[k' v'] kvs Hkv Htl IH]; cbn [define_property].
  - by constructor.
  - destruct (String.eqb k k'); by constructor.
Qed.

Lemma insert_by_index_perm kv l : insert_by_index kv l ≡ₚ kv :: l.
Proof.
  induction l as [|kv' l IH]; cbn [insert_by_index]; [done|].
  destruct (index_of kv <? index_of kv')%Z; [done|]. rewrite IH. constructor.
Qed.

Lemma fold_insert_perm l : fold_right insert_by_index [] l ≡ₚ l.
Proof. induction l as [|kv l IH]; cbn [fold_right]; [done|]. by rewrite insert_by_index_perm, IH. Qed.

Lemma filter_complement_perm {A} (p : A -> bool) l : List.filter p l ++ List.filter (fun x => negb (p x)) l ≡ₚ l.
Proof.
  induction l as [|x l IH]; cbn [List.filter]; [done|].
  destruct (p x); cbn [negb app]; [by constructor|]. rewrite <- Permutation_middle. by constructor.
Qed.

Lemma own_keys_order_perm kvs : own_keys_order kvs ≡ₚ kvs.
Proof. unfold own_keys_order. by rewrite fold_insert_perm, filter_complement_perm. Qed.

Lemma array_index_canonical k z : array_index k = Some z -> number_to_string z = k.
Proof.
  unfold array_index. destruct (_ && _ && _ && _) eqn:E; [|done]. intros [= <-].
  apply andb_true_iff in E as [[_ E]%andb_true_iff _]. by apply String.eqb_eq.
Qed.

Lemma index_of_inj a b : is_index a = true -> is_index b = true -> index_of a = index_of b -> a.1 = b.1.
Proof.
  unfold is_index, index_of. rewrite !bool_decide_eq_true.
  intros [za Ha] [zb Hb]. rewrite Ha, Hb. cbn [default id]. intros ->.
  apply array_index_canonical in Ha, Hb. congruence.
Qed.

Definition index_lt (a b : string * jsval) : Prop := (index_of a < index_of b)%Z.

Lemma insert_by_index_sorted kv l :
  StronglySorted index_lt l -> Forall (fun kv' => index_of kv' <> index_of kv) l ->
  StronglySorted index_lt (insert_by_index kv l).
Proof.
  intros Hs. induction Hs as [|kv' l Hs IH Hall]; intros Hne; cbn [insert_by_index]; [by repeat constructor|].
  inversion Hne as [|? ? Hne1 Hne']; subst.
  destruct (Z.ltb_spec (index_of kv) (index_of kv')).
  - constructor; [by constructor|]. constructor; [done|].
    eapply List.Forall_impl; [|exact Hall]. unfold index_lt. intros; lia.
  - constructor; [by apply IH|]. apply List.Forall_forall. intros x Hx.
    apply (Permutation_in _ (insert_by_index_perm kv l)) in Hx as [<-|Hx]; unfold index_lt; [lia|].
    by eapply List.Forall_forall in Hall.
Qed.

Lemma fold_insert_sorted l :
  Forall (fun kv => is_index kv = true) l -> NoDup (map fst l) ->
  StronglySorted index_lt (fold_right insert_by_index [] l).
Proof.
  induction l as [|kv l IH]; intros Hidx Hnd; cbn [fold_right]; [constructor|].
  inversion Hidx as [|? ? Hkv Hidx']; subst. cbn [map] in Hnd. apply NoDup_cons in Hnd as [Hk Hnd].
  apply insert_by_index_sorted; [by apply IH|]. apply List.Forall_forall. intros kv' Hin Heq.
  apply (Permutation_in _ (fold_insert_perm l)) in Hin.
  apply Hk. rewrite (index_of_inj kv kv'); [|done|by eapply List.Forall_forall in Hidx'|done].
  apply list_elem_of_In, in_map, Hin.
Qed.

Lemma keys_ordered_app S N :
  StronglySorted index_lt S -> Forall (fun kv => is_index kv = true) S ->
  Forall (fun kv => is_index kv = false) N -> keys_ordered (S ++ N) = true.
Proof.
  intros Hs HS HN. induction Hs as [|kv S Hs IH Hall]; cbn [app].
  - induction HN as [|kv N Hkv HN IHN]; [done|]. cbn [keys_ordered]. rewrite Hkv, IHN, andb_true_r.
    apply List.forallb_forall. intros kv' Hin. eapply List.Forall_forall in HN; [|exact Hin]. by rewrite HN.
  - inversion HS as [|? ? Hkv HS']; subst. cbn [keys_ordered]. rewrite IH, andb_true_r by done.
    rewrite Hkv. apply List.forallb_forall. intros kv' [Hin|Hin]%in_app_or.
    + eapply List.Forall_forall in Hall; [|exact Hin]. unfold index_lt in Hall.
      apply orb_true_iff. right. by apply Z.ltb_lt.
    + eapply List.Forall_forall in HN; [|exact Hin]. by rewrite HN.
Qed.

(** [own_keys_order] lists distinct keys in property order. *)
Lemma own_keys_order_wf kvs :
  NoDup (map fst kvs) -> NoDup (map fst (own_keys_order kvs)) /\ keys_ordered (own_keys_order kvs) = true.
Proof.
  intros Hnd. split.
  - by rewrite (own_keys_order_perm kvs).
  - unfold own_keys_order. apply keys_ordered_app.
    + apply fold_insert_sorted; [apply List.Forall_forall; intros kv Hin; by apply List.filter_In in Hin as [_ ?]|].
      pose proof (filter_complement_perm is_index kvs) as Hp. apply (Permutation_map fst) in Hp.
      rewrite <- Hp, map_app in Hnd. by apply NoDup_app in Hnd as [? _].
    + apply List.Forall_forall. intros kv Hin. apply (Permutation_in _ (fold_insert_perm _)) in Hin.
      by apply List.filter_In in Hin as [_ ?].
    + apply List.Forall_forall. intros kv Hin. apply List.filter_In in Hin as [_ ?]. by apply negb_true_iff.
Qed.

Lemma literal_value w v s v' r : literal w v s = POk v' r -> v' = v.
Proof. unfold literal. destruct (strip_prefix _ _); [|done]. by intros [= <- _]. Qed.

Lemma parse_wf f :
  (forall s v r, parse_value f s = POk v r -> json_wf v = true) /\
  (forall s acc v r, Forall (fun x => json_wf x = true) acc -> parse_elements f s acc = POk v r ->
     json_wf v = true) /\
  (forall s acc v r, NoDup (map fst acc) -> Forall (fun kv => json_wf kv.2 = true) acc ->
     parse_members f s acc = POk v r -> json_wf v = true).
Proof.
  induction f as [|f (IHv & IHe & IHm)]; [repeat split; intros; discriminate|].
  assert (Hobj : forall acc, NoDup (map fst acc) -> Forall (fun kv => json_wf kv.2 = true) acc ->
            json_wf (JObj (own_keys_order acc)) = true).
  { intros acc Hnd Hall. destruct (own_keys_order_wf acc Hnd) as [Hnd' Hord]. cbn [json_wf].
    rewrite (bool_decide_eq_true_2 _ Hnd'), Hord. apply List.forallb_forall. intros kv Hin.
    apply (Permutation_in _ (own_keys_order_perm acc)) in Hin. by eapply List.Forall_forall in Hall. }
  split; [|split].
  - intros s v r. cbn [parse_value]. destruct (skip_ws s) as [|c s1]; [discriminate|].
    destruct (Ascii.eqb c "[").
    { destruct (token "]" s1); [by intros [= <- _]|].
      intros (a & s2 & Ha & Hk)%pbind_ok. apply IHv in Ha. apply (IHe _ _ _ _ (List.Forall_cons _ _ _ Ha (List.Forall_nil _)) Hk). }
    destruct (Ascii.eqb c "{").
    { destruct (token "}" s1); [by intros [= <- _]|].
      intros (k & s2 & _ & (a & s3 & Ha & Hm)%pbind_ok)%pbind_ok. apply IHv in Ha.
      refine (IHm _ _ _ _ _ _ Hm); [apply NoDup_singleton|by constructor]. }
    destruct (Ascii.eqb c dq); [unfold pmap; intros (cs & s2 & _ & [= <- _])%pbind_ok; done|].
    destruct (Ascii.eqb c "t"); [intros ->%literal_value; done|].
    destruct (Ascii.eqb c "f"); [intros ->%literal_value; done|].
    destruct (Ascii.eqb c "n"); [intros ->%literal_value; done|]. apply parse_number_wf.
  - intros s acc v r Hacc. cbn [parse_elements]. destruct (skip_ws s) as [|c s1]; [discriminate|].
    destruct (Ascii.eqb c ",").
    + intros (a & s2 & Ha & Hk)%pbind_ok. apply IHv in Ha. refine (IHe _ _ _ _ _ Hk).
      apply Forall_app. split; [done|by constructor].
    + destruct (Ascii.eqb c "]"); [|discriminate]. intros [= <- _]. cbn [json_wf].
      apply List.forallb_forall. intros x Hin. by eapply List.Forall_forall in Hacc.
  - intros s acc v r Hnd Hacc. cbn [parse_members]. destruct (skip_ws s) as [|c s1]; [discriminate|].
    destruct (Ascii.eqb c ",").
    + intros (k & s2 & _ & (a & s3 & Ha & Hm)%pbind_ok)%pbind_ok. apply IHv in Ha.
      refine (IHm _ _ _ _ _ _ Hm); [by apply define_property_nodup|by apply (define_property_values (fun x => json_wf x = true))].
    + destruct (Ascii.eqb c "}"); [|discriminate]. intros [= <- _]. by apply Hobj.
Qed.

(** C32: every value [JSON.parse] returns is well formed: no [undefined] or
    NaN, integers of magnitude at most 2^53, and objects whose keys are
    distinct and listed in property order (array indices first, ascending). *)
Theorem json_parse_wf text v : json_parse text = JParsed v -> json_wf v = true.
Proof.
  unfold json_parse. destruct (parse_value _ _) as [a r| | |] eqn:E; try discriminate.
  destruct (skip_ws r); [|discriminate]. intros [= <-]. by apply (proj1 (parse_wf _)) in E.
Qed.

Lemma json_parse_ser v gap t :
  json_wf v = true -> all_ws gap -> ser gap [] v = Some t -> json_parse (string_of_list_ascii t) = JParsed v.
Proof.
  intros Hwf Hgap Ht. unfold json_parse. rewrite list_ascii_of_string_of_list_ascii.
  rewrite <- (app_nil_r t) at 2.
  rewrite (ser_parse gap Hgap v Hwf [] all_ws_nil t (S (List.length t)) [] Ht) by (done || lia).
  reflexivity.
Qed.

(** C31: [JSON.parse] inverts [JSON.stringify]: a well-formed value, printed
    compactly or with any indentation of spaces, parses back to itself. *)
Theorem json_parse_stringify v gap :
  json_wf v = true -> all_ws gap -> (json_parse <$> json_stringify_gap gap v) = Some (JParsed v).
Proof.
  intros Hwf Hgap. destruct (ser_some gap [] v Hwf) as [t Ht].
  unfold json_stringify_gap. rewrite Ht. cbn [fmap option_fmap option_map]. f_equal.
  by apply json_parse_ser with gap.
Qed.

(** ** Witnesses *)

Lemma json_parse_stringify_witness :
  json_wf (JObj [("url"%string, JStr "example.com"%string); ("ports"%string, JArr [JNumber (JNum 80); JNumber (JNum 443)])]) = true /\
  all_ws (space_gap 2) /\
  (json_parse <$> json_stringify_gap (space_gap 2)
     (JObj [("url"%string, JStr "example.com"%string); ("ports"%string, JArr [JNumber (JNum 80); JNumber (JNum 443)])])) =
  Some (JParsed (JObj [("url"%string, JStr "example.com"%string); ("ports"%string, JArr [JNumber (JNum 80); JNumber (JNum 443)])])).
Proof. split; [reflexivity|]. split; [reflexivity|]. apply json_parse_stringify; reflexivity. Defined.

Lemma json_parse_wf_witness :
  json_parse "[1, [true, null], -5e0, 2.50e1]"%string =
    JParsed (JArr [JNumber (JNum 1); JArr [JBool true; JNull]; JNumber (JNum (-5)); JNumber (JNum 25)]) /\
  json_wf (JArr [JNumber (JNum 1); JArr [JBool true; JNull]; JNumber (JNum (-5)); JNumber (JNum 25)]) = true.
Proof. split; [reflexivity|]. apply (json_parse_wf "[1, [true, null], -5e0, 2.50e1]"%string). reflexivity. Defined.

End Json.
