(* ===== verification/Tailwind.v ===== *)
(** * Tailwind: the colour palette of [src/tailwind.config.js] and the colour utilities

    [theme.extend.colors] adds four palettes, [primary], [secondary],
    [accent] and [dark], each with a few shades, to Tailwind's default
    palette (v3.3: 22 colours with the shades 50, 100, 200, ..., 900,
    950).  A colour utility such as [text-primary-400] or
    [hover:bg-primary-500/10] produces CSS only when its colour has that
    shade; otherwise Tailwind generates nothing for the class and the
    element keeps its inherited colour.  [class_color] reads the colour
    and shade of a class (after its variants, before its opacity), and
    [undefined_colors] lists the classes of a [className] string that
    name a shade the palette lacks. *)

From S2P Require Import Prelude JsCore JsDate.

Local Open Scope string_scope.

Module Tailwind.

(** ** The palette *)

(** [theme.extend.colors] *)
Definition custom_colors : list (string * list string) :=
  [("primary", ["50"; "100"; "500"; "600"; "700"; "900"]);
   ("secondary", ["50"; "100"; "500"; "600"; "700"]);
   ("accent", ["50"; "100"; "500"; "600"; "700"]);
   ("dark", ["50"; "100"; "800"; "900"; "950"])].

Definition default_colors : list string :=
  ["slate"; "gray"; "zinc"; "neutral"; "stone"; "red"; "orange"; "amber"; "yellow"; "lime";
   "green"; "emerald"; "teal"; "cyan"; "sky"; "blue"; "indigo"; "violet"; "purple"; "fuchsia";
   "pink"; "rose"].

Definition default_shades : list string :=
  ["50"; "100"; "200"; "300"; "400"; "500"; "600"; "700"; "800"; "900"; "950"].

(** [extend] merges a palette into the default one of the same name. *)
Definition palette_shades (name : string) : option (list string) :=
  let dflt := if existsb (String.eqb name) default_colors then default_shades else [] in
  match List.find (fun '(n, _) => String.eqb n name) custom_colors with
  | Some (_, sh) => Some (sh ++ dflt)%list
  | None => if existsb (String.eqb name) default_colors then Some default_shades else None
  end.

Definition shade_defined (name shade : string) : bool :=
  match palette_shades name with Some sh => existsb (String.eqb shade) sh | None => false end.

(** ** Class names *)

(** The classes of a [className]: its space-separated words. *)
Definition words (s : string) : list string :=
  List.filter (fun w => negb (String.eqb w "")) (split_on " " s).

(** The utility of a class after its variants ([hover:], [md:], ...). *)
Definition after_variants (cls : string) : string := List.last (split_on ":" cls) cls.

Definition strip_opacity (s : string) : string := List.hd s (split_on "/" s).

Definition is_shade (s : string) : bool :=
  negb (String.eqb s "") &&
  forallb (fun c => Nat.leb 48 (nat_of_ascii c) && Nat.leb (nat_of_ascii c) 57) (list_ascii_of_string s).

(** [color-shade], split at the last dash. *)
Definition color_shade (rest : string) : option (string * string) :=
  match rev (split_on "-" (strip_opacity rest)) with
  | shade :: ((_ :: _) as rname) =>
      if is_shade shade then Some (String.concat "-" (rev rname), shade) else None
  | _ => None
  end.

Definition color_utilities : list string :=
  ["text"; "bg"; "border"; "border-t"; "border-b"; "border-l"; "border-r"; "border-x"; "border-y";
   "ring"; "ring-offset"; "divide"; "outline"; "from"; "via"; "to"; "fill"; "stroke"; "placeholder";
   "decoration"; "shadow"; "caret"; "accent"].

Fixpoint first_some {A B} (f : A -> option B) (l : list A) : option B :=
  match l with
  | [] => None
  | x :: l' => match f x with Some b => Some b | None => first_some f l' end
  end.

(** The palette colour and shade a class names, if it is a colour utility
    with a shade; [None] for other classes ([text-sm], [border-b-2],
    [text-white], [bg-gradient-to-r], ...). *)
Definition class_color (cls : string) : option (string * string) :=
  let c := after_variants cls in
  first_some (fun u =>
    let p := (u ++ "-")%string in
    if String.prefix p c then
      match color_shade (String.substring (String.length p) (String.length c) c) with
      | Some (n, s) => if bool_decide (is_Some (palette_shades n)) then Some (n, s) else None
      | None => None
      end
    else None) color_utilities.

(** Whether Tailwind generates the colour of a colour class. *)
Definition generates (cls : string) : option bool :=
  option_map (fun '(n, s) => shade_defined n s) (class_color cls).

(** The classes of a [className] whose colour shade is not in the palette. *)
Definition undefined_colors (classes : string) : list string :=
  List.filter (fun w => bool_decide (generates w = Some false)) (words classes).

(** ** [content]: the files Tailwind scans for class names *)

(** The globs, relative to the directory of the configuration ([src/]). *)
Definition content : list string := ["./index.html"; "./src/**/*.{js,ts,jsx,tsx}"].

(** One brace group [pre{a,b,...}post] expanded into its alternatives. *)
Definition brace_expand (p : string) : list string :=
  match split_on "{"%char p with
  | [pre; rest] =>
      match split_on "}"%char rest with
      | [alts; post] => map (fun a => pre ++ a ++ post) (split_on ","%char alts)
      | _ => [p]
      end
  | _ => [p]
  end.

(** A leading [./] names the same path. *)
Definition strip_dot_slash (p : string) : string :=
  if String.prefix "./" p then String.substring 2 (String.length p - 2) p else p.

(** A segment pattern: [*] matches any run of characters of the segment. *)
Fixpoint seg_match (pat s : list ascii) : bool :=
  match pat with
  | [] => match s with [] => true | _ => false end
  | c :: p' =>
      if Ascii.eqb c "*"%char then (fix star (s : list ascii) : bool :=
                                     seg_match p' s || match s with _ :: s' => star s' | [] => false end) s
      else match s with c' :: s' => Ascii.eqb c c' && seg_match p' s' | [] => false end
  end.

Definition is_dot_seg (s : string) : bool :=
  match list_ascii_of_string s with c :: _ => Ascii.eqb c "."%char | [] => false end.

(** A dot-file segment is matched only by a pattern starting with a dot. *)
Definition seg_matches (pat s : string) : bool :=
  (negb (is_dot_seg s) || is_dot_seg pat) && seg_match (list_ascii_of_string pat) (list_ascii_of_string s).

(** A path pattern: [**] matches any number of directories, none of
    them a dot directory. *)
Fixpoint path_match (pats segs : list string) : bool :=
  match pats with
  | [] => match segs with [] => true | _ => false end
  | p :: ps =>
      if String.eqb p "**" then
        (fix star (segs : list string) : bool :=
           path_match ps segs ||
           match segs with s :: ss => negb (is_dot_seg s) && star ss | [] => false end) segs
      else match segs with s :: ss => seg_matches p s && path_match ps ss | [] => false end
  end.

(** Whether Tailwind scans [file] (a path relative to [src/]). *)
Definition scanned (file : string) : bool :=
  existsb (fun g => existsb (fun p => path_match (split_on "/"%char (strip_dot_slash p)) (split_on "/"%char file))
                            (brace_expand g)) content.

(** ** [fontFamily], [animation] and [keyframes] *)

Definition fontFamily : list (string * list string) :=
  [("orbitron", ["Orbitron"; "monospace"]); ("poppins", ["Poppins"; "sans-serif"])].

Definition animation : list (string * string) :=
  [("pulse-glow", "pulse-glow 2s infinite alternate"); ("float", "float 6s ease-in-out infinite");
   ("shimmer", "shimmer 2s linear infinite"); ("scan-line", "scan-line 2s linear infinite")].

(** Each keyframes rule: its selectors and the properties they set. *)
Definition keyframes : list (string * list (string * list (string * string))) :=
  [("pulse-glow", [("0%", [("transform", "scale(1)"); ("filter", "drop-shadow(0 0 10px rgba(99, 102, 241, 0.7))")]);
                   ("100%", [("transform", "scale(1.05)"); ("filter", "drop-shadow(0 0 20px rgba(99, 102, 241, 0.9))")])]);
   ("float", [("0%, 100%", [("transform", "translateY(0px)")]); ("50%", [("transform", "translateY(-20px)")])]);
   ("shimmer", [("0%", [("transform", "translateX(-100%)")]); ("100%", [("transform", "translateX(100%)")])]);
   ("scan-line", [("0%", [("transform", "translateX(-100%)")]); ("100%", [("transform", "translateX(100%)")])])].

(** The offsets of a keyframe selector such as ["0%, 100%"], in percent. *)
Definition selector_offsets (sel : string) : option (list Z) :=
  mapM (fun part =>
          match rev (list_ascii_of_string (String.concat "" (words part))) with
          | "%"%char :: ds => match rev ds with [] => None | ds' => digits ds' end
          | _ => None
          end) (split_on ","%char sel).

(** The [animation] shorthand's name and duration (in s). *)
Definition animation_name (value : string) : string := List.hd "" (words value).

Definition animation_duration (value : string) : option Z :=
  match words value with
  | _ :: d :: _ =>
      match rev (list_ascii_of_string d) with
      | "s"%char :: ds => match rev ds with [] => None | ds' => digits ds' end
      | _ => None
      end
  | _ => None
  end.

(** ** Lemmas *)

(** A file name the globs can see: non-empty, not a dot file, no slash. *)
Definition visible_seg (s : string) : bool :=
  negb (String.eqb s "") && negb (is_dot_seg s) &&
  forallb (fun c => negb (Ascii.eqb c "/"%char)) (list_ascii_of_string s).

Lemma visible_no_slash s : visible_seg s = true -> ~ In "/"%char (list_ascii_of_string s).
Proof.
  unfold visible_seg. rewrite !andb_true_iff, List.forallb_forall. intros [_ H] Hin.
  specialize (H _ Hin). by rewrite Ascii.eqb_refl in H.
Qed.

Lemma seg_match_star p pre t : seg_match p t = true -> seg_match ("*"%char :: p) (pre ++ t) = true.
Proof.
  intros H. induction pre as [|c pre IH].
  - destruct t; cbn [seg_match Ascii.eqb Bool.eqb app]; by rewrite H.
  - cbn [seg_match Ascii.eqb Bool.eqb app] in *. apply orb_true_iff. by right.
Qed.

Lemma path_match_globstar ps dirs rest :
  Forall (fun s => visible_seg s = true) dirs -> path_match ps rest = true ->
  path_match ("**" :: ps) (dirs ++ rest) = true.
Proof.
  intros Hd H. induction Hd as [|d dirs Hd _ IH].
  - destruct rest; cbn [path_match String.eqb Ascii.eqb Bool.eqb app]; by rewrite H.
  - cbn [path_match String.eqb Ascii.eqb Bool.eqb app] in *. apply orb_true_iff. right.
    apply andb_true_iff. split; [|done].
  unfold visible_seg in Hd. by apply andb_true_iff in Hd as [[_ ->]%andb_true_iff _].
Qed.

Lemma is_dot_seg_app s t : s <> "" -> is_dot_seg (s ++ t) = is_dot_seg s.
Proof. by destruct s. Qed.

Lemma path_match_src dirs file pat :
  Forall (fun s => visible_seg s = true) dirs -> ~ In "/"%char (list_ascii_of_string file) ->
  is_dot_seg file = false -> pat <> "**" -> seg_match (list_ascii_of_string pat) (list_ascii_of_string file) = true ->
  path_match ["src"; "**"; pat] (split_on "/"%char (String.concat "/" ("src" :: dirs ++ [file]))) = true.
Proof.
  intros Hd Hf Hdot Hp Hm. rewrite split_on_concat.
  - change (path_match ["src"; "**"; pat] ("src" :: dirs ++ [file]))
      with (seg_matches "src" "src" && path_match ["**"; pat] (dirs ++ [file])).
    apply andb_true_iff. split; [reflexivity|]. apply path_match_globstar; [done|].
    cbn [path_match]. apply String.eqb_neq in Hp. rewrite Hp.
    unfold seg_matches. by rewrite Hdot, Hm.
  - constructor; [by intros [?|[?|[]]]|]. apply List.Forall_app. split; [|by constructor].
    eapply List.Forall_impl; [|exact Hd]. apply visible_no_slash.
  - done.
Qed.

(** C34: the [content] globs make Tailwind scan every front-end source:
    any file [src/<dirs>/<name>.<ext>] of [src/] with [ext] among js, ts,
    jsx and tsx, below directories that are not dot directories, and
    [index.html]; the server code and the configuration itself are not
    scanned. *)
Theorem content_scans_sources dirs name ext :
  In ext ["js"; "ts"; "jsx"; "tsx"] -> Forall (fun s => visible_seg s = true) dirs -> visible_seg name = true ->
  scanned (String.concat "/" ("src" :: dirs ++ [name ++ "." ++ ext])) = true /\
  scanned "index.html" = true /\ scanned "server/index.js" = false /\ scanned "tailwind.config.js" = false.
Proof.
  intros Hext Hd Hn. split; [|vm_compute; auto].
  assert (Hne : name <> "") by (unfold visible_seg in Hn; destruct name; [discriminate|done]).
  assert (Hdot : is_dot_seg (name ++ "." ++ ext) = false).
  { rewrite is_dot_seg_app by done. unfold visible_seg in Hn.
    by apply andb_true_iff in Hn as [[_ ?%negb_true_iff]%andb_true_iff _]. }
  assert (Hsl : ~ In "/"%char (list_ascii_of_string (name ++ "." ++ ext))).
  { rewrite list_ascii_of_string_app. intros [Hin|Hin]%in_app_or; [by apply (visible_no_slash name)|].
    destruct Hext as [<-|[<-|[<-|[<-|[]]]]]; cbn in Hin; naive_solver. }
  unfold scanned. apply existsb_exists. exists "./src/**/*.{js,ts,jsx,tsx}". split; [right; left; done|].
  apply existsb_exists.
  destruct Hext as [<-|[<-|[<-|[<-|[]]]]];
    match goal with |- context [(name ++ "." ++ ?e)%string] => exists ("./src/**/*." ++ e)%string end;
    (split; [cbn; tauto|]); cbv [strip_dot_slash]; cbn -[split_on String.concat path_match];
    apply path_match_src; try done;
    rewrite list_ascii_of_string_app; apply seg_match_star; reflexivity.
Qed.

Lemma content_scans_sources_witness :
  In "tsx" ["js"; "ts"; "jsx"; "tsx"] /\ Forall (fun s => visible_seg s = true) ["pages"] /\
  visible_seg "Home" = true /\ scanned "src/pages/Home.tsx" = true.
Proof.
  split; [cbn; tauto|]. split; [repeat constructor|]. split; [reflexivity|].
  exact (proj1 (content_scans_sources ["pages"] "Home" "tsx" ltac:(cbn; tauto) ltac:(repeat constructor) eq_refl)).
Defined.

(** The keyframes rule of an animation name. *)
Definition keyframes_of (name : string) : option (list (string * list (string * string))) :=
  option_map snd (List.find (fun '(n, _) => String.eqb n name) keyframes).

(** Every custom [animation] of the configuration is well formed: its
    shorthand names the keyframes rule of the same name, which exists,
    its duration is positive, and the offsets of the rule's selectors are
    percentages from 0 to 100 that include both 0% and 100%, so every
    property is defined over the whole cycle; the [font-orbitron] class
    of the Home title names a declared font family. *)
Theorem config_animations_wf :
  Forall (fun '(name, value) =>
    animation_name value = name /\
    (exists d, animation_duration value = Some d /\ 0 < d)%Z /\
    exists ks offs, keyframes_of name = Some ks /\ mapM (fun k => selector_offsets k.1) ks = Some offs /\
      Forall (fun o => 0 <= o <= 100)%Z (List.concat offs) /\ 0%Z ∈ List.concat offs /\
      100%Z ∈ List.concat offs) animation /\
  is_Some (List.find (fun '(n, _) => String.eqb n "orbitron") fontFamily).
Proof.
  split; [|eexists; reflexivity].
  apply List.Forall_forall. intros [name value] Hin. cbn in Hin.
  destruct Hin as [Hin|[Hin|[Hin|[Hin|[]]]]]; injection Hin as <- <-;
    (split; [reflexivity|]); (split; [eexists; split; vm_compute; reflexivity|]);
    do 2 eexists; (split; [vm_compute; reflexivity|]); (split; [vm_compute; reflexivity|]);
    (split; [apply List.Forall_forall; intros o Ho; cbn in Ho; repeat destruct Ho as [<-|Ho]; try destruct Ho; lia|]);
    split; apply list_elem_of_In; cbn; tauto.
Qed.

End Tailwind.
