(* ===== verification/PandaLogo.v ===== *)
(** * PandaLogo: the SVG logo of [src/src/components/PandaLogo.tsx]

    The component takes [className] (default ["w-12 h-12"]) and
    [animated] (default [true]); it renders a [motion.div] with the hover
    variants when animated, and an SVG of viewBox [0 0 64 64]: a filter
    [glow] and a gradient [shieldGradient] in [defs], then circles,
    ellipses and paths, some in [motion] elements whose [animate] prop
    depends on [animated].  Lengths are kept in tenths of a user unit
    (the code writes [r="1.5"]); scales in hundredths; durations in ms.
    Path data is parsed from the [d] strings: the code uses absolute
    [M], [L], [Q] and [Z] commands with integer coordinates separated by
    spaces, which is the subset [parse_path] reads. *)

From S2P Require Import Prelude JsCore JsDate.

Local Open Scope string_scope.
Local Open Scope Z_scope.

Module PandaLogo.

(** ** The SVG *)

Inductive paint := Hex (c : string) | UrlRef (id : string) | NoPaint.

Inductive shape :=
  | Circle (cx cy r : Z)
  | Ellipse (cx cy rx ry : Z)
  | PathD (d : string).

Inductive anim :=
  | Rotate (keyframes : list Z)       (* degrees *)
  | Scale (keyframes : list Z)        (* hundredths *)
  | ScaleY (keyframes : list Z)
  | PathLength (target : Z).          (* hundredths *)

(** A [motion] element's [animate] and [transition]. *)
Record motion := mkMotion { m_animate : option anim; m_duration_ms : Z; m_repeat : bool;
                            m_repeat_delay_ms : Z }.

Record elem := mkElem {
  e_shape : shape; e_fill : paint; e_stroke : option (paint * Z); e_opacity : option Z;
  e_filter : option string; e_motion : option motion
}.

(** A child of the SVG: an element, or a [motion.g] group. *)
Inductive node := Leaf (e : elem) | Group (m : motion) (children : list elem).

Inductive def := FilterDef | GradientDef (stops : list (Z * string)).

Definition defs : list (string * def) :=
  [("glow", FilterDef);
   ("shieldGradient", GradientDef [(0, "#6366f1"); (50, "#8b5cf6"); (100, "#06b6d4")])].

Definition plain (s : shape) (fill : paint) : elem := mkElem s fill None None None None.

Definition black := Hex "#000000".
Definition white := Hex "#ffffff".

(** The children of the SVG, for [animated]. *)
Definition body (animated : bool) : list node :=
  let ear_motion k := mkMotion (if animated then Some (Rotate k) else None) 2000 true 3000 in
  [Leaf (mkElem (Circle 320 320 300) (UrlRef "shieldGradient") None (Some 10) None None);
   Leaf (mkElem (Circle 320 320 280) white (Some (UrlRef "shieldGradient", 20)) None None None);
   Leaf (mkElem (Circle 200 180 80) black None None None (Some (ear_motion [0; 5; -5; 0])));
   Leaf (mkElem (Circle 440 180 80) black None None None (Some (ear_motion [0; -5; 5; 0])));
   Leaf (plain (Circle 200 180 50) white);
   Leaf (plain (Circle 440 180 50) white);
   Leaf (plain (Circle 320 320 180) white);
   Leaf (plain (Ellipse 260 280 60 80) black);
   Leaf (plain (Ellipse 380 280 60 80) black);
   Group (mkMotion (if animated then Some (ScaleY [100; 10; 100]) else None) 200 true 4000)
     [plain (Circle 260 280 30) white; plain (Circle 380 280 30) white;
      plain (Circle 260 280 15) black; plain (Circle 380 280 15) black];
   Leaf (plain (Ellipse 320 360 20 15) black);
   Leaf (mkElem (PathD "M32 38 Q28 42 24 40") NoPaint (Some (black, 20)) None None None);
   Leaf (mkElem (PathD "M32 38 Q36 42 40 40") NoPaint (Some (black, 20)) None None None);
   Group (mkMotion (if animated then Some (Scale [100; 105; 100]) else None) 2000 true 0)
     [mkElem (PathD "M32 8 L40 12 L40 24 Q40 32 32 36 Q24 32 24 24 L24 12 Z")
        (UrlRef "shieldGradient") None (Some 90) (Some "glow") None;
      plain (PathD "M32 12 L36 14 L36 22 Q36 26 32 28 Q28 26 28 22 L28 14 Z") white;
      mkElem (PathD "M30 18 L32 20 L36 16") NoPaint (Some (Hex "#6366f1", 20)) None None
        (Some (mkMotion (if animated then Some (PathLength 100) else Some (PathLength 100)) 1000 true 2000))]].

(** [logoVariants]: [initial] (scale 1, rotate 0) and [hover] (scale
    1.1, rotate 0, -5, 5, 0 over 0.5 s). *)
Record variants := mkVariants { v_initial : list anim; v_hover : list anim; v_hover_ms : Z }.

Definition logoVariants : variants :=
  mkVariants [Scale [100]; Rotate [0]] [Scale [110]; Rotate [0; -5; 5; 0]] 500.

Record logo := mkLogo { l_class : string; l_variants : option variants; l_body : list node }.

Definition render (className : option string) (animated : option bool) : logo :=
  let a := default true animated in
  mkLogo (default "w-12 h-12" className) (if a then Some logoVariants else None) (body a).

(** ** Path data *)

Inductive cmd := CM | CL | CQ | CZ.

Inductive token := TCmd (c : cmd) | TNum (z : Z).

Definition cmd_of (c : ascii) : option cmd :=
  if Ascii.eqb c "M"%char then Some CM else if Ascii.eqb c "L"%char then Some CL
  else if Ascii.eqb c "Q"%char then Some CQ else if Ascii.eqb c "Z"%char then Some CZ else None.

(** A word of [d]: a command letter, a number (in tenths), or both. *)
Definition tokens_of_word (w : string) : option (list token) :=
  let num cs := match cs with [] => None | _ => option_map (fun n => TNum (10 * n)) (digits cs) end in
  match list_ascii_of_string w with
  | [] => Some []
  | c :: cs =>
      match cmd_of c with
      | Some k => match cs with [] => Some [TCmd k] | _ => option_map (fun t => [TCmd k; t]) (num cs) end
      | None => option_map (fun t => [t]) (num (c :: cs))
      end
  end.

Inductive seg := MoveTo (p : Z * Z) | LineTo (p : Z * Z) | QuadTo (c p : Z * Z) | Close.

Fixpoint segs_of (ts : list token) : option (list seg) :=
  match ts with
  | [] => Some []
  | TCmd CM :: TNum x :: TNum y :: r => option_map (cons (MoveTo (x, y))) (segs_of r)
  | TCmd CL :: TNum x :: TNum y :: r => option_map (cons (LineTo (x, y))) (segs_of r)
  | TCmd CQ :: TNum a :: TNum b :: TNum x :: TNum y :: r =>
      option_map (cons (QuadTo (a, b) (x, y))) (segs_of r)
  | TCmd CZ :: r => option_map (cons Close) (segs_of r)
  | _ => None
  end.

Definition parse_path (d : string) : option (list seg) :=
  ts ← mapM tokens_of_word (split_on " "%char d); segs_of (List.concat ts).

(** ** Geometry *)

(** The point at parameter [k / n] of each segment, scaled by [n * n]:
    straight segments (and [Z], back to the start of the subpath) are
    interpolated linearly, [Q] segments as quadratic Bezier curves. *)
Definition lerp (k n : Z) (a b : Z * Z) : Z * Z :=
  (n * ((n - k) * a.1 + k * b.1), n * ((n - k) * a.2 + k * b.2)).

Definition quad (k n : Z) (a c b : Z * Z) : Z * Z :=
  ((n - k) * (n - k) * a.1 + 2 * k * (n - k) * c.1 + k * k * b.1,
   (n - k) * (n - k) * a.2 + 2 * k * (n - k) * c.2 + k * k * b.2).

Fixpoint seg_points (start cur : Z * Z) (ss : list seg) (k n : Z) : list (Z * Z) :=
  match ss with
  | [] => []
  | MoveTo p :: r => (n * n * p.1, n * n * p.2) :: seg_points p p r k n
  | LineTo p :: r => lerp k n cur p :: seg_points start p r k n
  | QuadTo c p :: r => quad k n cur c p :: seg_points start p r k n
  | Close :: r => lerp k n cur start :: seg_points start start r k n
  end.

Definition control_points (ss : list seg) : list (Z * Z) :=
  List.concat (map (fun s => match s with
                             | MoveTo p | LineTo p => [p]
                             | QuadTo c p => [c; p]
                             | Close => []
                             end) ss).

Definition in_box (lo hi : Z) (p : Z * Z) : bool := (lo <=? p.1) && (p.1 <=? hi) && (lo <=? p.2) && (p.2 <=? hi).

(** Half the stroke width, which the stroke adds around the shape. *)
Definition half_stroke (e : elem) : Z := match e_stroke e with Some (_, w) => w / 2 | None => 0 end.

(** The viewBox [0 0 64 64], in tenths. *)
Definition view_size : Z := 640.

(** The shape of [e] with its stroke lies in the viewBox. *)
Definition inside_viewbox (e : elem) : bool :=
  let h := half_stroke e in
  match e_shape e with
  | Circle cx cy r => in_box (r + h) (view_size - r - h) (cx, cy)
  | Ellipse cx cy rx ry => in_box (rx + h) (view_size - rx - h) (cx, cy) && in_box (ry + h) (view_size - ry - h) (cx, cy)
  | PathD d => match parse_path d with
               | Some ((MoveTo _ :: _) as ss) => forallb (in_box h (view_size - h)) (control_points ss)
               | _ => false
               end
  end.

Definition elems (ns : list node) : list elem :=
  List.concat (map (fun n => match n with Leaf e => [e] | Group _ es => es end) ns).

Definition motions (ns : list node) : list motion :=
  List.concat (map (fun n => match n with
                             | Leaf e => option_list (e_motion e)
                             | Group m es => m :: List.concat (map (fun e => option_list (e_motion e)) es)
                             end) ns).

(** The [animate] props set, in document order. *)
Definition animations (ns : list node) : list anim := omap m_animate (motions ns).

(** The [url(#id)] references of an element: paints and filter. *)
Definition paint_refs (e : elem) : list string :=
  ((match e_fill e with UrlRef i => [i] | _ => [] end) ++
   match e_stroke e with Some (UrlRef i, _) => [i] | _ => [] end)%list.

Definition is_gradient (d : def) : bool := match d with GradientDef _ => true | _ => false end.
Definition is_filter (d : def) : bool := match d with FilterDef => true | _ => false end.

(** [url(#id)] finds the element of [defs] with that [id]. *)
Definition def_of (id : string) : option def :=
  option_map snd (List.find (fun '(k, _) => String.eqb k id) defs).

Fixpoint ascending (l : list Z) : bool :=
  match l with
  | a :: (b :: _) as r => (a <? b) && ascending r
  | _ => true
  end.

(** ** Lemmas *)

Lemma convex2 lo hi x y k n :
  0 <= k <= n -> lo <= x <= hi -> lo <= y <= hi -> n * n * lo <= n * ((n - k) * x + k * y) <= n * n * hi.
Proof.
  intros Hk Hx Hy.
  assert (0 <= n * (n - k)) by nia. assert (0 <= n * k) by nia.
  assert (0 <= n * (n - k) * (x - lo)) by nia. assert (0 <= n * k * (y - lo)) by nia.
  assert (0 <= n * (n - k) * (hi - x)) by nia. assert (0 <= n * k * (hi - y)) by nia.
  nia.
Qed.

Lemma convex3 lo hi x z y k n :
  0 <= k <= n -> lo <= x <= hi -> lo <= z <= hi -> lo <= y <= hi ->
  n * n * lo <= (n - k) * (n - k) * x + 2 * k * (n - k) * z + k * k * y <= n * n * hi.
Proof.
  intros Hk Hx Hz Hy.
  assert (E : n * n = (n - k) * (n - k) + 2 * k * (n - k) + k * k) by ring.
  rewrite !E.
  assert (0 <= (n - k) * (n - k)) by nia. assert (0 <= 2 * k * (n - k)) by nia. assert (0 <= k * k) by nia.
  assert (0 <= (n - k) * (n - k) * (x - lo)) by nia. assert (0 <= 2 * k * (n - k) * (z - lo)) by nia.
  assert (0 <= k * k * (y - lo)) by nia. assert (0 <= (n - k) * (n - k) * (hi - x)) by nia.
  assert (0 <= 2 * k * (n - k) * (hi - z)) by nia. assert (0 <= k * k * (hi - y)) by nia.
  nia.
Qed.

Lemma in_box_iff lo hi p : in_box lo hi p = true <-> lo <= p.1 <= hi /\ lo <= p.2 <= hi.
Proof. unfold in_box. rewrite !andb_true_iff, !Z.leb_le. tauto. Qed.

(** Every point of every segment, at every parameter in [0, 1], stays in
    a box holding the start, the current point and the control points. *)
Lemma seg_points_in_box lo hi k n ss : forall start cur,
  0 <= k <= n -> in_box lo hi start = true -> in_box lo hi cur = true ->
  Forall (fun p => in_box lo hi p = true) (control_points ss) ->
  Forall (fun p => in_box (n * n * lo) (n * n * hi) p = true) (seg_points start cur ss k n).
Proof.
  induction ss as [|s ss IH]; intros start cur Hk Hs Hc Hps; [constructor|].
  unfold control_points in Hps. cbn [map List.concat] in Hps. rewrite List.Forall_app in Hps.
  destruct Hps as [Hp Hps]. rewrite in_box_iff in Hs, Hc.
  destruct s as [p|p|c p|]; cbn [seg_points];
    repeat match goal with H : Forall _ (_ :: _) |- _ => inversion_clear H end;
    rewrite ?in_box_iff in *; constructor; try (apply IH; rewrite ?in_box_iff; tauto);
    apply in_box_iff; cbn [lerp quad fst snd].
  - split; nia.
  - split; apply convex2; tauto.
  - split; apply convex3; tauto.
  - split; apply convex2; tauto.
Qed.

(** What [inside_viewbox] guarantees: circles and ellipses with their
    stroke fit in the viewBox, and every point of a path, at every
    parameter [k / n] in [0, 1], lies [half_stroke] inside it. *)
Definition shape_fits (e : elem) : Prop :=
  let h := half_stroke e in
  match e_shape e with
  | Circle cx cy r => r + h <= cx <= view_size - r - h /\ r + h <= cy <= view_size - r - h
  | Ellipse cx cy rx ry => rx + h <= cx <= view_size - rx - h /\ ry + h <= cy <= view_size - ry - h
  | PathD d => exists ss, parse_path d = Some ss /\
      forall k n, 0 <= k <= n ->
      Forall (fun p => in_box (n * n * h) (n * n * (view_size - h)) p = true) (seg_points (0, 0) (0, 0) ss k n)
  end.

Lemma inside_viewbox_fits e : inside_viewbox e = true -> shape_fits e.
Proof.
  unfold inside_viewbox, shape_fits. destruct (e_shape e) as [cx cy r|cx cy rx ry|d].
  - rewrite in_box_iff. cbn. lia.
  - rewrite andb_true_iff, !in_box_iff. cbn. lia.
  - destruct (parse_path d) as [[|[p| | |] ss]|]; try discriminate. intros H.
    exists (MoveTo p :: ss). split; [done|]. intros k n Hk.
    rewrite List.forallb_forall in H. cbn [seg_points].
    assert (Hp : in_box (half_stroke e) (view_size - half_stroke e) p = true)
      by (apply H; unfold control_points; cbn; tauto).
    constructor.
    + rewrite in_box_iff in Hp |- *. cbn. nia.
    + apply seg_points_in_box; auto. apply List.Forall_forall. intros q Hq. apply H.
      unfold control_points. cbn [map List.concat app]. right. exact Hq.
Qed.

(** Every shape of the logo, with its stroke, lies inside the viewBox
    [0 0 64 64], animated or not: each circle and ellipse, and each path
    parsed from its [d] (every point of its lines and quadratic curves). *)
Theorem logo_in_viewbox animated e : In e (elems (l_body (render None animated))) -> shape_fits e.
Proof.
  intros Hin. apply inside_viewbox_fits. revert e Hin. apply List.forallb_forall.
  cbn [render l_body]. destruct (default true animated); vm_compute; reflexivity.
Qed.

(** The references of the logo resolve: each [url(#id)] paint names the
    gradient of [defs], whose stops are ascending offsets within 0-100%,
    each [filter] names the filter of [defs], and the ids of [defs] are
    distinct. *)
Theorem logo_refs_resolve animated :
  NoDup (map fst defs) /\
  Forall (fun e =>
    Forall (fun i => exists st, def_of i = Some (GradientDef st) /\ ascending (map fst st) = true /\
                                Forall (fun o => 0 <= o <= 100) (map fst st)) (paint_refs e) /\
    (forall f, e_filter e = Some f -> def_of f = Some FilterDef)) (elems (body animated)).
Proof.
  split; [apply (bool_decide_eq_true_1 _); vm_compute; reflexivity|].
  apply List.Forall_forall. intros e He.
  destruct animated; cbn in He; repeat destruct He as [<-|He]; try destruct He;
    cbn [paint_refs e_fill e_stroke e_filter plain black white app];
    (split; [apply List.Forall_forall; intros i Hi; cbn in Hi; repeat destruct Hi as [<-|Hi]; try destruct Hi;
             eexists; (split; [reflexivity|]); (split; [reflexivity|]);
             apply List.Forall_forall; intros o Ho; cbn in Ho; repeat destruct Ho as [<-|Ho]; try destruct Ho; lia
            |intros f Hf; cbn in Hf; first [discriminate | injection Hf as <-; reflexivity]]).
Qed.

(** [animated] switches the logo's motion: by default the logo is
    [w-12 h-12] and animated; with [animated = false] it has no hover
    variants and no ear, blink or pulse animation, but its check mark
    still animates [pathLength] to 1, because both branches of
    [animated ? { pathLength: 1 } : { pathLength: 1 }] are the same. *)
Theorem logo_animated_flag c :
  render c None = render c (Some true) /\ l_class (render None None) = "w-12 h-12"%string /\
  l_variants (render c (Some false)) = None /\
  animations (l_body (render c (Some false))) = [PathLength 100] /\
  animations (l_body (render c (Some true))) =
    [Rotate [0; 5; -5; 0]; Rotate [0; -5; 5; 0]; ScaleY [100; 10; 100]; Scale [100; 105; 100];
     PathLength 100].
Proof. repeat split. Qed.

Lemma logo_in_viewbox_witness :
  In (plain (Circle 320 320 180) white) (elems (l_body (render None None))) /\
  shape_fits (plain (Circle 320 320 180) white).
Proof. split; [cbn; tauto|]. apply (logo_in_viewbox None). cbn; tauto. Defined.

End PandaLogo.
