(* ===== verification/Components.v ===== *)
(** * Components: [ScanProgress], [LoadingScreen] and the routes of [App]

    [src/src/components/ScanProgress.tsx] marks six step indicators as
    active, completed or pending from [currentStep];
    [src/src/components/LoadingScreen.tsx] shows a message and
    ["{progress}% Complete"], with default props; [src/src/App.tsx] maps
    paths to pages with React Router, which matches paths
    case-insensitively, ignores a trailing slash and renders nothing for a
    path no route matches. *)

From S2P Require Import Prelude JsCore JsDate Json PandaLogo.

Local Open Scope string_scope.

Module ScanProgress.

Definition steps : list (string * string) :=
  [("Initializing", "text-blue-400"); ("Headers", "text-green-400"); ("SQL Injection", "text-red-400");
   ("XSS Testing", "text-yellow-400"); ("Directory Scan", "text-purple-400");
   ("Network Analysis", "text-cyan-400")].

Inductive step_status := Active | Completed | Pending.

#[export] Instance step_status_eq_dec : EqDecision step_status.
Proof. solve_decision. Defined.

(** [isActive = index === currentStep - 1], [isCompleted = index < currentStep - 1];
    active wins. *)
Definition step_status_of (currentStep : Z) (index : nat) : step_status :=
  if (Z.of_nat index =? currentStep - 1)%Z then Active
  else if (Z.of_nat index <? currentStep - 1)%Z then Completed
  else Pending.

Record step_view := mkStepView {
  sv_label : string; sv_status : step_status; sv_box : string; sv_circle : string;
  sv_icon : string; sv_text : string
}.

Definition render_step (currentStep : Z) (index : nat) (label : string) : step_view :=
  let st := step_status_of currentStep index in
  mkStepView label st
    (match st with
     | Active => "bg-primary-500/20 border border-primary-500/30"
     | Completed => "bg-green-500/20 border border-green-500/30"
     | Pending => "bg-dark-800/30 border border-slate-700"
     end)
    (match st with Active => "bg-primary-500 animate-pulse" | Completed => "bg-green-500" | Pending => "bg-dark-700" end)
    (match st with Pending => "text-slate-400" | _ => "text-white" end)
    (match st with Active => "text-primary-300" | Completed => "text-green-300" | Pending => "text-slate-400" end).

(** The indicators, and the ["{currentStep}/{totalSteps}"] counter. *)
Definition render (currentStep totalSteps : Z) (currentMessage : string)
  : string * string * list step_view :=
  (number_to_string currentStep ++ "/" ++ number_to_string totalSteps, currentMessage,
   imap (fun i '(label, _) => render_step currentStep i label) steps).

End ScanProgress.

Module LoadingScreen.

(** Props with their defaults; the heading and the ["{progress}% Complete"] line. *)
Definition render (message : option string) (progress : option Z) : string * string :=
  let m := default "Scanning for vulnerabilities..." message in
  let p := default 0%Z progress in
  (m, number_to_string p ++ "% Complete").

(** The whole screen: the logo, the heading, the bar's animated width
    [`${progress}%`] with its label, and the three pulsing dots (key and
    [delay: i * 0.2], in ms). *)
Record screen := mkScreen {
  ls_logo : PandaLogo.logo; ls_message : string; ls_bar_width : string; ls_label : string;
  ls_dots : list (nat * Z)
}.

Definition view (message : option string) (progress : option Z) : screen :=
  let '(m, label) := render message progress in
  mkScreen (PandaLogo.render (Some "w-24 h-24") None) m
    (number_to_string (default 0%Z progress) ++ "%") label
    (map (fun i => (i, Z.of_nat i * 200)%Z) [0; 1; 2]%nat).

End LoadingScreen.

Module App.

Inductive page := Home | Login | SignUp | Dashboard | Scanner | Reports.

#[export] Instance page_eq_dec : EqDecision page.
Proof. solve_decision. Defined.

Definition routes : list (string * page) :=
  [("/", Home); ("/login", Login); ("/signup", SignUp); ("/dashboard", Dashboard);
   ("/scanner", Scanner); ("/reports", Reports)].

(** A path without its trailing slash (the root keeps its slash). *)
Definition strip_trailing_slash (p : string) : string :=
  match rev (list_ascii_of_string p) with
  | c :: (_ :: _) as rest => if Ascii.eqb c "/"%char then string_of_list_ascii (rev rest) else p
  | _ => p
  end.

(** [<Routes>]: the first route whose path matches, ignoring case and a
    trailing slash; [None] renders nothing. *)
Definition match_route (path : string) : option page :=
  let p := toLowerCase (strip_trailing_slash path) in
  option_map snd (List.find (fun '(r, _) => String.eqb r p) routes).

(** The targets of the [<Link>]s and [navigate] calls of the pages. *)
Definition link_targets : list string :=
  ["/scanner"; "/signup"; "/login"; "/dashboard"; "/forgot-password"; "/terms"; "/privacy"].

End App.

(** ** Properties *)

Definition statuses (c : Z) : list ScanProgress.step_status :=
  map ScanProgress.sv_status (snd (ScanProgress.render c 6 "")).

(** With the current step [c] between 1 and 6, the indicators are
    [c - 1] completed steps, the active step [c], and pending steps after
    it: exactly one step is active and the completed ones precede it. *)
Theorem scan_progress_statuses c :
  (1 <= c <= 6)%Z ->
  statuses c = (repeat ScanProgress.Completed (Z.to_nat (c - 1)) ++
               ScanProgress.Active :: repeat ScanProgress.Pending (Z.to_nat (6 - c)))%list.
Proof.
  intros Hc. assert (c = 1 \/ c = 2 \/ c = 3 \/ c = 4 \/ c = 5 \/ c = 6)%Z as Hc' by lia.
  repeat destruct Hc' as [->|Hc']; [..|subst c]; reflexivity.
Qed.

Lemma scan_progress_statuses_witness :
  statuses 3 = (repeat ScanProgress.Completed 2 ++ ScanProgress.Active :: repeat ScanProgress.Pending 3)%list.
Proof. apply (scan_progress_statuses 3). lia. Defined.

(** The links to [/scanner], [/signup], [/login] and the navigation to
    [/dashboard] reach their pages, but the links to [/forgot-password],
    [/terms] and [/privacy] match no route and render an empty page. *)
Theorem app_link_targets :
  map App.match_route App.link_targets =
  [Some App.Scanner; Some App.SignUp; Some App.Login; Some App.Dashboard; None; None; None].
Proof. reflexivity. Qed.
