(* ===== verification/Home.v ===== *)
(** * Home: the landing page of [src/src/pages/Home.tsx]

    The page has no state: it renders the constant arrays [features] and
    [stats], two hero links, three trust badges, six floating dots placed
    with template literals [`${10 + i * 15}%`] and [`${20 + i * 10}%`], a
    card per feature and per statistic keyed by its title or label, and a
    closing link.  [render] is the rendered tree reduced to what the code
    computes: the keys, the texts, the link targets, the positions and
    timings of the dots (delays in ms), and every [className], section
    by section.  The [motion] animations are constant props and are not
    modelled beyond their delays. *)

From S2P Require Import Prelude JsCore Json Tailwind PandaLogo Components.

Local Open Scope string_scope.

Module Home.

Inductive icon := Shield | Zap | Eye | Lock.

Record feature := mkFeature { f_icon : icon; f_title : string; f_description : string }.

Record stat := mkStat { s_number : string; s_label : string }.

Definition features : list feature :=
  [mkFeature Shield "Advanced Vulnerability Detection"
     "Comprehensive scanning for SQL injection, XSS, CSRF, and 100+ other security vulnerabilities";
   mkFeature Zap "Lightning Fast Scanning"
     "AI-powered scanning engine that delivers results in seconds, not hours";
   mkFeature Eye "Deep Network Analysis"
     "Port scanning, subdomain enumeration, and service fingerprinting";
   mkFeature Lock "Enterprise Security"
     "Bank-grade encryption and security measures to protect your data"].

Definition stats : list stat :=
  [mkStat "1M+" "Websites Scanned"; mkStat "50K+" "Vulnerabilities Found";
   mkStat "99.9%" "Accuracy Rate"; mkStat "24/7" "Support Available"].

Record link := mkLink { link_to : string; link_class : string; link_text : string }.

(** A floating dot: its key, [style.left], [style.top], and its
    [transition] ([duration: 8 + i * 2] s, [delay: i * 0.5] s, in ms). *)
Record dot := mkDot { dot_key : nat; dot_left : string; dot_top : string;
                      dot_duration : Z; dot_delay_ms : Z }.

Definition floating_dot (i : nat) : dot :=
  mkDot i (number_to_string (10 + Z.of_nat i * 15) ++ "%")
        (number_to_string (20 + Z.of_nat i * 10) ++ "%")
        (8 + Z.of_nat i * 2) (Z.of_nat i * 500).

(** [[...Array(6)].map((_, i) => ...)] *)
Definition floating_dots : list dot := map floating_dot (seq 0 6).

(** A card of the features or stats grid: its key, its [delay: index * 0.1]
    (in ms), its texts and its classes. *)
Record card := mkCard { card_key : string; card_delay_ms : Z; card_texts : list string;
                        card_classes : list string }.

Definition feature_card (index : nat) (f : feature) : card :=
  mkCard (f_title f) (Z.of_nat index * 100) [f_title f; f_description f]
    ["glass-effect rounded-xl p-6 text-center group hover:bg-white/10 transition-all duration-300";
     "inline-flex items-center justify-center w-16 h-16 bg-primary-500/20 rounded-full mb-4 group-hover:bg-primary-500/30 transition-colors";
     "w-8 h-8 text-primary-400 group-hover:text-primary-300";
     "text-xl font-semibold mb-3 text-white group-hover:text-primary-300 transition-colors";
     "text-slate-400 group-hover:text-slate-300 transition-colors"].

Definition stat_card (index : nat) (s : stat) : card :=
  mkCard (s_label s) (Z.of_nat index * 100) [s_number s; s_label s]
    ["text-center"; "text-4xl md:text-5xl font-bold gradient-text mb-2"; "text-slate-400 font-medium"].

Record view := mkView {
  hero_classes : list string;       (* the hero section, title and lead *)
  hero_logo : PandaLogo.logo;
  hero_links : list link;
  trust_badges : list string;
  dots : list dot;
  dot_class : string;
  features_classes : list string;   (* the section, its heading and the grid *)
  feature_cards : list card;
  stats_classes : list string;
  stat_cards : list card;
  cta_classes : list string;
  cta_links : list link
}.

(** The stats section: its classes and its cards. *)
Definition stats_section : list string * list card :=
  (["py-20 bg-gradient-to-r from-primary-900/20 to-secondary-900/20";
    "max-w-7xl mx-auto px-4 sm:px-6 lg:px-8"; "grid grid-cols-2 lg:grid-cols-4 gap-8"],
   imap stat_card stats).

(** The closing call to action: its classes and its link. *)
Definition cta_section : list string * list link :=
  (["py-20"; "max-w-4xl mx-auto px-4 sm:px-6 lg:px-8 text-center";
    "glass-effect rounded-2xl p-12 space-y-8"; "text-4xl md:text-5xl font-bold gradient-text";
    "text-xl text-slate-300"; "flex flex-col sm:flex-row gap-4 justify-center"],
   [mkLink "/scanner" "scan-button group flex items-center justify-center space-x-2" "Start Scanning Now"]).

Definition render : view :=
  mkView
    ["pt-16"; "min-h-screen flex items-center justify-center relative overflow-hidden";
     "max-w-7xl mx-auto px-4 sm:px-6 lg:px-8 text-center"; "space-y-8";
     "flex flex-col items-center space-y-6";
     "text-5xl md:text-7xl font-orbitron font-bold gradient-text text-shadow";
     "text-xl md:text-2xl text-slate-300 max-w-3xl mx-auto leading-relaxed";
     "flex flex-col sm:flex-row gap-4 justify-center items-center";
     "flex flex-wrap justify-center items-center gap-8 text-sm text-slate-400 mt-12";
     "absolute inset-0 pointer-events-none"]
    (PandaLogo.render (Some "w-32 h-32 md:w-40 md:h-40") None)
    [mkLink "/scanner" "scan-button group flex items-center space-x-2" "Start Free Scan";
     mkLink "/signup"
       "px-8 py-3 border border-primary-500 text-primary-400 hover:bg-primary-500 hover:text-white rounded-full font-semibold transition-all duration-300"
       "Get Started Free"]
    ["OWASP Compliant"; "SOC 2 Certified"; "Enterprise Ready"]
    floating_dots
    "absolute w-2 h-2 bg-primary-500 rounded-full opacity-20"
    ["py-20 relative"; "max-w-7xl mx-auto px-4 sm:px-6 lg:px-8"; "text-center mb-16";
     "text-4xl md:text-5xl font-bold gradient-text mb-6"; "text-xl text-slate-300 max-w-3xl mx-auto";
     "grid grid-cols-1 md:grid-cols-2 lg:grid-cols-4 gap-8"]
    (imap feature_card features)
    stats_section.1 stats_section.2 cta_section.1 cta_section.2.

(** The classes of a trust badge: its row and its [CheckCircle]. *)
Definition badge_classes : list string := ["flex items-center space-x-2"; "w-4 h-4 text-green-500"].

(** Every [className] of the page, section by section. *)
Definition class_strings (v : view) : list string :=
  hero_classes v ++ [PandaLogo.l_class (hero_logo v)] ++ map link_class (hero_links v) ++
  List.concat (map (fun _ => badge_classes) (trust_badges v)) ++
  map (fun _ => dot_class v) (dots v) ++ features_classes v ++
  List.concat (map card_classes (feature_cards v)) ++ stats_classes v ++
  List.concat (map card_classes (stat_cards v)) ++ cta_classes v ++ map link_class (cta_links v).

(** ** Properties *)

(** The page renders well-formed lists and working links: the React
    keys of the feature cards (titles), the stat cards (labels) and the
    floating dots (indices) are distinct; the three links lead to the
    Scanner, SignUp and Scanner pages of [App]; the six dots sit at
    [left] 10%, 25%, ..., 85% and [top] 20%, 30%, ..., 70%, inside the
    hero section, with durations 8 to 18 s and delays 0 to 2.5 s. *)
Theorem home_view_wf :
  NoDup (map card_key (feature_cards render)) /\ NoDup (map card_key (stat_cards render)) /\
  NoDup (map dot_key (dots render)) /\
  map (fun l => App.match_route (link_to l)) (hero_links render ++ cta_links render) =
    [Some App.Scanner; Some App.SignUp; Some App.Scanner] /\
  Forall (fun d => exists x y : Z,
            dot_left d = number_to_string x ++ "%" /\ dot_top d = number_to_string y ++ "%" /\
            (10 <= x <= 85)%Z /\ (20 <= y <= 70)%Z /\
            (8 <= dot_duration d <= 18)%Z /\ (0 <= dot_delay_ms d <= 2500)%Z) (dots render).
Proof.
  split; [apply (bool_decide_eq_true_1 _); vm_compute; reflexivity|].
  split; [apply (bool_decide_eq_true_1 _); vm_compute; reflexivity|].
  split; [apply (bool_decide_eq_true_1 _); vm_compute; reflexivity|].
  split; [reflexivity|].
  apply List.Forall_forall. intros d Hd. cbn in Hd.
  repeat destruct Hd as [<-|Hd]; [..|destruct Hd];
    eexists _, _; cbn [dot_left dot_top dot_duration dot_delay_ms floating_dot];
    (split; [reflexivity|]); (split; [reflexivity|]); lia.
Qed.

(** The classes of the page that name a shade missing from
    [tailwind.config.js], in document order: the [text-primary-400] of
    the Get Started link and of each feature icon, the
    [group-hover:text-primary-300] of each feature icon and title, and the
    [to-secondary-900/20] end of the stats gradient ([secondary] has no
    900), so the gradient fades to transparent. *)
Theorem home_undefined_colors :
  flat_map Tailwind.undefined_colors (class_strings render) =
    (["text-primary-400"] ++
     List.concat (repeat ["text-primary-400"; "group-hover:text-primary-300"; "group-hover:text-primary-300"] 4) ++
     ["to-secondary-900/20"])%list.
Proof. vm_compute. reflexivity. Qed.

End Home.
