(* ===== verification/Reports.v ===== *)
(** * Reports: the report list view of [src/src/pages/Reports.tsx]

    The page keeps three pieces of React state ([searchTerm],
    [filterSeverity], [sortBy]; [ViewState], [view_step]) and renders
    [filteredReports]: [mockReports] filtered by a case-insensitive
    substring test on the URL and an exact severity test, then sorted by
    one of three comparators of the shape [key(b) - key(a)] through
    [Array.prototype.sort] ([js_sort]).  The severity comparator looks the
    severity up in the object literal [severityOrder]; a key naming a
    property of [Object.prototype] finds a function or an object there,
    which [|| 0] keeps and [-] turns into NaN ([severity_rank]). *)

From S2P Require Import Prelude JsCore JsSort JsDate.

Local Open Scope string_scope.

Module Reports.

(** ** Data *)

Record ReportSummary := mkReport {
  id : Z;
  url : string;
  date : string;
  time : string;
  vulnerabilities : Z;
  severity : string;
  status : string;
  size : string
}.

#[export] Instance ReportSummary_eq_dec : EqDecision ReportSummary.
Proof. solve_decision. Defined.

Definition mockReports : list ReportSummary := [
  mkReport 1 "example.com" "2024-01-15" "14:30" 5 "high" "completed" "2.4 MB";
  mkReport 2 "testsite.org" "2024-01-14" "09:15" 0 "low" "completed" "1.8 MB";
  mkReport 3 "webapp.net" "2024-01-13" "16:45" 12 "critical" "completed" "3.1 MB";
  mkReport 4 "secure.io" "2024-01-12" "11:20" 2 "medium" "completed" "2.0 MB";
  mkReport 5 "mysite.com" "2024-01-11" "13:10" 1 "low" "completed" "1.9 MB"
].

(** ** Severity styles *)

Definition getSeverityColor (severity : string) : string :=
  if String.eqb severity "critical" then "text-purple-400 bg-purple-500/20 border-purple-500/30"
  else if String.eqb severity "high" then "text-red-400 bg-red-500/20 border-red-500/30"
  else if String.eqb severity "medium" then "text-yellow-400 bg-yellow-500/20 border-yellow-500/30"
  else if String.eqb severity "low" then "text-green-400 bg-green-500/20 border-green-500/30"
  else "text-slate-400 bg-slate-500/20 border-slate-500/30".

Inductive SeverityIcon := AlertTriangle | Clock | CheckCircle | Globe.

Definition getSeverityIcon (severity : string) : SeverityIcon :=
  if String.eqb severity "critical" || String.eqb severity "high" then AlertTriangle
  else if String.eqb severity "medium" then Clock
  else if String.eqb severity "low" then CheckCircle
  else Globe.

(** ** [severityOrder[k] || 0] *)

(** What a property read on the object literal yields: an own number, a
    function or object inherited from [Object.prototype], or undefined. *)
Inductive prop_value := PNum (z : Z) | PFunction | PObject | PUndefined.

Definition object_prototype_methods : list string :=
  ["constructor"; "hasOwnProperty"; "isPrototypeOf"; "propertyIsEnumerable";
   "toLocaleString"; "toString"; "valueOf"; "__defineGetter__"; "__defineSetter__";
   "__lookupGetter__"; "__lookupSetter__"].

Definition is_proto_key (k : string) : bool :=
  String.eqb k "__proto__" || existsb (String.eqb k) object_prototype_methods.

Definition severityOrder (k : string) : prop_value :=
  if String.eqb k "critical" then PNum 4
  else if String.eqb k "high" then PNum 3
  else if String.eqb k "medium" then PNum 2
  else if String.eqb k "low" then PNum 1
  else if String.eqb k "__proto__" then PObject
  else if existsb (String.eqb k) object_prototype_methods then PFunction
  else PUndefined.

(** [(v || 0)] used as an operand of [-]: undefined becomes 0, a number
    stays, a function or object is truthy and converts to NaN. *)
Definition or_zero_to_number (v : prop_value) : jsnum :=
  match v with
  | PNum z => JNum z
  | PUndefined => JNum 0
  | PFunction | PObject => JNaN
  end.

Definition severity_rank (k : string) : jsnum := or_zero_to_number (severityOrder k).

(** ** The filter and the comparators *)

Definition report_matches (searchTerm filterSeverity : string) (r : ReportSummary) : bool :=
  includes (toLowerCase (url r)) (toLowerCase searchTerm) &&
  (String.eqb filterSeverity "all" || String.eqb (severity r) filterSeverity).

Definition report_compare (sortBy : string) (a b : ReportSummary) : jsnum :=
  if String.eqb sortBy "date" then jsnum_sub (date_time (date b)) (date_time (date a))
  else if String.eqb sortBy "severity" then
    jsnum_sub (severity_rank (severity b)) (severity_rank (severity a))
  else if String.eqb sortBy "vulnerabilities" then JNum (vulnerabilities b - vulnerabilities a)%Z
  else JNum 0.

Definition filteredReports (reports : list ReportSummary)
    (searchTerm filterSeverity sortBy : string) : list ReportSummary :=
  js_sort (report_compare sortBy) (List.filter (report_matches searchTerm filterSeverity) reports).

(** ** Page state *)

Record ViewState := { searchTerm : string; filterSeverity : string; sortBy : string }.

Definition initial_view : ViewState := {| searchTerm := ""; filterSeverity := "all"; sortBy := "date" |}.

(** The three [onChange] handlers. *)
Inductive view_event := SetSearchTerm (s : string) | SetFilterSeverity (s : string) | SetSortBy (s : string).

Definition view_step (st : ViewState) (e : view_event) : ViewState :=
  match e with
  | SetSearchTerm s => {| searchTerm := s; filterSeverity := filterSeverity st; sortBy := sortBy st |}
  | SetFilterSeverity s => {| searchTerm := searchTerm st; filterSeverity := s; sortBy := sortBy st |}
  | SetSortBy s => {| searchTerm := searchTerm st; filterSeverity := filterSeverity st; sortBy := s |}
  end.

Definition render (st : ViewState) : list ReportSummary :=
  filteredReports mockReports (searchTerm st) (filterSeverity st) (sortBy st).

(** The "No reports found" block is shown exactly when the list is empty. *)
Definition shows_empty_state (st : ViewState) : bool := Nat.eqb (List.length (render st)) 0.

(** Integer keys of the three orders. *)
Definition rank_key (r : ReportSummary) : Z :=
  match severity_rank (severity r) with JNum z => z | JNaN => 0 end.

Definition date_key (r : ReportSummary) : Z :=
  match date_time (date r) with JNum z => z | JNaN => 0 end.

(** The key each value of [sortBy] sorts by, in decreasing order. *)
Definition sort_key (sortBy : string) : ReportSummary -> Z :=
  if String.eqb sortBy "date" then date_key
  else if String.eqb sortBy "severity" then rank_key
  else if String.eqb sortBy "vulnerabilities" then vulnerabilities
  else fun _ => 0%Z.

(** A report whose date parses and whose severity is not the name of an
    [Object.prototype] property: on such reports every comparator is
    consistent. *)
Definition wf_report (r : ReportSummary) : bool :=
  negb (bool_decide (date_time (date r) = JNaN)) && negb (is_proto_key (severity r)).

(** One card of the reports grid: URL, "{date} at {time}", the severity
    badge (colour, icon, text), vulnerabilities, size and status. *)
Record ReportCard := mkCard {
  card_url : string; card_when : string; card_badge_class : string; card_badge_icon : SeverityIcon;
  card_badge_text : string; card_vulnerabilities : Z; card_size : string; card_status : string
}.

Definition report_card (r : ReportSummary) : ReportCard :=
  mkCard (url r) (date r ++ " at " ++ time r) (getSeverityColor (severity r)) (getSeverityIcon (severity r))
    (severity r) (vulnerabilities r) (size r) (status r).

(** The grid: one card per listed report, in the listed order. *)
Definition render_cards (st : ViewState) : list ReportCard := map report_card (render st).

(** ** Properties *)

Local Open Scope pscan_scope.

Lemma report_matches_iff q f r :
  report_matches q f r = true <->
  toLowerCase q ⊑ₛ toLowerCase (url r) /\ (f = "all" \/ severity r = f).
Proof.
  unfold report_matches. rewrite andb_true_iff, orb_true_iff, !String.eqb_eq.
  split; intros [? [?|?]]; subst; auto.
Qed.

Lemma severity_rank_not_proto k :
  is_proto_key k = false -> exists z, severity_rank k = JNum z /\ (0 <= z <= 4)%Z.
Proof.
  unfold is_proto_key, severity_rank, severityOrder. intros H. bool_to_prop.
  rewrite H, H0. case_bool; eexists; (split; [reflexivity|lia]).
Qed.

Lemma report_compare_desc s a b :
  wf_report a = true -> wf_report b = true ->
  report_compare s a b = desc_by (sort_key s) a b.
Proof.
  unfold wf_report, report_compare, sort_key, desc_by, date_key, rank_key.
  intros Ha Hb. apply andb_true_iff in Ha as [Ha Ha'], Hb as [Hb Hb'].
  apply negb_true_iff in Ha, Ha', Hb, Hb'. apply bool_decide_eq_false in Ha, Hb.
  destruct (severity_rank_not_proto _ Ha') as [za [Ra _]].
  destruct (severity_rank_not_proto _ Hb') as [zb [Rb _]].
  case_bool; cbv beta; rewrite ?Ra, ?Rb; try done.
  destruct (date_time (date a)), (date_time (date b)); done.
Qed.

Lemma filteredReports_key l q f s :
  (forall r, In r l -> wf_report r = true) ->
  filteredReports l q f s = js_sort (desc_by (sort_key s)) (List.filter (report_matches q f) l).
Proof.
  intros Hwf. apply js_sort_ext. intros a b Ha Hb.
  apply filter_In in Ha as [Ha _], Hb as [Hb _]. by apply report_compare_desc; apply Hwf.
Qed.

Lemma filteredReports_perm l q f s :
  Permutation (filteredReports l q f s) (List.filter (report_matches q f) l).
Proof. apply js_sort_perm. Qed.

Lemma filteredReports_mem l q f s r :
  In r (filteredReports l q f s) <->
  In r l /\ toLowerCase q ⊑ₛ toLowerCase (url r) /\ (f = "all" \/ severity r = f).
Proof.
  rewrite <- report_matches_iff, <- filter_In.
  split; apply Permutation_in; [|symmetry]; apply filteredReports_perm.
Qed.

(** C3: the view lists, in some order, exactly the reports of the input
    whose URL contains the search term case-insensitively and whose
    severity passes the severity filter, whatever the sort order. *)
Theorem filteredReports_spec l q f s :
  Permutation (filteredReports l q f s) (List.filter (report_matches q f) l) /\
  forall r, In r (filteredReports l q f s) <->
    In r l /\ toLowerCase q ⊑ₛ toLowerCase (url r) /\ (f = "all" \/ severity r = f).
Proof. split; [apply filteredReports_perm|apply filteredReports_mem]. Qed.

(** C4: on reports whose dates parse and whose severities are not
    [Object.prototype] property names, the view is the stable sort of the
    filtered reports by decreasing [sort_key sortBy]: sorted, and with
    reports of equal key in their original order. *)
Theorem filteredReports_sorted l q f s :
  (forall r, In r l -> wf_report r = true) ->
  is_stable_sort (sort_key s) (List.filter (report_matches q f) l) (filteredReports l q f s).
Proof. intros Hwf. rewrite filteredReports_key by done. apply js_sort_stable_sort. Qed.

(** Sorting by vulnerabilities needs no hypothesis: descending counts,
    ties in input order. *)
Theorem filteredReports_by_vulnerabilities l q f :
  is_stable_sort vulnerabilities (List.filter (report_matches q f) l)
    (filteredReports l q f "vulnerabilities").
Proof.
  unfold filteredReports. rewrite (js_sort_ext _ (desc_by vulnerabilities)) by done.
  apply js_sort_stable_sort.
Qed.

(** A [sortBy] value other than the three known ones hits [default:
    return 0] and keeps the filtered reports in input order. *)
Theorem filteredReports_other_sort l q f s :
  s <> "date" -> s <> "severity" -> s <> "vulnerabilities" ->
  filteredReports l q f s = List.filter (report_matches q f) l.
Proof.
  intros H1 H2 H3. apply js_sort_nonneg. intros x y.
  unfold sort_compare, report_compare.
  apply String.eqb_neq in H1, H2, H3. rewrite H1, H2, H3. lia.
Qed.

(** Applying the view to its own output changes nothing (filtering
    and sorting are both idempotent) on well-formed reports. *)
Theorem filteredReports_idem l q f s :
  (forall r, In r l -> wf_report r = true) ->
  filteredReports (filteredReports l q f s) q f s = filteredReports l q f s.
Proof.
  intros Hwf. assert (Hin : forall r, In r (filteredReports l q f s) -> In r l).
  { intros r. rewrite filteredReports_mem. tauto. }
  rewrite !filteredReports_key by eauto.
  rewrite filter_all_true; [apply js_sort_desc_idem|].
  intros r Hr. eapply Permutation_in in Hr; [|apply js_sort_perm].
  by apply filter_In in Hr as [_ ?].
Qed.

(** The search is case-insensitive: lower-casing the search term does
    not change the view. *)
Theorem filteredReports_case_insensitive l q f s :
  filteredReports l (toLowerCase q) f s = filteredReports l q f s.
Proof.
  unfold filteredReports, report_matches. by rewrite toLowerCase_idem.
Qed.

(** Refining the search term narrows the result: when [q1] occurs in
    [q2], every report found for [q2] is found for [q1]. *)
Theorem filteredReports_narrowing l q1 q2 f s r :
  q1 ⊑ₛ q2 -> In r (filteredReports l q2 f s) -> In r (filteredReports l q1 f s).
Proof.
  rewrite !filteredReports_mem. intros Hq (Hl & Hm & Hf). repeat split; [done| |done].
  eapply includes_trans; [exact Hm|]. by apply includes_lower.
Qed.

(** The severity filter is exact: with a filter other than "all" every
    listed report has exactly that severity. *)
Theorem filteredReports_severity_exact l q f s r :
  f <> "all" -> In r (filteredReports l q f s) -> severity r = f.
Proof. rewrite filteredReports_mem. intros Hf (_ & _ & [?|?]); congruence. Qed.

(** Seed data, as the spec states: sorted by vulnerabilities the five
    reports come as webapp.net (12), example.com (5), secure.io (2),
    mysite.com (1), testsite.org (0). *)
Theorem seed_sorted_by_vulnerabilities :
  map (fun r => (url r, vulnerabilities r)) (filteredReports mockReports "" "all" "vulnerabilities") =
  [("webapp.net", 12%Z); ("example.com", 5%Z); ("secure.io", 2%Z); ("mysite.com", 1%Z); ("testsite.org", 0%Z)].
Proof. vm_compute. reflexivity. Qed.

(** Seed data: the critical filter keeps exactly webapp.net, in every
    sort order. *)
Theorem seed_critical_only_webapp s :
  map url (filteredReports mockReports "" "critical" s) = ["webapp.net"].
Proof. reflexivity. Qed.

(** Seed data: sorted by severity the order is critical, high, medium,
    low, low, the two low reports keeping their input order (ids 2 then 5). *)
Theorem seed_sorted_by_severity :
  map (fun r => (id r, severity r)) (filteredReports mockReports "" "all" "severity") =
  [(3%Z, "critical"); (1%Z, "high"); (4%Z, "medium"); (2%Z, "low"); (5%Z, "low")].
Proof. vm_compute. reflexivity. Qed.

(** The page opens (search empty, all severities, sorted by date) on
    the seed list in its own order, newest first. *)
Theorem initial_render_is_seed : render initial_view = mockReports.
Proof. vm_compute. reflexivity. Qed.

(** A severity that names an [Object.prototype] property ranks as NaN,
    not 0: the comparator treats it as equal to everything, so such a
    report is not moved after a critical one, while an unknown severity
    ranking 0 is. *)
Theorem proto_severity_not_ranked_zero :
  let rT := mkReport 1 "a.com" "2024-01-01" "" 0 "toString" "" "" in
  let rU := mkReport 2 "b.com" "2024-01-01" "" 0 "unknown" "" "" in
  let rC := mkReport 3 "c.com" "2024-01-01" "" 0 "critical" "" "" in
  severity_rank "toString" = JNaN /\
  map id (filteredReports [rT; rC] "" "all" "severity") = [1%Z; 3%Z] /\
  map id (filteredReports [rU; rC] "" "all" "severity") = [3%Z; 2%Z].
Proof. vm_compute. repeat split. Qed.

(** The severity styles and the severity order agree on which
    severities are recognised: the colour is the neutral slate one exactly
    when the rank is not one of 1-4. *)
Theorem severity_color_rank k :
  getSeverityColor k <> "text-slate-400 bg-slate-500/20 border-slate-500/30" <->
  exists z, severity_rank k = JNum z /\ (1 <= z <= 4)%Z.
Proof.
  unfold getSeverityColor, severity_rank, severityOrder.
  case_bool; split; try (intros; eexists; split; [reflexivity|lia]); try done.
  all: intros [z [Hz Hr]]; simplify_eq/=; lia.
Qed.

(** Witnesses. *)

Lemma mockReports_wf : forall r, In r mockReports -> wf_report r = true.
Proof. intros r Hr. repeat (destruct Hr as [<-|Hr]; [reflexivity|]). done. Qed.

Lemma filteredReports_sorted_witness :
  is_stable_sort (sort_key "severity") (List.filter (report_matches "" "all") mockReports)
    (filteredReports mockReports "" "all" "severity").
Proof. apply filteredReports_sorted. exact mockReports_wf. Defined.

Lemma filteredReports_other_sort_witness :
  filteredReports mockReports "COM" "all" "name" = List.filter (report_matches "COM" "all") mockReports.
Proof. apply filteredReports_other_sort; discriminate. Defined.

Lemma filteredReports_idem_witness :
  filteredReports (filteredReports mockReports "e" "all" "date") "e" "all" "date" =
  filteredReports mockReports "e" "all" "date".
Proof. apply filteredReports_idem. exact mockReports_wf. Defined.

Lemma filteredReports_narrowing_witness :
  In (mkReport 1 "example.com" "2024-01-15" "14:30" 5 "high" "completed" "2.4 MB")
     (filteredReports mockReports "com" "all" "date").
Proof.
  apply (filteredReports_narrowing mockReports "com" "ample.com" "all" "date"); [reflexivity|].
  vm_compute. left. reflexivity.
Defined.

Lemma filteredReports_severity_exact_witness :
  severity (mkReport 2 "testsite.org" "2024-01-14" "09:15" 0 "low" "completed" "1.8 MB") = "low".
Proof.
  apply (filteredReports_severity_exact mockReports "" "low" "date"); [discriminate|].
  vm_compute. left. reflexivity.
Defined.

End Reports.
