(* ===== verification/Url.v ===== *)
(** * Url: the hostname of [new URL(input)] (WHATWG URL Standard)

    The [/scan] handler calls [new URL(u).hostname] on
    [u = url.startsWith('http') ? url : 'https://' + url].  The model
    [url_hostname] follows the basic URL parser with no base URL through
    the states such inputs reach: input trimming (leading and trailing C0
    controls and spaces, then every tab and newline removed), the scheme
    start and scheme states (no scheme means failure, since there is no
    base), the special-scheme handling of slashes and backslashes, the
    authority state (userinfo up to the last [@]), the host state (the
    first [:] outside brackets starts the port) and the port state, and
    the host parser: a host in brackets is an IPv6 address ([ipv6_parse],
    serialized by [ipv6_serialize]); a domain is percent-decoded
    ([percent_decode]), checked for forbidden code points, lower-cased,
    and read as an IPv4 address when it ends in a number ([ipv4_parse],
    [ipv4_serialize]).  The result is [HostOk h], [HostFail] (the
    constructor throws [TypeError: Invalid URL]) or [HostUnmodelled] for
    what the model leaves out: non-ASCII hosts and [xn--] labels (IDNA)
    and the [file:] scheme. *)

From S2P Require Import Prelude JsCore JsDate Json.

Local Open Scope string_scope.

Inductive host_result := HostOk (h : string) | HostFail | HostUnmodelled.

#[export] Instance host_result_eq_dec : EqDecision host_result.
Proof. solve_decision. Defined.

(** ** Code point classes *)

Definition code (c : ascii) : nat := nat_of_ascii c.

Definition is_c0_or_space (c : ascii) : bool := Nat.leb (code c) 32.
Definition is_tab_or_newline (c : ascii) : bool :=
  Nat.eqb (code c) 9 || Nat.eqb (code c) 10 || Nat.eqb (code c) 13.
Definition is_ascii_alpha (c : ascii) : bool :=
  (Nat.leb 65 (code c) && Nat.leb (code c) 90) || (Nat.leb 97 (code c) && Nat.leb (code c) 122).
Definition is_ascii_digit (c : ascii) : bool := Nat.leb 48 (code c) && Nat.leb (code c) 57.
Definition is_ascii_hex (c : ascii) : bool :=
  is_ascii_digit c || (Nat.leb 65 (code c) && Nat.leb (code c) 70) ||
  (Nat.leb 97 (code c) && Nat.leb (code c) 102).
Definition is_scheme_char (c : ascii) : bool :=
  is_ascii_alpha c || is_ascii_digit c || Nat.eqb (code c) 43 || Nat.eqb (code c) 45 ||
  Nat.eqb (code c) 46.

(** ASCII lower-casing, as the scheme state and domain-to-ASCII apply it. *)
Definition ascii_lower (c : ascii) : ascii :=
  if Nat.leb 65 (code c) && Nat.leb (code c) 90 then ascii_of_nat (code c + 32) else c.

(** Forbidden host code points: NUL, tab, LF, CR, space, # / : < > ? @ [ \ ] ^ |. *)
Definition forbidden_host (c : ascii) : bool :=
  existsb (Nat.eqb (code c)) [0; 9; 10; 13; 32; 35; 47; 58; 60; 62; 63; 64; 91; 92; 93; 94; 124].

(** Forbidden domain code points: those, the C0 controls, [%] and DEL. *)
Definition forbidden_domain (c : ascii) : bool :=
  forbidden_host c || Nat.leb (code c) 31 || Nat.eqb (code c) 37 || Nat.eqb (code c) 127.

(** The characters that end the authority: [/ ? #], and [\] for special schemes. *)
Definition authority_end (special : bool) (c : ascii) : bool :=
  Nat.eqb (code c) 47 || Nat.eqb (code c) 63 || Nat.eqb (code c) 35 ||
  (special && Nat.eqb (code c) 92).

Definition special_schemes : list string := ["ftp"; "http"; "https"; "ws"; "wss"].

(** ** List helpers *)

Fixpoint drop_while {A} (p : A -> bool) (l : list A) : list A :=
  match l with
  | [] => []
  | x :: l' => if p x then drop_while p l' else l
  end.

Fixpoint take_while {A} (p : A -> bool) (l : list A) : list A :=
  match l with
  | [] => []
  | x :: l' => if p x then x :: take_while p l' else []
  end.

(** The part after the last [@], if there is one. *)
Fixpoint after_last_at (l : list ascii) : option (list ascii) :=
  match l with
  | [] => None
  | c :: l' =>
      match after_last_at l' with
      | Some r => Some r
      | None => if Nat.eqb (code c) 64 then Some l' else None
      end
  end.

(** Split at the first [:] outside brackets ([insideBrackets] of the
    host state). *)
Fixpoint split_colon (inside : bool) (l : list ascii) : option (list ascii * list ascii) :=
  match l with
  | [] => None
  | c :: l' =>
      if Nat.eqb (code c) 58 && negb inside then Some ([], l')
      else
        let inside' := if Nat.eqb (code c) 91 then true else if Nat.eqb (code c) 93 then false else inside in
        match split_colon inside' l' with
        | Some (h, p) => Some (c :: h, p)
        | None => None
        end
  end.

(** Strict split on [.]. *)
Fixpoint split_dot (l : list ascii) : list (list ascii) :=
  match l with
  | [] => [[]]
  | c :: l' =>
      match split_dot l' with
      | [] => [[]]
      | part :: parts => if Nat.eqb (code c) 46 then [] :: part :: parts else (c :: part) :: parts
      end
  end.

(** ** Parser states *)

(** Input pre-processing: trim C0 controls and spaces at both ends, then
    remove every tab and newline. *)
Definition preprocess (cs : list ascii) : list ascii :=
  List.filter (fun c => negb (is_tab_or_newline c))
    (rev (drop_while is_c0_or_space (rev (drop_while is_c0_or_space cs)))).

(** Scheme state: scheme characters (lower-cased) up to [:]. *)
Fixpoint scheme_state (cs : list ascii) (acc : list ascii) : option (list ascii * list ascii) :=
  match cs with
  | [] => None
  | c :: cs' =>
      if Nat.eqb (code c) 58 then Some (rev acc, cs')
      else if is_scheme_char c then scheme_state cs' (ascii_lower c :: acc)
      else None
  end.

(** The IPv4 test "ends in a number": the last non-empty label is all
    digits, or [0x] followed by hex digits. *)
Definition ends_in_number (d : list ascii) : bool :=
  let parts := split_dot d in
  let parts := match rev parts with
               | [] :: (_ :: _) as rest => rev rest
               | _ => parts
               end in
  match rev parts with
  | last :: _ =>
      (negb (Nat.eqb (List.length last) 0) && forallb is_ascii_digit last) ||
      match last with
      | c0 :: cx :: hex => Nat.eqb (code c0) 48 && Nat.eqb (code cx) 120 && forallb is_ascii_hex hex
      | _ => false
      end
  | [] => false
  end.

(** ** The IPv4 parser *)

(** The value of a radix-[r] digit. *)
Definition radix_digit (r : Z) (c : ascii) : option Z :=
  let n := code c in
  let v := if is_ascii_digit c then Some (Z.of_nat n - 48)%Z
           else if Nat.leb 97 n && Nat.leb n 102 then Some (Z.of_nat n - 87)%Z
           else if Nat.leb 65 n && Nat.leb n 70 then Some (Z.of_nat n - 55)%Z
           else None in
  match v with Some d => if (d <? r)%Z then Some d else None | None => None end.

Fixpoint radix_value (r acc : Z) (l : list ascii) : option Z :=
  match l with
  | [] => Some acc
  | c :: l' => match radix_digit r c with
               | Some d => radix_value r (acc * r + d)%Z l'
               | None => None
               end
  end.

(** The IPv4 number parser: [0x] or [0X] makes the rest hexadecimal, a
    leading [0] octal, otherwise decimal; the empty rest is 0.  [None] is
    failure. *)
Definition ipv4_number (part : list ascii) : option Z :=
  match part with
  | [] => None
  | c0 :: ((cx :: rest) as tail) =>
      if Nat.eqb (code c0) 48 && (Nat.eqb (code cx) 120 || Nat.eqb (code cx) 88)
      then radix_value 16 0 rest
      else if Nat.eqb (code c0) 48 then radix_value 8 0 tail
      else radix_value 10 0 part
  | [_] => radix_value 10 0 part
  end.

(** [n × 256^(3 − counter)] summed over the numbers before the last. *)
Fixpoint ipv4_sum (counter : Z) (ns : list Z) : Z :=
  match ns with
  | [] => 0
  | n :: ns' => (n * 256 ^ (3 - counter) + ipv4_sum (counter + 1) ns')%Z
  end.

(** The IPv4 parser: at most four parts (a trailing empty one dropped),
    every number but the last at most 255, the last below
    [256^(5 − parts)]; the address is the last number plus the others
    shifted by bytes. *)
Definition ipv4_parse (d : list ascii) : option Z :=
  let parts := split_dot d in
  let parts := match rev parts with
               | [] :: (_ :: _) as rest => rev rest
               | _ => parts
               end in
  if Nat.ltb 4 (List.length parts) then None
  else match mapM ipv4_number parts with
       | None => None
       | Some numbers =>
           match rev numbers with
           | [] => None
           | last :: init_rev =>
               if existsb (fun n => (255 <? n)%Z) init_rev then None
               else if (256 ^ (5 - Z.of_nat (List.length numbers)) <=? last)%Z then None
               else Some (last + ipv4_sum 0 (rev init_rev))%Z
           end
       end.

(** The IPv4 serializer: four times, prepend [n % 256] (and a dot but
    the last time) and divide [n] by 256. *)
Fixpoint ipv4_ser (k : nat) (n : Z) (output : string) : string :=
  match k with
  | O => output
  | S k' =>
      let output := number_to_string (n mod 256) ++ output in
      ipv4_ser k' (n / 256) (if Nat.eqb k' 0 then output else "." ++ output)
  end.

Definition ipv4_serialize (address : Z) : string := ipv4_ser 4 address "".

(** What the round trip needs of the text of a byte: it reads back as the
    byte, has no dot and is not empty. *)
Definition byte_text_ok (b : Z) : bool :=
  let t := list_ascii_of_string (number_to_string b) in
  bool_decide (ipv4_number t = Some b) && forallb is_ascii_digit t &&
  negb (Nat.eqb (List.length t) 0).

Definition no_dot (l : list ascii) : bool := forallb (fun c => negb (Nat.eqb (code c) 46)) l.

(** The characters of a serialized address. *)
Definition digit_or_dot (c : ascii) : bool := is_ascii_digit c || Nat.eqb (code c) 46.

Definition has_xn_label (d : list ascii) : bool :=
  existsb (fun part => match part with
                       | x :: n :: h1 :: h2 :: _ =>
                           Nat.eqb (code x) 120 && Nat.eqb (code n) 110 &&
                           Nat.eqb (code h1) 45 && Nat.eqb (code h2) 45
                       | _ => false
                       end) (split_dot d).

(** The value of a hexadecimal digit. *)
Definition hex_value (c : ascii) : nat :=
  let n := code c in if Nat.leb n 57 then n - 48 else if Nat.leb n 70 then n - 55 else n - 87.

(** Percent-decoding: [%] and two hexadecimal digits is the byte they
    name; any other [%] stays. *)
Fixpoint percent_decode (l : list ascii) : list ascii :=
  match l with
  | [] => []
  | c :: l' =>
      if Nat.eqb (code c) 37 then
        match l' with
        | h1 :: h2 :: rest =>
            if is_ascii_hex h1 && is_ascii_hex h2
            then ascii_of_nat (hex_value h1 * 16 + hex_value h2) :: percent_decode rest
            else c :: percent_decode l'
        | _ => c :: percent_decode l'
        end
      else c :: percent_decode l'
  end.

(** Host parsing for a special scheme (a domain): percent-decode, then
    (domain to ASCII) fail on a forbidden domain code point, leave a
    non-ASCII domain to IDNA, and lower-case an ASCII one. *)
Definition parse_domain (h : list ascii) : host_result :=
  let bytes := percent_decode h in
  if existsb forbidden_domain bytes then HostFail
  else if existsb (fun c => Nat.leb 128 (code c)) bytes then HostUnmodelled
  else
    let d := map ascii_lower bytes in
    if has_xn_label d then HostUnmodelled
    else if ends_in_number d then
      match ipv4_parse d with Some a => HostOk (ipv4_serialize a) | None => HostFail end
    else HostOk (string_of_list_ascii d).

(** Host parsing for a non-special scheme (an opaque host). *)
Definition parse_opaque_host (h : list ascii) : host_result :=
  if existsb forbidden_host h then HostFail
  else if existsb (fun c => Nat.leb (code c) 31 || Nat.leb 127 (code c)) h then HostUnmodelled
  else HostOk (string_of_list_ascii h).

(** ** IPv6 addresses

    The IPv6 parser of the URL Standard on the text between [[] and []],
    with its [pointer] as the rest of the input: [address] is a list of
    eight pieces, [piece] is [pieceIndex] and [compress] the piece where
    [::] stood.  Each turn of the main loop consumes input and advances
    [piece], which is below 8 while input remains, so [ipv6_loop] runs on
    the fuel [8 - piece]; the embedded IPv4 loop reads at most four
    numbers and runs on the fuel [4 - numbersSeen].  When that fuel is
    spent with input left the parser fails too, so the fuel is exact. *)

Definition piece_at (i : nat) (address : list Z) : Z := nth i address 0%Z.
Definition set_piece (i : nat) (v : Z) (address : list Z) : list Z := <[i := v]> address.

(** Up to four hexadecimal digits: their value, their number, the rest. *)
Fixpoint hex_run (k : nat) (value : Z) (len : nat) (l : list ascii) : Z * nat * list ascii :=
  match k, l with
  | S k', c :: l' =>
      if is_ascii_hex c then hex_run k' (value * 16 + Z.of_nat (hex_value c))%Z (S len) l'
      else (value, len, l)
  | _, _ => (value, len, l)
  end.

(** The digits of one number of an embedded IPv4 address: a leading zero
    followed by a digit, or a value above 255, fails. *)
Fixpoint ipv4_piece_digits (ipv4Piece : option Z) (l : list ascii) : option (option Z * list ascii) :=
  match l with
  | c :: l' =>
      if is_ascii_digit c then
        let number := Z.of_nat (code c - 48) in
        match ipv4Piece with
        | None => ipv4_piece_digits (Some number) l'
        | Some 0%Z => None
        | Some v =>
            if (255 <? v * 10 + number)%Z then None else ipv4_piece_digits (Some (v * 10 + number)%Z) l'
        end
      else Some (ipv4Piece, l)
  | [] => Some (ipv4Piece, [])
  end.

(** The embedded IPv4 address: four decimal numbers separated by dots,
    two per piece. *)
Fixpoint ipv6_ipv4 (fuel numbersSeen : nat) (address : list Z) (piece : nat) (l : list ascii)
  : option (list Z * nat) :=
  match l with
  | [] => if Nat.eqb numbersSeen 4 then Some (address, piece) else None
  | c :: l' =>
      match fuel with
      | O => None
      | S fuel' =>
          let l1 := if Nat.eqb numbersSeen 0 then Some l
                    else if Nat.eqb (code c) 46 && Nat.ltb numbersSeen 4 then Some l' else None in
          match l1 with
          | Some ((d :: _) as l2) =>
              if is_ascii_digit d then
                match ipv4_piece_digits None l2 with
                | Some (Some v, rest) =>
                    let seen' := S numbersSeen in
                    ipv6_ipv4 fuel' seen' (set_piece piece (piece_at piece address * 256 + v)%Z address)
                      (if Nat.eqb seen' 2 || Nat.eqb seen' 4 then S piece else piece) rest
                | _ => None
                end
              else None
          | _ => None
          end
      end
  end.

(** The main loop: a [:] where [compress] is unset starts the
    compressed run; otherwise up to four hex digits, then a [.] (the
    piece is the start of an IPv4 address), a [:] not at the end, or the
    end. *)
Fixpoint ipv6_loop (fuel : nat) (address : list Z) (piece : nat) (compress : option nat) (l : list ascii)
  : option (list Z * nat * option nat) :=
  match l with
  | [] => Some (address, piece, compress)
  | c :: l' =>
      match fuel with
      | O => None
      | S fuel' =>
          if Nat.eqb (code c) 58 then
            match compress with
            | Some _ => None
            | None => ipv6_loop fuel' address (S piece) (Some (S piece)) l'
            end
          else
            let '(value, len, rest) := hex_run 4 0 0 l in
            match rest with
            | [] => Some (set_piece piece value address, S piece, compress)
            | d :: rest' =>
                if Nat.eqb (code d) 46 then
                  if Nat.eqb len 0 || Nat.ltb 6 piece then None
                  else match ipv6_ipv4 4 0 address piece l with
                       | Some (address', piece') => Some (address', piece', compress)
                       | None => None
                       end
                else if Nat.eqb (code d) 58 then
                  match rest' with
                  | [] => None
                  | _ => ipv6_loop fuel' (set_piece piece value address) (S piece) compress rest'
                  end
                else None
            end
      end
  end.

(** Moving the pieces after [::] to the end: swap [address[pieceIndex]]
    with [address[compress + swaps - 1]] while [pieceIndex] and [swaps]
    are positive. *)
Fixpoint swap_loop (swaps piece compress : nat) (address : list Z) : list Z :=
  match swaps with
  | O => address
  | S swaps' =>
      if Nat.eqb piece 0 then address
      else swap_loop swaps' (piece - 1) compress
             (set_piece piece (piece_at (compress + swaps') address)
                (set_piece (compress + swaps') (piece_at piece address) address))
  end.

Definition ipv6_parse (input : list ascii) : option (list Z) :=
  let start :=
    match input with
    | c :: rest =>
        if Nat.eqb (code c) 58 then
          match rest with
          | d :: rest' => if Nat.eqb (code d) 58 then Some (rest', 1%nat, Some 1%nat) else None
          | [] => None
          end
        else Some (input, 0%nat, None)
    | [] => Some (input, 0%nat, None)
    end in
  match start with
  | None => None
  | Some (l, piece, compress) =>
      match ipv6_loop (8 - piece) (repeat 0%Z 8) piece compress l with
      | None => None
      | Some (address, piece', Some comp) => Some (swap_loop (piece' - comp) 7 comp address)
      | Some (address, piece', None) => if Nat.eqb piece' 8 then Some address else None
      end
  end.

(** The first piece of the first longest run of two or more zero pieces. *)
Fixpoint compress_scan (i : nat) (pieces : list Z) (longestIndex : option nat) (longestSize : nat)
  (foundIndex : option nat) (foundSize : nat) : option nat :=
  match pieces with
  | [] => if Nat.ltb longestSize foundSize then foundIndex else longestIndex
  | p :: ps =>
      if negb (Z.eqb p 0) then
        if Nat.ltb longestSize foundSize then compress_scan (S i) ps foundIndex foundSize None 0
        else compress_scan (S i) ps longestIndex longestSize None 0
      else compress_scan (S i) ps longestIndex longestSize
             (match foundIndex with None => Some i | _ => foundIndex end) (S foundSize)
  end.

Definition ipv6_compress_index (address : list Z) : option nat := compress_scan 0 address None 1 None 0.

(** A piece in the shortest lowercase hexadecimal; a piece is below
    [2^16], so four digits are enough. *)
Definition hex_digit (d : Z) : ascii :=
  ascii_of_nat (Z.to_nat (if (d <? 10)%Z then 48 + d else 87 + d)%Z).

Fixpoint to_hex_aux (k : nat) (n : Z) (acc : list ascii) : list ascii :=
  match k with
  | O => acc
  | S k' =>
      let acc' := hex_digit (n mod 16)%Z :: acc in
      if (n / 16 =? 0)%Z then acc' else to_hex_aux k' (n / 16)%Z acc'
  end.

Definition to_hex (n : Z) : list ascii := to_hex_aux 4 n [].

(** The IPv6 serializer: the compressed run is [::] (one [:] after a
    piece), the zeros of the run are skipped. *)
Fixpoint ipv6_ser (i : nat) (pieces : list Z) (compress : option nat) (ignore0 : bool) : list ascii :=
  match pieces with
  | [] => []
  | p :: ps =>
      if ignore0 && Z.eqb p 0 then ipv6_ser (S i) ps compress true
      else if match compress with Some c => Nat.eqb c i | None => false end
      then (if Nat.eqb i 0 then [":"%char; ":"%char] else [":"%char]) ++ ipv6_ser (S i) ps compress true
      else to_hex p ++ (if Nat.eqb i 7 then [] else [":"%char]) ++ ipv6_ser (S i) ps compress false
  end.

Definition ipv6_serialize (address : list Z) : string :=
  string_of_list_ascii (ipv6_ser 0 address (ipv6_compress_index address) false).

Fixpoint port_value (p : list ascii) (acc : Z) : Z :=
  match p with
  | [] => acc
  | c :: p' => port_value p' (acc * 10 + (Z.of_nat (code c) - 48))%Z
  end.

(** Port state: only digits, at most 65535; an empty port is allowed. *)
Definition valid_port (p : list ascii) : bool :=
  forallb is_ascii_digit p && (port_value p 0 <=? 65535)%Z.

(** The host parser: a host in brackets is an IPv6 address, serialized
    in brackets; otherwise a domain or an opaque host. *)
Definition host_parse (special : bool) (h : list ascii) : host_result :=
  match h with
  | c :: h' =>
      if Nat.eqb (code c) 91 then
        match rev h' with
        | e :: inner =>
            if Nat.eqb (code e) 93 then
              match ipv6_parse (rev inner) with
              | Some a => HostOk ("[" ++ ipv6_serialize a ++ "]")
              | None => HostFail
              end
            else HostFail
        | [] => HostFail
        end
      else if special then parse_domain h else parse_opaque_host h
  | [] => if special then parse_domain h else parse_opaque_host h
  end.

(** Host state, then port state.  A [:] with an empty host fails; an
    invalid port fails whatever the host parses to. *)
Definition host_state (special : bool) (hostport : list ascii) : host_result :=
  match hostport with
  | [] => if special then HostFail else HostOk ""
  | _ :: _ =>
      match split_colon false hostport with
      | Some (h, p) =>
          if Nat.eqb (List.length h) 0 || negb (valid_port p) then HostFail
          else host_parse special h
      | None => host_parse special hostport
      end
  end.

(** Authority state: the userinfo ends at the last [@]; an [@] with
    nothing after it fails. *)
Definition authority_state (special : bool) (rest : list ascii) : host_result :=
  let auth := take_while (fun c => negb (authority_end special c)) rest in
  match after_last_at auth with
  | Some [] => HostFail
  | Some hp => host_state special hp
  | None => host_state special auth
  end.

(** [new URL(input).hostname] *)
Definition url_hostname (input : string) : host_result :=
  match preprocess (list_ascii_of_string input) with
  | [] => HostFail
  | c :: cs =>
      if negb (is_ascii_alpha c) then HostFail
      else match scheme_state (c :: cs) [] with
           | None => HostFail
           | Some (scheme, rest) =>
               let sch := string_of_list_ascii scheme in
               if String.eqb sch "file" then HostUnmodelled
               else if existsb (String.eqb sch) special_schemes then
                 authority_state true
                   (drop_while (fun c => Nat.eqb (code c) 47 || Nat.eqb (code c) 92) rest)
               else match rest with
                    | s1 :: s2 :: rest' =>
                        if Nat.eqb (code s1) 47 && Nat.eqb (code s2) 47
                        then authority_state false rest' else HostOk ""
                    | _ => HostOk ""
                    end
           end
  end.

(** ** Plain hosts *)

(** Host characters that need no special handling: ASCII letters and
    digits, [-] and [.]. *)
Definition plain_host_char (c : ascii) : bool :=
  is_ascii_alpha c || is_ascii_digit c || Nat.eqb (code c) 45 || Nat.eqb (code c) 46.

(** What the parser needs of a plain host character, checked on all 256. *)
Definition plain_char_facts (c : ascii) : bool :=
  Nat.ltb 32 (code c) && negb (authority_end true c) && negb (Nat.eqb (code c) 64) &&
  negb (Nat.eqb (code c) 58) && negb (Nat.eqb (code c) 91) &&
  negb (forbidden_domain c) && negb (Nat.eqb (code c) 37) && negb (Nat.leb 128 (code c)).

(** Host characters that reach the host parser as they are: plain ones
    and [%]; what the authority and host states need of them. *)
Definition host_char (c : ascii) : bool := plain_host_char c || Nat.eqb (code c) 37.

Definition host_char_facts (c : ascii) : bool :=
  Nat.ltb 32 (code c) && negb (authority_end true c) && negb (Nat.eqb (code c) 64) &&
  negb (Nat.eqb (code c) 58) && negb (Nat.eqb (code c) 91).

Lemma host_char_facts_ok c : host_char c = true -> host_char_facts c = true.
Proof. destruct c as [[] [] [] [] [] [] [] []]; intros H; try discriminate H; reflexivity. Qed.

Lemma plain_char_facts_ok c : plain_host_char c = true -> plain_char_facts c = true.
Proof. destruct c as [[] [] [] [] [] [] [] []]; intros H; try discriminate H; reflexivity. Qed.

Lemma forallb_plain_facts h : forallb plain_host_char h = true -> forallb plain_char_facts h = true.
Proof.
  rewrite !forallb_forall. intros H c Hc. by apply plain_char_facts_ok, H.
Qed.

Lemma drop_while_stop {A} (p : A -> bool) x l : p x = false -> drop_while p (x :: l) = x :: l.
Proof. intros H. simpl. by rewrite H. Qed.

Lemma take_while_app {A} (p : A -> bool) l1 l2 :
  forallb p l1 = true -> match l2 with [] => True | x :: _ => p x = false end ->
  take_while p (l1 ++ l2) = l1.
Proof.
  intros H1 H2. induction l1 as [|x l1 IH]; simpl in *.
  - destruct l2 as [|x l2]; simpl; [done|]. by rewrite H2.
  - apply andb_true_iff in H1 as [Hx H1]. rewrite Hx. f_equal. by apply IH.
Qed.

Lemma after_last_at_none l : forallb (fun c => negb (Nat.eqb (code c) 64)) l = true -> after_last_at l = None.
Proof.
  induction l as [|c l IH]; simpl; [done|]. intros H. apply andb_true_iff in H as [Hc H].
  rewrite IH by done. apply negb_true_iff in Hc. by rewrite Hc.
Qed.

Lemma split_colon_none l inside :
  forallb (fun c => negb (Nat.eqb (code c) 58)) l = true -> split_colon inside l = None.
Proof.
  revert inside. induction l as [|c l IH]; intros inside; simpl; [done|]. intros H.
  apply andb_true_iff in H as [Hc H]. apply negb_true_iff in Hc. by rewrite Hc, IH.
Qed.

Lemma preprocess_id cs : forallb (fun c => Nat.ltb 32 (code c)) cs = true -> preprocess cs = cs.
Proof.
  intros H. unfold preprocess.
  assert (Hd : forall l, forallb (fun c => Nat.ltb 32 (code c)) l = true -> drop_while is_c0_or_space l = l).
  { intros [|c l] Hl; [done|]. apply drop_while_stop. simpl in Hl. apply andb_true_iff in Hl as [Hc _].
    unfold is_c0_or_space. apply Nat.ltb_lt in Hc. apply Nat.leb_gt. lia. }
  rewrite (Hd cs H), (Hd (rev cs)), rev_involutive; [|].
  2: { apply forallb_forall. intros c Hc. apply in_rev in Hc. by apply (proj1 (forallb_forall _ _) H). }
  apply filter_all_true. intros c Hc. rewrite forallb_forall in H. apply H, Nat.ltb_lt in Hc.
  unfold is_tab_or_newline. apply negb_true_iff.
  repeat (apply orb_false_iff; split); apply Nat.eqb_neq; lia.
Qed.

Lemma in_drop_while {A} (p : A -> bool) l x : In x (drop_while p l) -> In x l.
Proof. induction l as [|y l IH]; cbn; [done|]. destruct (p y); [auto|done]. Qed.

Lemma preprocess_in cs c : In c (preprocess cs) -> In c cs.
Proof.
  unfold preprocess. intros [Hc _]%filter_In. rewrite <- in_rev in Hc.
  apply in_drop_while in Hc. rewrite <- in_rev in Hc. by apply in_drop_while in Hc.
Qed.

Lemma scheme_state_no_colon cs acc :
  forallb (fun c => negb (Nat.eqb (code c) 58)) cs = true -> scheme_state cs acc = None.
Proof.
  revert acc. induction cs as [|c cs IH]; intros acc; cbn; [done|].
  intros [Hc H]%andb_true_iff. apply negb_true_iff in Hc. rewrite Hc.
  destruct (is_scheme_char c); [by apply IH|done].
Qed.

(** An input with no [:] has no scheme: [new URL] throws. *)
Lemma url_hostname_no_colon s :
  forallb (fun c => negb (Nat.eqb (code c) 58)) (list_ascii_of_string s) = true -> url_hostname s = HostFail.
Proof.
  intros H. unfold url_hostname.
  destruct (preprocess (list_ascii_of_string s)) as [|c cs] eqn:Ep; [done|].
  destruct (negb (is_ascii_alpha c)); [done|]. rewrite scheme_state_no_colon; [done|].
  rewrite <- Ep. apply forallb_forall. intros x Hx%preprocess_in. by apply (proj1 (forallb_forall _ _) H).
Qed.

Lemma forallb_impl {A} (P Q : A -> bool) l :
  (forall x, P x = true -> Q x = true) -> forallb P l = true -> forallb Q l = true.
Proof. rewrite !forallb_forall. eauto. Qed.

Lemma existsb_false {A} (q : A -> bool) l : forallb (fun x => negb (q x)) l = true -> existsb q l = false.
Proof.
  induction l as [|x l IH]; simpl; [done|]. intros H. apply andb_true_iff in H as [Hx H].
  apply negb_true_iff in Hx. by rewrite Hx, IH.
Qed.

Lemma plain_proj (f : ascii -> bool) h :
  (forall c, plain_char_facts c = true -> f c = true) -> forallb plain_host_char h = true -> forallb f h = true.
Proof. intros Hf H. apply (forallb_impl plain_char_facts); [done|by apply forallb_plain_facts]. Qed.

Lemma host_proj (f : ascii -> bool) h :
  (forall c, host_char_facts c = true -> f c = true) -> forallb host_char h = true -> forallb f h = true.
Proof.
  intros Hf H. apply (forallb_impl host_char_facts); [done|]. revert H. apply forallb_impl, host_char_facts_ok.
Qed.

Lemma plain_host h : forallb plain_host_char h = true -> forallb host_char h = true.
Proof. apply forallb_impl. intros c Hc. unfold host_char. by rewrite Hc. Qed.

(** One conjunct of [host_char_facts]. *)
Ltac host_fact :=
  let x := fresh "x" in let Hx := fresh "Hx" in
  intros x Hx; unfold host_char_facts in Hx; bool_to_prop;
  first [assumption | apply negb_true_iff; first [assumption | apply orb_false_iff; split; assumption]].

(** One conjunct of [plain_char_facts]. *)
Ltac plain_fact :=
  let x := fresh "x" in let Hx := fresh "Hx" in
  intros x Hx; unfold plain_char_facts in Hx; bool_to_prop;
  first [assumption | apply negb_true_iff; first [assumption | apply orb_false_iff; split; assumption]].

(** The characters of an authority without userinfo. *)
Definition auth_char (c : ascii) : bool :=
  Nat.ltb 32 (code c) && negb (authority_end true c) && negb (Nat.eqb (code c) 64).

(** One conjunct of [auth_char]. *)
Ltac auth_fact :=
  let x := fresh "x" in let Hx := fresh "Hx" in
  intros x Hx; unfold auth_char in Hx; bool_to_prop; cbn beta;
  first [assumption | apply negb_true_iff; assumption].

(** After [https://], an authority without userinfo followed by a path
    reaches the host state as it is. *)
Lemma url_hostname_auth a p :
  a <> [] -> forallb auth_char a = true ->
  match p with [] => True | c :: _ => authority_end true c = true end ->
  forallb (fun c => Nat.ltb 32 (code c)) p = true ->
  url_hostname (string_of_list_ascii (list_ascii_of_string "https://" ++ a ++ p)) = host_state true a.
Proof.
  intros Hne Ha Hp Hpc. unfold url_hostname.
  assert (Hproj : forall f, (forall c, auth_char c = true -> f c = true) -> forallb f a = true).
  { intros f Hf. revert Ha. by apply forallb_impl. }
  rewrite list_ascii_of_string_of_list_ascii, preprocess_id.
  2: { cbn [list_ascii_of_string app forallb]. rewrite forallb_app, Hpc, Hproj; [done|]. auth_fact. }
  cbn [list_ascii_of_string app].
  assert (Hs : forall rest, scheme_state ("h" :: "t" :: "t" :: "p" :: "s" :: ":" :: rest)%char [] =
                            Some (["h"; "t"; "t"; "p"; "s"]%char, rest)) by reflexivity.
  assert (Hsl : forall l, drop_while (fun c => Nat.eqb (code c) 47 || Nat.eqb (code c) 92) ("/" :: "/" :: l)%char =
                     drop_while (fun c => Nat.eqb (code c) 47 || Nat.eqb (code c) 92) l) by reflexivity.
  rewrite Hs. change (is_ascii_alpha "h") with true. cbn [negb].
  change (string_of_list_ascii ["h"; "t"; "t"; "p"; "s"]%char =? "file") with false.
  change (existsb (String.eqb (string_of_list_ascii ["h"; "t"; "t"; "p"; "s"]%char)) special_schemes) with true.
  rewrite Hsl. destruct a as [|c a']; [done|]. clear Hne Hs Hsl.
  assert (Hc : auth_char c = true) by (simpl in Ha; by apply andb_true_iff in Ha as [-> _]).
  unfold auth_char, authority_end in Hc. bool_to_prop. cbn [andb] in *.
  rewrite <- app_comm_cons, drop_while_stop by (cbn beta; apply orb_false_iff; split; assumption).
  rewrite app_comm_cons. unfold authority_state.
  rewrite take_while_app.
  2: { apply Hproj. auth_fact. }
  2: { destruct p as [|x p']; [done|]. by rewrite Hp. }
  rewrite after_last_at_none; [done|]. apply Hproj. auth_fact.
Qed.

Lemma host_char_auth c : host_char_facts c = true -> auth_char c = true.
Proof.
  unfold host_char_facts, auth_char. intros H.
  apply andb_true_iff in H as [H _]. apply andb_true_iff in H as [H _]. exact H.
Qed.

(** After [https://], a host of plain characters reaches the domain
    parser as it is. *)
Lemma url_hostname_domain h p :
  h <> [] -> forallb host_char h = true ->
  match p with [] => True | c :: _ => authority_end true c = true end ->
  forallb (fun c => Nat.ltb 32 (code c)) p = true ->
  url_hostname (string_of_list_ascii (list_ascii_of_string "https://" ++ h ++ p)) =
  parse_domain h.
Proof.
  intros Hne Hh Hp Hpc.
  rewrite url_hostname_auth; [|done|apply host_proj; [exact host_char_auth|done]|done|done].
  destruct h as [|c h']; [done|].
  assert (Hc : host_char_facts c = true).
  { apply host_char_facts_ok. simpl in Hh. by apply andb_true_iff in Hh as [-> _]. }
  unfold host_char_facts in Hc. bool_to_prop.
  unfold host_state. rewrite split_colon_none.
  2: { apply host_proj; [|done]. host_fact. }
  unfold host_parse. match goal with H : Nat.eqb (code c) 91 = false |- _ => by rewrite H end.
Qed.

Lemma percent_decode_id l : forallb (fun c => negb (Nat.eqb (code c) 37)) l = true -> percent_decode l = l.
Proof.
  induction l as [|c l IH]; [done|]. cbn. intros H. apply andb_true_iff in H as [Hc H].
  apply negb_true_iff in Hc. rewrite Hc. by rewrite IH.
Qed.

(** A domain of plain characters has nothing to decode and no forbidden
    or non-ASCII code point. *)
Lemma parse_domain_plain h :
  forallb plain_host_char h = true ->
  parse_domain h = let d := map ascii_lower h in
    if has_xn_label d then HostUnmodelled
    else if ends_in_number d then
      match ipv4_parse d with Some a => HostOk (ipv4_serialize a) | None => HostFail end
    else HostOk (string_of_list_ascii d).
Proof.
  intros Hh. unfold parse_domain. rewrite percent_decode_id by (apply plain_proj; [|done]; plain_fact).
  rewrite !existsb_false; [done| |].
  - apply plain_proj; [|done]. plain_fact.
  - apply plain_proj; [|done]. plain_fact.
Qed.

(** A plain host after [https://] is its own hostname, lower-cased. *)
Lemma url_hostname_plain h p :
  h <> [] -> forallb plain_host_char h = true ->
  has_xn_label (map ascii_lower h) = false -> ends_in_number (map ascii_lower h) = false ->
  match p with [] => True | c :: _ => authority_end true c = true end ->
  forallb (fun c => Nat.ltb 32 (code c)) p = true ->
  url_hostname (string_of_list_ascii (list_ascii_of_string "https://" ++ h ++ p)) =
  HostOk (string_of_list_ascii (map ascii_lower h)).
Proof.
  intros Hne Hh Hxn Hnum Hp Hpc. rewrite url_hostname_domain, parse_domain_plain by (by apply plain_host || done).
  cbv zeta. by rewrite Hxn, Hnum.
Qed.

(** ** IPv4 addresses *)

Lemma split_dot_nodot l : no_dot l = true -> split_dot l = [l].
Proof.
  induction l as [|c l IH]; [done|]. cbn. intros H. apply andb_true_iff in H as [Hc H].
  rewrite IH by done. apply negb_true_iff in Hc. by rewrite Hc.
Qed.

Lemma split_dot_app l r : no_dot l = true -> split_dot (l ++ "."%char :: r)%list = l :: split_dot r.
Proof.
  induction l as [|c l IH]; intros H.
  - cbn. by destruct (split_dot r).
  - cbn in H |- *. apply andb_true_iff in H as [Hc H]. rewrite IH by done.
    apply negb_true_iff in Hc. by rewrite Hc.
Qed.

(** Every byte's text, checked on the 256 of them. *)
Lemma byte_texts : forallb (fun n => byte_text_ok (Z.of_nat n)) (seq 0 256) = true.
Proof. vm_compute. reflexivity. Qed.

Lemma digits_no_dot l : forallb is_ascii_digit l = true -> no_dot l = true.
Proof. apply forallb_impl. intros c. unfold is_ascii_digit. rewrite andb_true_iff, !Nat.leb_le. intros. apply negb_true_iff, Nat.eqb_neq. lia. Qed.

Lemma byte_text b : (0 <= b < 256)%Z ->
  ipv4_number (list_ascii_of_string (number_to_string b)) = Some b /\
  forallb is_ascii_digit (list_ascii_of_string (number_to_string b)) = true /\
  list_ascii_of_string (number_to_string b) <> [].
Proof.
  intros Hb. pose proof byte_texts as H. rewrite forallb_forall in H.
  specialize (H (Z.to_nat b)). rewrite Z2Nat.id in H by lia.
  unfold byte_text_ok in H. rewrite !andb_true_iff, negb_true_iff, Nat.eqb_neq in H.
  destruct H as [[Hn Hd] Hl]; [apply in_seq; lia|]. split_and!; [by apply bool_decide_eq_true in Hn|done|].
  intros E. rewrite E in Hl. done.
Qed.

Lemma ipv4_serialize_eq a :
  list_ascii_of_string (ipv4_serialize a) =
    (list_ascii_of_string (number_to_string ((a / 256 / 256 / 256) mod 256)) ++ "."%char ::
    list_ascii_of_string (number_to_string ((a / 256 / 256) mod 256)) ++ "."%char ::
    list_ascii_of_string (number_to_string ((a / 256) mod 256)) ++ "."%char ::
    list_ascii_of_string (number_to_string (a mod 256)))%list.
Proof.
  unfold ipv4_serialize. cbn [ipv4_ser Nat.eqb]. rewrite !list_ascii_of_string_app.
  cbn [list_ascii_of_string app]. by rewrite app_nil_r.
Qed.

Lemma radix_digit_range r c d : radix_digit r c = Some d -> (0 <= d < r)%Z.
Proof.
  unfold radix_digit, is_ascii_digit. cbv zeta.
  destruct (Nat.leb 48 (code c) && Nat.leb (code c) 57) eqn:E1;
    [|destruct (Nat.leb 97 (code c) && Nat.leb (code c) 102) eqn:E2;
      [|destruct (Nat.leb 65 (code c) && Nat.leb (code c) 70) eqn:E3]]; try discriminate;
    case_match eqn:Hlt; intros; simplify_eq; apply Z.ltb_lt in Hlt;
    rewrite ?andb_true_iff, ?Nat.leb_le in *; lia.
Qed.

Lemma radix_value_nonneg r acc l v : (0 <= r)%Z -> (0 <= acc)%Z -> radix_value r acc l = Some v -> (0 <= v)%Z.
Proof.
  revert acc. induction l as [|c l IH]; intros acc Hr Hacc; cbn; [congruence|].
  destruct (radix_digit r c) as [d|] eqn:Hd; [|discriminate].
  apply radix_digit_range in Hd. apply IH; nia.
Qed.

Lemma ipv4_number_nonneg part v : ipv4_number part = Some v -> (0 <= v)%Z.
Proof. unfold ipv4_number. repeat case_match; try discriminate; apply radix_value_nonneg; lia. Qed.

(** Every address below 2^32, printed as four dotted decimal bytes,
    parses back to itself. *)
Lemma ipv4_parse_serialize a :
  (0 <= a < 2 ^ 32)%Z -> ipv4_parse (list_ascii_of_string (ipv4_serialize a)) = Some a.
Proof.
  intros Ha. rewrite ipv4_serialize_eq.
  set (b0 := (a mod 256)%Z). set (b1 := (a / 256 mod 256)%Z).
  set (b2 := (a / 256 / 256 mod 256)%Z). set (b3 := (a / 256 / 256 / 256 mod 256)%Z).
  assert (Hb : forall z, (0 <= z mod 256 < 256)%Z) by (intros; apply Z.mod_pos_bound; lia).
  destruct (byte_text b0 (Hb _)) as (N0 & D0 & E0). destruct (byte_text b1 (Hb _)) as (N1 & D1 & E1).
  destruct (byte_text b2 (Hb _)) as (N2 & D2 & E2). destruct (byte_text b3 (Hb _)) as (N3 & D3 & E3).
  unfold ipv4_parse. rewrite !split_dot_app, split_dot_nodot by (by apply digits_no_dot).
  destruct (list_ascii_of_string (number_to_string b0)) as [|c0 t0] eqn:T0; [done|].
  cbn [rev app List.length Nat.ltb Nat.leb].
  replace (mapM ipv4_number _) with (Some [b3; b2; b1; b0]) by (cbn [mapM]; by rewrite N3, N2, N1, N0).
  cbn [rev app existsb List.length]. 
  assert (Hlt : forall z, (255 <? z mod 256)%Z = false) by (intros z; apply Z.ltb_ge; pose proof (Hb z); lia).
  unfold b1, b2, b3. rewrite !Hlt. cbn [orb].
  replace (256 ^ (5 - Z.of_nat 4) <=? b0)%Z with false by (symmetry; apply Z.leb_gt; cbn; apply Hb).
  f_equal. cbn [ipv4_sum]. unfold b0.
  pose proof (Z.div_mod a 256 ltac:(lia)). pose proof (Z.div_mod (a / 256)%Z 256 ltac:(lia)).
  pose proof (Z.div_mod (a / 256 / 256)%Z 256 ltac:(lia)).
  pose proof (Z.div_mod (a / 256 / 256 / 256)%Z 256 ltac:(lia)).
  pose proof (Hb a). pose proof (Hb (a / 256)%Z). pose proof (Hb (a / 256 / 256)%Z).
  pose proof (Hb (a / 256 / 256 / 256)%Z).
  assert (0 <= a / 256 / 256 / 256 / 256)%Z by (repeat apply Z.div_pos; lia).
  clearbody b0 b1 b2 b3.
  cbn in *. lia.
Qed.

(** The text of an address: four runs of digits joined by dots. *)
Lemma ipv4_serialize_shape a :
  exists t3 t2 t1 c0 t0,
    list_ascii_of_string (ipv4_serialize a) = (t3 ++ "."%char :: t2 ++ "."%char :: t1 ++ "."%char :: c0 :: t0)%list /\
    Forall (fun t => forallb is_ascii_digit t = true) [t3; t2; t1; c0 :: t0].
Proof.
  rewrite ipv4_serialize_eq.
  assert (Hb : forall z, (0 <= z mod 256 < 256)%Z) by (intros; apply Z.mod_pos_bound; lia).
  destruct (byte_text _ (Hb a)) as (_ & D0 & E0).
  destruct (list_ascii_of_string (number_to_string (a mod 256))) as [|c0 t0]; [done|].
  do 5 eexists. split; [reflexivity|].
  repeat constructor; try done; apply byte_text, Hb.
Qed.

Lemma ipv4_serialize_chars a : forallb digit_or_dot (list_ascii_of_string (ipv4_serialize a)) = true.
Proof.
  destruct (ipv4_serialize_shape a) as (t3 & t2 & t1 & c0 & t0 & -> & Hd).
  assert (Hs : forall t, forallb is_ascii_digit t = true -> forallb digit_or_dot t = true).
  { intros t. apply forallb_impl. intros c Hc. unfold digit_or_dot. by rewrite Hc. }
  repeat match goal with H : Forall _ (_ :: _) |- _ => inversion_clear H end.
  match goal with H : forallb is_ascii_digit (c0 :: t0) = true |- _ =>
    pose proof (Hs _ H) as Hc0; cbn [forallb] in Hc0 end.
  repeat (rewrite forallb_app; cbn [forallb]). rewrite Hc0, !Hs by done. reflexivity.
Qed.

Lemma ascii_lower_digit_or_dot l : forallb digit_or_dot l = true -> map ascii_lower l = l.
Proof.
  induction l as [|c l IH]; [done|]. cbn. intros H. apply andb_true_iff in H as [Hc H]. rewrite IH by done.
  f_equal. unfold digit_or_dot, is_ascii_digit, ascii_lower in *.
  rewrite orb_true_iff, andb_true_iff, !Nat.leb_le, Nat.eqb_eq in Hc.
  destruct (Nat.leb_spec 65 (code c)), (Nat.leb_spec (code c) 90); cbn; try done; lia.
Qed.

Lemma digit_or_dot_plain c : digit_or_dot c = true -> plain_host_char c = true.
Proof. unfold digit_or_dot, plain_host_char. intros H. apply orb_true_iff in H as [-> | ->]; by rewrite ?orb_true_r. Qed.

Lemma split_dot_chars l : Forall (fun part => forall c, In c part -> In c l) (split_dot l).
Proof.
  induction l as [|x l IH]; cbn; [repeat constructor; done|].
  destruct (split_dot l) as [|part parts]; [repeat constructor; done|].
  inversion_clear IH as [|? ? Hp Hps].
  assert (Hps' : Forall (fun q => forall c, In c q -> In c (x :: l)) parts).
  { eapply List.Forall_impl; [|exact Hps]. cbn. naive_solver. }
  case_match; (constructor; [|try constructor]); try exact Hps'; intros c Hc; cbn in Hc |- *; naive_solver.
Qed.

Lemma has_xn_label_digits l : forallb digit_or_dot l = true -> has_xn_label l = false.
Proof.
  intros H. unfold has_xn_label. apply existsb_false, forallb_forall. intros part Hp.
  pose proof (proj1 (List.Forall_forall _ _) (split_dot_chars l) part Hp) as Hc.
  destruct part as [|x [|n [|h1 [|h2 r]]]]; try done. apply negb_true_iff.
  assert (Hx : digit_or_dot x = true) by (apply (proj1 (forallb_forall _ _) H), Hc; left; done).
  unfold digit_or_dot, is_ascii_digit in Hx. rewrite orb_true_iff, andb_true_iff, !Nat.leb_le, Nat.eqb_eq in Hx.
  destruct (Nat.eqb_spec (code x) 120); [lia|done].
Qed.

Lemma ends_in_number_serialize a : ends_in_number (list_ascii_of_string (ipv4_serialize a)) = true.
Proof.
  destruct (ipv4_serialize_shape a) as (t3 & t2 & t1 & c0 & t0 & -> & Hd).
  repeat match goal with H : Forall _ (_ :: _) |- _ => inversion_clear H end.
  unfold ends_in_number. rewrite !split_dot_app, split_dot_nodot by (by apply digits_no_dot).
  cbn [rev app]. cbn -[forallb]. match goal with H : forallb is_ascii_digit (c0 :: t0) = true |- _ => by rewrite H end.
Qed.

(** The IPv4 parser returns a 32-bit address. *)
Lemma ipv4_parse_range d a : ipv4_parse d = Some a -> (0 <= a < 2 ^ 32)%Z.
Proof.
  unfold ipv4_parse. cbv zeta. case_match eqn:Hlen; [discriminate|]. apply Nat.ltb_ge in Hlen.
  lazymatch goal with |- context [mapM ipv4_number ?l] =>
    destruct (mapM ipv4_number l) as [numbers|] eqn:Hm; [|discriminate] end.
  apply mapM_Some_1 in Hm. pose proof (Forall2_length _ _ _ Hm) as Hl.
  assert (Hnn : Forall (fun n => 0 <= n)%Z numbers).
  { clear Hl Hlen. induction Hm; constructor; eauto using ipv4_number_nonneg. }
  destruct numbers as [|n1 [|n2 [|n3 [|n4 [|n5 ns]]]]]; cbn [List.length] in Hl; try lia;
    repeat match goal with H : Forall _ (_ :: _) |- _ => inversion_clear H end;
    cbn; repeat case_match; try discriminate; intros [= <-];
    rewrite ?orb_false_iff, ?Z.ltb_ge, ?Z.leb_gt in *; lia.
Qed.

(** ** IPv6 addresses: the parser reads back the serializer *)

Definition piece_ok (p : Z) : Prop := (0 <= p < 65536)%Z.

(** The value of a text of hex digits. *)
Definition hex_val (l : list ascii) : Z :=
  fold_left (fun v c => v * 16 + Z.of_nat (hex_value c))%Z l 0%Z.

Lemma hex_digits_ok :
  forallb (fun d => is_ascii_hex (hex_digit (Z.of_nat d)) &&
                    Z.eqb (Z.of_nat (hex_value (hex_digit (Z.of_nat d)))) (Z.of_nat d)) (seq 0 16) = true.
Proof. vm_compute. reflexivity. Qed.

Lemma hex_digit_ok d :
  (0 <= d < 16)%Z -> is_ascii_hex (hex_digit d) = true /\ Z.of_nat (hex_value (hex_digit d)) = d.
Proof.
  intros Hd. assert (Hin : In (Z.to_nat d) (seq 0 16)) by (apply in_seq; lia).
  pose proof (proj1 (forallb_forall _ _) hex_digits_ok _ Hin) as H. cbn beta in H.
  rewrite Z2Nat.id in H by lia. apply andb_true_iff in H as [-> H]. split; [done|]. by apply Z.eqb_eq.
Qed.

Lemma to_hex_aux_S k n acc :
  to_hex_aux (S k) n acc =
    let acc' := hex_digit (n mod 16)%Z :: acc in
    if (n / 16 =? 0)%Z then acc' else to_hex_aux k (n / 16)%Z acc'.
Proof. reflexivity. Qed.

(** [to_hex_aux] prepends the digits of its number to its accumulator. *)
Lemma to_hex_aux_spec k n acc :
  (0 <= n < 16 ^ Z.of_nat (S k))%Z ->
  exists ds : list ascii, to_hex_aux (S k) n acc = (ds ++ acc)%list /\ ds <> [] /\ (List.length ds <= S k)%nat /\
             forallb is_ascii_hex ds = true /\ hex_val ds = n.
Proof.
  revert n acc. induction k as [|k IH]; intros n acc Hn; rewrite to_hex_aux_S; cbv zeta.
  - rewrite Z.div_small by (cbn in Hn; lia). cbn. rewrite Z.mod_small by (cbn in Hn; lia).
    destruct (hex_digit_ok n) as [Hh Hv]; [cbn in Hn; lia|].
    exists [hex_digit n]. cbn. rewrite Hh, Hv. repeat split; [done|lia].
  - destruct (Z.eqb_spec (n / 16) 0) as [Hz|Hz].
    + destruct (hex_digit_ok (n mod 16)) as [Hh Hv]; [apply Z.mod_pos_bound; lia|].
      exists [hex_digit (n mod 16)]. cbn. rewrite Hh, Hv. repeat split; [done|lia|].
      pose proof (Z.div_mod n 16). lia.
    + destruct (IH (n / 16)%Z (hex_digit (n mod 16) :: acc)) as (ds & E & Hne & Hl & Hh & Hv).
      { split; [apply Z.div_pos; lia|]. apply Z.div_lt_upper_bound; [lia|].
        rewrite Nat2Z.inj_succ, Z.pow_succ_r in Hn by lia. lia. }
      destruct (hex_digit_ok (n mod 16)) as [Hh' Hv']; [apply Z.mod_pos_bound; lia|].
      exists (ds ++ [hex_digit (n mod 16)])%list. rewrite E, <- app_assoc. repeat split.
      * by destruct ds.
      * rewrite length_app. cbn. lia.
      * rewrite forallb_app, Hh. cbn [forallb]. by rewrite Hh'.
      * unfold hex_val in *. rewrite fold_left_app, Hv. cbn [fold_left]. rewrite Hv'.
        pose proof (Z.div_mod n 16). lia.
Qed.

Lemma to_hex_spec p :
  piece_ok p -> to_hex p <> [] /\ (List.length (to_hex p) <= 4)%nat /\
                forallb is_ascii_hex (to_hex p) = true /\ hex_val (to_hex p) = p.
Proof.
  intros Hp. destruct (to_hex_aux_spec 3 p []) as (ds & E & H); [unfold piece_ok in Hp; cbn; lia|].
  unfold to_hex. rewrite E, app_nil_r. exact H.
Qed.

Lemma hex_not_colon c : is_ascii_hex c = true -> Nat.eqb (code c) 58 = false.
Proof. destruct c as [[] [] [] [] [] [] [] []]; intros H; try discriminate H; reflexivity. Qed.

Lemma hex_run_app k v n l rest :
  forallb is_ascii_hex l = true -> (List.length l <= k)%nat ->
  match rest with [] => True | c :: _ => is_ascii_hex c = false end ->
  hex_run k v n (l ++ rest) = (fold_left (fun v c => v * 16 + Z.of_nat (hex_value c))%Z l v, (n + List.length l)%nat, rest).
Proof.
  revert k v n. induction l as [|c l IH]; intros k v n Hl Hk Hr; simpl.
  - rewrite Nat.add_0_r. destruct k, rest as [|c rest]; simpl; try done. by rewrite Hr.
  - apply andb_true_iff in Hl as [Hc Hl]. destruct k as [|k]; [simpl in Hk; lia|]. simpl. rewrite Hc.
    rewrite IH by (done || simpl in Hk; lia). f_equal. f_equal. lia.
Qed.

Lemma hex_run_piece p rest :
  piece_ok p -> match rest with [] => True | c :: _ => is_ascii_hex c = false end ->
  hex_run 4 0 0 (to_hex p ++ rest) = (p, List.length (to_hex p), rest).
Proof.
  intros Hp Hr. destruct (to_hex_spec p Hp) as (_ & Hlen & Hhex & Hv).
  rewrite hex_run_app by done. unfold hex_val in Hv. by rewrite Hv.
Qed.

Lemma to_hex_cons p : piece_ok p -> exists c h, to_hex p = c :: h /\ Nat.eqb (code c) 58 = false.
Proof.
  intros Hp. destruct (to_hex_spec p Hp) as (Hne & _ & Hhex & _).
  destruct (to_hex p) as [|c h]; [done|]. exists c, h. split; [done|].
  apply hex_not_colon. simpl in Hhex. by apply andb_true_iff in Hhex as [-> _].
Qed.

(** The texts the serializer builds: pieces joined by [:], and pieces
    each followed by [:]; the pieces the parser sets in order. *)
Fixpoint join_hex (ps : list Z) : list ascii :=
  match ps with
  | [] => []
  | [p] => to_hex p
  | p :: ps' => to_hex p ++ ":"%char :: join_hex ps'
  end.

Fixpoint pre_hex (ps : list Z) : list ascii :=
  match ps with [] => [] | p :: ps' => to_hex p ++ ":"%char :: pre_hex ps' end.

Fixpoint fill (i : nat) (ps : list Z) (address : list Z) : list Z :=
  match ps with [] => address | p :: ps' => fill (S i) ps' (set_piece i p address) end.

(** One turn of the main loop on a piece followed by [:] and more input. *)
Lemma ipv6_loop_piece fuel a i comp p tail :
  piece_ok p -> tail <> [] ->
  ipv6_loop (S fuel) a i comp (to_hex p ++ ":"%char :: tail) =
  ipv6_loop fuel (set_piece i p a) (S i) comp tail.
Proof.
  intros Hp Ht. destruct (to_hex_cons p Hp) as (c & h & Eh & Hc).
  rewrite Eh. cbn [app ipv6_loop]. rewrite Hc, app_comm_cons, <- Eh, hex_run_piece by done.
  cbn. by destruct tail.
Qed.

Lemma ipv6_loop_join ps fuel a i comp :
  Forall piece_ok ps -> (List.length ps <= fuel)%nat ->
  ipv6_loop fuel a i comp (join_hex ps) = Some (fill i ps a, (i + List.length ps)%nat, comp).
Proof.
  revert fuel a i. induction ps as [|p ps IH]; intros fuel a i Hok Hlen; cbn [join_hex].
  - rewrite Nat.add_0_r. by destruct fuel.
  - apply Forall_cons in Hok as [Hp Hok]. destruct fuel as [|fuel]; [cbn in Hlen; lia|].
    destruct ps as [|p' ps'].
    + destruct (to_hex_cons p Hp) as (c & h & Eh & Hc).
      rewrite Eh. cbn [ipv6_loop]. rewrite Hc, <- Eh.
      rewrite <- (app_nil_r (to_hex p)), hex_run_piece by done. cbn. by rewrite Nat.add_1_r.
    + rewrite ipv6_loop_piece; [| done |].
      * rewrite IH by (done || cbn in *; lia). cbn. do 3 f_equal. lia.
      * apply Forall_cons in Hok as [Hp' _]. destruct ps'; cbn [join_hex];
          destruct (to_hex_cons p' Hp') as (c & h & -> & _); done.
Qed.

Lemma ipv6_loop_pre pre tail k a i :
  Forall piece_ok pre ->
  ipv6_loop (List.length pre + k) a i None (pre_hex pre ++ ":"%char :: tail) =
  ipv6_loop k (fill i pre a) (i + List.length pre) None (":"%char :: tail).
Proof.
  revert a i. induction pre as [|p pre IH]; intros a i Hok; cbn [pre_hex app List.length fill].
  - by rewrite Nat.add_0_r.
  - apply Forall_cons in Hok as [Hp Hok]. rewrite Nat.add_succ_l, <- app_assoc. cbn [app].
    rewrite ipv6_loop_piece by (done || intros E; apply app_eq_nil in E as [_ E]; discriminate E).
    rewrite IH by done. f_equal. lia.
Qed.

Section Ipv6Lemmas.
Local Open Scope list_scope.

(** The serializer on pieces without [::], before [::], in a run of
    zeros, and on the first piece after it. *)
Lemma ipv6_ser_plain ps i comp :
  match comp with Some c => (c < i)%nat | None => True end -> (i + List.length ps = 8)%nat ->
  ipv6_ser i ps comp false = join_hex ps.
Proof.
  revert i. induction ps as [|p ps IH]; intros i Hc Hl; [done|]. cbn [ipv6_ser andb].
  replace (match comp with Some c => Nat.eqb c i | None => false end) with false
    by (destruct comp as [c|]; [symmetry; apply Nat.eqb_neq; lia|done]).
  rewrite IH by (destruct comp; cbn in *; lia).
  destruct ps as [|p' ps']; cbn in Hl.
  - replace i with 7%nat by lia. cbn. by rewrite !app_nil_r.
  - by rewrite (proj2 (Nat.eqb_neq i 7)) by lia.
Qed.

Lemma ipv6_ser_pre pre rest i c :
  (i + List.length pre = c)%nat -> (c <= 7)%nat ->
  ipv6_ser i (pre ++ rest) (Some c) false = pre_hex pre ++ ipv6_ser c rest (Some c) false.
Proof.
  revert i. induction pre as [|p pre IH]; intros i Hi Hc; cbn in Hi.
  - rewrite Nat.add_0_r in Hi. by subst.
  - cbn [app ipv6_ser andb]. rewrite (proj2 (Nat.eqb_neq c i)), (proj2 (Nat.eqb_neq i 7)) by lia.
    rewrite IH by lia. cbn [pre_hex]. by rewrite <- app_assoc.
Qed.

Lemma ipv6_ser_zeros r ps i comp :
  ipv6_ser i (repeat 0%Z r ++ ps) comp true = ipv6_ser (i + r) ps comp true.
Proof.
  revert i. induction r as [|r IH]; intros i; cbn [repeat app]; [by rewrite Nat.add_0_r|].
  cbn [ipv6_ser andb Z.eqb]. rewrite IH. f_equal. lia.
Qed.

Lemma ipv6_ser_reset p ps i comp :
  p <> 0%Z -> ipv6_ser i (p :: ps) comp true = ipv6_ser i (p :: ps) comp false.
Proof. intros Hp. cbn [ipv6_ser andb]. by rewrite (proj2 (Z.eqb_neq p 0) Hp). Qed.

(** The run the serializer compresses: two or more zeros. *)
Definition is_zero (p : Z) : bool := Z.eqb p 0.
Definition zero_one (p : Z) : Z := if Z.eqb p 0 then 0 else 1.

Lemma compress_scan_norm i ps li ls fi fs :
  compress_scan i (map zero_one ps) li ls fi fs = compress_scan i ps li ls fi fs.
Proof.
  revert i li ls fi fs. induction ps as [|p ps IH]; intros; [done|].
  cbn [map compress_scan]. rewrite !IH. unfold zero_one. by destruct (Z.eqb p 0).
Qed.

Lemma take_while_norm l :
  List.length (take_while is_zero (map zero_one l)) = List.length (take_while is_zero l).
Proof.
  induction l as [|p l IH]; [done|]. cbn [map take_while].
  change (is_zero p) with (Z.eqb p 0). unfold zero_one at 1.
  destruct (Z.eqb p 0); cbn; [by rewrite IH|done].
Qed.

Fixpoint bits (n : nat) : list (list Z) :=
  match n with O => [[]] | S n' => flat_map (fun l => [0%Z :: l; 1%Z :: l]) (bits n') end.

Lemma bits_in l : In (map zero_one l) (bits (List.length l)).
Proof.
  induction l as [|p l IH]; cbn; [auto|]. apply in_flat_map. exists (map zero_one l).
  split; [done|]. unfold zero_one. destruct (Z.eqb p 0); cbn; auto.
Qed.

Definition compress_ok (a : list Z) : bool :=
  match ipv6_compress_index a with
  | Some c => Nat.ltb c 8 && Nat.leb 2 (List.length (take_while is_zero (skipn c a)))
  | None => true
  end.

Lemma compress_ok_bits : forallb compress_ok (bits 8) = true.
Proof. vm_compute. reflexivity. Qed.

Lemma ipv6_compress_some a c :
  List.length a = 8%nat -> ipv6_compress_index a = Some c ->
  (c < 8)%nat /\ (2 <= List.length (take_while is_zero (skipn c a)))%nat.
Proof.
  intros Hl Hc. assert (H : compress_ok (map zero_one a) = true).
  { pose proof (bits_in a) as Hin. rewrite Hl in Hin. by apply (proj1 (forallb_forall _ _) compress_ok_bits). }
  unfold compress_ok, ipv6_compress_index in H. rewrite compress_scan_norm in H.
  unfold ipv6_compress_index in Hc. rewrite Hc, skipn_map, take_while_norm in H.
  apply andb_true_iff in H as [H1 H2]. split; [by apply Nat.ltb_lt|by apply Nat.leb_le].
Qed.

Lemma take_drop_while {A} (f : A -> bool) l : take_while f l ++ drop_while f l = l.
Proof. induction l as [|x l IH]; [done|]. cbn. destruct (f x); cbn; congruence. Qed.

Lemma take_while_zero l : take_while is_zero l = repeat 0%Z (List.length (take_while is_zero l)).
Proof.
  induction l as [|p l IH]; [done|]. cbn. unfold is_zero at 1 3.
  destruct (Z.eqb_spec p 0) as [->|]; cbn; [by rewrite <- IH|done].
Qed.

Lemma drop_while_head {A} (f : A -> bool) l :
  match drop_while f l with [] => True | x :: _ => f x = false end.
Proof. induction l as [|x l IH]; [done|]. cbn. by destruct (f x) eqn:E. Qed.

(** Setting pieces in place. *)
Lemma set_piece_app pre x base v : set_piece (List.length pre) v (pre ++ x :: base) = pre ++ v :: base.
Proof.
  unfold set_piece. induction pre as [|y pre IH]; [reflexivity|]. cbn [List.length app].
  change (<[S (List.length pre):=v]> (y :: pre ++ x :: base)) with (y :: <[List.length pre:=v]> (pre ++ x :: base)).
  by rewrite IH.
Qed.

Lemma fill_app ps pre base :
  (List.length ps <= List.length base)%nat ->
  fill (List.length pre) ps (pre ++ base) = pre ++ ps ++ skipn (List.length ps) base.
Proof.
  revert pre base. induction ps as [|p ps IH]; intros pre base Hl; [done|].
  destruct base as [|x base]; [cbn in Hl; lia|]. cbn [fill]. rewrite set_piece_app.
  replace (S (List.length pre)) with (List.length (pre ++ [p])) by (rewrite length_app; cbn; lia).
  replace (pre ++ p :: base) with ((pre ++ [p]) ++ base) by (by rewrite <- app_assoc).
  rewrite IH by (cbn in Hl; lia). by rewrite <- app_assoc.
Qed.

Lemma skipn_repeat_Z m n : skipn m (repeat 0%Z n) = repeat 0%Z (n - m).
Proof. revert n. induction m as [|m IH]; intros [|n]; cbn; rewrite ?Nat.sub_0_r; auto. Qed.

(** The swap loop moves the pieces after [::] to the end. *)
Lemma swap_loop_run pre post :
  (List.length pre + List.length post <= 6)%nat ->
  swap_loop (List.length post) 7 (S (List.length pre))
    (pre ++ 0%Z :: post ++ repeat 0%Z (7 - List.length pre - List.length post)) =
  pre ++ repeat 0%Z (8 - List.length pre - List.length post) ++ post.
Proof.
  intros H.
  destruct pre as [|x0 [|x1 [|x2 [|x3 [|x4 [|x5 [|x6 pre]]]]]]];
    destruct post as [|y0 [|y1 [|y2 [|y3 [|y4 [|y5 [|y6 post]]]]]]]; cbn in H; try lia; reflexivity.
Qed.

(** The serialization of an address with a compressed run: the pieces
    before it, [::] ([:] after a piece) and the pieces after it. *)
Lemma ipv6_ser_compressed a c :
  List.length a = 8%nat -> ipv6_compress_index a = Some c ->
  exists pre post,
    a = pre ++ repeat 0%Z (8 - List.length pre - List.length post) ++ post /\
    (List.length pre + List.length post <= 6)%nat /\ List.length pre = c /\
    ipv6_ser 0 a (Some c) false =
      pre_hex pre ++ (if Nat.eqb c 0 then [":"%char; ":"%char] else [":"%char]) ++ join_hex post.
Proof.
  intros Hl Hc. destruct (ipv6_compress_some a c Hl Hc) as [Hc8 Hrun].
  assert (Ea : a = firstn c a ++ take_while is_zero (skipn c a) ++ drop_while is_zero (skipn c a)).
  { rewrite take_drop_while. symmetry. apply firstn_skipn. }
  assert (Hhead := drop_while_head is_zero (skipn c a)).
  assert (Ez := take_while_zero (skipn c a)).
  remember (take_while is_zero (skipn c a)) as z eqn:Hz. clear Hz.
  remember (drop_while is_zero (skipn c a)) as post eqn:Hp. clear Hp.
  assert (Hpre : List.length (firstn c a) = c) by (apply firstn_length_le; lia).
  assert (Hlen : (c + List.length z + List.length post = 8)%nat).
  { rewrite Ea in Hl. rewrite !length_app in Hl. lia. }
  exists (firstn c a), post. rewrite Hpre.
  replace (8 - c - List.length post)%nat with (List.length z) by lia.
  rewrite <- Ez. split; [done|]. split; [lia|]. split; [done|].
  rewrite Ea at 1. rewrite ipv6_ser_pre by lia. f_equal.
  rewrite Ez. destruct (List.length z) as [|r] eqn:Er; [lia|]. cbn [repeat app ipv6_ser andb].
  rewrite Nat.eqb_refl. f_equal. rewrite ipv6_ser_zeros.
  destruct post as [|p ps]; [done|]. rewrite ipv6_ser_reset by (by apply Z.eqb_neq).
  apply ipv6_ser_plain; cbn in *; lia.
Qed.

Lemma ipv6_parse_start l :
  match l with c :: _ => Nat.eqb (code c) 58 = false | [] => True end ->
  ipv6_parse l = match ipv6_loop 8 (repeat 0%Z 8) 0 None l with
                 | None => None
                 | Some (address, piece', Some comp) => Some (swap_loop (piece' - comp) 7 comp address)
                 | Some (address, piece', None) => if Nat.eqb piece' 8 then Some address else None
                 end.
Proof. destruct l as [|c l]; [done|]. intros H. unfold ipv6_parse. by rewrite H. Qed.

Lemma ipv6_loop_pre_fuel pre tail f a i :
  Forall piece_ok pre -> (List.length pre <= f)%nat ->
  ipv6_loop f a i None (pre_hex pre ++ ":"%char :: tail) =
  ipv6_loop (f - List.length pre) (fill i pre a) (i + List.length pre) None (":"%char :: tail).
Proof.
  intros Hok Hf. replace f with (List.length pre + (f - List.length pre))%nat at 1 by lia.
  by rewrite ipv6_loop_pre.
Qed.

Lemma ipv6_parse_compressed pre post :
  Forall piece_ok pre -> Forall piece_ok post -> (List.length pre + List.length post <= 6)%nat ->
  ipv6_parse (pre_hex pre ++ (if Nat.eqb (List.length pre) 0 then [":"%char; ":"%char] else [":"%char]) ++
              join_hex post) =
  Some (pre ++ repeat 0%Z (8 - List.length pre - List.length post) ++ post).
Proof.
  intros Hpre Hpost Hl. rewrite <- swap_loop_run by done.
  assert (Hfill : fill (S (List.length pre)) post (pre ++ 0%Z :: repeat 0%Z (7 - List.length pre)) =
                  pre ++ 0%Z :: post ++ repeat 0%Z (7 - List.length pre - List.length post)).
  { replace (S (List.length pre)) with (List.length (pre ++ [0%Z])) by (rewrite length_app; cbn; lia).
    replace (pre ++ 0%Z :: repeat 0%Z (7 - List.length pre)) with ((pre ++ [0%Z]) ++ repeat 0%Z (7 - List.length pre))
      by (by rewrite <- app_assoc).
    rewrite fill_app by (rewrite repeat_length; lia). rewrite skipn_repeat_Z. by rewrite <- app_assoc. }
  destruct (Nat.eqb_spec (List.length pre) 0) as [H0|H0].
  - apply length_zero_iff_nil in H0 as ->.
    cbn [pre_hex List.length Nat.eqb app]. unfold ipv6_parse.
    change (Nat.eqb (code ":") 58) with true. cbn -[ipv6_loop join_hex fill repeat].
    rewrite ipv6_loop_join by (done || cbn in Hl; lia). cbn -[fill swap_loop repeat].
    cbn [List.length app] in Hfill. rewrite Nat.sub_0_r in Hfill |- *.
    change (repeat 0%Z 8) with (0%Z :: repeat 0%Z 7). by rewrite Hfill.
  - cbn [app]. rewrite ipv6_parse_start.
    2: { destruct pre as [|p0 pre']; [done|]. apply Forall_cons in Hpre as [Hp0 _].
         destruct (to_hex_cons p0 Hp0) as (c0 & h & Eh & Hc0). cbn [pre_hex]. rewrite Eh. exact Hc0. }
    rewrite ipv6_loop_pre_fuel by (done || lia).
    replace (8 - List.length pre)%nat with (S (7 - List.length pre)) by lia.
    cbn [ipv6_loop]. change (Nat.eqb (code ":") 58) with true. cbn iota.
    rewrite ipv6_loop_join by (done || lia). cbn -[fill swap_loop repeat].
    replace (fill 0 pre (repeat 0%Z 8)) with (pre ++ 0%Z :: repeat 0%Z (7 - List.length pre)).
    2: { change (fill 0 pre (repeat 0%Z 8)) with (fill (List.length (@nil Z)) pre ([] ++ repeat 0%Z 8)).
         rewrite fill_app by (rewrite repeat_length; lia). rewrite skipn_repeat_Z.
         by replace (8 - List.length pre)%nat with (S (7 - List.length pre)) by lia. }
    rewrite Hfill. do 2 f_equal. lia.
Qed.

Lemma ipv6_parse_plain a : List.length a = 8%nat -> Forall piece_ok a -> ipv6_parse (join_hex a) = Some a.
Proof.
  intros Hl Hok. rewrite ipv6_parse_start.
  2: { destruct a as [|p ps]; [done|]. apply Forall_cons in Hok as [Hp _].
       destruct (to_hex_cons p Hp) as (c & h & Eh & Hc). destruct ps; cbn [join_hex]; rewrite Eh; exact Hc. }
  rewrite ipv6_loop_join by (done || lia). rewrite Hl. cbn [Nat.add Nat.eqb].
  change (fill 0 a (repeat 0%Z 8)) with (fill (List.length (@nil Z)) a ([] ++ repeat 0%Z 8)).
  rewrite fill_app by (rewrite repeat_length; lia). rewrite Hl. cbn. by rewrite app_nil_r.
Qed.

(** The IPv6 parser reads back what the serializer writes. *)
Lemma ipv6_parse_serialize a :
  List.length a = 8%nat -> Forall piece_ok a ->
  ipv6_parse (list_ascii_of_string (ipv6_serialize a)) = Some a.
Proof.
  intros Hl Hok. unfold ipv6_serialize. rewrite list_ascii_of_string_of_list_ascii.
  destruct (ipv6_compress_index a) as [c|] eqn:Ec.
  - destruct (ipv6_ser_compressed a c Hl Ec) as (pre & post & Ea & Hlen & <- & ->).
    rewrite Ea in Hok. apply Forall_app in Hok as [Hpre Hok]. apply Forall_app in Hok as [_ Hpost].
    rewrite ipv6_parse_compressed by done. by rewrite <- Ea.
  - rewrite ipv6_ser_plain by (done || lia). by apply ipv6_parse_plain.
Qed.

End Ipv6Lemmas.

(** The characters of an IPv6 address text, and what the authority and
    host states need of them. *)
Definition ipv6_char (c : ascii) : bool := is_ascii_hex c || Nat.eqb (code c) 58 || Nat.eqb (code c) 46.

Lemma ipv6_char_facts c :
  ipv6_char c = true -> auth_char c && negb (Nat.eqb (code c) 91) && negb (Nat.eqb (code c) 93) = true.
Proof. destruct c as [[] [] [] [] [] [] [] []]; intros H; try discriminate H; reflexivity. Qed.

Lemma split_colon_bracket h :
  forallb (fun c => negb (Nat.eqb (code c) 91) && negb (Nat.eqb (code c) 93)) h = true ->
  split_colon true (h ++ ["]"%char])%list = None.
Proof.
  induction h as [|c h IH]; [reflexivity|]. cbn [forallb]. intros H.
  apply andb_true_iff in H as [Hc H]. apply andb_true_iff in Hc as [H91 H93].
  apply negb_true_iff in H91, H93. cbn [app split_colon]. rewrite H91, H93, andb_false_r. by rewrite IH.
Qed.

(** After [https://], a host in brackets goes to the IPv6 parser. *)
Lemma url_hostname_bracket h p :
  forallb ipv6_char h = true ->
  match p with [] => True | c :: _ => authority_end true c = true end ->
  forallb (fun c => Nat.ltb 32 (code c)) p = true ->
  url_hostname (string_of_list_ascii (list_ascii_of_string "https://" ++ "["%char :: h ++ "]"%char :: p)) =
  match ipv6_parse h with Some a => HostOk ("[" ++ ipv6_serialize a ++ "]") | None => HostFail end.
Proof.
  intros Hh Hp Hpc.
  assert (Hf : forall f, (forall c, ipv6_char c = true -> f c = true) -> forallb f h = true).
  { intros f Hcf. revert Hh. by apply forallb_impl. }
  replace ("["%char :: h ++ "]"%char :: p)%list with (("["%char :: h ++ ["]"%char]) ++ p)%list
    by (by rewrite <- app_comm_cons, <- app_assoc).
  rewrite url_hostname_auth; [| done | | done | done].
  2: { cbn [forallb]. rewrite forallb_app, (Hf auth_char); [done|].
       intros c Hc. apply ipv6_char_facts in Hc. by apply andb_true_iff in Hc as [[-> _]%andb_true_iff _]. }
  unfold host_state. change (split_colon false ("["%char :: h ++ ["]"%char])%list)
    with (match split_colon true (h ++ ["]"%char])%list with Some (h', p') => Some ("["%char :: h', p') | None => None end).
  rewrite split_colon_bracket.
  2: { apply Hf. intros c Hc. apply ipv6_char_facts in Hc. by apply andb_true_iff in Hc as [[_ ?]%andb_true_iff ?];
       apply andb_true_iff. }
  unfold host_parse. change (Nat.eqb (code "[") 91) with true. cbn iota.
  rewrite rev_app_distr. cbn [rev app]. change (Nat.eqb (code "]") 93) with true. cbn iota.
  by rewrite rev_involutive.
Qed.


(** C20: a host that ends in a number is an IPv4 address: after
    [https://], a host of plain characters whose last label is a number
    has as hostname the dotted form of the address the IPv4 parser reads
    ([0x7f.1] is [127.0.0.1]), and [new URL] throws when the parser
    rejects it; the dotted form parses back to the same address and is
    its own hostname. *)
Theorem url_hostname_ipv4 h p :
  h <> [] -> forallb plain_host_char h = true ->
  has_xn_label (map ascii_lower h) = false -> ends_in_number (map ascii_lower h) = true ->
  match p with [] => True | c :: _ => authority_end true c = true end ->
  forallb (fun c => Nat.ltb 32 (code c)) p = true ->
  url_hostname (string_of_list_ascii (list_ascii_of_string "https://" ++ h ++ p)) =
    match ipv4_parse (map ascii_lower h) with
    | Some a => HostOk (ipv4_serialize a)
    | None => HostFail
    end /\
  (forall a, ipv4_parse (map ascii_lower h) = Some a ->
     ipv4_parse (list_ascii_of_string (ipv4_serialize a)) = Some a /\
     url_hostname (string_of_list_ascii (list_ascii_of_string "https://" ++
                                         list_ascii_of_string (ipv4_serialize a) ++ p)) =
       HostOk (ipv4_serialize a)).
Proof.
  intros Hne Hh Hxn Hnum Hp Hpc.
  split.
  - rewrite url_hostname_domain, parse_domain_plain by (by apply plain_host || done). cbv zeta. by rewrite Hxn, Hnum.
  - intros a Ha. pose proof (ipv4_parse_range _ _ Ha) as Hb.
    pose proof (ipv4_serialize_chars a) as Hc. pose proof (ascii_lower_digit_or_dot _ Hc) as Hl.
    assert (Hpl : forallb plain_host_char (list_ascii_of_string (ipv4_serialize a)) = true).
    { revert Hc. apply forallb_impl, digit_or_dot_plain. }
    assert (Hsne : list_ascii_of_string (ipv4_serialize a) <> []).
    { destruct (ipv4_serialize_shape a) as (t3 & t2 & t1 & c0 & t0 & -> & _). by destruct t3. }
    split; [by apply ipv4_parse_serialize|].
    rewrite url_hostname_domain, parse_domain_plain by (by apply plain_host || done). cbv zeta.
    rewrite Hl, has_xn_label_digits, ends_in_number_serialize, ipv4_parse_serialize by done. done.
Qed.

(** C21: the host is percent-decoded before it is checked: after
    [https://], a host of plain characters and [%] whose decoding holds
    a forbidden domain code point ([%2F], [%20], a [%25] or a lone [%])
    makes [new URL] throw, and one that decodes to a plain host has the
    hostname of its decoding ([ex%61mple.com] is [example.com]). *)
Theorem url_hostname_percent h p :
  h <> [] -> forallb host_char h = true ->
  match p with [] => True | c :: _ => authority_end true c = true end ->
  forallb (fun c => Nat.ltb 32 (code c)) p = true ->
  (existsb forbidden_domain (percent_decode h) = true ->
     url_hostname (string_of_list_ascii (list_ascii_of_string "https://" ++ h ++ p)) = HostFail) /\
  (percent_decode h <> [] -> forallb plain_host_char (percent_decode h) = true ->
     url_hostname (string_of_list_ascii (list_ascii_of_string "https://" ++ h ++ p)) =
     url_hostname (string_of_list_ascii (list_ascii_of_string "https://" ++ percent_decode h ++ p))).
Proof.
  intros Hne Hh Hp Hpc. rewrite url_hostname_domain by done. split.
  - intros Hf. unfold parse_domain. by rewrite Hf.
  - intros Hne' Hpl. rewrite url_hostname_domain by (done || by apply plain_host).
    unfold parse_domain. rewrite (percent_decode_id (percent_decode h)); [done|].
    apply plain_proj; [|done]. plain_fact.
Qed.

(** The serializer writes hex digits and colons only. *)
Lemma ipv6_ser_chars i a comp ignore0 :
  Forall piece_ok a -> forallb ipv6_char (ipv6_ser i a comp ignore0) = true.
Proof.
  revert i ignore0. induction a as [|p a IH]; intros i ignore0 Hok; [done|].
  apply Forall_cons in Hok as [Hp Hok]. cbn [ipv6_ser].
  destruct (ignore0 && Z.eqb p 0); [by apply IH|].
  destruct (match comp with Some c => Nat.eqb c i | None => false end).
  - rewrite forallb_app, IH by done. by destruct (Nat.eqb i 0).
  - rewrite !forallb_app, IH by done. destruct (to_hex_spec p Hp) as (_ & _ & Hh & _).
    rewrite (forallb_impl is_ascii_hex ipv6_char); [by destruct (Nat.eqb i 7)| |done].
    intros c Hc. unfold ipv6_char. by rewrite Hc.
Qed.

(** C22: a host in brackets is an IPv6 address: after [https://], [[h]]
    has as hostname the address the IPv6 parser reads from [h], in
    brackets and in the serializer's shortest form ([[::1]] for
    [[0:0:0:0:0:0:0:1]], [[::ffff:7f00:1]] for [[::FFFF:127.0.0.1]]),
    and [new URL] throws when the parser rejects [h]; the serialization
    of every address of eight 16-bit pieces parses back to it and, in
    brackets, is its own hostname. *)
Theorem url_hostname_ipv6 h p :
  forallb ipv6_char h = true ->
  match p with [] => True | c :: _ => authority_end true c = true end ->
  forallb (fun c => Nat.ltb 32 (code c)) p = true ->
  url_hostname (string_of_list_ascii (list_ascii_of_string "https://" ++ "["%char :: h ++ "]"%char :: p)) =
    match ipv6_parse h with Some a => HostOk ("[" ++ ipv6_serialize a ++ "]") | None => HostFail end /\
  (forall a, List.length a = 8%nat -> Forall piece_ok a ->
     ipv6_parse (list_ascii_of_string (ipv6_serialize a)) = Some a /\
     url_hostname (string_of_list_ascii
       (list_ascii_of_string "https://" ++ "["%char :: list_ascii_of_string (ipv6_serialize a) ++ ["]"%char])) =
     HostOk ("[" ++ ipv6_serialize a ++ "]")).
Proof.
  intros Hh Hp Hpc. split; [by apply url_hostname_bracket|]. intros a Hl Hok.
  split; [by apply ipv6_parse_serialize|].
  rewrite url_hostname_bracket, ipv6_parse_serialize; [done..| |done|done].
  unfold ipv6_serialize. rewrite list_ascii_of_string_of_list_ascii. by apply ipv6_ser_chars.
Qed.

Lemma url_hostname_percent_witness :
  url_hostname "https://ex%61mple.com/x" = HostOk "example.com" /\ url_hostname "https://a%2fb.com" = HostFail.
Proof.
  split.
  - etransitivity.
    + exact (proj2 (url_hostname_percent (list_ascii_of_string "ex%61mple.com") (list_ascii_of_string "/x")
                      ltac:(discriminate) eq_refl eq_refl eq_refl) ltac:(discriminate) eq_refl).
    + vm_compute. reflexivity.
  - exact (proj1 (url_hostname_percent (list_ascii_of_string "a%2fb.com") [] ltac:(discriminate)
                    eq_refl I eq_refl) eq_refl).
Defined.

Lemma url_hostname_ipv4_witness :
  url_hostname "https://0x7F.1" = HostOk "127.0.0.1" /\ url_hostname "https://0x7f.1.0.0.0" = HostFail.
Proof.
  split.
  - exact (proj1 (url_hostname_ipv4 (list_ascii_of_string "0x7F.1") [] ltac:(discriminate)
                    eq_refl eq_refl eq_refl I eq_refl)).
  - exact (proj1 (url_hostname_ipv4 (list_ascii_of_string "0x7f.1.0.0.0") [] ltac:(discriminate)
                    eq_refl eq_refl eq_refl I eq_refl)).
Defined.

Lemma url_hostname_ipv6_witness :
  url_hostname "https://[0:0:0:0:0:0:0:1]/x" = HostOk "[::1]" /\
  url_hostname "https://[::FFFF:127.0.0.1]" = HostOk "[::ffff:7f00:1]" /\
  url_hostname "https://[1::2::3]" = HostFail /\
  ipv6_parse (list_ascii_of_string (ipv6_serialize [1; 0; 0; 2; 0; 0; 0; 3]%Z)) = Some [1; 0; 0; 2; 0; 0; 0; 3]%Z /\
  url_hostname "https://[1:0:0:2::3]" = HostOk "[1:0:0:2::3]".
Proof.
  split; [|split; [|split]].
  - etransitivity.
    + exact (proj1 (url_hostname_ipv6 (list_ascii_of_string "0:0:0:0:0:0:0:1") (list_ascii_of_string "/x")
                      eq_refl eq_refl eq_refl)).
    + vm_compute. reflexivity.
  - etransitivity.
    + exact (proj1 (url_hostname_ipv6 (list_ascii_of_string "::FFFF:127.0.0.1") [] eq_refl I eq_refl)).
    + vm_compute. reflexivity.
  - etransitivity.
    + exact (proj1 (url_hostname_ipv6 (list_ascii_of_string "1::2::3") [] eq_refl I eq_refl)).
    + vm_compute. reflexivity.
  - destruct (proj2 (url_hostname_ipv6 [] [] eq_refl I eq_refl) [1; 0; 0; 2; 0; 0; 0; 3]%Z eq_refl)
      as [H1 H2]; [repeat constructor; unfold piece_ok; lia|].
    split; [exact H1|]. etransitivity; [exact H2|]. vm_compute. reflexivity.
Defined.
