(* ===== verification/NodePath.v ===== *)
(** * NodePath: [path.posix] and the start-up code of [src/server/index.js]

    The server computes its directory from [import.meta.url] with
    [fileURLToPath] and [dirname], serves [join(__dirname, '../dist')]
    with [express.static], sends [join(__dirname, '../dist/index.html')]
    for every other [GET], and listens on [process.env.PORT || 5000].
    [dirname], [normalize] and [join] follow Node's [lib/path.js] (POSIX)
    on strings of Latin-1 code units: [normalize] splits at slashes,
    drops empty and [.] segments and resolves [..] against the previous
    segment (above the root of an absolute path it is dropped, above a
    relative path kept).  [fileURLToPath] is modelled for [file:] URLs
    with an empty host and no percent sign, which is what
    [import.meta.url] is for a module loaded from a directory without
    spaces or special characters; other URLs give [None]. *)

From S2P Require Import Prelude JsCore.

Local Open Scope string_scope.

Module NodePath.

Definition slash : ascii := "/"%char.

(** [normalizeString]: one segment pushed on the reversed stack of the
    segments kept so far. *)
Definition resolve_seg (allowAboveRoot : bool) (acc : list string) (seg : string) : list string :=
  if String.eqb seg "" || String.eqb seg "." then acc
  else if String.eqb seg ".." then
    match acc with
    | x :: acc' => if String.eqb x ".." then ".." :: acc else acc'
    | [] => if allowAboveRoot then [".."] else []
    end
  else seg :: acc.

Definition normalize_segs (allowAboveRoot : bool) (p : string) : list string :=
  rev (fold_left (resolve_seg allowAboveRoot) (split_on slash p) []).

(** [path.normalize(p)] *)
Definition normalize (p : string) : string :=
  match list_ascii_of_string p with
  | [] => "."
  | c :: _ =>
      let isAbsolute := Ascii.eqb c slash in
      let trailing := Ascii.eqb (List.last (list_ascii_of_string p) c) slash in
      let body := String.concat "/" (normalize_segs (negb isAbsolute) p) in
      if String.eqb body "" then (if isAbsolute then "/" else if trailing then "./" else ".")
      else (if isAbsolute then "/" else "") ++ body ++ (if trailing then "/" else "")
  end.

(** [path.join(...args)]: the non-empty arguments joined with slashes,
    normalized; ["."] when there is none. *)
Definition join (args : list string) : string :=
  match List.filter (fun a => negb (String.eqb a "")) args with
  | [] => "."
  | nonempty => normalize (String.concat "/" nonempty)
  end.

Fixpoint drop_while (f : ascii -> bool) (l : list ascii) : list ascii :=
  match l with
  | c :: l' => if f c then drop_while f l' else l
  | [] => []
  end.

(** [path.dirname(p)]: the loop from the end skips the trailing slashes,
    then the last segment, and cuts at the slash before it. *)
Definition dirname (p : string) : string :=
  match list_ascii_of_string p with
  | [] => "."
  | c0 :: rest =>
      let hasRoot := Ascii.eqb c0 slash in
      match drop_while (fun c => negb (Ascii.eqb c slash))
              (drop_while (fun c => Ascii.eqb c slash) (rev rest)) with
      | [] => if hasRoot then "/" else "."
      | _ :: r3 =>
          if hasRoot && Nat.eqb (List.length r3) 0 then "//"
          else string_of_list_ascii (c0 :: rev r3)
      end
  end.

(** [url.fileURLToPath(u)] for [file:///path] without percent escapes. *)
Definition fileURLToPath (u : string) : option string :=
  if String.prefix "file:///" u && negb (includes u "%")
  then Some (String.substring 7 (String.length u - 7) u) else None.


(** ** Paths made of plain segments *)

(** A segment without slash or percent sign, other than [.] and [..]. *)
Definition plain_seg (s : string) : bool :=
  negb (String.eqb s "") && negb (String.eqb s ".") && negb (String.eqb s "..") &&
  forallb (fun c => negb (Ascii.eqb c "/"%char) && negb (Ascii.eqb c "%"%char)) (list_ascii_of_string s).

Definition abs_path (ss : list string) : string := "/" ++ String.concat "/" ss.

(** ** Lemmas *)

Section Lemmas.

Lemma concat_app sep l1 l2 :
  l1 <> [] -> l2 <> [] -> String.concat sep (l1 ++ l2) = String.concat sep l1 ++ sep ++ String.concat sep l2.
Proof.
  intros H1 H2. induction l1 as [|x l1 IH]; [done|]. destruct l1 as [|y l1].
  - destruct l2; [done|]. reflexivity.
  - cbn [app]. change (String.concat sep (x :: y :: l1 ++ l2)) with (x ++ sep ++ String.concat sep (y :: l1 ++ l2)).
    change (String.concat sep (x :: y :: l1)) with (x ++ sep ++ String.concat sep (y :: l1)).
    pose proof (IH ltac:(done)) as IH'. cbn [app] in IH'. rewrite IH'. by rewrite !string_app_assoc.
Qed.

Lemma plain_seg_spec s :
  plain_seg s = true ->
  s <> "" /\ s <> "." /\ s <> ".." /\ ~ In "/"%char (list_ascii_of_string s) /\
  ~ In "%"%char (list_ascii_of_string s).
Proof.
  unfold plain_seg. rewrite !andb_true_iff, !negb_true_iff, !String.eqb_neq, List.forallb_forall.
  intros [[[H1 H2] H3] H]. split_and!; try done; intros Hin; specialize (H _ Hin);
    rewrite andb_true_iff, !negb_true_iff, Ascii.eqb_refl in H; naive_solver.
Qed.

Lemma fold_plain b d acc :
  Forall (fun s => plain_seg s = true) d -> fold_left (resolve_seg b) d acc = (rev d ++ acc)%list.
Proof.
  revert acc. induction d as [|s d IH]; intros acc Hd; [done|]. inversion_clear Hd as [|? ? Hs Hd'].
  destruct (plain_seg_spec s Hs) as (H1 & H2 & H3 & _). cbn [fold_left]. rewrite IH by done.
  unfold resolve_seg. apply String.eqb_neq in H1, H2, H3. rewrite H1, H2, H3. cbn. by rewrite <- app_assoc.
Qed.

Lemma no_slash_of_plain d : Forall (fun s => plain_seg s = true) d ->
  Forall (fun s => ~ In "/"%char (list_ascii_of_string s)) d.
Proof. intros Hd. eapply List.Forall_impl; [|exact Hd]. intros s Hs. apply (plain_seg_spec s Hs). Qed.

Lemma concat_plain_nonempty d : d <> [] -> Forall (fun s => plain_seg s = true) d -> String.concat "/" d <> "".
Proof.
  destruct d as [|s [|s' d]]; intros Hne Hd; [done| |]; inversion_clear Hd as [|? ? Hs _];
    destruct (plain_seg_spec s Hs) as (H1 & _); [done|].
  change (String.concat "/" (s :: s' :: d)) with (s ++ "/" ++ String.concat "/" (s' :: d)).
  destruct s; [done|]. discriminate.
Qed.

(** The last character of a path ending in a plain segment is not a slash. *)
Lemma last_char_plain pre s c :
  plain_seg s = true -> List.last (list_ascii_of_string (pre ++ s)) c <> "/"%char.
Proof.
  intros Hs. destruct (plain_seg_spec s Hs) as (Hne & _ & _ & Hsl & _).
  destruct (exists_last (l := list_ascii_of_string s)) as (l' & a & Ha).
  { destruct s; [done|]. discriminate. }
  rewrite list_ascii_of_string_app, Ha, app_assoc, List.last_last.
  intros ->. apply Hsl. rewrite Ha. apply in_or_app. right. left. done.
Qed.

Lemma abs_path_concat segs : segs <> [] -> abs_path segs = String.concat "/" ("" :: segs).
Proof. destruct segs; done. Qed.

Lemma normalize_segs_abs segs :
  segs <> [] -> Forall (fun s => ~ In "/"%char (list_ascii_of_string s)) segs ->
  normalize_segs false (abs_path segs) = rev (fold_left (resolve_seg false) segs []).
Proof.
  intros Hne Hf. unfold normalize_segs. rewrite abs_path_concat by done.
  rewrite split_on_concat; [done| |done]. constructor; [by intros []|done].
Qed.

(** [normalize] of an absolute path ending in a plain segment. *)
Lemma normalize_abs segs l r :
  plain_seg l = true -> normalize_segs false (abs_path (segs ++ [l])%list) = r -> r <> [] ->
  Forall (fun s => plain_seg s = true) r -> normalize (abs_path (segs ++ [l])%list) = abs_path r.
Proof.
  intros Hl Hr Hne Hpr.
  assert (Hlast : List.last (list_ascii_of_string (abs_path (segs ++ [l])%list)) "/"%char <> "/"%char).
  { unfold abs_path. destruct segs as [|x segs]; [by apply last_char_plain|].
    rewrite concat_app by done. rewrite !string_app_assoc. by apply last_char_plain. }
  unfold normalize, abs_path in *. rewrite string_app_cons, string_app_nil_l in *.
  cbn [list_ascii_of_string] in *. cbv beta iota zeta. unfold slash in *.
  rewrite Ascii.eqb_refl. destruct (Ascii.eqb (List.last _ _) _) eqn:E; [by apply Ascii.eqb_eq in E|].
  cbn [negb]. rewrite Hr.
  destruct (String.eqb (String.concat "/" r) "") eqn:Eb.
  - apply String.eqb_eq in Eb. by apply concat_plain_nonempty in Eb.
  - by rewrite string_app_nil_r.
Qed.

Lemma resolve_plain b s acc : plain_seg s = true -> resolve_seg b acc s = s :: acc.
Proof.
  intros Hs. destruct (plain_seg_spec s Hs) as (H1 & H2 & H3 & _). unfold resolve_seg.
  apply String.eqb_neq in H1, H2, H3. by rewrite H1, H2, H3.
Qed.

Lemma resolve_parent b s acc : plain_seg s = true -> resolve_seg b (s :: acc) ".." = acc.
Proof.
  intros Hs. destruct (plain_seg_spec s Hs) as (_ & _ & H3 & _). apply String.eqb_neq in H3.
  unfold resolve_seg. cbn [String.eqb orb]. by rewrite H3.
Qed.

(** [join(a, '../r')] for an absolute path [a] of plain segments ending
    in [s]: [s] is dropped and [r] appended. *)
Lemma join_parent d s r :
  Forall (fun x => plain_seg x = true) (d ++ [s]) -> Forall (fun x => plain_seg x = true) r -> r <> [] ->
  join [abs_path (d ++ [s]); String.concat "/" (".." :: r)] = abs_path (d ++ r).
Proof.
  intros Hds Hr Hne. pose proof Hds as Hds'. apply List.Forall_app in Hds' as [Hd Hs].
  inversion_clear Hs as [|? ? Hs' _].
  assert (Hp : String.eqb (abs_path (d ++ [s])) "" = false) by reflexivity.
  assert (Hq : String.eqb (String.concat "/" (".." :: r)) "" = false) by (destruct r; done).
  unfold join. cbn [List.filter]. rewrite Hp, Hq. cbv beta iota. cbn [negb]. cbv beta iota.
  change (String.concat "/" [?a; ?b]) with (a ++ "/" ++ b). unfold abs_path at 1.
  destruct (exists_last Hne) as (ri & rl & ->).
  assert (E : ("/" ++ String.concat "/" (d ++ [s]) ++ "/" ++ String.concat "/" (".." :: ri ++ [rl]))%string =
              abs_path ((d ++ [s; ".."] ++ ri) ++ [rl])%list).
  { unfold abs_path.
    replace ((d ++ [s; ".."] ++ ri) ++ [rl])%list with ((d ++ [s]) ++ (".." :: ri ++ [rl]))%list
      by (rewrite <- !app_assoc; reflexivity).
    rewrite (concat_app "/" (d ++ [s]) (".." :: ri ++ [rl])); [done|by intros [_ ?]%app_eq_nil|done]. }
  apply List.Forall_app in Hr as [Hri Hrl]. inversion_clear Hrl as [|? ? Hrl' _].
  rewrite <- string_app_assoc, E. apply normalize_abs; [done| |by intros [_ [_ ?]%app_eq_nil]%app_eq_nil|].
  - rewrite normalize_segs_abs; [|by intros [_ ?]%app_eq_nil|].
    + rewrite !fold_left_app, (fold_plain false d []) by done. cbn [fold_left].
      rewrite (resolve_plain false s), resolve_parent, (fold_plain false ri), resolve_plain by done.
      rewrite app_nil_r. cbn [rev]. by rewrite rev_app_distr, !rev_involutive, <- app_assoc.
    + apply List.Forall_app; split; [|by apply no_slash_of_plain; constructor].
      apply List.Forall_app; split; [by apply no_slash_of_plain|].
      apply List.Forall_app; split; [|by apply no_slash_of_plain].
      constructor; [by apply (plain_seg_spec s)|]. constructor; [|done]. by intros [?|[?|[]]].
  - apply List.Forall_app; split; [done|]. apply List.Forall_app; split; [done|]. by constructor.
Qed.

Lemma drop_while_all f l m : (forall x, In x l -> f x = true) -> drop_while f (l ++ m) = drop_while f m.
Proof. induction l as [|x l IH]; intros H; [done|]. cbn. rewrite H by (left; done). apply IH. naive_solver. Qed.

Lemma chars_concat_in c segs :
  In c (list_ascii_of_string (String.concat "/" segs)) -> c = "/"%char \/ exists x, In x segs /\ In c (list_ascii_of_string x).
Proof.
  induction segs as [|x [|y segs] IH]; cbn [String.concat]; [done|naive_solver|].
  rewrite !list_ascii_of_string_app. cbn [list_ascii_of_string]. intros [Hx|[->|Hr]]%in_app_or; [naive_solver|by left|].
  destruct (IH Hr) as [->|(z & Hz & Hc)]; [by left|]. right. exists z. split; [right|]; done.
Qed.

Lemma substring_app a b : String.substring (String.length a) (String.length b) (a ++ b) = b.
Proof.
  induction a as [|c a IH].
  - rewrite string_app_nil_l. change (String.length "") with 0%nat.
    induction b as [|c b IHb]; [done|]. cbn. by rewrite IHb.
  - rewrite string_app_cons. exact IH.
Qed.

(** [dirname] of an absolute path of plain segments drops the last one. *)
Lemma dirname_plain dir f :
  Forall (fun x => plain_seg x = true) dir -> dir <> [] -> plain_seg f = true ->
  dirname (abs_path (dir ++ [f])) = abs_path dir.
Proof.
  intros Hd Hne Hf. destruct (plain_seg_spec f Hf) as (Hf1 & _ & _ & Hfs & _).
  unfold dirname, abs_path. rewrite concat_app by done.
  rewrite string_app_cons, string_app_nil_l. cbn [list_ascii_of_string].
  rewrite !list_ascii_of_string_app. cbn [list_ascii_of_string String.concat].
  rewrite !rev_app_distr. cbn [rev app].
  destruct (exists_last (l := list_ascii_of_string f)) as (fi & fl & Hfl); [by destruct f|].
  assert (Hnf : forall x, In x (list_ascii_of_string f) -> Ascii.eqb x slash = false).
  { intros x Hx. apply Ascii.eqb_neq. intros ->. by apply Hfs. }
  rewrite Hfl, rev_unit.
  replace (((fl :: rev fi) ++ ["/"%char]) ++ rev (list_ascii_of_string (String.concat "/" dir)))%list
    with ((fl :: rev fi) ++ "/"%char :: rev (list_ascii_of_string (String.concat "/" dir)))%list
    by (rewrite <- app_assoc; done).
  cbn [drop_while app]. rewrite (Hnf fl) by (rewrite Hfl; apply in_or_app; right; left; done).
  rewrite app_comm_cons, (drop_while_all _ (fl :: rev fi)).
  2:{ intros x Hx. rewrite negb_true_iff. apply Hnf. rewrite Hfl. apply in_or_app.
      destruct Hx as [<-|Hx]; [right; left; done|left; by apply in_rev]. }
  cbn [drop_while]. unfold slash. rewrite Ascii.eqb_refl. cbn [negb].
  rewrite length_rev. destruct (Nat.eqb _ 0) eqn:E.
  - apply Nat.eqb_eq, length_zero_iff_nil in E. exfalso.
    by apply (concat_plain_nonempty dir); [..|rewrite <- (string_of_list_ascii_of_string (String.concat _ _)), E].
  - cbn [andb string_of_list_ascii]. by rewrite rev_involutive, string_of_list_ascii_of_string.
Qed.

(** [fileURLToPath] of a [file:] URL naming an absolute path of plain
    segments. *)
Lemma fileURLToPath_plain segs :
  Forall (fun x => plain_seg x = true) segs -> segs <> [] ->
  fileURLToPath ("file://" ++ abs_path segs) = Some (abs_path segs).
Proof.
  intros Hs Hne. unfold fileURLToPath.
  replace (String.prefix "file:///" ("file://" ++ abs_path segs)) with true.
  2:{ symmetry. apply prefix_iff. exists (String.concat "/" segs). reflexivity. }
  replace (includes ("file://" ++ abs_path segs) "%") with false.
  2:{ symmetry. apply not_true_iff_false. rewrite includes_iff. intros (p & q & E).
      assert (Hin : In "%"%char (list_ascii_of_string ("file://" ++ abs_path segs))).
      { rewrite E, !list_ascii_of_string_app. apply in_or_app. right. left. done. }
      rewrite list_ascii_of_string_app in Hin. apply in_app_or in Hin as [Hin|Hin].
      - cbn in Hin. naive_solver.
      - unfold abs_path in Hin. rewrite string_app_cons, string_app_nil_l in Hin.
        destruct Hin as [Hin|Hin]; [done|]. apply chars_concat_in in Hin as [Hin|(x & Hx & Hc)]; [done|].
        rewrite List.Forall_forall in Hs. by apply (plain_seg_spec x (Hs x Hx)). }
  cbn [andb negb]. f_equal. rewrite string_length_app. cbn [String.length].
  replace (7 + String.length (abs_path segs) - 7)%nat with (String.length (abs_path segs)) by lia.
  exact (substring_app "file://" (abs_path segs)).
Qed.

End Lemmas.

End NodePath.

Module Bootstrap.
Import NodePath.

(** [__filename] and [__dirname] *)
Definition filename (import_meta_url : string) : option string := fileURLToPath import_meta_url.

Definition dirname_of (import_meta_url : string) : option string :=
  option_map dirname (filename import_meta_url).

(** [express.static(join(__dirname, '../dist'))] *)
Definition static_root (dir : string) : string := join [dir; "../dist"].

(** [res.sendFile(join(__dirname, '../dist/index.html'))] of [GET *] *)
Definition index_file (dir : string) : string := join [dir; "../dist/index.html"].

(** [process.env.PORT || 5000]: the variable when it is set and non-empty
    (a string), else the number 5000. *)
Definition port (env_PORT : option string) : jsval :=
  match env_PORT with
  | Some s => if String.eqb s "" then JNumber (JNum 5000) else JStr s
  | None => JNumber (JNum 5000)
  end.

(** C30: where the server looks for the front end.  When [index.js] is
    loaded from [<d>/server/index.js] (plain directory names), [__dirname]
    is [<d>/server], [express.static] serves [<d>/dist] (the build output
    beside [server]), and the [GET *] fallback sends [index.html] of that
    same directory. *)
Theorem server_dirs d :
  Forall (fun x => plain_seg x = true) d ->
  let url := String.append "file://" (abs_path (d ++ ["server"; "index.js"])%list) in
  dirname_of url = Some (abs_path (d ++ ["server"])) /\
  option_map static_root (dirname_of url) = Some (abs_path (d ++ ["dist"])) /\
  option_map index_file (dirname_of url) = Some (String.append (static_root (abs_path (d ++ ["server"])%list)) "/index.html").
Proof.
  intros Hd. cbn zeta.
  assert (Hds : Forall (fun x => plain_seg x = true) (d ++ ["server"]))
    by (apply List.Forall_app; split; [done|by repeat constructor]).
  assert (Hdir : dirname_of (String.append "file://" (abs_path (d ++ ["server"; "index.js"])%list)) =
                 Some (abs_path (d ++ ["server"]))).
  { unfold dirname_of, filename. rewrite fileURLToPath_plain.
    - cbn [option_map]. f_equal. replace (d ++ ["server"; "index.js"])%list with ((d ++ ["server"]) ++ ["index.js"])%list
        by (rewrite <- app_assoc; done).
      apply dirname_plain; [done|by intros [_ ?]%app_eq_nil|done].
    - apply List.Forall_app; split; [done|by repeat constructor].
    - by intros [_ ?]%app_eq_nil. }
  assert (Hstatic : static_root (abs_path (d ++ ["server"])) = abs_path (d ++ ["dist"])).
  { apply (join_parent d "server" ["dist"]); [done|by repeat constructor|done]. }
  rewrite Hdir. cbn [option_map]. split; [done|]. split; [by rewrite Hstatic|].
  f_equal. rewrite Hstatic. unfold index_file.
  change "../dist/index.html" with (String.concat "/" [".."; "dist"; "index.html"]).
  rewrite (join_parent d "server" ["dist"; "index.html"]); [|done|by repeat constructor|done].
  replace (d ++ ["dist"; "index.html"])%list with ((d ++ ["dist"]) ++ ["index.html"])%list
    by (rewrite <- app_assoc; done).
  unfold abs_path. rewrite concat_app; [|by intros [_ ?]%app_eq_nil|done].
  by rewrite <- string_app_assoc.
Qed.

Lemma server_dirs_witness :
  Forall (fun x => plain_seg x = true) ["app"] /\
  dirname_of "file:///app/server/index.js" = Some "/app/server" /\
  option_map static_root (dirname_of "file:///app/server/index.js") = Some "/app/dist".
Proof.
  split; [repeat constructor|].
  destruct (server_dirs ["app"] ltac:(repeat constructor)) as (H1 & H2 & _). split; [exact H1|exact H2].
Defined.

End Bootstrap.
