(* ===== verification/ScanServer.v ===== *)
(** * ScanServer: [src/server/index.js]

    The world the handler runs in ([World]) holds the simulated clock
    ([Date.now()], in ms), the stream of [Math.random()] draws (the k-th
    draw is [rnd k / 2^53], as V8 returns multiples of 2^-53), the number
    of draws made, the delays passed to [setTimeout] in order, and the
    [console.error] log.  [ScanM] is the state monad over [World]; an
    [await] of a probe is a [bind].  The seven [MockScanner] methods are
    [scanHeaders] ... [getGeoIP], each a [sleep] followed by a JSON
    object literal; [handle_scan] is the [POST /scan] handler with its
    [400] and [500] exits; [route] is the Express router.

    [new URL(...)] is [url_hostname] of [Url.v]; where that model answers
    [HostUnmodelled] the handler consults the section variable
    [ext_hostname], so every theorem holds whatever the real parser does
    on those inputs. *)

From S2P Require Import Prelude JsCore JsDate Url.

Local Open Scope string_scope.

Module ScanServer.

(** ** World and monad *)

Record World := mkWorld {
  clock : Z;
  rnd : nat -> Z;
  rnd_used : nat;
  timers : list Z;
  errlog : list string
}.

Definition ScanM (A : Type) : Type := World -> A * World.

Definition ret {A} (a : A) : ScanM A := fun w => (a, w).

Definition bind {A B} (m : ScanM A) (k : A -> ScanM B) : ScanM B :=
  fun w => let '(a, w') := m w in k a w'.

Notation "x <- m ;; k" := (bind m (fun x => k))
  (at level 100, m at next level, right associativity) : pscan_scope.
Local Open Scope pscan_scope.

(** [await new Promise(resolve => setTimeout(resolve, ms))] *)
Definition sleep (ms : Z) : ScanM unit :=
  fun w => (tt, {| clock := clock w + ms; rnd := rnd w; rnd_used := rnd_used w;
                   timers := timers w ++ [ms]; errlog := errlog w |}).

(** [Math.random()], scaled by 2^53. *)
Definition random : ScanM Z :=
  fun w => (rnd w (rnd_used w), {| clock := clock w; rnd := rnd w; rnd_used := S (rnd_used w);
                                   timers := timers w; errlog := errlog w |}).

(** [new Date()] *)
Definition now : ScanM Z := fun w => (clock w, w).

(** [console.error('Scan error:', error)] *)
Definition log_error (msg : string) : ScanM unit :=
  fun w => (tt, {| clock := clock w; rnd := rnd w; rnd_used := rnd_used w;
                   timers := timers w; errlog := errlog w ++ [msg] |}).

(** ** Doubles the probes compare with *)

(** 2^53: [Math.random()] returns [r / two_53] with [0 <= r < two_53]. *)
Definition two_53 : Z := 9007199254740992.

(** The doubles nearest to 0.7 and 0.6, as multiples of 2^-53. *)
Definition double_0_7 : Z := 6305039478318694.
Definition double_0_6 : Z := 5404319552844595.

(** [Math.random() > t] for a threshold [t] given as a multiple of 2^-53. *)
Definition random_gt (r t : Z) : bool := (t <? r)%Z.

(** ** The probes of [MockScanner] *)

(** The objects the probes return, from the draws they make. *)
Definition headers_result : jsval :=
  JObj [("status", JStr "success");
        ("found_headers", JObj [("Content-Security-Policy", JStr "default-src 'self'");
                                ("X-Frame-Options", JStr "DENY");
                                ("X-Content-Type-Options", JStr "nosniff")]);
        ("missing_headers", JArr [JStr "Strict-Transport-Security"; JStr "Referrer-Policy"]);
        ("security_grade", JStr "B");
        ("recommendations", JArr [JStr "Enable HSTS"; JStr "Add Referrer Policy"])].

Definition sqli_result (r1 r2 : Z) : jsval :=
  JObj [("status", JStr (if random_gt r1 double_0_7 then "vulnerable" else "secure"));
        ("vulnerable_parameters",
          if random_gt r2 double_0_7
          then JArr [JObj [("parameter", JStr "id"); ("confidence", JStr "85%")];
                     JObj [("parameter", JStr "search"); ("confidence", JStr "72%")]]
          else JArr []);
        ("severity", JStr "High");
        ("recommendation", JStr "Use parameterized queries")].

Definition xss_result (r1 r2 : Z) : jsval :=
  JObj [("status", JStr (if random_gt r1 double_0_6 then "vulnerable" else "secure"));
        ("vulnerable_parameters",
          if random_gt r2 double_0_6
          then JArr [JObj [("parameter", JStr "comment"); ("severity", JStr "Medium")];
                     JObj [("parameter", JStr "search"); ("severity", JStr "Low")]]
          else JArr []);
        ("recommendation", JStr "Implement input validation and output encoding")].

Definition directories_result : jsval :=
  JObj [("found_directories",
          JArr [JObj [("path", JStr "admin"); ("status", JNumber (JNum 200))];
                JObj [("path", JStr "backup"); ("status", JNumber (JNum 403))];
                JObj [("path", JStr "config"); ("status", JNumber (JNum 404))]]);
        ("sensitive_paths", JArr [JStr "admin"; JStr "backup"]);
        ("recommendation", JStr "Restrict access to sensitive directories")].

Definition ports_result : jsval :=
  JObj [("open_ports",
          JArr [JObj [("port", JNumber (JNum 80)); ("service", JStr "HTTP")];
                JObj [("port", JNumber (JNum 443)); ("service", JStr "HTTPS")];
                JObj [("port", JNumber (JNum 22)); ("service", JStr "SSH")]]);
        ("recommendation", JStr "Close unnecessary ports")].

Definition subdomains_result (domain : string) : jsval :=
  JObj [("found_subdomains",
          JArr [JStr ("www." ++ domain); JStr ("mail." ++ domain); JStr ("api." ++ domain)]);
        ("recommendation", JStr "Monitor all subdomains for security issues")].

Definition geoip_result : jsval :=
  JObj [("ip", JStr "192.168.1.1"); ("location", JStr "San Francisco, US");
        ("isp", JStr "CloudFlare"); ("threat_level", JStr "Low")].

(** The methods: a timer, then the draws, then the object. *)
Definition scanHeaders (url : string) : ScanM jsval := _ <- sleep 1000 ;; ret headers_result.

Definition scanSQLi (url : string) : ScanM jsval :=
  _ <- sleep 1500 ;; r1 <- random ;; r2 <- random ;; ret (sqli_result r1 r2).

Definition scanXSS (url : string) : ScanM jsval :=
  _ <- sleep 1200 ;; r1 <- random ;; r2 <- random ;; ret (xss_result r1 r2).

Definition scanDirectories (url : string) : ScanM jsval := _ <- sleep 800 ;; ret directories_result.

Definition scanPorts (domain : string) : ScanM jsval := _ <- sleep 2000 ;; ret ports_result.

Definition getSubdomains (domain : string) : ScanM jsval := _ <- sleep 1500 ;; ret (subdomains_result domain).

Definition getGeoIP (domain : string) : ScanM jsval := _ <- sleep 500 ;; ret geoip_result.

(** ** JSON access *)

(** [obj[k]]: [JSON.parse] keeps the last of duplicate keys. *)
Fixpoint json_lookup (k : string) (kvs : list (string * jsval)) : jsval :=
  match kvs with
  | [] => JUndefined
  | (k', v) :: kvs' =>
      match json_lookup k kvs' with
      | JUndefined => if String.eqb k k' then v else JUndefined
      | v' => v'
      end
  end.

Definition json_get (k : string) (v : jsval) : jsval :=
  match v with JObj kvs => json_lookup k kvs | _ => JUndefined end.

Definition json_keys (v : jsval) : list string :=
  match v with JObj kvs => map fst kvs | _ => [] end.

(** ** The [/scan] handler *)

Record Response := mkResponse { status_code : Z; resp_body : jsval }.

Definition error_body (msg : string) : jsval :=
  JObj [("status", JStr "error"); ("message", JStr msg)].

(** [url.startsWith('http') ? url : `https://${url}`] *)
Definition derive_url (url : string) : string :=
  if startsWith url "http" then url else "https://" ++ url.

(** The [results] object with its timestamp, and the success reply. *)
Definition results_object (headers sql_injection xss directories ports subdomains geoip : jsval) (t : Z)
  : jsval :=
  JObj [("headers", headers); ("sql_injection", sql_injection); ("xss", xss);
        ("directories", directories); ("ports", ports); ("subdomains", subdomains);
        ("geoip", geoip); ("timestamp", JStr (to_iso_string t))].

Definition scan_success (results : jsval) : Response :=
  mkResponse 200 (JObj [("status", JStr "success"); ("results", results);
                        ("report_url", JStr "/download_report")]).

Section Handler.
(** What [new URL(u).hostname] is on the inputs [url_hostname] leaves
    out; [None] is a thrown [TypeError]. *)
Context (ext_hostname : string -> option string).

Definition new_URL_hostname (u : string) : option string :=
  match url_hostname u with
  | HostOk h => Some h
  | HostFail => None
  | HostUnmodelled => ext_hostname u
  end.

(** The [results] object: seven awaited probes, then the timestamp. *)
Definition scan_results (url domain : string) : ScanM jsval :=
  headers <- scanHeaders url ;;
  sql_injection <- scanSQLi url ;;
  xss <- scanXSS url ;;
  directories <- scanDirectories url ;;
  ports <- scanPorts domain ;;
  subdomains <- getSubdomains domain ;;
  geoip <- getGeoIP domain ;;
  t <- now ;;
  ret (results_object headers sql_injection xss directories ports subdomains geoip t).

(** The [catch] block: log, then answer 500 with the error's message. *)
Definition fail_500 (msg : string) : ScanM Response :=
  _ <- log_error msg ;;
  ret (mkResponse 500 (error_body msg)).

Definition handle_scan (body : jsval) : ScanM Response :=
  let url := json_get "url" body in
  if negb (truthy url) then ret (mkResponse 400 (error_body "URL is required"))
  else match url with
       | JStr u =>
           match new_URL_hostname (derive_url u) with
           | Some domain =>
               results <- scan_results u domain ;;
               ret (scan_success results)
           | None => fail_500 "Invalid URL"
           end
       | _ => fail_500 "url.startsWith is not a function"
       end.

(** ** The router *)

Inductive Method := GET | HEAD | POST | OtherMethod (m : string).

Record Request := mkRequest { method : Method; path : string; body : jsval }.

(** [ReplyBadRequest] is [express.json()] rejecting a body that is not
    JSON: Express's default error handler answers 400 with an HTML page. *)
Inductive Reply :=
  | ReplyJson (r : Response)
  | ReplyBadRequest
  | ReplyStatic (p : string)
  | ReplyIndexHtml
  | ReplyNotFound.

(** Express matches route paths case-insensitively, with an optional
    trailing slash. *)
Definition path_is (route p : string) : bool :=
  String.eqb (toLowerCase p) route || String.eqb (toLowerCase p) (route ++ "/").

(** [express.static(dist)] answers GET and HEAD for the files [dist]
    holds; then [POST /scan], [GET /download_report], [GET *].  A HEAD
    request reaches the GET routes: Express 4 hands it to a route with no
    HEAD handler as a GET ([Route._handles_method]). *)
Definition route (dist_has : string -> bool) (req : Request) : ScanM Reply :=
  match method req with
  | GET | HEAD =>
      if dist_has (path req) then ret (ReplyStatic (path req))
      else if path_is "/download_report" (path req)
      then ret (ReplyJson (mkResponse 200
             (JObj [("message", JStr "Report download would be implemented here")])))
      else ret ReplyIndexHtml
  | POST =>
      if path_is "/scan" (path req)
      then r <- handle_scan (body req) ;; ret (ReplyJson r)
      else ret ReplyNotFound
  | OtherMethod _ => ret ReplyNotFound
  end.
End Handler.

(** ** Properties *)

(** The world after a successful scan started in [w]. *)
Definition after_scan (w : World) : World :=
  {| clock := clock w + 8500; rnd := rnd w; rnd_used := (rnd_used w + 4)%nat;
     timers := timers w ++ [1000; 1500; 1200; 800; 2000; 1500; 500]%Z; errlog := errlog w |}.

Definition result_keys : list string :=
  ["headers"; "sql_injection"; "xss"; "directories"; "ports"; "subdomains"; "geoip"; "timestamp"].

(** For the examples: a URL parser with nothing beyond [url_hostname],
    and a world at 2024-01-15T00:00:00Z whose random draws are all 0. *)
Definition no_ext : string -> option string := fun _ => None.

Definition world0 : World := mkWorld 1705276800000 (fun _ => 0%Z) 0 [] [].

Section Properties.
Context (ext_hostname : string -> option string).

Lemma truthy_str u : u <> "" -> truthy (JStr u) = true.
Proof. intros H. simpl. apply String.eqb_neq in H. by rewrite H. Qed.

Lemma json_lookup_notin k kvs : k ∉ map fst kvs -> json_lookup k kvs = JUndefined.
Proof.
  induction kvs as [|[k' v'] kvs IH]; cbn [json_lookup map fst]; [done|].
  intros [Hk Hn]%not_elem_of_cons. rewrite IH by done. by destruct (String.eqb_spec k k').
Qed.

(** In an object with distinct keys, [obj[k]] is the value stored under [k]. *)
Lemma json_lookup_nodup k v kvs :
  NoDup (map fst kvs) -> (k, v) ∈ kvs -> v <> JUndefined -> json_lookup k kvs = v.
Proof.
  induction kvs as [|[k' v'] kvs IH]; cbn [json_lookup map fst]; [by intros _ ?%elem_of_nil|].
  intros [Hk' Hnd]%NoDup_cons [[= -> ->]|Hin]%elem_of_cons Hv.
  - rewrite json_lookup_notin by done. by rewrite String.eqb_refl.
  - rewrite IH by done. by destruct v.
Qed.

Lemma bind_fst {A B} (m : ScanM A) (k : A -> ScanM B) w :
  fst (bind m k w) = fst (k (fst (m w)) (snd (m w))).
Proof. unfold bind. by destruct (m w). Qed.

Lemma scan_results_world u d w : snd (scan_results u d w) = after_scan w.
Proof.
  unfold after_scan. simpl. rewrite <- !app_assoc. f_equal; lia.
Qed.

Lemma handle_scan_ok body u d w :
  json_get "url" body = JStr u -> u <> "" -> new_URL_hostname ext_hostname (derive_url u) = Some d ->
  handle_scan ext_hostname body w =
    (mkResponse 200 (JObj [("status", JStr "success"); ("results", fst (scan_results u d w));
                           ("report_url", JStr "/download_report")]), after_scan w).
Proof.
  intros Hb Hu Hd. unfold handle_scan. rewrite Hb, truthy_str by done. cbn [negb].
  rewrite Hd. rewrite <- (scan_results_world u d w). unfold bind.
  destruct (scan_results u d w); reflexivity.
Qed.

Lemma handle_scan_400 body w :
  truthy (json_get "url" body) = false ->
  handle_scan ext_hostname body w = (mkResponse 400 (error_body "URL is required"), w).
Proof. intros H. unfold handle_scan. by rewrite H. Qed.

(** C2: a successful scan answers 200 with [status: "success"], the
    report URL, and a [results] object with exactly the keys headers,
    sql_injection, xss, directories, ports, subdomains, geoip and
    timestamp, in that order. *)
Theorem scan_success_keys body u d w :
  json_get "url" body = JStr u -> u <> "" -> new_URL_hostname ext_hostname (derive_url u) = Some d ->
  let r := fst (handle_scan ext_hostname body w) in
  status_code r = 200%Z /\ json_get "status" (resp_body r) = JStr "success" /\
  json_get "report_url" (resp_body r) = JStr "/download_report" /\
  json_keys (json_get "results" (resp_body r)) = result_keys.
Proof. intros Hb Hu Hd. rewrite (handle_scan_ok _ u d) by done. done. Qed.

(** C9: the subdomains probe runs on the derived hostname: it reports
    exactly www., mail. and api. followed by the hostname, three entries
    each ending with the hostname. *)
Theorem scan_subdomains body u d w :
  json_get "url" body = JStr u -> u <> "" -> new_URL_hostname ext_hostname (derive_url u) = Some d ->
  let subs := json_get "found_subdomains"
                (json_get "subdomains" (json_get "results" (resp_body (fst (handle_scan ext_hostname body w))))) in
  subs = JArr [JStr ("www." ++ d); JStr ("mail." ++ d); JStr ("api." ++ d)] /\
  exists l, subs = JArr l /\ List.length l = 3%nat /\
            List.Forall (fun v => exists p, v = JStr (p ++ d)) l.
Proof.
  intros Hb Hu Hd. rewrite (handle_scan_ok _ u d) by done. cbn.
  split; [done|]. eexists; split; [reflexivity|]. split; [done|].
  repeat constructor; eexists; reflexivity.
Qed.

(** C10: a successful scan awaits the seven probes in order: it sets the
    timers 1000, 1500, 1200, 800, 2000, 1500, 500 ms, advances the clock
    by their sum 8500 ms, draws [Math.random()] four times, logs nothing,
    and stamps the report with the clock after the last probe. *)
Theorem scan_effects body u d w :
  json_get "url" body = JStr u -> u <> "" -> new_URL_hostname ext_hostname (derive_url u) = Some d ->
  snd (handle_scan ext_hostname body w) = after_scan w /\
  json_get "timestamp" (json_get "results" (resp_body (fst (handle_scan ext_hostname body w)))) =
    JStr (to_iso_string (clock w + 8500)).
Proof.
  intros Hb Hu Hd. rewrite (handle_scan_ok _ u d) by done. split; [done|].
  cbn. do 2 f_equal. lia.
Qed.

Lemma handle_scan_type_error body w :
  truthy (json_get "url" body) = true -> (forall s, json_get "url" body <> JStr s) ->
  handle_scan ext_hostname body w =
    (mkResponse 500 (error_body "url.startsWith is not a function"),
     snd (log_error "url.startsWith is not a function" w)).
Proof.
  intros Ht Hs. unfold handle_scan. rewrite Ht. cbn [negb].
  destruct (json_get "url" body) as [| | | |u| |];
    [reflexivity..|exfalso; by apply (Hs u)|reflexivity|reflexivity].
Qed.

Lemma handle_scan_invalid_url body u w :
  json_get "url" body = JStr u -> u <> "" -> new_URL_hostname ext_hostname (derive_url u) = None ->
  handle_scan ext_hostname body w =
    (mkResponse 500 (error_body "Invalid URL"), snd (log_error "Invalid URL" w)).
Proof.
  intros Hb Hu Hd. unfold handle_scan. rewrite Hb, truthy_str by done. cbn [negb].
  by rewrite Hd.
Qed.

(** C1: the error taxonomy.  Every request is answered 200 with
    [status: "success"], or 400 or 500 with [status: "error"] and a
    message; an error answer leaves clock, random stream and timers as
    they were (no partial scan). *)
Theorem scan_outcomes body w :
  let '(r, w') := handle_scan ext_hostname body w in
  (status_code r = 200%Z /\ json_get "status" (resp_body r) = JStr "success" /\ w' = after_scan w) \/
  ((status_code r = 400%Z \/ status_code r = 500%Z) /\
   json_get "status" (resp_body r) = JStr "error" /\
   (exists m, json_get "message" (resp_body r) = JStr m) /\
   clock w' = clock w /\ rnd_used w' = rnd_used w /\ timers w' = timers w).
Proof.
  destruct (truthy (json_get "url" body)) eqn:Ht.
  - destruct (json_get "url" body) as [| | | |u| |] eqn:Hb;
      try (rewrite handle_scan_type_error by (done || congruence); right; repeat split; eauto; done).
    destruct (new_URL_hostname ext_hostname (derive_url u)) as [d|] eqn:Hd.
    + rewrite (handle_scan_ok body u d) by (try done; intros ->; discriminate). left. done.
    + rewrite (handle_scan_invalid_url body u) by (try done; intros ->; discriminate).
      right. repeat split; eauto.
  - rewrite handle_scan_400 by done. right. repeat split; eauto.
Qed.

(** C5: the error paths.  A body whose [url] is missing or falsy
    (undefined, null, false, 0, "") is answered 400 [URL is required]
    with the world unchanged; a truthy [url] that is not a string has no
    [startsWith] method and is answered 500 with the [TypeError]'s
    message; a string the URL parser rejects is answered 500 [Invalid
    URL] (not 400).  Both 500s are logged and run no probe. *)
Theorem scan_error_paths body u w :
  (truthy (json_get "url" body) = false ->
   handle_scan ext_hostname body w = (mkResponse 400 (error_body "URL is required"), w)) /\
  (truthy (json_get "url" body) = true -> (forall s, json_get "url" body <> JStr s) ->
   handle_scan ext_hostname body w =
     (mkResponse 500 (error_body "url.startsWith is not a function"),
      snd (log_error "url.startsWith is not a function" w))) /\
  (json_get "url" body = JStr u -> u <> "" -> new_URL_hostname ext_hostname (derive_url u) = None ->
   handle_scan ext_hostname body w =
     (mkResponse 500 (error_body "Invalid URL"), snd (log_error "Invalid URL" w))).
Proof.
  split; [|split]; [apply handle_scan_400|apply handle_scan_type_error|apply handle_scan_invalid_url].
Qed.
End Properties.

(** C35: the SQL-injection probe reports [vulnerable] exactly when its first
    draw exceeds the double nearest 0.7, so for a uniform draw the chance
    is 30% up to 2^-53; the XSS probe likewise with 0.6 (40%). *)
Theorem probe_vulnerability_thresholds u w :
  (json_get "status" (fst (scanSQLi u w)) = JStr "vulnerable" <-> (double_0_7 < rnd w (rnd_used w))%Z) /\
  (json_get "status" (fst (scanXSS u w)) = JStr "vulnerable" <-> (double_0_6 < rnd w (rnd_used w))%Z) /\
  (Z.abs (10 * double_0_7 - 7 * two_53) <= 5)%Z /\ (Z.abs (10 * double_0_6 - 6 * two_53) <= 5)%Z /\
  (Z.abs (10 * (two_53 - 1 - double_0_7) - 3 * two_53) <= 10)%Z /\
  (Z.abs (10 * (two_53 - 1 - double_0_6) - 4 * two_53) <= 10)%Z.
Proof.
  unfold scanSQLi, scanXSS, sqli_result, xss_result, random_gt. simpl.
  repeat split; try (vm_compute; discriminate);
    destruct (_ <? rnd w (rnd_used w))%Z eqn:E; bool_to_prop; try done; try lia;
    intros H; simplify_eq.
Qed.

(** The two draws of the SQL-injection probe are independent: it can
    answer [secure] with two vulnerable parameters, and [vulnerable] with
    none. *)
Theorem sqli_status_params_independent :
  (exists w, json_get "status" (fst (scanSQLi "example.com" w)) = JStr "secure" /\
             json_get "vulnerable_parameters" (fst (scanSQLi "example.com" w)) <> JArr []) /\
  (exists w, json_get "status" (fst (scanSQLi "example.com" w)) = JStr "vulnerable" /\
             json_get "vulnerable_parameters" (fst (scanSQLi "example.com" w)) = JArr []).
Proof.
  split.
  - exists (mkWorld 0 (fun k => match k with O => 0 | _ => two_53 - 1 end)%Z 0 [] []).
    split; [reflexivity|discriminate].
  - exists (mkWorld 0 (fun k => match k with O => two_53 - 1 | _ => 0 end)%Z 0 [] []).
    split; reflexivity.
Qed.

(** A host name that begins with "http" is taken for a URL with a
    scheme: [httpbin.org] is not prefixed with [https://], the parser
    finds no scheme, and the scan fails with 500 [Invalid URL]. *)
Theorem scan_httpbin_rejected ext w :
  handle_scan ext (JObj [("url", JStr "httpbin.org")]) w =
    (mkResponse 500 (error_body "Invalid URL"), snd (log_error "Invalid URL" w)).
Proof. reflexivity. Qed.

(** C28: a scheme-less input made of a plain host [h] (ASCII letters,
    digits, [-], [.], no "xn--" label, not ending in a number) and an
    optional path [p] that does not begin with "http" is prefixed with
    [https://], and the scan runs on the host, ASCII-lowercased: the
    hostname of the input is that of [https://] followed by the input. *)
Theorem scan_plain_host ext h p :
  h <> [] -> forallb plain_host_char h = true -> has_xn_label (map ascii_lower h) = false ->
  ends_in_number (map ascii_lower h) = false ->
  match p with [] => True | c :: _ => authority_end true c = true end ->
  forallb (fun c => Nat.ltb 32 (code c)) p = true ->
  startsWith (string_of_list_ascii (h ++ p)) "http" = false ->
  new_URL_hostname ext (derive_url (string_of_list_ascii (h ++ p))) =
  Some (string_of_list_ascii (map ascii_lower h)).
Proof.
  intros Hne Hh Hxn Hnum Hp Hpc Hs. unfold derive_url, new_URL_hostname. rewrite Hs.
  rewrite <- (string_of_list_ascii_of_string "https://"), <- string_of_list_ascii_app.
  by rewrite url_hostname_plain.
Qed.

(** The router matches [/scan] case-insensitively and with a trailing
    slash; a GET of any other path that is neither a built file nor
    [/download_report] gets the SPA shell, while other POSTs get 404. *)
Theorem route_paths ext dist b w p :
  route ext dist (mkRequest POST "/Scan/" b) w = (let '(r, w') := handle_scan ext b w in (ReplyJson r, w')) /\
  (dist p = false -> path_is "/download_report" p = false ->
   route ext dist (mkRequest GET p b) w = (ReplyIndexHtml, w)) /\
  (path_is "/scan" p = false -> route ext dist (mkRequest POST p b) w = (ReplyNotFound, w)).
Proof.
  split; [|split].
  - assert (H : path_is "/scan" "/Scan/" = true) by reflexivity.
    cbn. rewrite H. unfold bind. cbv beta. destruct (handle_scan ext b w); reflexivity.
  - intros Hd Hp. unfold route. cbn. by rewrite Hd, Hp.
  - intros Hp. unfold route. cbn. by rewrite Hp.
Qed.

(** Witnesses. *)

Lemma scan_plain_host_witness :
  new_URL_hostname no_ext (derive_url (string_of_list_ascii (list_ascii_of_string "Example.com" ++ list_ascii_of_string "/a"))) =
  Some (string_of_list_ascii (map ascii_lower (list_ascii_of_string "Example.com"))).
Proof.
  apply scan_plain_host; try reflexivity; discriminate.
Defined.

Lemma scan_error_paths_witness :
  handle_scan no_ext (JObj [("url", JStr "")]) world0 = (mkResponse 400 (error_body "URL is required"), world0).
Proof. apply (scan_error_paths no_ext _ ""). reflexivity. Defined.

Lemma scan_success_keys_witness :
  let r := fst (handle_scan no_ext (JObj [("url", JStr "example.com")]) world0) in
  status_code r = 200%Z /\ json_get "status" (resp_body r) = JStr "success" /\
  json_get "report_url" (resp_body r) = JStr "/download_report" /\
  json_keys (json_get "results" (resp_body r)) = result_keys.
Proof. apply (scan_success_keys no_ext _ "example.com" "example.com"); [reflexivity|discriminate|reflexivity]. Defined.

Lemma scan_subdomains_witness :
  let subs := json_get "found_subdomains"
                (json_get "subdomains" (json_get "results"
                   (resp_body (fst (handle_scan no_ext (JObj [("url", JStr "Example.COM/x")]) world0))))) in
  subs = JArr [JStr "www.example.com"; JStr "mail.example.com"; JStr "api.example.com"] /\
  exists l, subs = JArr l /\ List.length l = 3%nat /\
            List.Forall (fun v => exists p, v = JStr (p ++ "example.com")) l.
Proof. apply (scan_subdomains no_ext _ "Example.COM/x" "example.com"); [reflexivity|discriminate|reflexivity]. Defined.

Lemma scan_effects_witness :
  snd (handle_scan no_ext (JObj [("url", JStr "example.com")]) world0) = after_scan world0 /\
  json_get "timestamp" (json_get "results" (resp_body (fst (handle_scan no_ext (JObj [("url", JStr "example.com")]) world0)))) =
    JStr (to_iso_string (clock world0 + 8500)).
Proof. apply (scan_effects no_ext _ "example.com" "example.com"); [reflexivity|discriminate|reflexivity]. Defined.

Lemma route_paths_witness :
  route no_ext (fun _ => false) (mkRequest GET "/reports" JNull) world0 = (ReplyIndexHtml, world0).
Proof. apply (route_paths no_ext (fun _ => false) JNull world0 "/reports"); reflexivity. Defined.

End ScanServer.
