(* ===== verification/EventLoop.v ===== *)
(** * EventLoop: concurrent [/scan] requests on Node's event loop

    [ScanServer.handle_scan] runs a request alone: each [await] of a
    [setTimeout] promise advances the clock.  On the server two requests
    can be in flight at once: each handler runs synchronously up to an
    [await], registers its timer and yields; Node's timers phase then
    resumes the handler whose timer is due first, and its continuation
    (a microtask) runs before the next timer.  [Math.random()] and the
    clock are global to the process.

    [prog] is a handler split at its awaits: a free monad over the
    operations the handler performs ([setTimeout] awaited, [Math.random],
    [new Date], [console.error]).  [handle_scan_p] is [POST /scan] in that
    form, built from the same probe results as [ScanServer]; [run]
    interprets a program sequentially in [ScanM], and [run_handle_scan]
    shows it is [handle_scan].  [loop_state] holds the world, the pending
    timers in creation order and the finished requests; [arrive] runs a
    new request up to its first await, [loop_step] fires the earliest
    timer (the first created among equal deadlines, which is Node's order
    for timers of one duration, the only ties of the theorems here) and
    runs its continuation to the next await; synchronous code takes no
    time.  Theorems: two requests arriving together interleave timer by
    timer and share the draws of [Math.random] ([scan_two_requests]);
    whatever their bodies, each keeps the status and the latency it has
    alone ([scan_overlap_status_latency]).  *)

From S2P Require Import Prelude JsCore JsDate Json Url ScanServer.

Local Open Scope string_scope.

Module EventLoop.
Import ScanServer.

(** ** Handlers split at their awaits *)

Inductive prog (A : Type) :=
  | PRet (a : A)
  | PSleep (ms : Z) (k : prog A)         (* [await new Promise(r => setTimeout(r, ms))] *)
  | PRandom (k : Z -> prog A)            (* [Math.random()], scaled by 2^53 *)
  | PNow (k : Z -> prog A)               (* [new Date()] *)
  | PLog (msg : string) (k : prog A).    (* [console.error] *)
Arguments PRet {A} a.
Arguments PSleep {A} ms k.
Arguments PRandom {A} k.
Arguments PNow {A} k.
Arguments PLog {A} msg k.

Fixpoint pbind {A B} (p : prog A) (f : A -> prog B) : prog B :=
  match p with
  | PRet a => f a
  | PSleep ms k => PSleep ms (pbind k f)
  | PRandom k => PRandom (fun r => pbind (k r) f)
  | PNow k => PNow (fun t => pbind (k t) f)
  | PLog msg k => PLog msg (pbind k f)
  end.

Notation "x <-- p ;; k" := (pbind p (fun x => k))
  (at level 100, p at next level, right associativity) : pscan_scope.
Local Open Scope pscan_scope.

(** The methods of [MockScanner]. *)
Definition scanHeaders_p (url : string) : prog jsval := PSleep 1000 (PRet headers_result).
Definition scanSQLi_p (url : string) : prog jsval :=
  PSleep 1500 (PRandom (fun r1 => PRandom (fun r2 => PRet (sqli_result r1 r2)))).
Definition scanXSS_p (url : string) : prog jsval :=
  PSleep 1200 (PRandom (fun r1 => PRandom (fun r2 => PRet (xss_result r1 r2)))).
Definition scanDirectories_p (url : string) : prog jsval := PSleep 800 (PRet directories_result).
Definition scanPorts_p (domain : string) : prog jsval := PSleep 2000 (PRet ports_result).
Definition getSubdomains_p (domain : string) : prog jsval := PSleep 1500 (PRet (subdomains_result domain)).
Definition getGeoIP_p (domain : string) : prog jsval := PSleep 500 (PRet geoip_result).

Definition scan_results_p (url domain : string) : prog jsval :=
  headers <-- scanHeaders_p url ;;
  sql_injection <-- scanSQLi_p url ;;
  xss <-- scanXSS_p url ;;
  directories <-- scanDirectories_p url ;;
  ports <-- scanPorts_p domain ;;
  subdomains <-- getSubdomains_p domain ;;
  geoip <-- getGeoIP_p domain ;;
  PNow (fun t => PRet (results_object headers sql_injection xss directories ports subdomains geoip t)).

(** The success branch: the results, then [res.json({status: 'success', ...})]. *)
Definition scan_respond_p (url domain : string) : prog Response :=
  results <-- scan_results_p url domain ;; PRet (scan_success results).

Definition fail_500_p (msg : string) : prog Response :=
  PLog msg (PRet (mkResponse 500 (error_body msg))).

Section Handler.
Context (ext_hostname : string -> option string).

Definition handle_scan_p (body : jsval) : prog Response :=
  let url := json_get "url" body in
  if negb (truthy url) then PRet (mkResponse 400 (error_body "URL is required"))
  else match url with
       | JStr u =>
           match new_URL_hostname ext_hostname (derive_url u) with
           | Some domain => scan_respond_p u domain
           | None => fail_500_p "Invalid URL"
           end
       | _ => fail_500_p "url.startsWith is not a function"
       end.
End Handler.

(** The sequential reading: every await advances the clock. *)
Fixpoint run {A} (p : prog A) : ScanM A :=
  match p with
  | PRet a => ret a
  | PSleep ms k => _ <- sleep ms ;; run k
  | PRandom k => r <- random ;; run (k r)
  | PNow k => t <- now ;; run (k t)
  | PLog msg k => _ <- log_error msg ;; run k
  end.

(** ** The event loop *)

(** [setTimeout(resolve, ms)]: the timer is recorded, the clock stays. *)
Definition set_timer (ms : Z) (w : World) : World :=
  {| clock := clock w; rnd := rnd w; rnd_used := rnd_used w; timers := timers w ++ [ms]; errlog := errlog w |}.

Definition at_clock (t : Z) (w : World) : World :=
  {| clock := t; rnd := rnd w; rnd_used := rnd_used w; timers := timers w; errlog := errlog w |}.

(** A handler run synchronously up to its next await: its response, or
    the delay it awaits and its continuation. *)
Fixpoint segment (p : prog Response) (w : World) : (Response + (Z * prog Response)) * World :=
  match p with
  | PRet r => (inl r, w)
  | PSleep ms k => (inr (ms, k), set_timer ms w)
  | PRandom k => let '(r, w') := random w in segment (k r) w'
  | PNow k => segment (k (clock w)) w
  | PLog msg k => segment k (snd (log_error msg w))
  end.

(** A pending timer: its request, its deadline, the rest of the handler. *)
Record task := mkTask { t_req : nat; t_due : Z; t_rest : prog Response }.

(** The world, the pending timers in creation order, and the finished
    requests with their responses and the clock when they were sent. *)
Record loop_state := mkLoop {
  ls_world : World;
  ls_timers : list task;
  ls_done : list (nat * Response * Z)
}.

(** Request [id] runs its handler (or its continuation) until the next
    await or the response. *)
Definition continue (id : nat) (p : prog Response) (s : loop_state) : loop_state :=
  let '(res, w) := segment p (ls_world s) in
  match res with
  | inl r => mkLoop w (ls_timers s) (ls_done s ++ [(id, r, clock w)])
  | inr (ms, k) => mkLoop w (ls_timers s ++ [mkTask id (clock w + ms) k]) (ls_done s)
  end.

(** A request arriving: its handler starts at once. *)
Definition arrive (id : nat) (p : prog Response) (s : loop_state) : loop_state := continue id p s.

(** The earliest deadline, and the first timer created with it. *)
Definition min_due (t : task) (ts : list task) : Z :=
  fold_left (fun m t' => Z.min m (t_due t')) ts (t_due t).

Fixpoint extract_due (m : Z) (ts : list task) : option (task * list task) :=
  match ts with
  | [] => None
  | t :: ts' =>
      if Z.eqb (t_due t) m then Some (t, ts')
      else match extract_due m ts' with Some (x, r) => Some (x, t :: r) | None => None end
  end.

Definition earliest (ts : list task) : option (task * list task) :=
  match ts with [] => None | t :: ts' => extract_due (min_due t ts') ts end.

(** The timers phase: the earliest timer fires at its deadline and its
    request continues. *)
Definition loop_step (s : loop_state) : option loop_state :=
  match earliest (ls_timers s) with
  | None => None
  | Some (t, rest) =>
      Some (continue (t_req t) (t_rest t) (mkLoop (at_clock (t_due t) (ls_world s)) rest (ls_done s)))
  end.

Fixpoint run_loop (fuel : nat) (s : loop_state) : loop_state :=
  match fuel with
  | O => s
  | S f => match loop_step s with None => s | Some s' => run_loop f s' end
  end.

(** Handlers that await at most [n] timers, whatever they draw. *)
Fixpoint awaits_le {A} (n : nat) (p : prog A) : Prop :=
  match p with
  | PRet _ => True
  | PSleep _ k => match n with O => False | S n' => awaits_le n' k end
  | PRandom k => forall r, awaits_le n (k r)
  | PNow k => forall t, awaits_le n (k t)
  | PLog _ k => awaits_le n k
  end.

(** ** The sequential reading is the [ScanM] model *)

Lemma run_bind {A B} (p : prog A) (f : A -> prog B) w :
  run (pbind p f) w = let '(a, w') := run p w in run (f a) w'.
Proof. revert w. induction p as [a|ms k IH|k IH|k IH|msg k IH]; intros w; cbn; auto. Qed.

Lemma run_scan_results u d w : run (scan_results_p u d) w = scan_results u d w.
Proof.
  cbv [run pbind scan_results_p scan_results bind ret sleep random now scanHeaders_p scanHeaders
       scanSQLi_p scanSQLi scanXSS_p scanXSS scanDirectories_p scanDirectories scanPorts_p scanPorts
       getSubdomains_p getSubdomains getGeoIP_p getGeoIP clock rnd rnd_used timers errlog fst snd].
  reflexivity.
Qed.

Lemma run_handle_scan ext body w : run (handle_scan_p ext body) w = handle_scan ext body w.
Proof.
  unfold handle_scan_p, handle_scan. destruct (negb (truthy (json_get "url" body))); [done|].
  destruct (json_get "url" body); try done. destruct (new_URL_hostname ext (derive_url s)); [|done].
  unfold scan_respond_p. rewrite run_bind, run_scan_results. unfold bind. by destruct (scan_results s s0 w).
Qed.

Lemma handle_scan_awaits ext body : awaits_le 7 (handle_scan_p ext body).
Proof.
  unfold handle_scan_p. destruct (negb (truthy (json_get "url" body))); [done|].
  destruct (json_get "url" body); try done. destruct (new_URL_hostname ext (derive_url s)); [|done].
  cbn. repeat intro. exact I.
Qed.

(** ** A request alone *)

Lemma earliest_single t : earliest [t] = Some (t, []).
Proof. cbn. by rewrite Z.eqb_refl. Qed.

(** A request with no other in flight runs on the loop as in [run]: each
    timer fires at its deadline, and the response is sent at the end. *)
Lemma loop_alone n p id w done :
  awaits_le n p ->
  run_loop n (continue id p (mkLoop w [] done)) =
    mkLoop (snd (run p w)) [] (done ++ [(id, fst (run p w), clock (snd (run p w)))]).
Proof.
  revert n w. induction p as [r|ms k IH|k IH|k IH|msg k IH]; intros n w Hn.
  - by destruct n.
  - destruct n as [|n]; [done|]. cbn [run_loop]. unfold loop_step. cbn [continue segment ls_timers app ls_world].
    rewrite earliest_single. cbn [t_req t_rest t_due ls_done ls_world]. by apply IH.
  - exact (IH _ n _ (Hn _)).
  - exact (IH _ n _ (Hn _)).
  - exact (IH n _ Hn).
Qed.

(** A request with no other in flight is served on the event loop as the
    sequential model says, on every path. *)
Lemma scan_alone_on_loop ext body w :
  run_loop 7 (arrive 0 (handle_scan_p ext body) (mkLoop w [] [])) =
    mkLoop (snd (handle_scan ext body w)) []
      [(0%nat, fst (handle_scan ext body w), clock (snd (handle_scan ext body w)))].
Proof. unfold arrive. rewrite loop_alone by apply handle_scan_awaits. by rewrite run_handle_scan. Qed.

(** ** Two requests at once *)

(** The [k]-th draw of [Math.random()] from [w] on. *)
Definition draw (w : World) (k : nat) : Z := rnd w (k + rnd_used w).

(** The [results] object of a scan of [d] whose [scanSQLi] drew [s1, s2]
    and whose [scanXSS] drew [x1, x2], finished at [t]. *)
Definition scan_object (d : string) (s1 s2 x1 x2 t : Z) : jsval :=
  results_object headers_result (sqli_result s1 s2) (xss_result x1 x2) directories_result
    ports_result (subdomains_result d) geoip_result t.

Lemma handle_scan_p_ok ext body u d :
  json_get "url" body = JStr u -> u <> "" -> new_URL_hostname ext (derive_url u) = Some d ->
  handle_scan_p ext body = scan_respond_p u d.
Proof. intros Hb Hu Hd. unfold handle_scan_p. by rewrite Hb, truthy_str, Hd. Qed.

Lemma Z_min_shift c a b : Z.min (c + a) (c + b) = (c + Z.min a b)%Z.
Proof. lia. Qed.
Lemma Z_eqb_shift c a b : Z.eqb (c + a)%Z (c + b)%Z = Z.eqb a b.
Proof. destruct (Z.eqb_spec a b), (Z.eqb_spec (c + a) (c + b)); lia. Qed.

(** One timer firing, its deadlines written [c + d] from the clock [c]
    at the start. *)
Ltac loop_step_tac :=
  cbn [run_loop]; unfold loop_step, earliest, min_due; cbn -[Z.min Z.eqb];
  rewrite <- ?Z.add_assoc, ?Z_min_shift, ?Z_eqb_shift;
  repeat match goal with
    | |- context [?f (Zpos ?a) (Zpos ?b)] =>
        lazymatch f with Z.add => idtac | Z.min => idtac | Z.eqb => idtac end;
        let m := eval vm_compute in (f (Zpos a) (Zpos b)) in change (f (Zpos a) (Zpos b)) with m
    end;
  cbn.

(** Two successful scans started together. *)
Lemma two_scans_loop u1 u2 d1 d2 w :
  run_loop 14 (arrive 1 (scan_respond_p u2 d2) (arrive 0 (scan_respond_p u1 d1) (mkLoop w [] []))) =
  mkLoop
    {| clock := (clock w + 8500)%Z; rnd := rnd w; rnd_used := (8 + rnd_used w)%nat;
       timers := timers w ++ [1000; 1000; 1500; 1500; 1200; 1200; 800; 800; 2000; 2000; 1500; 1500; 500; 500]%Z;
       errlog := errlog w |}
    []
    [(0%nat, scan_success (scan_object d1 (draw w 0) (draw w 1) (draw w 4) (draw w 5) (clock w + 8500)%Z), (clock w + 8500)%Z);
     (1%nat, scan_success (scan_object d2 (draw w 2) (draw w 3) (draw w 6) (draw w 7) (clock w + 8500)%Z), (clock w + 8500)%Z)].
Proof.
  destruct w as [c rnd0 used tms errs]. unfold arrive, draw, scan_object, scan_respond_p. cbn.
  do 14 loop_step_tac. cbv [at_clock set_timer clock rnd rnd_used timers errlog].
  rewrite <- !app_assoc. reflexivity.
Qed.

(** C11: two [/scan] requests with valid URLs arriving together are
    interleaved by the event loop: their timers alternate (1000, 1000,
    1500, 1500, ...), both responses are sent at the same instant, 8500 ms
    after the arrival, and they share the [Math.random] stream, so the
    first request's SQLi probe draws the 0th and 1st numbers and its XSS
    probe the 4th and 5th, the second request's the 2nd, 3rd, 6th and 7th,
    where alone the first would have drawn the 0th to 3rd. *)
Theorem scan_two_requests ext b1 b2 u1 u2 d1 d2 w :
  json_get "url" b1 = JStr u1 -> u1 <> "" -> new_URL_hostname ext (derive_url u1) = Some d1 ->
  json_get "url" b2 = JStr u2 -> u2 <> "" -> new_URL_hostname ext (derive_url u2) = Some d2 ->
  run_loop 14 (arrive 1 (handle_scan_p ext b2) (arrive 0 (handle_scan_p ext b1) (mkLoop w [] []))) =
  mkLoop
    {| clock := (clock w + 8500)%Z; rnd := rnd w; rnd_used := (8 + rnd_used w)%nat;
       timers := timers w ++ [1000; 1000; 1500; 1500; 1200; 1200; 800; 800; 2000; 2000; 1500; 1500; 500; 500]%Z;
       errlog := errlog w |}
    []
    [(0%nat, scan_success (scan_object d1 (draw w 0) (draw w 1) (draw w 4) (draw w 5) (clock w + 8500)%Z), (clock w + 8500)%Z);
     (1%nat, scan_success (scan_object d2 (draw w 2) (draw w 3) (draw w 6) (draw w 7) (clock w + 8500)%Z), (clock w + 8500)%Z)].
Proof.
  intros H1 H1' H1'' H2 H2' H2''. rewrite (handle_scan_p_ok _ _ _ _ H1), (handle_scan_p_ok _ _ _ _ H2) by done.
  apply two_scans_loop.
Qed.

Lemma scan_two_requests_witness :
  let w := mkWorld 0 (fun k => Z.of_nat k) 0 [] [] in
  run_loop 14 (arrive 1 (handle_scan_p no_ext (JObj [("url", JStr "b.com")]))
                 (arrive 0 (handle_scan_p no_ext (JObj [("url", JStr "a.com")])) (mkLoop w [] []))) =
  mkLoop
    {| clock := 8500; rnd := rnd w; rnd_used := 8%nat;
       timers := [1000; 1000; 1500; 1500; 1200; 1200; 800; 800; 2000; 2000; 1500; 1500; 500; 500]%Z;
       errlog := [] |}
    []
    [(0%nat, scan_success (scan_object "a.com" 0 1 4 5 8500), 8500%Z);
     (1%nat, scan_success (scan_object "b.com" 2 3 6 7 8500), 8500%Z)].
Proof.
  intros w. apply (scan_two_requests no_ext _ _ "a.com" "b.com"); try reflexivity; try discriminate; vm_compute; reflexivity.
Defined.

(** ** Overlap changes neither status nor latency *)

(** The world after [console.error] of the messages [ms]. *)
Definition with_log (ms : list string) (w : World) : World :=
  {| clock := clock w; rnd := rnd w; rnd_used := rnd_used w; timers := timers w; errlog := errlog w ++ ms |}.

Lemma awaits_le_mono {A} (p : prog A) n m : (n <= m)%nat -> awaits_le n p -> awaits_le m p.
Proof.
  revert n m. induction p as [a|ms k IH|k IH|k IH|msg k IH]; intros n m Hnm; cbn; auto.
  - destruct n as [|n], m as [|m]; try done; try lia. apply IH. lia.
  - intros Hk r. by apply (IH r n).
  - intros Hk t. by apply (IH t n).
  - by apply IH.
Qed.

Lemma run_loop_idle n w done : run_loop n (mkLoop w [] done) = mkLoop w [] done.
Proof. by destruct n. Qed.

(** The paths that answer without awaiting: [console.error] of [ms], then
    the response. *)
Lemma segment_imm r ms w : segment (fold_right PLog (PRet r) ms) w = (inl r, with_log ms w).
Proof.
  revert w. induction ms as [|m ms IH]; intros w; cbn [fold_right segment].
  - destruct w. unfold with_log. cbn. by rewrite app_nil_r.
  - rewrite IH. unfold with_log. cbn. by rewrite <- app_assoc.
Qed.

Lemma continue_imm id r ms s :
  continue id (fold_right PLog (PRet r) ms) s =
    mkLoop (with_log ms (ls_world s)) (ls_timers s) (ls_done s ++ [(id, r, clock (ls_world s))]).
Proof. unfold continue. by rewrite segment_imm. Qed.

(** The handler either answers at once with an error, or runs the scan. *)
Lemma handle_scan_p_cases ext b :
  (exists r ms, handle_scan_p ext b = fold_right PLog (PRet r) ms /\ status_code r <> 200%Z /\
     forall w, handle_scan ext b w = (r, with_log ms w)) \/
  (exists u d, handle_scan_p ext b = scan_respond_p u d /\
     forall w, status_code (fst (handle_scan ext b w)) = 200%Z).
Proof.
  unfold handle_scan_p, handle_scan. destruct (negb (truthy (json_get "url" b))).
  { left. exists (mkResponse 400 (error_body "URL is required")), []. split_and!; [done|done|].
    intros [] . unfold with_log, ret. cbn. by rewrite app_nil_r. }
  destruct (json_get "url" b); try (left; eexists _, [_]; split_and!; [reflexivity|done|reflexivity]).
  destruct (new_URL_hostname ext (derive_url s)) as [d|];
    [|left; eexists _, [_]; split_and!; [reflexivity|done|reflexivity]].
  right. exists s, d. split; [done|]. intros w. unfold bind. by destruct (scan_results s d w).
Qed.

Lemma run_scan_respond u d w : run (scan_respond_p u d) w = (scan_success (fst (scan_results u d w)), after_scan w).
Proof.
  unfold scan_respond_p. rewrite run_bind, run_scan_results, <- (scan_results_world u d w).
  by destruct (scan_results u d w).
Qed.

Lemma scan_respond_awaits u d : awaits_le 7 (scan_respond_p u d).
Proof. cbn. repeat intro. exact I. Qed.

Lemma scan_respond_first u d : exists k, scan_respond_p u d = PSleep 1000 k.
Proof. eexists. reflexivity. Qed.

(** A pending timer alone on the loop. *)
Lemma loop_task n id t k w done :
  awaits_le n k ->
  run_loop (S n) (mkLoop w [mkTask id t k] done) =
    let w' := at_clock t w in
    mkLoop (snd (run k w')) [] (done ++ [(id, fst (run k w'), clock (snd (run k w')))]).
Proof.
  intros Hk. cbn [run_loop]. unfold loop_step. cbn [ls_timers]. rewrite earliest_single.
  cbn [t_req t_rest t_due ls_done ls_world]. by apply loop_alone.
Qed.

Lemma two_errors r1 r2 ms1 ms2 w : exists w',
  run_loop 14 (arrive 1 (fold_right PLog (PRet r2) ms2) (arrive 0 (fold_right PLog (PRet r1) ms1) (mkLoop w [] []))) =
    mkLoop w' [] [(0%nat, r1, clock w); (1%nat, r2, clock w)].
Proof. eexists. unfold arrive. rewrite !continue_imm. cbn [ls_world ls_timers ls_done]. apply run_loop_idle. Qed.

Lemma error_then_scan r1 ms1 u2 d2 w : exists w',
  run_loop 14 (arrive 1 (scan_respond_p u2 d2) (arrive 0 (fold_right PLog (PRet r1) ms1) (mkLoop w [] []))) =
    mkLoop w' [] [(0%nat, r1, clock w); (1%nat, scan_success (fst (scan_results u2 d2 (with_log ms1 w))), (clock w + 8500)%Z)].
Proof.
  eexists. unfold arrive at 2. rewrite continue_imm. unfold arrive. cbn [ls_world ls_timers ls_done].
  rewrite loop_alone by (apply (awaits_le_mono _ 7); [lia|apply scan_respond_awaits]).
  rewrite run_scan_respond. reflexivity.
Qed.

Lemma scan_then_error u1 d1 r2 ms2 w : exists w',
  run_loop 14 (arrive 1 (fold_right PLog (PRet r2) ms2) (arrive 0 (scan_respond_p u1 d1) (mkLoop w [] []))) =
    mkLoop w' [] [(1%nat, r2, clock w); (0%nat, scan_success (fst (scan_results u1 d1 (with_log ms2 w))), (clock w + 8500)%Z)].
Proof.
  pose proof (scan_respond_awaits u1 d1) as Hk. destruct (scan_respond_first u1 d1) as [k Ek].
  eexists. rewrite Ek in Hk |- *. unfold arrive at 2. cbn [continue segment ls_world ls_timers ls_done app].
  unfold arrive. rewrite continue_imm. cbn [ls_world ls_timers ls_done].
  rewrite loop_task by (apply (awaits_le_mono _ 6); [lia|exact Hk]).
  change (at_clock (clock (set_timer 1000 w) + 1000) (with_log ms2 (set_timer 1000 w)))
    with (snd (sleep 1000 (with_log ms2 w))). cbv zeta.
  change (run k (snd (sleep 1000 (with_log ms2 w)))) with (run (PSleep 1000 k) (with_log ms2 w)).
  rewrite <- Ek, run_scan_respond. reflexivity.
Qed.

(** Requests [0] with body [b1] and [1] with body [b2] arriving together
    at [w], and the loop run until their timers are spent. *)
Definition two_arrivals ext (b1 b2 : jsval) (w : World) : loop_state :=
  run_loop 14 (arrive 1 (handle_scan_p ext b2) (arrive 0 (handle_scan_p ext b1) (mkLoop w [] []))).

(** Request [i] with body [b] was answered in [s] with the status it gets
    alone from [w]: a success 8500 ms after [w]'s clock, an error at once
    and with the very response it gets alone. *)
Definition answered_as_alone ext (w : World) (s : loop_state) (i : nat) (b : jsval) : Prop :=
  exists r t, In (i, r, t) (ls_done s) /\
    status_code r = status_code (fst (handle_scan ext b w)) /\
    if Z.eqb (status_code r) 200 then t = (clock w + 8500)%Z
    else r = fst (handle_scan ext b w) /\ t = clock w.

Lemma answered_error ext w s i b r ms :
  In (i, r, clock w) (ls_done s) -> status_code r <> 200%Z ->
  (forall w, handle_scan ext b w = (r, with_log ms w)) -> answered_as_alone ext w s i b.
Proof.
  intros Hin Hr Hb. exists r, (clock w). rewrite Hb. cbn [fst].
  apply Z.eqb_neq in Hr. rewrite Hr. auto.
Qed.

Lemma answered_scan ext w s i b x :
  In (i, scan_success x, (clock w + 8500)%Z) (ls_done s) ->
  (forall w, status_code (fst (handle_scan ext b w)) = 200%Z) -> answered_as_alone ext w s i b.
Proof.
  intros Hin Hb. exists (scan_success x), (clock w + 8500)%Z. rewrite Hb. split_and!; [done|done|].
  cbv [scan_success status_code]. by rewrite Z.eqb_refl.
Qed.

Ltac answered :=
  first [ eapply answered_error; [cbn; tauto|eassumption|eassumption]
        | eapply answered_scan; [cbn; tauto|eassumption] ].

(** C12: two [/scan] requests that overlap on the event loop, whatever
    their bodies, are both answered with the status each gets alone: an
    error at the instant it arrives and with exactly the response it
    gets alone, a success 8500 ms after the arrival, as alone; no timer is
    left pending.  Overlap delays neither request. *)
Theorem scan_overlap_status_latency ext b1 b2 w :
  ls_timers (two_arrivals ext b1 b2 w) = [] /\ List.length (ls_done (two_arrivals ext b1 b2 w)) = 2%nat /\
  answered_as_alone ext w (two_arrivals ext b1 b2 w) 0 b1 /\
  answered_as_alone ext w (two_arrivals ext b1 b2 w) 1 b2.
Proof.
  unfold two_arrivals.
  destruct (handle_scan_p_cases ext b1) as [(r1 & ms1 & E1 & N1 & H1)|(u1 & d1 & E1 & H1)],
           (handle_scan_p_cases ext b2) as [(r2 & ms2 & E2 & N2 & H2)|(u2 & d2 & E2 & H2)];
    rewrite E1, E2.
  - destruct (two_errors r1 r2 ms1 ms2 w) as [w' ->]. split_and!; [done|done|answered..].
  - destruct (error_then_scan r1 ms1 u2 d2 w) as [w' ->]. split_and!; [done|done|answered..].
  - destruct (scan_then_error u1 d1 r2 ms2 w) as [w' ->]. split_and!; [done|done|answered..].
  - rewrite two_scans_loop. split_and!; [done|done|answered..].
Qed.

(** A world whose 2nd and 3rd draws exceed 0.7 and whose others are 0. *)
Definition world_xss : World :=
  mkWorld 0 (fun k => if (Nat.eqb k 2 || Nat.eqb k 3)%bool then (double_0_7 + 1)%Z else 0%Z) 0 [] [].

(** The XSS status of a [/scan] response. *)
Definition xss_status (r : Response) : jsval :=
  json_get "status" (json_get "xss" (json_get "results" (resp_body r))).

(** The same request for [a.com] reports XSS vulnerable when it runs alone
    and secure when [b.com] arrives with it: the draws it would have used
    go to the other request. *)
Remark xss_depends_on_overlap :
  xss_status (fst (handle_scan no_ext (JObj [("url", JStr "a.com")]) world_xss)) = JStr "vulnerable" /\
  map (fun '(id, r, _) => (id, xss_status r))
    (ls_done (run_loop 14 (arrive 1 (handle_scan_p no_ext (JObj [("url", JStr "b.com")]))
       (arrive 0 (handle_scan_p no_ext (JObj [("url", JStr "a.com")])) (mkLoop world_xss [] []))))) =
    [(0%nat, JStr "secure"); (1%nat, JStr "secure")].
Proof. split; vm_compute; reflexivity. Qed.

End EventLoop.
