(* ===== verification/Express.v ===== *)
(** * Express: the middleware stack of [src/server/index.js]

    [const app = express()] (line 9) and its three [app.use] lines
    (13-15) put [cors()], [express.json()] and [express.static(...)] in
    front of the routes of [ScanServer.route].  [app] is the whole
    application on one request as Node's HTTP server hands it over: the
    method, the request target, the [Content-Type] and
    [Access-Control-Request-Headers] headers and the body (its length in
    bytes, as [Content-Length] gives it, and its decoded text); the reply
    is a status, the headers the middleware sets, and what the body
    carries.

    - [cors()] with its default options (package [cors]): every reply
      gets [Access-Control-Allow-Origin: *]; an [OPTIONS] request is a
      preflight, answered 204 with the allowed methods and the reflected
      request headers, and goes no further.
    - [express.json()] is body-parser's JSON parser with its defaults
      ([strict], [limit: '100kb'], type [application/json]).  The code is
      written for Express 4 ([app.get('*', ...)] is a path Express 5
      refuses at start-up), whose body-parser first sets [req.body] to
      [{}]; a request without a body or of another type keeps it.  The
      [Content-Type] is read with media-typer's grammar ([media_type]); a
      charset other than a UTF one is refused with 415, a body above
      102400 bytes with 413, and a body that is not JSON, or whose first
      character is neither [{] nor [[], with 400.  Express's final
      handler answers these errors with an HTML page.
    - [express.static] is the function [dist_has] of [ScanServer.route]
      on the pathname; [res.sendFile] of the [GET *] route answers 404
      when the build output has no [index.html].

    A [HEAD] reply carries no body.  Bodies with a [Content-Encoding]
    are not modelled (the page never sends one).  [JSON.parse] is the
    model of [Json.v]; on the texts it leaves out ([JUnmodelled]) the
    parser consults the section variable [ext_json], as the handler does
    [ext_hostname] for the hosts [Url.v] leaves out. *)

From S2P Require Import Prelude JsCore JsDate Url Json ScanServer.

Local Open Scope string_scope.
Local Open Scope pscan_scope.

Module Express.
Import ScanServer Json.

(** ** Requests and replies *)

Record HttpRequest := mkHttp {
  h_method : string;
  h_url : string;                         (* the request target: path and query *)
  h_content_type : option string;
  h_acr_headers : option string;          (* Access-Control-Request-Headers *)
  h_body : option (N * string)            (* Content-Length and the decoded text *)
}.

(** What the reply's body is: [res.json], a file of the build output, the
    final handler's HTML error page, or nothing. *)
Inductive payload := PJson (v : jsval) | PFile (p : string) | PErrorPage | PNone.

Record HttpReply := mkReply { r_status : Z; r_headers : list (string * string); r_payload : payload }.

(** [req.method] as the router sees it. *)
Definition method_of (m : string) : Method :=
  if String.eqb m "GET" then GET else if String.eqb m "HEAD" then HEAD
  else if String.eqb m "POST" then POST else OtherMethod m.

(** [parseurl(req).pathname]: the target up to its query. *)
Definition pathname (u : string) : string :=
  string_of_list_ascii (take_while (fun c => negb (Ascii.eqb c "?"%char)) (list_ascii_of_string u)).

(** ** [cors()] *)

Definition cors_origin : list (string * string) := [("Access-Control-Allow-Origin", "*")].

Definition cors_methods : string := "GET,HEAD,PUT,PATCH,POST,DELETE".

(** The preflight: [configureOrigin], [configureMethods], then
    [configureAllowedHeaders], which reflects the request's
    [Access-Control-Request-Headers] when it is not empty; [cors] then
    ends the response with 204 and [Content-Length: 0]. *)
Definition preflight_headers (req : HttpRequest) : list (string * string) :=
  cors_origin ++ [("Access-Control-Allow-Methods", cors_methods);
                  ("Vary", "Access-Control-Request-Headers")] ++
  match h_acr_headers req with
  | Some hs => if String.eqb hs "" then [] else [("Access-Control-Allow-Headers", hs)]
  | None => []
  end ++ [("Content-Length", "0")].

(** ** The [Content-Type] header (media-typer) *)

Definition in_chars (c : ascii) (set : string) : bool :=
  existsb (Ascii.eqb c) (list_ascii_of_string set).

Definition is_alnum (c : ascii) : bool := is_ascii_alpha c || is_ascii_digit c.

(** A name of the type or subtype: an alphanumeric character and at most
    126 more of the restricted set ([.] and [+] in the subtype only). *)
Definition restricted_name (extra : string) (cs : list ascii) : bool :=
  match cs with
  | c :: rest => is_alnum c && forallb (fun d => is_alnum d || in_chars d extra) rest &&
                 Nat.leb (List.length rest) 126
  | [] => false
  end.

Definition param_char (c : ascii) : bool := is_alnum c || in_chars c "!#$%&'*+-.^_`|~".

(** A character of a quoted string other than the quote and the backslash. *)
Definition qdtext (c : ascii) : bool :=
  let n := code c in
  Nat.leb 32 n && negb (Nat.eqb n 34) && negb (Nat.eqb n 92) && negb (Nat.eqb n 127).

(** The parameter list, [; name=value] repeated with spaces around the
    [=] and after each part, read left to right: the state says what the
    parser expects next, the names and values are kept reversed while
    they are read. *)
Inductive pstate :=
  | PSemi                                   (* after a value: spaces, then [;] *)
  | PName (name : list ascii)               (* after [;]: spaces, then the name *)
  | PEq (name : list ascii)                 (* after the name: spaces, then [=] *)
  | PValue (name : list ascii)              (* after [=]: spaces, then the value *)
  | PToken (name v : list ascii)            (* in a token value *)
  | PQuoted (name v : list ascii)           (* in a quoted value *)
  | PEscape (name v : list ascii).          (* after a backslash in a quoted value *)

Definition param_of (name v : list ascii) : string * string :=
  (toLowerCase (string_of_list_ascii (rev name)), string_of_list_ascii (rev v)).

Definition pstep (st : pstate) (c : ascii) : option (pstate * option (string * string)) :=
  let sp := Ascii.eqb c " "%char in
  match st with
  | PSemi => if sp then Some (PSemi, None) else if Ascii.eqb c ";"%char then Some (PName [], None) else None
  | PName [] => if sp then Some (PName [], None) else if param_char c then Some (PName [c], None) else None
  | PName n => if param_char c then Some (PName (c :: n), None) else if sp then Some (PEq n, None)
               else if Ascii.eqb c "="%char then Some (PValue n, None) else None
  | PEq n => if sp then Some (PEq n, None) else if Ascii.eqb c "="%char then Some (PValue n, None) else None
  | PValue n => if sp then Some (PValue n, None) else if Ascii.eqb c dq then Some (PQuoted n [], None)
                else if param_char c then Some (PToken n [c], None) else None
  | PToken n v => if param_char c then Some (PToken n (c :: v), None)
                  else if sp then Some (PSemi, Some (param_of n v))
                  else if Ascii.eqb c ";"%char then Some (PName [], Some (param_of n v)) else None
  | PQuoted n v => if Ascii.eqb c dq then Some (PSemi, Some (param_of n v))
                   else if Ascii.eqb c bs then Some (PEscape n v, None)
                   else if qdtext c then Some (PQuoted n (c :: v), None) else None
  | PEscape n v => if Nat.leb 32 (code c) && Nat.leb (code c) 126 then Some (PQuoted n (c :: v), None) else None
  end.

Fixpoint params_run (st : pstate) (l : list ascii) : option (list (string * string)) :=
  match l with
  | [] => match st with
          | PSemi => Some []
          | PToken n v => Some [param_of n v]
          | _ => None
          end
  | c :: l' => match pstep st c with
               | Some (st', Some p) => cons p <$> params_run st' l'
               | Some (st', None) => params_run st' l'
               | None => None
               end
  end.

Definition is_space (c : ascii) : bool := Ascii.eqb c " "%char.

(** [typer.parse(header)] on the part before the first [;]: the type and
    subtype, lower-cased, spaces around them allowed. *)
Definition type_name (ty : list ascii) : option string :=
  let low := rev (drop_while is_space (rev (drop_while is_space
               (list_ascii_of_string (toLowerCase (string_of_list_ascii ty)))))) in
  let t := take_while (fun c => negb (Ascii.eqb c "/"%char)) low in
  match drop_while (fun c => negb (Ascii.eqb c "/"%char)) low with
  | _ :: s =>
      if restricted_name "!#$&^_-" t && restricted_name "!#$&^_.+-" s
      then Some (string_of_list_ascii low) else None
  | [] => None
  end.

Definition not_semi (c : ascii) : bool := negb (Ascii.eqb c ";"%char).

(** [typer.parse(header)]: the type and the parameters; [None] when the
    header does not parse ([type-is] then answers false). *)
Definition media_type (header : string) : option (string * list (string * string)) :=
  let cs := list_ascii_of_string header in
  match type_name (take_while not_semi cs) with
  | Some ty => (fun ps => (ty, ps)) <$> params_run PSemi (drop_while not_semi cs)
  | None => None
  end.

(** The last value given to a parameter. *)
Definition param_lookup (k : string) (ps : list (string * string)) : option string :=
  snd <$> List.find (fun p => String.eqb p.1 k) (rev ps).

(** ** [express.json()] (body-parser) *)

(** [limit: '100kb'] *)
Definition limit : N := 102400.

(** iconv-lite's name of an encoding: lower case, alphanumeric only. *)
Definition canonical_encoding (s : string) : string :=
  string_of_list_ascii (List.filter is_alnum (list_ascii_of_string (toLowerCase s))).

(** The UTF encodings iconv-lite knows. *)
Definition utf_encodings : list string :=
  ["utf8"; "utf16"; "utf16le"; "utf16be"; "utf7"; "utf7imap"; "utf32"; "utf32le"; "utf32be"].

(** iconv-lite knows the encoding. *)
Definition known_encoding (charset : string) : bool :=
  existsb (String.eqb (canonical_encoding charset)) utf_encodings.

Inductive body_result := BodyOk (v : jsval) | BodyFail (status : Z).

Section Parser.
(** What [JSON.parse] does on the texts [json_parse] leaves out; [None]
    is a thrown [SyntaxError]. *)
Context (ext_json : string -> option jsval).

(** [firstchar(body)] opens an object or an array. *)
Definition strict_start (text : string) : bool :=
  match skip_ws (list_ascii_of_string text) with
  | c :: _ => Ascii.eqb c "{"%char || Ascii.eqb c "["%char
  | [] => false
  end.

(** [parse(body)]: an empty body is [{}]; in strict mode the first
    character after white space must open an object or an array; then
    [JSON.parse]. *)
Definition parse_body (text : string) : body_result :=
  if String.eqb text "" then BodyOk (JObj [])
  else if negb (strict_start text) then BodyFail 400
  else match json_parse text with
       | JParsed v => BodyOk v
       | JSyntaxError => BodyFail 400
       | JUnmodelled => match ext_json text with Some v => BodyOk v | None => BodyFail 400 end
       end.

(** [shouldParse(req)], [typeis(req, 'application/json')]: the parameters
    of a [Content-Type] of that type. *)
Definition json_type (ct : option string) : option (list (string * string)) :=
  match ct ≫= media_type with
  | Some (ty, ps) => if String.eqb ty "application/json" then Some ps else None
  | None => None
  end.

(** [jsonParser(req, res, next)]: [req.body] starts as [{}]; a request
    with no body, or whose type is not [application/json], keeps it.  A
    charset that does not start with [utf-] is refused first (415), then
    raw-body refuses a [Content-Length] above the limit (413) before it
    looks the encoding up in iconv-lite (415). *)
Definition json_body (req : HttpRequest) : body_result :=
  match h_body req with
  | None => BodyOk (JObj [])
  | Some (len, text) =>
      match json_type (h_content_type req) with
      | Some ps =>
          let charset := toLowerCase (default "utf-8" (param_lookup "charset" ps)) in
          if negb (String.prefix "utf-" charset) then BodyFail 415
          else if N.ltb limit len then BodyFail 413
          else if negb (known_encoding charset) then BodyFail 415
          else parse_body text
      | None => BodyOk (JObj [])
      end
  end.
End Parser.

(** ** The application *)

(** What Express sends for the router's answer: [res.sendFile] of the
    [GET *] route fails with 404 when the build output has no
    [index.html]; the final handler answers 404 for a request no route
    takes.  A [HEAD] reply has no body. *)
Definition to_reply (dist_has : string -> bool) (head : bool) (r : Reply) : Z * payload :=
  let '(code, p) := match r with
                    | ReplyJson resp => (status_code resp, PJson (resp_body resp))
                    | ReplyBadRequest => (400%Z, PErrorPage)
                    | ReplyStatic f => (200%Z, PFile f)
                    | ReplyIndexHtml =>
                        if dist_has "/index.html" then (200%Z, PFile "/index.html") else (404%Z, PErrorPage)
                    | ReplyNotFound => (404%Z, PErrorPage)
                    end in
  (code, if head then PNone else p).

Section App.
Context (ext_hostname : string -> option string) (ext_json : string -> option jsval).

(** [app]: [cors()], [express.json()], then [express.static] and the
    routes ([ScanServer.route]). *)
Definition app (dist_has : string -> bool) (req : HttpRequest) : ScanM HttpReply :=
  if String.eqb (h_method req) "OPTIONS" then ret (mkReply 204 (preflight_headers req) PNone)
  else
    let m := method_of (h_method req) in
    match json_body ext_json req with
    | BodyFail code => ret (mkReply code cors_origin (if m is HEAD then PNone else PErrorPage))
    | BodyOk b =>
        r <- route ext_hostname dist_has (mkRequest m (pathname (h_url req)) b) ;;
        let '(code, p) := to_reply dist_has (if m is HEAD then true else false) r in
        ret (mkReply code cors_origin p)
    end.
End App.

(** ** The page's request *)

(** The bytes of a text in UTF-8 (code units below 256). *)
Definition utf8_bytes (c : ascii) : N := if Nat.ltb (code c) 128 then 1%N else 2%N.

Definition utf8_length (s : string) : N :=
  fold_right (fun c n => utf8_bytes c + n)%N 0%N (list_ascii_of_string s).

(** [fetch('/scan', { method: 'POST', headers: { 'Content-Type':
    'application/json' }, body: JSON.stringify({ url: data.url }) })]
    as it reaches the server. *)
Definition scan_request (u : string) : option HttpRequest :=
  (fun text => mkHttp "POST" "/scan" (Some "application/json") None (Some (utf8_length text, text)))
    <$> json_stringify (JObj [("url", JStr u)]).

(** ** Lemmas *)

Section Lemmas.
Context (ext_hostname : string -> option string) (ext_json : string -> option jsval)
        (dist_has : string -> bool).

(** [app] on a request that is not a preflight. *)
Lemma app_unfold req w :
  String.eqb (h_method req) "OPTIONS" = false ->
  app ext_hostname ext_json dist_has req w =
    match json_body ext_json req with
    | BodyFail code =>
        (mkReply code cors_origin (if method_of (h_method req) is HEAD then PNone else PErrorPage), w)
    | BodyOk b =>
        let '(r, w') := route ext_hostname dist_has
                          (mkRequest (method_of (h_method req)) (pathname (h_url req)) b) w in
        (let '(code, p) := to_reply dist_has (if method_of (h_method req) is HEAD then true else false) r in
         mkReply code cors_origin p, w')
    end.
Proof.
  intros Hm. unfold app. rewrite Hm. destruct (json_body _ _); [|done].
  unfold bind. destruct (route _ _ _ w). by destruct (to_reply _ _ _).
Qed.

Lemma route_head p b : route ext_hostname dist_has (mkRequest HEAD p b) =
                       route ext_hostname dist_has (mkRequest GET p b).
Proof. reflexivity. Qed.

Lemma to_reply_head r : to_reply dist_has true r = ((to_reply dist_has false r).1, PNone).
Proof. unfold to_reply. destruct r; [..|destruct (dist_has _)|]; reflexivity. Qed.

Lemma take_while_app_stop {A} (p : A -> bool) l1 l2 :
  existsb (fun x => negb (p x)) l1 = true -> take_while p (l1 ++ l2)%list = take_while p l1.
Proof.
  induction l1 as [|x l1 IH]; [done|]. cbn. destruct (p x); cbn; [|done]. intros H. by rewrite IH.
Qed.

Lemma drop_while_app_stop {A} (p : A -> bool) l1 l2 :
  existsb (fun x => negb (p x)) l1 = true -> drop_while p (l1 ++ l2) = (drop_while p l1 ++ l2)%list.
Proof.
  induction l1 as [|x l1 IH]; [done|]. cbn. destruct (p x); cbn; [|done]. intros H. by rewrite IH.
Qed.

Lemma param_char_facts c :
  param_char c = true -> Ascii.eqb c " "%char = false /\ Ascii.eqb c dq = false.
Proof. destruct c as [[] [] [] [] [] [] [] []]; vm_compute; intros; (done || split; done). Qed.

(** A parameter value made of token characters is read to its end. *)
Lemma params_token n v l :
  forallb param_char l = true -> params_run (PToken n v) l = Some [param_of n (rev l ++ v)].
Proof.
  revert v. induction l as [|c l IH]; intros v Hl; [done|]. cbn in Hl |- *.
  apply andb_true_iff in Hl as [Hc Hl]. rewrite Hc. rewrite IH by done. by rewrite <- app_assoc.
Qed.

Lemma json_type_charset cs :
  cs <> "" -> forallb param_char (list_ascii_of_string cs) = true ->
  json_type (Some ("application/json; charset=" ++ cs)) = Some [("charset", cs)].
Proof.
  intros Hne Hcs. destruct cs as [|c cs]; [done|]. cbn in Hcs. apply andb_true_iff in Hcs as [Hc Hcs].
  destruct (param_char_facts c Hc) as (Hsp & Hdq).
  unfold json_type. cbn [mbind option_bind]. unfold media_type. rewrite list_ascii_of_string_app.
  rewrite take_while_app_stop, drop_while_app_stop by reflexivity.
  replace (type_name _) with (Some "application/json") by (vm_compute; reflexivity).
  change (params_run PSemi (drop_while not_semi (list_ascii_of_string "application/json; charset=")
                              ++ list_ascii_of_string (String c cs)))
    with (params_run (PValue (rev (list_ascii_of_string "charset"))) (c :: list_ascii_of_string cs)).
  cbn [params_run pstep]. rewrite Hsp, Hdq, Hc, params_token by done. unfold param_of.
  rewrite rev_app_distr. cbn [rev List.app string_of_list_ascii].
  rewrite !List.rev_involutive, !string_of_list_ascii_of_string. reflexivity.
Qed.

(** What body-parser makes of a JSON body within the limit. *)
Lemma json_body_utf8 m target acr len text :
  (len <= limit)%N ->
  json_body ext_json (mkHttp m target (Some "application/json") acr (Some (len, text))) =
    parse_body ext_json text.
Proof. intros Hlen. cbn. by rewrite (proj2 (N.ltb_ge limit len) Hlen). Qed.

(** The bytes of a printed string: at most six per code unit. *)
Lemma utf8_quote_char c : (utf8_length (string_of_list_ascii (quote_char c)) <= 6)%N.
Proof. destruct c as [[] [] [] [] [] [] [] []]; vm_compute; discriminate. Qed.

Lemma utf8_length_app s t : utf8_length (s ++ t) = (utf8_length s + utf8_length t)%N.
Proof.
  unfold utf8_length. rewrite list_ascii_of_string_app, fold_right_app.
  induction (list_ascii_of_string s) as [|c l IH]; cbn -[utf8_bytes]; lia.
Qed.

Lemma utf8_flat_map_quote l :
  (utf8_length (string_of_list_ascii (flat_map quote_char l)) <= 6 * N.of_nat (List.length l))%N.
Proof.
  induction l as [|c l IH]; [done|]. cbn [flat_map].
  rewrite string_of_list_ascii_app, utf8_length_app. pose proof (utf8_quote_char c). cbn [List.length]. lia.
Qed.

Lemma scan_request_text u :
  json_stringify (JObj [("url", JStr u)]) =
    Some (string_of_list_ascii ("{"%char :: ([dq; "u"; "r"; "l"; dq; ":"]%char ++ quote u)%list ++ ["}"%char])).
Proof. reflexivity. Qed.

(** The page's body fits body-parser's limit for a URL of up to 17000
    code units (each printed in at most six bytes). *)
Lemma scan_request_size u :
  (N.of_nat (String.length u) <= 17000)%N ->
  (utf8_length (string_of_list_ascii ("{"%char :: ([dq; "u"; "r"; "l"; dq; ":"]%char ++ quote u)%list ++ ["}"%char]))
     <= limit)%N.
Proof.
  intros Hu. unfold quote.
  change ("{"%char :: ?l) with (["{"%char] ++ l)%list. rewrite !string_of_list_ascii_app.
  change (dq :: flat_map quote_char (list_ascii_of_string u) ++ [dq])%list with
    ([dq] ++ flat_map quote_char (list_ascii_of_string u) ++ [dq])%list.
  rewrite !string_of_list_ascii_app, !utf8_length_app.
  pose proof (utf8_flat_map_quote (list_ascii_of_string u)) as H.
  rewrite length_list_ascii_of_string in H. unfold limit.
  change (utf8_length (string_of_list_ascii [dq; "u"; "r"; "l"; dq; ":"]%char)) with 6%N.
  change (utf8_length (string_of_list_ascii ["{"%char])) with 1%N.
  change (utf8_length (string_of_list_ascii [dq])) with 1%N.
  change (utf8_length (string_of_list_ascii ["}"%char])) with 1%N. lia.
Qed.

(** A body printed by [JSON.stringify] as an object passes the strict
    test and parses back. *)
Lemma parse_body_object v l :
  json_wf v = true -> ser [] [] v = Some ("{"%char :: l) ->
  parse_body ext_json (string_of_list_ascii ("{"%char :: l)) = BodyOk v.
Proof.
  intros Hwf Hser. unfold parse_body, strict_start. rewrite list_ascii_of_string_of_list_ascii.
  cbn [skip_ws is_ws]. by rewrite (json_parse_ser v [] _ Hwf all_ws_nil Hser).
Qed.

Lemma json_wf_url u : json_wf (JObj [("url", JStr u)]) = true.
Proof. reflexivity. Qed.

End Lemmas.

(** ** Properties *)

Section Properties.
Context (ext_hostname : string -> option string) (ext_json : string -> option jsval)
        (dist_has : string -> bool).

(** C16: the Scanner page's request reaches the [/scan] handler intact:
    for every URL of up to 17000 code units, the text
    [JSON.stringify({url})] sent as [application/json] passes [cors()]
    and [express.json()], the handler receives exactly [{url}], and the
    reply is the handler's status and body with the CORS header.  The
    page's model, which hands the parsed body to the router, is thus the
    application's behaviour. *)
Theorem scan_request_reaches_handler u req w :
  scan_request u = Some req -> (N.of_nat (String.length u) <= 17000)%N ->
  app ext_hostname ext_json dist_has req w =
    (let '(r, w') := handle_scan ext_hostname (JObj [("url", JStr u)]) w in
     (mkReply (status_code r) cors_origin (PJson (resp_body r)), w')).
Proof.
  unfold scan_request. rewrite scan_request_text.
  remember (string_of_list_ascii ("{"%char :: ([dq; "u"; "r"; "l"; dq; ":"]%char ++ quote u)%list ++ ["}"%char]))
    as text eqn:Htext.
  intros [= <-] Hu. rewrite app_unfold by reflexivity.
  rewrite json_body_utf8 by (subst text; apply scan_request_size, Hu).
  rewrite Htext, (parse_body_object ext_json _ _ (json_wf_url u)) by reflexivity.
  unfold route, bind. cbn -[handle_scan path_is]. change (path_is "/scan" "/scan") with true.
  cbn -[handle_scan]. destruct (handle_scan _ _ w). reflexivity.
Qed.

(** C17: body-parser's errors stop a request before any route: with
    [Content-Type: application/json], a non-empty body whose first
    character after white space opens neither an object nor an array,
    or which [JSON.parse] rejects, is answered 400; a body above 102400
    bytes 413; a [charset] parameter not starting with [utf-] 415.  Each
    answer is Express's HTML error page, not the handler's JSON envelope,
    and the world is unchanged: no probe runs. *)
Theorem body_parser_errors m target acr len text w :
  String.eqb m "OPTIONS" = false -> String.eqb m "HEAD" = false ->
  let req ct := mkHttp m target (Some ct) acr (Some (len, text)) in
  ((len <= limit)%N -> text <> "" -> strict_start text = false \/ json_parse text = JSyntaxError ->
     app ext_hostname ext_json dist_has (req "application/json") w = (mkReply 400 cors_origin PErrorPage, w)) /\
  ((limit < len)%N ->
     app ext_hostname ext_json dist_has (req "application/json") w = (mkReply 413 cors_origin PErrorPage, w)) /\
  (forall cs, cs <> "" -> forallb param_char (list_ascii_of_string cs) = true ->
     String.prefix "utf-" (toLowerCase cs) = false ->
     app ext_hostname ext_json dist_has (req ("application/json; charset=" ++ cs)) w =
       (mkReply 415 cors_origin PErrorPage, w)).
Proof.
  intros Hm Hh req. unfold req. rewrite !app_unfold by done.
  assert (Hhead : (if method_of m is HEAD then PNone else PErrorPage) = PErrorPage).
  { unfold method_of. apply String.eqb_neq in Hh. destruct (String.eqb m "GET"); [done|].
    destruct (String.eqb_spec m "HEAD"); [done|]. by destruct (String.eqb m "POST"). }
  split_and!.
  - intros Hlen Hne Hfail. rewrite json_body_utf8 by done. unfold parse_body.
    apply String.eqb_neq in Hne. rewrite Hne.
    destruct Hfail as [-> | Hp]; [cbn -[method_of]; by rewrite Hhead|].
    destruct (strict_start text); cbn -[method_of json_parse]; [|by rewrite Hhead].
    rewrite Hp. cbn -[method_of]. by rewrite Hhead.
  - intros Hlen. cbn -[method_of]. rewrite (proj2 (N.ltb_lt limit len) Hlen). cbn -[method_of].
    by rewrite Hhead.
  - intros cs Hne Hcs Hutf. rewrite app_unfold by done. unfold json_body. cbn [h_body h_content_type].
    rewrite json_type_charset by done. cbn -[method_of toLowerCase]. rewrite Hutf. cbn -[method_of].
    by rewrite Hhead.
Qed.

(** C18: a [POST /scan] whose body body-parser leaves alone (no body, a
    [Content-Type] other than [application/json], such as the
    [text/plain;charset=UTF-8] [fetch] sends by default, or an empty JSON
    body) reaches the handler with [req.body = {}] and is answered 400
    "URL is required", whatever URL the text holds. *)
Theorem unparsed_body_url_required target ct acr body w :
  path_is "/scan" (pathname target) = true ->
  json_type ct = None \/ body = None \/ (ct = Some "application/json" /\ body = Some (0%N, "")) ->
  app ext_hostname ext_json dist_has (mkHttp "POST" target ct acr body) w =
    (mkReply 400 cors_origin (PJson (error_body "URL is required")), w).
Proof.
  intros Hp Hb. rewrite app_unfold by done.
  replace (json_body ext_json _) with (BodyOk (JObj [])).
  - cbn [h_method h_url]. change (method_of "POST") with POST. unfold route, bind.
    cbn [method path ScanServer.body]. by rewrite Hp.
  - unfold json_body. cbn [h_body h_content_type].
    destruct Hb as [-> | [-> | [-> ->]]]; [by destruct body as [[]|] | done | done].
Qed.

(** C19: [cors()] answers every request: each reply carries
    [Access-Control-Allow-Origin: *], and an [OPTIONS] request, whatever
    its path, is a preflight answered 204 with the allowed methods and the
    reflected request headers, without reaching body-parser or any route
    (the world is unchanged). *)
Theorem cors_every_reply req w :
  r_headers (fst (app ext_hostname ext_json dist_has req w)) =
    (if String.eqb (h_method req) "OPTIONS" then preflight_headers req else cors_origin) /\
  (String.eqb (h_method req) "OPTIONS" = true ->
     app ext_hostname ext_json dist_has req w = (mkReply 204 (preflight_headers req) PNone, w)).
Proof.
  destruct (String.eqb (h_method req) "OPTIONS") eqn:Ho.
  - unfold app. by rewrite Ho.
  - rewrite app_unfold by done. split; [|done].
    destruct (json_body _ _); [|done]. destruct (route _ _ _ w). by destruct (to_reply _ _ _).
Qed.

(** A [HEAD] request is answered as the [GET] of the same target
    (Express 4 runs the GET route when no HEAD route exists): same status,
    same headers, same world, and no body. *)
Theorem head_as_get target ct acr body w :
  app ext_hostname ext_json dist_has (mkHttp "HEAD" target ct acr body) w =
    (let '(r, w') := app ext_hostname ext_json dist_has (mkHttp "GET" target ct acr body) w in
     (mkReply (r_status r) (r_headers r) PNone, w')).
Proof.
  rewrite !app_unfold by done. change (method_of "HEAD") with HEAD. change (method_of "GET") with GET.
  change (json_body ext_json (mkHttp "HEAD" target ct acr body))
    with (json_body ext_json (mkHttp "GET" target ct acr body)).
  destruct (json_body _ _); [|done]. cbn [h_url]. rewrite route_head.
  destruct (route _ _ _ w). rewrite to_reply_head. by destruct (to_reply _ _ _).
Qed.

End Properties.

(** ** Witnesses *)

Lemma scan_request_reaches_handler_witness :
  match scan_request "example.com" with
  | Some req =>
      app no_ext (fun _ => None) (fun _ => false) req world0 =
      (let '(r, w') := handle_scan no_ext (JObj [("url", JStr "example.com")]) world0 in
       (mkReply (status_code r) cors_origin (PJson (resp_body r)), w'))
  | None => False
  end.
Proof.
  apply (scan_request_reaches_handler no_ext (fun _ => None) (fun _ => false) "example.com");
    [reflexivity | simpl; lia].
Defined.

(** A JSON string body: ["https://a.io"] with its quotes. *)
Lemma body_parser_errors_witness :
  app no_ext (fun _ => None) (fun _ => false)
    (mkHttp "POST" "/scan" (Some "application/json") None
       (Some (14%N, String dq (String.append "https://a.io" (String dq EmptyString)))))
    world0 = (mkReply 400 cors_origin PErrorPage, world0).
Proof.
  apply (body_parser_errors no_ext (fun _ => None) (fun _ => false) "POST" "/scan" None 14
           (String dq (String.append "https://a.io" (String dq EmptyString))) world0 eq_refl eq_refl);
    [unfold limit; lia | discriminate | left; reflexivity].
Defined.

(** An HTML form's post. *)
Lemma unparsed_body_url_required_witness :
  app no_ext (fun _ => None) (fun _ => false)
    (mkHttp "POST" "/scan" (Some "application/x-www-form-urlencoded") None (Some (16%N, "url=https://a.io")))
    world0 = (mkReply 400 cors_origin (PJson (error_body "URL is required")), world0).
Proof.
  apply (unparsed_body_url_required no_ext (fun _ => None) (fun _ => false)); [reflexivity | left; reflexivity].
Defined.

End Express.
