(* ===== verification/ScannerPage.v ===== *)
(** * ScannerPage: the scan form and results of [src/src/pages/Scanner.tsx]

    The page validates a URL with react-hook-form ([url_pattern]), then
    [onSubmit] shows the loading screen, advances a progress bar through
    seven one-second steps, POSTs [{url}] to [/scan] and shows the results
    or a failure toast.  The page and the server share one [World] (one
    clock, one timer log): the model runs [onSubmit] in [PageM], a state
    monad over the page state, the server world, the rendered snapshots,
    the toasts and the browser console, with stdpp's [MRet]/[MBind], and
    the request goes through [ScanServer.route].

    React renders the state when the running task yields, at an [await]:
    [commit] records that snapshot.  The three setters before the first
    [await] make one render, each progress step one, and the code after
    [response.json()] (the result, the toast and the [finally] block) one
    more.  The request and response bodies cross the network as text:
    [wire] is [JSON.stringify] then [JSON.parse] ([Json.v]), which gives
    back every well-formed value, and every body the handler sends is
    well formed ([handle_scan_body_wf]). *)

From S2P Require Import Prelude JsCore Regex Forms FormState JsDate Json Tailwind Url ScanServer Reports Components.

Local Open Scope string_scope.

Module ScannerPage.
Import ScanServer Json.

(** ** The URL pattern

    The pattern of line 155, written here with spaces so that it can stand
    in a comment: [/^ (https?:\/\/)? ([\da-z\.-]+) \. ([a-z\.]{2,6}) ([\/\w \.-]* ) * \/? $/]
    (no flag). *)
Definition url_host_class : regex := RClass false false [(48, 57); (97, 122); (46, 46); (45, 45)].
Definition url_tld_class : regex := RClass false false [(97, 122); (46, 46)].
Definition url_path_class : regex :=
  RClass false false [(47, 47); (65, 90); (97, 122); (48, 57); (95, 95); (32, 32); (46, 46); (45, 45)].

Definition url_pattern : regex :=
  RSeq [ROpt (RSeq [RChr 104; RChr 116; RChr 116; RChr 112; ROpt (RChr 115); RChr 58; RChr 47; RChr 47]);
        RPlus url_host_class; RChr 46; RRange 2 6 url_tld_class; RStar (RStar url_path_class);
        ROpt (RChr 47)].

Record ScanForm := mkScanForm { url : string; scanType : string }.

Definition url_rules : rules :=
  mkRules (Some "URL is required") None (Some (url_pattern, "Please enter a valid URL")) None.

Definition scan_fields (d : ScanForm) : list (string * rules * field_value) :=
  [("url", url_rules, FText (url d)); ("scanType", no_rules, FText (scanType d))].

(** The value the [onChange] of [register('url')] (an input) and of
    [register('scanType')] (a select) stores, for [FormState.form_step]. *)
Definition scan_set_field (name : string) (v : field_value) (d : ScanForm) : ScanForm :=
  match v with
  | FText s =>
      if String.eqb name "url" then mkScanForm s (scanType d)
      else if String.eqb name "scanType" then mkScanForm (url d) s
      else d
  | FCheck _ => d
  end.

(** ** Page state and the [PageM] monad *)

Record ScannerState := mkScanner {
  isScanning : bool;
  scanProgress : Z;
  scanResults : option jsval;
  activeTab : string;
  formErrors : list (string * string)
}.

Definition initial_scanner : ScannerState := mkScanner false 0%Z None "headers" [].

Record Sys := mkSys {
  page : ScannerState;
  world : World;
  renders : list ScannerState;
  toasts : list ui_effect;
  console : list string
}.

Definition PageM (A : Type) : Type := Sys -> A * Sys.

#[export] Instance page_ret : MRet PageM := fun A a s => (a, s).
#[export] Instance page_bind : MBind PageM := fun A B k m s => let '(a, s') := m s in k a s'.

Definition set_page (f : ScannerState -> ScannerState) : PageM unit :=
  fun s => (tt, mkSys (f (page s)) (world s) (renders s) (toasts s) (console s)).

Definition commit : PageM unit :=
  fun s => (tt, mkSys (page s) (world s) (renders s ++ [page s])%list (toasts s) (console s)).

Definition toast (e : ui_effect) : PageM unit :=
  fun s => (tt, mkSys (page s) (world s) (renders s) (toasts s ++ [e])%list (console s)).

Definition console_error (msg : string) : PageM unit :=
  fun s => (tt, mkSys (page s) (world s) (renders s) (toasts s) (console s ++ [msg])%list).

(** A step of the server, or a timer, on the shared world. *)
Definition lift {A} (m : ScanM A) : PageM A :=
  fun s => let '(a, w') := m (world s) in (a, mkSys (page s) w' (renders s) (toasts s) (console s)).

Definition with_scanning (b : bool) (p : ScannerState) : ScannerState :=
  mkScanner b (scanProgress p) (scanResults p) (activeTab p) (formErrors p).
Definition with_progress (z : Z) (p : ScannerState) : ScannerState :=
  mkScanner (isScanning p) z (scanResults p) (activeTab p) (formErrors p).
Definition with_results (r : option jsval) (p : ScannerState) : ScannerState :=
  mkScanner (isScanning p) (scanProgress p) r (activeTab p) (formErrors p).
Definition with_tab (t : string) (p : ScannerState) : ScannerState :=
  mkScanner (isScanning p) (scanProgress p) (scanResults p) t (formErrors p).
Definition with_errors (e : list (string * string)) (p : ScannerState) : ScannerState :=
  mkScanner (isScanning p) (scanProgress p) (scanResults p) (activeTab p) e.

(** ** [onSubmit] *)

(** The progress of the seven steps (their messages are never shown). *)
Definition steps : list Z := [10; 25; 40; 55; 70; 85; 100]%Z.

(** [for (const step of steps) { await sleep(1000); setScanProgress(step.progress) }] *)
Fixpoint run_steps (ps : list Z) : PageM unit :=
  match ps with
  | [] => mret tt
  | p :: ps' => lift (sleep 1000) ;; set_page (with_progress p) ;; commit ;; run_steps ps'
  end.

(** A body crossing the network: [JSON.stringify] on one side, [JSON.parse]
    ([express.json()] or [response.json()]) on the other.  [None] is a
    text that does not parse; [wire_wf] shows that the text of a
    well-formed value always parses back to it. *)
Definition wire (v : jsval) : option jsval :=
  match json_stringify v with
  | Some text => match json_parse text with JParsed v' => Some v' | _ => None end
  | None => None
  end.

(** [fetch('/scan', { body: JSON.stringify({ url: data.url }) })], the
    server's [express.json()] and router, then [response.json()]; [None]
    is [response.json()] throwing on a reply that is not JSON. *)
Definition fetch_scan (ext : string -> option string) (dist_has : string -> bool) (u : string)
  : PageM (option jsval) :=
  r ← lift (match wire (JObj [("url", JStr u)]) with
            | Some body => route ext dist_has (mkRequest POST "/scan" body)
            | None => ret ReplyBadRequest
            end);
  mret (match r with ReplyJson resp => wire (resp_body resp) | _ => None end).

(** [result.status === 'success'] *)
Definition status_success (body : jsval) : bool :=
  match json_get "status" body with JStr st => String.eqb st "success" | _ => false end.

(** [new Error(result.message).message] *)
Definition error_message (v : jsval) : string :=
  match v with JStr m => m | _ => "" end.

Definition scan_failed (msg : string) : PageM unit :=
  toast (ToastError "Scan failed. Please try again.") ;; console_error ("Scan error: " ++ msg).

(** [if (result.status === 'success') {...} else throw ...] with its
    [catch]; [None] is [response.json()] throwing. *)
Definition handle_result (result : option jsval) : PageM unit :=
  match result with
  | Some body =>
      if status_success body then
        set_page (with_results (Some (json_get "results" body))) ;;
        toast (ToastSuccess "Scan completed successfully!")
      else scan_failed (error_message (json_get "message" body))
  | None => scan_failed "SyntaxError"
  end.

Definition onSubmit (ext : string -> option string) (dist_has : string -> bool) (u : string) : PageM unit :=
  set_page (fun p => with_results None (with_progress 0 (with_scanning true p))) ;;
  commit ;;
  run_steps steps ;;
  result ← fetch_scan ext dist_has u;
  handle_result result ;;
  set_page (fun p => with_progress 0 (with_scanning false p)) ;;
  commit.

(** [handleSubmit(onSubmit)] behind a button that is disabled while scanning. *)
Definition submit (ext : string -> option string) (dist_has : string -> bool) (d : ScanForm) : PageM unit :=
  fun s =>
    if isScanning (page s) then (tt, s)
    else match handle_submit (scan_fields d) d with
         | Rejected errs => set_page (with_errors errs) s
         | Submitted d' => (set_page (with_errors []) ;; onSubmit ext dist_has (url d')) s
         end.

(** ** The view *)

Definition tabs : list (string * string) :=
  [("headers", "Security Headers"); ("sql_injection", "SQL Injection"); ("xss", "XSS Vulnerabilities");
   ("directories", "Directory Scan"); ("network", "Network Info")].

(** [JSON.stringify(v, null, 2)]; [None] is [undefined], which React
    renders as nothing. *)
Definition pretty (v : jsval) : option string := json_stringify_gap (space_gap 2) v.

Inductive tab_content :=
  | NetworkContent (ports subdomains geoip : option string)
  | SingleContent (label : option string) (text : option string).

Record ResultsView := mkResultsView {
  rv_target : jsval;
  rv_completed : jsval;
  rv_tab_buttons : list (string * string);
  rv_content : tab_content
}.

Record ScannerView := mkScannerView {
  v_loading : option (string * string);
  v_submit_disabled : bool;
  v_url_error : option string;
  v_results : option ResultsView
}.

(** The [className] of a tab button, by [activeTab === tab.id]. *)
Definition tab_button_class (active : bool) : string :=
  "flex items-center space-x-2 px-6 py-4 font-medium transition-all " ++
  (if active then "text-primary-400 bg-primary-500/10 border-b-2 border-primary-400"
   else "text-slate-400 hover:text-white hover:bg-white/5").

(** The results card: target and date, the tab buttons (key and class),
    the active tab's content. *)
Definition render_results (r : jsval) (tab : string) : ResultsView :=
  mkResultsView (json_get "url" r) (json_get "timestamp" r)
    (map (fun '(id, _) => (id, tab_button_class (String.eqb tab id))) tabs)
    (if String.eqb tab "network"
     then NetworkContent (pretty (json_get "ports" r)) (pretty (json_get "subdomains" r))
            (pretty (json_get "geoip" r))
     else SingleContent (option_map snd (List.find (fun '(id, _) => String.eqb id tab) tabs))
            (pretty (json_get tab r))).

Definition render (p : ScannerState) : ScannerView :=
  mkScannerView
    (if isScanning p
     then Some (LoadingScreen.render (Some "Scanning for vulnerabilities...") (Some (scanProgress p)))
     else None)
    (isScanning p)
    (error_of "url" (formErrors p))
    (match scanResults p with Some r => Some (render_results r (activeTab p)) | None => None end).

(** [getSeverityBadge] (defined, never called): [colors[severity] || colors.info];
    an [Object.prototype] method name finds a function, which is truthy. *)
Inductive badge := BadgeClass (c : string) | BadgeFunction.

Definition getSeverityBadge (severity : string) : badge :=
  if String.eqb severity "high" then BadgeClass "bg-red-500/20 text-red-400 border-red-500/30"
  else if String.eqb severity "medium" then BadgeClass "bg-yellow-500/20 text-yellow-400 border-yellow-500/30"
  else if String.eqb severity "low" then BadgeClass "bg-green-500/20 text-green-400 border-green-500/30"
  else if Reports.is_proto_key severity then BadgeFunction
  else BadgeClass "bg-blue-500/20 text-blue-400 border-blue-500/30".

(** ** Helpers of the proofs *)

(** One second of [setTimeout] on the shared world. *)
Definition sleep1000 (w : World) : World := snd (sleep 1000 w).

(** The state the three setters before the first [await] produce. *)
Definition scanning_page (p : ScannerState) : ScannerState :=
  with_results None (with_progress 0 (with_scanning true p)).


(** ** Lemmas *)

Lemma with_progress_progress z z' p : with_progress z (with_progress z' p) = with_progress z p.
Proof. by destruct p. Qed.


Lemma run_steps_eq ps s :
  run_steps ps s =
  (tt, mkSys (fold_left (fun p z => with_progress z p) ps (page s))
             (Nat.iter (List.length ps) sleep1000 (world s))
             (renders s ++ map (fun z => with_progress z (page s)) ps)%list (toasts s) (console s)).
Proof.
  revert s. induction ps as [|z ps IH]; intros [p w r t c]; cbn [run_steps].
  - cbn. by rewrite app_nil_r.
  - cbn [List.length]. rewrite Nat.iter_succ_r.
    unfold mbind, page_bind at 1. cbn [lift]. cbn. rewrite IH. cbn.
    rewrite <- app_assoc. do 3 f_equal.
Qed.

(** ** What crosses the network *)

Lemma wire_wf v : json_wf v = true -> wire v = Some v.
Proof.
  intros Hwf. unfold wire, json_stringify, json_stringify_gap.
  destruct (ser_some [] [] v Hwf) as [t Ht]. rewrite Ht. cbn [fmap option_fmap option_map].
  by rewrite (json_parse_ser v [] t).
Qed.

Lemma pretty_parse v : json_wf v = true -> (json_parse <$> pretty v) = Some (JParsed v).
Proof.
  intros Hwf. unfold pretty, json_stringify_gap.
  destruct (ser_some (space_gap 2) [] v Hwf) as [t Ht]. rewrite Ht. cbn [fmap option_fmap option_map].
  by rewrite (json_parse_ser v (space_gap 2) t).
Qed.

Lemma json_wf_obj kvs :
  bool_decide (NoDup (map fst kvs)) && keys_ordered kvs = true ->
  Forall (fun kv => json_wf kv.2 = true) kvs -> json_wf (JObj kvs) = true.
Proof.
  intros Hk Hall. cbn [json_wf]. rewrite Hk. apply List.forallb_forall. intros kv Hin.
  by eapply List.Forall_forall in Hall.
Qed.

(** A probe's result is well formed, whatever its random draws. *)
Ltac probe_wf :=
  intros; lazymatch goal with |- json_wf (fst (?f _ _)) = true => unfold f end;
  rewrite ?bind_fst;
  cbv [headers_result sqli_result xss_result directories_result ports_result subdomains_result geoip_result];
  cbn [fst snd ret random sleep]; repeat case_match; reflexivity.

Lemma scanHeaders_wf u w : json_wf (fst (scanHeaders u w)) = true.
Proof. probe_wf. Qed.
Lemma scanSQLi_wf u w : json_wf (fst (scanSQLi u w)) = true.
Proof. probe_wf. Qed.
Lemma scanXSS_wf u w : json_wf (fst (scanXSS u w)) = true.
Proof. probe_wf. Qed.
Lemma scanDirectories_wf u w : json_wf (fst (scanDirectories u w)) = true.
Proof. probe_wf. Qed.
Lemma scanPorts_wf d w : json_wf (fst (scanPorts d w)) = true.
Proof. probe_wf. Qed.
Lemma getSubdomains_wf d w : json_wf (fst (getSubdomains d w)) = true.
Proof. probe_wf. Qed.
Lemma getGeoIP_wf d w : json_wf (fst (getGeoIP d w)) = true.
Proof. probe_wf. Qed.

(** The results object: the seven probe results, all well formed, then the timestamp. *)
Lemma render_single r id :
  String.eqb id "network" = false ->
  rv_content (render_results r id) =
    SingleContent (option_map snd (List.find (fun '(id', _) => String.eqb id' id) tabs)) (pretty (json_get id r)).
Proof. intros H. unfold render_results. cbn [rv_content]. by rewrite H. Qed.

Lemma render_network r :
  rv_content (render_results r "network") =
    NetworkContent (pretty (json_get "ports" r)) (pretty (json_get "subdomains" r)) (pretty (json_get "geoip" r)).
Proof. reflexivity. Qed.

Lemma scan_results_shape u d w :
  exists hd sq xs di po su ge t,
    fst (scan_results u d w) =
      JObj [("headers", hd); ("sql_injection", sq); ("xss", xs); ("directories", di); ("ports", po);
            ("subdomains", su); ("geoip", ge); ("timestamp", JStr t)] /\
    Forall (fun v => json_wf v = true) [hd; sq; xs; di; po; su; ge].
Proof.
  unfold scan_results. rewrite !bind_fst. cbn [fst snd ret now]. do 8 eexists. split; [reflexivity|].
  repeat constructor; auto using scanHeaders_wf, scanSQLi_wf, scanXSS_wf, scanDirectories_wf,
    scanPorts_wf, getSubdomains_wf, getGeoIP_wf.
Qed.

Lemma scan_results_wf u d w : json_wf (fst (scan_results u d w)) = true.
Proof.
  destruct (scan_results_shape u d w) as (hd & sq & xs & di & po & su & ge & t & -> & Hall).
  apply json_wf_obj; [reflexivity|]. repeat (inversion_clear Hall as [|? ? ? Hall']; rename Hall' into Hall);
  repeat constructor; done.
Qed.

(** Every body the [/scan] handler answers with is well formed. *)
Lemma handle_scan_body_wf ext body w : json_wf (resp_body (fst (handle_scan ext body w))) = true.
Proof.
  unfold handle_scan. destruct (negb (truthy (json_get "url" body))); [done|].
  destruct (json_get "url" body); try done. destruct (new_URL_hostname ext (derive_url s)); [|done].
  rewrite bind_fst. cbn [fst ret resp_body]. apply json_wf_obj; [reflexivity|].
  repeat constructor. apply scan_results_wf.
Qed.

Lemma fetch_scan_eq ext dist u s :
  fetch_scan ext dist u s =
  let '(r, w') := handle_scan ext (JObj [("url", JStr u)]) (world s) in
  (Some (resp_body r), mkSys (page s) w' (renders s) (toasts s) (console s)).
Proof.
  unfold fetch_scan, mbind, page_bind, lift. rewrite (wire_wf (JObj [("url", JStr u)])) by reflexivity.
  unfold route. cbn [method path body].
  assert (Hp : path_is "/scan" "/scan" = true) by reflexivity. rewrite Hp.
  pose proof (handle_scan_body_wf ext (JObj [("url", JStr u)]) (world s)) as Hwf.
  unfold bind. destruct (handle_scan ext _ (world s)) as [r w']. cbn [fst] in Hwf.
  cbn. by rewrite (wire_wf _ Hwf).
Qed.

Lemma onSubmit_eq ext dist u s :
  onSubmit ext dist u s =
  let p0 := scanning_page (page s) in
  let '(resp, w2) := handle_scan ext (JObj [("url", JStr u)]) (Nat.iter 7 sleep1000 (world s)) in
  let s3 := snd (handle_result (Some (resp_body resp))
                   (mkSys (with_progress 100 p0) w2 (renders s ++ p0 :: map (fun z => with_progress z p0) steps)%list
                          (toasts s) (console s))) in
  let pf := with_progress 0 (with_scanning false (page s3)) in
  (tt, mkSys pf (world s3) (renders s3 ++ [pf])%list (toasts s3) (console s3)).
Proof.
  unfold onSubmit, mbind, page_bind. cbn [set_page commit page world renders toasts console].
  rewrite run_steps_eq. cbn [page world renders toasts console fold_left List.length steps].
  rewrite fetch_scan_eq. destruct (handle_scan _ _ _) as [resp w2].
  rewrite <- app_assoc. cbn [app].
  destruct (handle_result _ _) as [[] s3]. reflexivity.
Qed.

(** [handle_result] changes only the results, the toasts and the console. *)
Lemma handle_result_frame r s :
  let s' := snd (handle_result r s) in
  world s' = world s /\ renders s' = renders s /\
  isScanning (page s') = isScanning (page s) /\ scanProgress (page s') = scanProgress (page s) /\
  activeTab (page s') = activeTab (page s).
Proof. destruct r as [body|]; cbn; [destruct (status_success body)|]; cbn; repeat split. Qed.

Lemma handle_result_success body s :
  status_success body = true ->
  handle_result (Some body) s =
  (tt, mkSys (with_results (Some (json_get "results" body)) (page s)) (world s) (renders s)
             (toasts s ++ [ToastSuccess "Scan completed successfully!"])%list (console s)).
Proof. intros H. cbn. by rewrite H. Qed.

Lemma handle_result_error body s :
  status_success body = false ->
  handle_result (Some body) s =
  (tt, mkSys (page s) (world s) (renders s) (toasts s ++ [ToastError "Scan failed. Please try again."])%list
             (console s ++ [("Scan error: " ++ error_message (json_get "message" body))%string])%list).
Proof. intros H. cbn. by rewrite H. Qed.

Lemma submit_valid ext dist d s :
  isScanning (page s) = false -> form_errors (scan_fields d) = [] ->
  submit ext dist d s = onSubmit ext dist (url d) (snd (set_page (with_errors []) s)).
Proof. intros HS Hv. unfold submit. rewrite HS. unfold handle_submit. rewrite Hv. reflexivity. Qed.

(** React-hook-form on the Scanner form: from a fresh form, no error
    before the first submission; afterwards [errors.url] is the error of
    the current URL, re-validated as it is typed. *)
Lemma scanner_errors_current d st :
  FormState.form_reachable scan_fields scan_set_field (FormState.fresh d) st ->
  (FormState.fs_submitted st = false -> FormState.fs_errors st = []) /\
  (FormState.fs_submitted st = true -> forall n, In n ["url"; "scanType"] ->
     error_of n (FormState.fs_errors st) = FormState.current_error scan_fields n (FormState.fs_values st)).
Proof.
  intros Hr.
  assert (Hnd : forall d', NoDup (FormState.field_names (scan_fields d'))).
  { intros []. apply (bool_decide_eq_true_1 _). vm_compute. reflexivity. }
  destruct (FormState.errors_current_reachable _ _ Hnd _ _ (FormState.errors_current_fresh _ _ d) Hr) as [H1 H2].
  split; [done|]. intros Hs n Hn. apply H2; [done|].
  repeat destruct Hn as [<-|Hn]; [..|done]; FormState.local_field_tac scan_set_field.
Qed.

(** C7: a valid submission, whatever the server answers, renders the
    loading screen with progress 0, 10, 25, 40, 55, 70, 85, 100 (its text
    "0% Complete" to "100% Complete") and then the page with the loading
    screen gone and the progress reset to 0. *)
Theorem scanner_progress_renders ext dist d s :
  isScanning (page s) = false -> form_errors (scan_fields d) = [] ->
  let s' := snd (submit ext dist d s) in
  exists new, renders s' = (renders s ++ new)%list /\
    map scanProgress new = [0; 10; 25; 40; 55; 70; 85; 100; 0]%Z /\
    map isScanning new = [true; true; true; true; true; true; true; true; false] /\
    map (fun p => option_map snd (v_loading (render p))) new =
      [Some "0% Complete"; Some "10% Complete"; Some "25% Complete"; Some "40% Complete";
       Some "55% Complete"; Some "70% Complete"; Some "85% Complete"; Some "100% Complete"; None] /\
    isScanning (page s') = false /\ scanProgress (page s') = 0%Z.
Proof.
  intros HS Hv. rewrite submit_valid by done. rewrite onSubmit_eq. cbn zeta.
  destruct (handle_scan _ _ _) as [resp w2].
  match goal with |- context [handle_result ?r ?s2] =>
    destruct (handle_result_frame r s2) as (_ & Hr & _); destruct (handle_result r s2) as [[] s3] end.
  cbn [snd] in *. rewrite Hr. cbn. eexists. split; [rewrite <- app_assoc; reflexivity|].
  split; [reflexivity|]. split; [reflexivity|]. split; [vm_compute; reflexivity|]. split; reflexivity.
Qed.

(** [result.results] of a success body, whatever the results are. *)
Lemma success_body_results r :
  json_get "results" (JObj [("status", JStr "success"); ("results", r); ("report_url", JStr "/download_report")]) = r.
Proof. by destruct r. Qed.

Lemma iter_sleep_clock n w : clock (Nat.iter n sleep1000 w) = (clock w + 1000 * Z.of_nat n)%Z.
Proof. induction n as [|n IH]; [simpl; lia|]. rewrite Nat.iter_succ. unfold sleep1000 at 1. cbn. rewrite IH. lia. Qed.

Lemma scan_body_url u : json_get "url" (JObj [("url", JStr u)]) = JStr u.
Proof. reflexivity. Qed.

(** C6: a valid submission the server accepts ends with the results shown
    and the success toast, nothing logged; the results are the server's
    for the hostname, stamped 15.5 s after the click (7 s of progress
    steps, then 8.5 s of probes); the "Target:" line shows
    [scanResults.url], which the server never sends: it is [undefined]. *)
Theorem scanner_success ext dist d s h :
  isScanning (page s) = false -> form_errors (scan_fields d) = [] -> url d <> "" ->
  new_URL_hostname ext (derive_url (url d)) = Some h ->
  let s' := snd (submit ext dist d s) in
  scanResults (page s') = Some (fst (scan_results (url d) h (Nat.iter 7 sleep1000 (world s)))) /\
  toasts s' = (toasts s ++ [ToastSuccess "Scan completed successfully!"])%list /\ console s' = console s /\
  exists rv, v_results (render (page s')) = Some rv /\ rv_target rv = JUndefined /\
    rv_completed rv = JStr (to_iso_string (clock (world s) + 15500)).
Proof.
  intros HS Hv Hu Hh. rewrite submit_valid by done. rewrite onSubmit_eq. cbn zeta.
  pose proof (iter_sleep_clock 7 (world s)) as Hc.
  set (w7 := Nat.iter 7 sleep1000 _) in *. clearbody w7. cbn [world snd set_page] in Hc.
  rewrite (handle_scan_ok ext _ (url d) h) by (done || apply scan_body_url).
  rewrite handle_result_success by reflexivity. cbn [snd page toasts console resp_body].
  rewrite success_body_results.
  split; [reflexivity|]. split; [reflexivity|]. split; [reflexivity|].
  eexists. split; [reflexivity|]. split; [reflexivity|].
  cbn. f_equal. f_equal. lia.
Qed.

(** C8: a valid submission whose URL the server cannot parse ends with no
    results, the failure toast and the server's message in the console. *)
Theorem scanner_invalid_url ext dist d s :
  isScanning (page s) = false -> form_errors (scan_fields d) = [] -> url d <> "" ->
  new_URL_hostname ext (derive_url (url d)) = None ->
  let s' := snd (submit ext dist d s) in
  scanResults (page s') = None /\
  toasts s' = (toasts s ++ [ToastError "Scan failed. Please try again."])%list /\
  console s' = (console s ++ ["Scan error: Invalid URL"])%list.
Proof.
  intros HS Hv Hu Hh. rewrite submit_valid by done. rewrite onSubmit_eq. cbn zeta.
  rewrite (handle_scan_invalid_url ext _ (url d)) by (done || apply scan_body_url).
  rewrite handle_result_error by reflexivity. repeat split.
Qed.

(** The pattern accepts a host of its host class, a dot and two to six
    characters of its TLD class. *)
Lemma url_pattern_host_tld hs lt :
  hs <> [] -> Forall (fun c => accepts url_host_class [c]) hs ->
  Forall (fun c => accepts url_tld_class [c]) lt -> (2 <= List.length lt <= 6)%nat ->
  accepts url_pattern (hs ++ "."%char :: lt)%list.
Proof.
  intros Hne Hh Ht Hn. destruct hs as [|c hs]; [done|]. apply Forall_cons in Hh as [Hc Hh].
  unfold url_pattern. cbn [RSeq].
  replace (((c :: hs) ++ "."%char :: lt))%list with ([] ++ (([c] ++ hs) ++ (["."%char] ++ (lt ++ ([] ++ [])))))%list
    by (cbn; by rewrite !app_nil_r).
  constructor; [by do 2 constructor|]. constructor; [constructor; [done|by apply accepts_star_all]|].
  constructor; [by constructor|]. constructor; [by apply accepts_range|].
  constructor; [constructor|by do 2 constructor].
Qed.

(** Inputs of the form [http<h>.<t>]: the pattern lets them through, and
    the server, which sends them to [new URL] unchanged, finds no scheme. *)
Lemma http_prefix_pattern h t :
  Forall (fun c => accepts url_host_class [c]) (list_ascii_of_string h) ->
  Forall (fun c => accepts url_tld_class [c]) (list_ascii_of_string t) ->
  (2 <= String.length t <= 6)%nat ->
  regex_test url_pattern ("http" ++ h ++ "." ++ t) = true.
Proof.
  intros Hh Ht Hn. unfold regex_test. apply matchb_correct.
  rewrite !list_ascii_of_string_app. cbn [list_ascii_of_string app].
  change ("h"%char :: "t"%char :: "t"%char :: "p"%char :: list_ascii_of_string h ++ "."%char :: list_ascii_of_string t)%list
    with ((["h"; "t"; "t"; "p"]%char ++ list_ascii_of_string h) ++ "."%char :: list_ascii_of_string t)%list.
  apply url_pattern_host_tld; [done| |done|by rewrite length_list_ascii_of_string].
  apply Forall_app. split; [by repeat constructor|done].
Qed.

Lemma derive_url_http x : derive_url ("http" ++ x) = ("http" ++ x)%string.
Proof. unfold derive_url, startsWith. rewrite (proj2 (prefix_iff _ _)); [done|by eexists]. Qed.

Lemma http_prefix_no_host ext h t :
  Forall (fun c => accepts url_host_class [c]) (list_ascii_of_string h) ->
  Forall (fun c => accepts url_tld_class [c]) (list_ascii_of_string t) ->
  new_URL_hostname ext (derive_url ("http" ++ h ++ "." ++ t)) = None.
Proof.
  intros Hh Ht. rewrite (derive_url_http (h ++ "." ++ t)). unfold new_URL_hostname. rewrite url_hostname_no_colon; [done|].
  rewrite !list_ascii_of_string_app, !forallb_app. cbn [list_ascii_of_string forallb].
  rewrite !andb_true_iff, !forallb_forall, !List.Forall_forall in *. split_and!; try done;
    intros c Hc; apply negb_true_iff; unfold code; [apply (class_char_not _ _ _ (Hh c Hc))|
                                                     apply (class_char_not _ _ _ (Ht c Hc))]; done.
Qed.

(** C29: the page's URL pattern lets through inputs the server rejects.
    An input [http<h>.<t>], where [h] has characters of the pattern's
    host class and [t] two to six of its TLD class ([httpbin.org],
    [http.com], [httpx.example.org]), passes the form's validation; the
    server, seeing it start with [http], hands it to [new URL] without
    [https://], finds no scheme and answers 500 "Invalid URL", so the
    page ends with no results, the failure toast and the server's
    message in the console. *)
Theorem scanner_http_prefix_rejected ext dist d s h t :
  isScanning (page s) = false -> url d = ("http" ++ h ++ "." ++ t)%string ->
  Forall (fun c => accepts url_host_class [c]) (list_ascii_of_string h) ->
  Forall (fun c => accepts url_tld_class [c]) (list_ascii_of_string t) ->
  (2 <= String.length t <= 6)%nat ->
  form_errors (scan_fields d) = [] /\
  let s' := snd (submit ext dist d s) in
  scanResults (page s') = None /\
  toasts s' = (toasts s ++ [ToastError "Scan failed. Please try again."])%list /\
  console s' = (console s ++ ["Scan error: Invalid URL"])%list.
Proof.
  intros HS Hu Hh Ht Hn.
  assert (Hv : form_errors (scan_fields d) = []).
  { unfold scan_fields, form_errors, validate_field, check_required, check_minLength, check_pattern,
      check_validate, url_rules, no_rules. cbn [r_required r_minLength r_pattern r_validate].
    rewrite Hu, http_prefix_pattern by done. by rewrite string_app_cons. }
  split; [done|]. rewrite submit_valid by done. rewrite onSubmit_eq. cbn zeta.
  rewrite (handle_scan_invalid_url ext _ (url d)) by
    (apply scan_body_url || (rewrite Hu, string_app_cons; discriminate) || (rewrite Hu; by apply http_prefix_no_host)).
  rewrite handle_result_error by reflexivity. repeat split.
Qed.

(** The page's URL pattern and the server's URL parser on three inputs:
    "httpbin.org" and "example.com x" pass the pattern but the server
    rejects them (no scheme after the [http] prefix test; a space in the
    host), while "Example.com", which the server accepts as
    "example.com", fails the pattern (it has no [i] flag). *)
Example scanner_client_server_disagree :
  regex_test url_pattern "httpbin.org" = true /\ url_hostname (derive_url "httpbin.org") = HostFail /\
  regex_test url_pattern "example.com x" = true /\ url_hostname (derive_url "example.com x") = HostFail /\
  regex_test url_pattern "Example.com" = false /\ url_hostname (derive_url "Example.com") = HostOk "example.com".
Proof. vm_compute. repeat split. Qed.

(** After a successful scan every tab shows text: a probe tab its label
    and [JSON.stringify(result, null, 2)] of its probe's result, the
    network tab that of the port, subdomain and GeoIP results.  Each text
    is defined (none is [undefined]) and parses back to the value the
    server sent. *)
Theorem scanner_tabs_text u h w :
  let r := fst (scan_results u h w) in
  Forall (fun '(id, label) =>
    match rv_content (render_results r id) with
    | NetworkContent ports subs geo =>
        (json_parse <$> ports) = Some (JParsed (json_get "ports" r)) /\
        (json_parse <$> subs) = Some (JParsed (json_get "subdomains" r)) /\
        (json_parse <$> geo) = Some (JParsed (json_get "geoip" r))
    | SingleContent l t => l = Some label /\ (json_parse <$> t) = Some (JParsed (json_get id r))
    end) tabs.
Proof.
  cbn zeta. destruct (scan_results_shape u h w) as (hd & sq & xs & di & po & su & ge & t & -> & Hall).
  assert (Hget : forall k v, (k, v) ∈ [("headers", hd); ("sql_injection", sq); ("xss", xs);
                    ("directories", di); ("ports", po); ("subdomains", su); ("geoip", ge); ("timestamp", JStr t)] ->
                  json_wf v = true ->
                  (json_parse <$> pretty (json_get k (JObj [("headers", hd); ("sql_injection", sq); ("xss", xs);
                    ("directories", di); ("ports", po); ("subdomains", su); ("geoip", ge); ("timestamp", JStr t)])))
                  = Some (JParsed (json_get k (JObj [("headers", hd); ("sql_injection", sq); ("xss", xs);
                    ("directories", di); ("ports", po); ("subdomains", su); ("geoip", ge); ("timestamp", JStr t)])))).
  { intros k v Hin Hwf. cbn [json_get]. rewrite (json_lookup_nodup k v); [by apply pretty_parse|..|done|].
    - by apply (bool_decide_eq_true_1 _).
    - by destruct v. }
  rewrite List.Forall_forall in Hall.
  unfold tabs. repeat apply List.Forall_cons; [..|apply List.Forall_nil]; cbv beta iota;
    [rewrite render_single by reflexivity.. | rewrite render_network by reflexivity]; cbv iota;
    repeat split; try reflexivity;
    (eapply Hget; [by repeat first [apply list_elem_of_here | apply list_elem_of_further]
                 |apply Hall; cbn; tauto]).
Qed.

(** The colour classes of the results tabs and of the progress
    indicators that [tailwind.config.js] does not define, for every
    active tab and every step: an active tab button names
    [text-primary-400] and [border-primary-400], neither in the palette
    (only its [bg-primary-500/10] background is generated), an inactive
    one none; the label of the active step names [text-primary-300] and
    the circle of a pending step [bg-dark-700], both missing, so these
    keep the inherited colour. *)
Theorem tab_progress_undefined_colors r tab c i label :
  map (fun '(id, cls) => (id, Tailwind.undefined_colors cls)) (rv_tab_buttons (render_results r tab)) =
    map (fun '(id, _) => (id, if String.eqb tab id then ["text-primary-400"; "border-primary-400"] else []))
        tabs /\
  flat_map Tailwind.undefined_colors
    (let v := ScanProgress.render_step c i label in
     [ScanProgress.sv_box v; ScanProgress.sv_circle v; ScanProgress.sv_icon v; ScanProgress.sv_text v]) =
    match ScanProgress.step_status_of c i with
    | ScanProgress.Active => ["text-primary-300"]
    | ScanProgress.Completed => []
    | ScanProgress.Pending => ["bg-dark-700"]
    end.
Proof.
  split.
  - cbn [render_results rv_tab_buttons tabs map].
    repeat match goal with |- context [String.eqb tab ?x] => destruct (String.eqb tab x) end;
      vm_compute; reflexivity.
  - unfold ScanProgress.render_step. destruct (ScanProgress.step_status_of c i); vm_compute; reflexivity.
Qed.

(** ** Witnesses *)

Definition sys0 : Sys := mkSys initial_scanner world0 [] [] [].
Definition no_dist : string -> bool := fun _ => false.

Lemma scanner_progress_renders_witness :
  let s' := snd (submit no_ext no_dist (mkScanForm "example.com" "basic") sys0) in
  exists new, renders s' = (renders sys0 ++ new)%list /\
    map scanProgress new = [0; 10; 25; 40; 55; 70; 85; 100; 0]%Z /\
    map isScanning new = [true; true; true; true; true; true; true; true; false] /\
    map (fun p => option_map snd (v_loading (render p))) new =
      [Some "0% Complete"; Some "10% Complete"; Some "25% Complete"; Some "40% Complete";
       Some "55% Complete"; Some "70% Complete"; Some "85% Complete"; Some "100% Complete"; None] /\
    isScanning (page s') = false /\ scanProgress (page s') = 0%Z.
Proof. apply scanner_progress_renders; vm_compute; reflexivity. Defined.

Lemma scanner_success_witness :
  let s' := snd (submit no_ext no_dist (mkScanForm "example.com" "basic") sys0) in
  scanResults (page s') = Some (fst (scan_results "example.com" "example.com" (Nat.iter 7 sleep1000 (world sys0)))) /\
  toasts s' = (toasts sys0 ++ [ToastSuccess "Scan completed successfully!"])%list /\ console s' = console sys0 /\
  exists rv, v_results (render (page s')) = Some rv /\ rv_target rv = JUndefined /\
    rv_completed rv = JStr (to_iso_string (clock (world sys0) + 15500)).
Proof. apply scanner_success; [reflexivity|vm_compute; reflexivity|discriminate|vm_compute; reflexivity]. Defined.

Lemma scanner_invalid_url_witness :
  let s' := snd (submit no_ext no_dist (mkScanForm "example.com x" "basic") sys0) in
  scanResults (page s') = None /\
  toasts s' = (toasts sys0 ++ [ToastError "Scan failed. Please try again."])%list /\
  console s' = (console sys0 ++ ["Scan error: Invalid URL"])%list.
Proof. apply scanner_invalid_url; [reflexivity|vm_compute; reflexivity|discriminate|vm_compute; reflexivity]. Defined.

Lemma scanner_http_prefix_rejected_witness :
  let s := snd (submit no_ext no_dist (mkScanForm "httpbin.org" "basic") sys0) in
  form_errors (scan_fields (mkScanForm "httpbin.org" "basic")) = [] /\
  scanResults (page s) = None /\
  toasts s = (toasts sys0 ++ [ToastError "Scan failed. Please try again."])%list /\
  console s = (console sys0 ++ ["Scan error: Invalid URL"])%list.
Proof.
  apply (scanner_http_prefix_rejected no_ext no_dist (mkScanForm "httpbin.org" "basic") sys0 "bin" "org");
    [reflexivity|reflexivity|repeat constructor|repeat constructor|cbn; lia].
Defined.

End ScannerPage.
