(* ===== verification/Dashboard.v ===== *)
(** * Dashboard: the animated counters of [src/src/pages/Dashboard.tsx]

    Half a second after mount, [useEffect] starts four [animateCounter]s
    (targets 247, 89, 158, 12), each a [setInterval] of 30 ms that adds
    [target / 50] to a JS number and sets [Math.floor(current)], or the
    target and clears itself once [current >= target].  The arithmetic is
    binary64: [dbl] is a non-negative double [m * 2^e] with a 53-bit
    significand, [round_div] rounds a non-negative rational to the nearest
    double (ties to even), and [dbl_add], [dbl_ge] and [dbl_floor] are
    [+], [>=] and [Math.floor] on such numbers (the counters never leave
    the normal range).  [counter_trace] is the sequence of values an
    interval sets, computed with fuel; [stats_at k] is the [stats] state
    after [k] ticks of the four intervals, which fire in creation order
    each tick and update [stats] through functional [setStats(prev => ...)]
    calls. *)

From S2P Require Import Prelude JsCore Json Tailwind.

Local Open Scope Z_scope.

Module Dashboard.

(** ** Binary64 on non-negative numbers *)

Record dbl := mkDbl { dm : Z; de : Z }.

Definition dbl_zero : dbl := mkDbl 0 0.

(** [n * 2^s], for a shift of either sign. *)
Definition shift (n s : Z) : Z * Z := if 0 <=? s then (n * 2 ^ s, 1) else (n, 2 ^ (- s)).

(** Round half to even of [num / den]. *)
Definition round_half_even (num den : Z) : Z :=
  let q := num / den in
  let r := num mod den in
  if den <? 2 * r then q + 1 else if 2 * r =? den then q + q mod 2 else q.

(** The double nearest to [n / d] for [n >= 0], [d > 0]. *)
Definition round_div (n d : Z) : dbl :=
  if n =? 0 then dbl_zero
  else
    let e0 := Z.log2 n - Z.log2 d - 52 in
    let e := if (let '(a, b) := shift n (- e0) in a / (b * d)) <? 2 ^ 52 then e0 - 1 else e0 in
    let '(a, b) := shift n (- e) in
    let m := round_half_even a (b * d) in
    if m =? 2 ^ 53 then mkDbl (2 ^ 52) (e + 1) else mkDbl m e.

(** [x + y], exact then rounded. *)
Definition dbl_add (x y : dbl) : dbl :=
  let e := Z.min (de x) (de y) in
  let n := dm x * 2 ^ (de x - e) + dm y * 2 ^ (de y - e) in
  let '(a, b) := shift n e in round_div a b.

(** [x >= t] for an integer [t]. *)
Definition dbl_ge (x : dbl) (t : Z) : bool :=
  let '(a, b) := shift (dm x) (de x) in t * b <=? a.

(** [Math.floor(x)] *)
Definition dbl_floor (x : dbl) : Z := let '(a, b) := shift (dm x) (de x) in a / b.

(** ** [animateCounter] *)

(** The values the interval sets, one per tick: [Math.floor(current)]
    until [current >= target], then [target] (and the interval is cleared). *)
Fixpoint counter_loop (fuel : nat) (target : Z) (inc cur : dbl) : list Z :=
  match fuel with
  | O => []
  | S fuel' =>
      let cur' := dbl_add cur inc in
      if dbl_ge cur' target then [target]
      else dbl_floor cur' :: counter_loop fuel' target inc cur'
  end.

Definition counter_trace (fuel : nat) (target : Z) : list Z :=
  counter_loop fuel target (round_div target 50) dbl_zero.

(** The value a counter shows after [k] ticks: 0 before the first, the
    last value set, and the target once the interval is cleared. *)
Definition shown (trace : list Z) (k : nat) : Z :=
  match k with O => 0 | S k' => nth (Nat.min k' (pred (List.length trace))) trace 0 end.

Record Stats := mkStats {
  totalScans : Z; vulnerabilitiesFound : Z; secureWebsites : Z; criticalIssues : Z
}.

Definition initial_stats : Stats := mkStats 0 0 0 0.

Definition set_totalScans (v : Z) (s : Stats) : Stats :=
  mkStats v (vulnerabilitiesFound s) (secureWebsites s) (criticalIssues s).
Definition set_vulnerabilitiesFound (v : Z) (s : Stats) : Stats :=
  mkStats (totalScans s) v (secureWebsites s) (criticalIssues s).
Definition set_secureWebsites (v : Z) (s : Stats) : Stats :=
  mkStats (totalScans s) (vulnerabilitiesFound s) v (criticalIssues s).
Definition set_criticalIssues (v : Z) (s : Stats) : Stats :=
  mkStats (totalScans s) (vulnerabilitiesFound s) (secureWebsites s) v.

(** The four counters, in the order [useEffect] starts them. *)
Definition counters : list (Z * (Z -> Stats -> Stats)) :=
  [(247, set_totalScans); (89, set_vulnerabilitiesFound); (158, set_secureWebsites);
   (12, set_criticalIssues)].

(** Enough ticks for every counter: [target / 50] rounds to within one
    part in 2^53, so fifty-one additions pass the target. *)
Definition fuel : nat := 100.

(** Tick [k] (1-based): every interval still running sets its value,
    through [setStats(prev => ({ ...prev, field: value }))]. *)
Definition tick (k : nat) (s : Stats) : Stats :=
  fold_left (fun s '(target, set) =>
               match nth_error (counter_trace fuel target) (pred k) with
               | Some v => set v s
               | None => s
               end) counters s.

Fixpoint stats_at (k : nat) : Stats :=
  match k with O => initial_stats | S k' => tick k (stats_at k') end.

(** The time of tick [k]: the 500 ms [setTimeout], then [k] periods of 30 ms. *)
Definition tick_time (k : nat) : Z := 500 + 30 * Z.of_nat k.

(** The stat cards: label and value. *)
Definition stat_cards (s : Stats) : list (string * Z) :=
  [("Total Scans", totalScans s); ("Vulnerabilities Found", vulnerabilitiesFound s);
   ("Secure Websites", secureWebsites s); ("Critical Issues", criticalIssues s)].

(** [getSeverityColor] of the recent-scans list. *)
Definition getSeverityColor (severity : string) : string :=
  if String.eqb severity "high" then "text-red-400 bg-red-500/20 border-red-500/30"
  else if String.eqb severity "medium" then "text-yellow-400 bg-yellow-500/20 border-yellow-500/30"
  else if String.eqb severity "low" then "text-green-400 bg-green-500/20 border-green-500/30"
  else "text-slate-400 bg-slate-500/20 border-slate-500/30".

(** ** The static data and the rendered page *)

Record RecentScan := mkScan {
  scan_id : Z; scan_url : string; scan_status : string; scan_vulnerabilities : Z;
  scan_severity : string; scan_time : string
}.

Definition recentScans : list RecentScan :=
  [mkScan 1 "example.com" "completed" 3 "medium" "2 hours ago";
   mkScan 2 "testsite.org" "completed" 0 "low" "4 hours ago";
   mkScan 3 "webapp.net" "completed" 7 "high" "6 hours ago";
   mkScan 4 "secure.io" "completed" 1 "low" "1 day ago"].

Record ChartPoint := mkPoint { pt_name : string; pt_scans : Z; pt_vulnerabilities : Z }.

Definition chartData : list ChartPoint :=
  [mkPoint "Mon" 12 4; mkPoint "Tue" 19 7; mkPoint "Wed" 15 3; mkPoint "Thu" 22 8;
   mkPoint "Fri" 18 5; mkPoint "Sat" 25 9; mkPoint "Sun" 20 6].

Record PieEntry := mkPie { pie_name : string; pie_value : Z; pie_color : string }.

Definition pieData : list PieEntry :=
  [mkPie "Secure" 65 "#10b981"; mkPie "Low Risk" 20 "#f59e0b"; mkPie "Medium Risk" 10 "#f97316";
   mkPie "High Risk" 5 "#ef4444"].

(** The [label] of the [Pie]: [`${name}: ${value}%`]. *)
Definition pie_label (e : PieEntry) : string :=
  (pie_name e ++ ": " ++ number_to_string (pie_value e) ++ "%")%string.

(** Recharts draws each sector with the angle [360 * value / sum]; its
    share of the whole, in percent, as a fraction [(num, den)]. *)
Definition pie_share (data : list PieEntry) (e : PieEntry) : Z * Z :=
  (100 * pie_value e, fold_right (fun e' acc => pie_value e' + acc) 0 data).

(** The [Cell]s: key [`cell-${index}`] and fill. *)
Definition pie_cells (data : list PieEntry) : list (string * string) :=
  imap (fun i e => ("cell-" ++ number_to_string (Z.of_nat i), pie_color e)%string) data.

(** A stat card: key (label), value, icon and value classes
    ([`w-8 h-8 ${stat.color}`], [`text-3xl font-bold ${stat.color}`]). *)
Record StatCard := mkStatCard { sc_label : string; sc_value : Z; sc_icon_class : string; sc_value_class : string }.

Definition stat_card_views (s : Stats) : list StatCard :=
  map (fun '(label, value, color) =>
         mkStatCard label value ("w-8 h-8 " ++ color) ("text-3xl font-bold " ++ color)%string)
    [("Total Scans", totalScans s, "text-blue-400"); ("Vulnerabilities Found", vulnerabilitiesFound s, "text-yellow-400");
     ("Secure Websites", secureWebsites s, "text-green-400"); ("Critical Issues", criticalIssues s, "text-red-400")].

(** A row of the recent scans: key, [transition.delay] (ms), texts, and the
    severity badge's class. *)
Record ScanRow := mkRow { row_key : Z; row_delay_ms : Z; row_url : string; row_time : string;
                          row_count : string; row_badge_class : string; row_badge : string }.

Definition scan_row (index : nat) (scan : RecentScan) : ScanRow :=
  mkRow (scan_id scan) (900 + Z.of_nat index * 100) (scan_url scan) (scan_time scan)
    (number_to_string (scan_vulnerabilities scan) ++ " vulnerabilities")
    ("text-xs px-2 py-1 rounded-full border " ++ getSeverityColor (scan_severity scan))
    (scan_severity scan).

(** The classes of a row besides its badge. *)
Definition row_classes : list string :=
  ["flex items-center justify-between p-4 bg-dark-800/30 rounded-lg hover:bg-dark-800/50 transition-all duration-300 cursor-pointer";
   "flex items-center space-x-4"; "w-10 h-10 bg-primary-500/20 rounded-full flex items-center justify-center";
   "w-5 h-5 text-primary-400"; "font-medium text-white"; "text-sm text-slate-400"; "flex items-center space-x-4";
   "text-right"; "text-sm font-medium text-white"; "w-3 h-3 bg-green-500 rounded-full animate-pulse"].

Record DashboardView := mkDashboardView {
  dv_stats : list StatCard;
  dv_section_classes : list string;   (* page, header, grids, cards and headings with their icons *)
  dv_pie_labels : list string;
  dv_pie_cells : list (string * string);
  dv_rows : list ScanRow
}.

Definition render (s : Stats) : DashboardView :=
  mkDashboardView (stat_card_views s)
    ["pt-20 pb-12 px-4 sm:px-6 lg:px-8 max-w-7xl mx-auto"; "mb-8"; "text-4xl font-bold gradient-text mb-2";
     "text-slate-400"; "grid grid-cols-1 sm:grid-cols-2 lg:grid-cols-4 gap-6 mb-8";
     "grid grid-cols-1 lg:grid-cols-2 gap-8 mb-8"; "glass-effect rounded-xl p-6";
     "text-xl font-semibold text-white mb-6 flex items-center"; "w-5 h-5 mr-2 text-primary-400";
     "glass-effect rounded-xl p-6"; "text-xl font-semibold text-white mb-6 flex items-center";
     "w-5 h-5 mr-2 text-secondary-400"; "glass-effect rounded-xl p-6";
     "text-xl font-semibold text-white mb-6 flex items-center"; "w-5 h-5 mr-2 text-accent-400"; "space-y-4"]
    (map pie_label pieData) (pie_cells pieData) (imap scan_row recentScans).

(** Every [className] of the page. *)
Definition class_strings (v : DashboardView) : list string :=
  dv_section_classes v ++
  List.concat (map (fun c => ["glass-effect rounded-xl p-6 hover:bg-white/10 transition-all duration-300";
                               "flex items-center justify-between mb-4"; sc_icon_class c; sc_value_class c;
                               "text-slate-300 font-medium"]) (dv_stats v)) ++
  List.concat (map (fun r => row_classes ++ [row_badge_class r]) (dv_rows v)).

(** ** Lemmas *)

Lemma shown_step tr k :
  shown tr (S k) = match nth_error tr k with Some v => v | None => shown tr k end.
Proof.
  destruct (nth_error tr k) as [v|] eqn:E.
  - assert (Hk : (k < List.length tr)%nat) by (apply nth_error_Some; congruence). cbn [shown].
    rewrite Nat.min_l by lia. by apply nth_error_nth.
  - apply nth_error_None in E. destruct k as [|k]; cbn [shown].
    + destruct tr; [done|simpl in E; lia].
    + f_equal. lia.
Qed.

(** The four intervals interleave without losing updates: after every
    tick [k], each card shows the last value its own interval set (0
    before the first tick, the target after its interval is cleared).
    This holds because each update is [setStats(prev => ...)] on one field. *)
Theorem stats_at_shown k :
  stats_at k = mkStats (shown (counter_trace fuel 247) k) (shown (counter_trace fuel 89) k)
                       (shown (counter_trace fuel 158) k) (shown (counter_trace fuel 12) k).
Proof.
  induction k as [|k IH]; [reflexivity|].
  cbn [stats_at]. rewrite IH, !shown_step. unfold tick. cbn [counters fold_left pred].
  set (t1 := counter_trace fuel 247). set (t2 := counter_trace fuel 89).
  set (t3 := counter_trace fuel 158). set (t4 := counter_trace fuel 12).
  clearbody t1 t2 t3 t4.
  destruct (nth_error t1 k), (nth_error t2 k), (nth_error t3 k), (nth_error t4 k); reflexivity.
Qed.

Lemma dbl_floor_lt x t : dbl_ge x t = false -> dbl_floor x < t.
Proof.
  unfold dbl_ge, dbl_floor, shift. destruct (0 <=? de x) eqn:E; intros H; apply Z.leb_gt in H.
  - rewrite Z.div_1_r. lia.
  - apply Z.leb_gt in E. apply Z.div_lt_upper_bound; [apply Z.pow_pos_nonneg; lia|nia].
Qed.

(** A loop that stopped on its target is unchanged by more fuel. *)
Lemma counter_loop_fuel f n t inc cur :
  last (counter_loop f t inc cur) = Some t -> counter_loop (f + n) t inc cur = counter_loop f t inc cur.
Proof.
  revert cur. induction f as [|f IH]; intros cur H; [done|].
  cbn [counter_loop Nat.add] in *. destruct (dbl_ge (dbl_add cur inc) t) eqn:G; [done|].
  f_equal. destruct (counter_loop f t inc (dbl_add cur inc)) as [|x l] eqn:E.
  - simpl in H. injection H as H. apply dbl_floor_lt in G. lia.
  - rewrite <- E. apply IH. rewrite E. exact H.
Qed.

Definition nondecreasing (l : list Z) : bool :=
  forallb (fun '(a, b) => a <=? b) (combine l (tl l)).

(** C33: every counter stops on its target: its interval sets non-decreasing
    values below the target and then the target, after 51 ticks for 247
    and 158 and 50 ticks for 89 and 12 (the sums of [target / 50] in
    binary64 fall just short of 247 and 158 after fifty ticks); the fuel
    does not cut any loop short. *)
Theorem counters_stop_on_target n :
  Forall (fun '(t, _) =>
    let tr := counter_trace fuel t in
    counter_trace (fuel + n) t = tr /\ last tr = Some t /\ nondecreasing tr = true /\
    Forall (fun v : Z => (v < t)%Z) (removelast tr) /\
    List.length tr = (if Z.eqb t 247 || Z.eqb t 158 then 51 else 50)%nat) counters.
Proof.
  unfold counters.
  repeat apply List.Forall_cons; [..|apply List.Forall_nil]; cbv beta iota zeta;
    (split; [apply counter_loop_fuel; vm_compute; reflexivity|]);
    (split; [vm_compute; reflexivity|]); (split; [vm_compute; reflexivity|]);
    (split; [|vm_compute; reflexivity]);
    apply List.Forall_forall; intros v Hv; vm_compute in Hv;
    repeat (destruct Hv as [<-|Hv]; [reflexivity|]); destruct Hv.
Qed.

Lemma shown_after tr k :
  (List.length tr <= k)%nat -> shown tr k = nth (pred (List.length tr)) tr 0.
Proof.
  destruct k as [|k]; intros Hk; [destruct tr; [done|simpl in Hk; lia]|].
  cbn [shown]. f_equal. lia.
Qed.

(** The stat cards read 246, 89, 157, 12 at tick 50 (2 s after mount)
    and 247, 89, 158, 12 at every tick from 51 on. *)
Theorem stat_cards_final :
  stat_cards (stats_at 50) = [("Total Scans", 246); ("Vulnerabilities Found", 89);
                               ("Secure Websites", 157); ("Critical Issues", 12)] /\
  forall k, (51 <= k)%nat ->
  stat_cards (stats_at k) = [("Total Scans", 247); ("Vulnerabilities Found", 89);
                             ("Secure Websites", 158); ("Critical Issues", 12)].
Proof.
  split; [rewrite stats_at_shown; vm_compute; reflexivity|]. intros k Hk.
  rewrite stats_at_shown, !shown_after by (vm_compute; lia). vm_compute. reflexivity.
Qed.

(** The pie chart's labels state each sector's share: the values of
    [pieData] sum to 100, so the [`${name}: ${value}%`] label of every
    entry is its share [100 * value / sum] of the chart, exactly; the
    [Cell] keys are distinct and each cell takes its entry's colour. *)
Theorem pie_labels_are_shares :
  Forall (fun e => let '(num, den) := pie_share pieData e in
                   num mod den = 0 /\
                   pie_label e = (pie_name e ++ ": " ++ number_to_string (num / den) ++ "%")%string) pieData /\
  NoDup (map fst (pie_cells pieData)) /\ map snd (pie_cells pieData) = map pie_color pieData.
Proof.
  split; [|split; [apply (bool_decide_eq_true_1 _); vm_compute|]; reflexivity].
  repeat constructor.
Qed.

(** The dashboard's list and badges, for every state of the counters:
    the stat cards and the recent-scan rows have distinct keys, each row
    reads ["{n} vulnerabilities"] (also ["1 vulnerabilities"] for
    [secure.io]), each severity badge's colours are in the palette, and
    the classes naming a missing shade are the [text-primary-400],
    [text-secondary-400] and [text-accent-400] of the three chart and list
    headings and the [text-primary-400] of each row's globe icon. *)
Theorem dashboard_view_rows s :
  let v := render s in
  NoDup (map sc_label (dv_stats v)) /\ NoDup (map row_key (dv_rows v)) /\
  map row_count (dv_rows v) =
    ["3 vulnerabilities"; "0 vulnerabilities"; "7 vulnerabilities"; "1 vulnerabilities"] /\
  Forall (fun r => Tailwind.undefined_colors (row_badge_class r) = []) (dv_rows v) /\
  flat_map Tailwind.undefined_colors (class_strings v) =
    (["text-primary-400"; "text-secondary-400"; "text-accent-400"] ++ repeat "text-primary-400" 4)%list.
Proof.
  cbn zeta. split; [apply (bool_decide_eq_true_1 _); vm_compute; reflexivity|].
  split; [apply (bool_decide_eq_true_1 _); vm_compute; reflexivity|].
  split; [reflexivity|]. split; [repeat constructor|]. vm_compute. reflexivity.
Qed.

End Dashboard.
