(* ===== verification/Styles.v ===== *)
(** * Styles: the [className]s of every page against the Tailwind palette

    The pages and components style their elements with Tailwind
    classes.  This file collects, page by page, every [className] the
    code renders: the static ones as written, and those built by the
    code from the modelled functions ([getSeverityColor] of the reports,
    the strength colour of the sign-up meter, the Scanner tab buttons,
    the step indicators of [ScanProgress], the views of [Home] and
    [Dashboard]).  [site] is the list of pages with their classes, and
    [site_undefined_colors] lists for each page the distinct colour
    classes whose shade [tailwind.config.js] does not define. *)

From S2P Require Import Prelude JsCore Tailwind Auth Reports Components Home ScannerPage Dashboard.

Local Open Scope string_scope.

Module Styles.

(** The [className] of [App.tsx]. *)
Definition app_classes : list string :=
  ["min-h-screen bg-dark-950 relative overflow-hidden"].

(** The static [className]s of [Login.tsx], in document order. *)
Definition login_classes : list string :=
  ["min-h-screen pt-16 flex items-center justify-center px-4";
   "w-full max-w-md";
   "text-center mb-8";
   "flex justify-center mb-6";
   "w-20 h-20";
   "text-3xl font-bold gradient-text mb-2";
   "text-slate-400";
   "glass-effect rounded-2xl p-8 space-y-6";
   "space-y-6";
   "space-y-2";
   "text-sm font-medium text-slate-300";
   "relative";
   "absolute left-3 top-1/2 transform -translate-y-1/2 w-5 h-5 text-slate-400";
   "w-full pl-12 pr-4 py-3 bg-dark-800/50 border border-slate-600 rounded-lg focus:border-primary-500 focus:ring-2 focus:ring-primary-500/20 outline-none transition-all text-white placeholder-slate-400";
   "text-red-400 text-sm";
   "space-y-2";
   "text-sm font-medium text-slate-300";
   "relative";
   "absolute left-3 top-1/2 transform -translate-y-1/2 w-5 h-5 text-slate-400";
   "w-full pl-12 pr-12 py-3 bg-dark-800/50 border border-slate-600 rounded-lg focus:border-primary-500 focus:ring-2 focus:ring-primary-500/20 outline-none transition-all text-white placeholder-slate-400";
   "absolute right-3 top-1/2 transform -translate-y-1/2 text-slate-400 hover:text-white transition-colors";
   "w-5 h-5";
   "w-5 h-5";
   "text-red-400 text-sm";
   "flex items-center justify-between";
   "flex items-center space-x-2 cursor-pointer";
   "w-4 h-4 text-primary-500 bg-dark-800 border-slate-600 rounded focus:ring-primary-500 focus:ring-2";
   "text-sm text-slate-300";
   "text-sm text-primary-400 hover:text-primary-300 transition-colors";
   "w-full scan-button flex items-center justify-center space-x-2 disabled:opacity-50 disabled:cursor-not-allowed";
   "w-5 h-5 border-2 border-white/30 border-t-white rounded-full animate-spin";
   "w-4 h-4";
   "mt-6 p-4 bg-primary-500/10 border border-primary-500/20 rounded-lg";
   "text-sm text-primary-300 text-center";
   "text-center pt-6 border-t border-slate-700";
   "text-slate-400";
   "text-primary-400 hover:text-primary-300 font-medium transition-colors"].

(** The static [className]s of [SignUp.tsx], in document order: the part up to line 200. *)
Definition signup_classes_top : list string :=
  ["min-h-screen pt-16 flex items-center justify-center px-4";
   "w-full max-w-lg";
   "text-center mb-8";
   "flex justify-center mb-6";
   "w-20 h-20";
   "text-3xl font-bold gradient-text mb-2";
   "text-slate-400";
   "glass-effect rounded-2xl p-8 space-y-6";
   "space-y-6";
   "grid grid-cols-1 sm:grid-cols-2 gap-4";
   "space-y-2";
   "text-sm font-medium text-slate-300";
   "relative";
   "absolute left-3 top-1/2 transform -translate-y-1/2 w-5 h-5 text-slate-400";
   "w-full pl-12 pr-4 py-3 bg-dark-800/50 border border-slate-600 rounded-lg focus:border-primary-500 focus:ring-2 focus:ring-primary-500/20 outline-none transition-all text-white placeholder-slate-400";
   "text-red-400 text-sm";
   "space-y-2";
   "text-sm font-medium text-slate-300";
   "relative";
   "absolute left-3 top-1/2 transform -translate-y-1/2 w-5 h-5 text-slate-400";
   "w-full pl-12 pr-4 py-3 bg-dark-800/50 border border-slate-600 rounded-lg focus:border-primary-500 focus:ring-2 focus:ring-primary-500/20 outline-none transition-all text-white placeholder-slate-400";
   "text-red-400 text-sm";
   "space-y-2";
   "text-sm font-medium text-slate-300";
   "relative";
   "absolute left-3 top-1/2 transform -translate-y-1/2 w-5 h-5 text-slate-400";
   "w-full pl-12 pr-4 py-3 bg-dark-800/50 border border-slate-600 rounded-lg focus:border-primary-500 focus:ring-2 focus:ring-primary-500/20 outline-none transition-all text-white placeholder-slate-400";
   "text-red-400 text-sm";
   "space-y-2";
   "text-sm font-medium text-slate-300";
   "relative";
   "absolute left-3 top-1/2 transform -translate-y-1/2 w-5 h-5 text-slate-400";
   "w-full pl-12 pr-12 py-3 bg-dark-800/50 border border-slate-600 rounded-lg focus:border-primary-500 focus:ring-2 focus:ring-primary-500/20 outline-none transition-all text-white placeholder-slate-400";
   "absolute right-3 top-1/2 transform -translate-y-1/2 text-slate-400 hover:text-white transition-colors";
   "w-5 h-5";
   "w-5 h-5";
   "space-y-2";
   "flex items-center space-x-2";
   "flex-1 h-2 bg-dark-800 rounded-full overflow-hidden";
   "text-xs text-slate-400";
   "text-red-400 text-sm"].

(** The static [className]s of [SignUp.tsx], in document order: the part after line 200. *)
Definition signup_classes_bottom : list string :=
  ["space-y-2";
   "text-sm font-medium text-slate-300";
   "relative";
   "absolute left-3 top-1/2 transform -translate-y-1/2 w-5 h-5 text-slate-400";
   "w-full pl-12 pr-12 py-3 bg-dark-800/50 border border-slate-600 rounded-lg focus:border-primary-500 focus:ring-2 focus:ring-primary-500/20 outline-none transition-all text-white placeholder-slate-400";
   "absolute right-3 top-1/2 transform -translate-y-1/2 text-slate-400 hover:text-white transition-colors";
   "w-5 h-5";
   "w-5 h-5";
   "text-red-400 text-sm";
   "space-y-4";
   "flex items-start space-x-3 cursor-pointer";
   "w-4 h-4 mt-1 text-primary-500 bg-dark-800 border-slate-600 rounded focus:ring-primary-500 focus:ring-2";
   "text-sm text-slate-300 leading-relaxed";
   "text-primary-400 hover:text-primary-300 underline";
   "text-primary-400 hover:text-primary-300 underline";
   "text-red-400 text-sm";
   "w-full scan-button flex items-center justify-center space-x-2 disabled:opacity-50 disabled:cursor-not-allowed";
   "w-5 h-5 border-2 border-white/30 border-t-white rounded-full animate-spin";
   "w-4 h-4";
   "mt-6 p-4 bg-green-500/10 border border-green-500/20 rounded-lg";
   "text-sm font-semibold text-green-300 mb-3";
   "space-y-2";
   "flex items-center space-x-2 text-sm text-green-200";
   "w-4 h-4 text-green-400";
   "text-center pt-6 border-t border-slate-700";
   "text-slate-400";
   "text-primary-400 hover:text-primary-300 font-medium transition-colors"].

(** The static [className]s of [Reports.tsx] (with those of [getSeverityIcon]), in document order: the part up to line 170. *)
Definition reports_classes_top : list string :=
  ["w-4 h-4";
   "w-4 h-4";
   "w-4 h-4";
   "w-4 h-4";
   "pt-20 pb-12 px-4 sm:px-6 lg:px-8 max-w-7xl mx-auto";
   "mb-8";
   "text-4xl font-bold gradient-text mb-2";
   "text-slate-400";
   "glass-effect rounded-xl p-6 mb-8";
   "grid grid-cols-1 md:grid-cols-4 gap-4";
   "md:col-span-2 relative";
   "absolute left-3 top-1/2 transform -translate-y-1/2 w-5 h-5 text-slate-400";
   "w-full pl-12 pr-4 py-3 bg-dark-800/50 border border-slate-600 rounded-lg focus:border-primary-500 focus:ring-2 focus:ring-primary-500/20 outline-none transition-all text-white placeholder-slate-400";
   "w-full py-3 px-4 bg-dark-800/50 border border-slate-600 rounded-lg focus:border-primary-500 focus:ring-2 focus:ring-primary-500/20 outline-none transition-all text-white"].

(** The static [className]s of [Reports.tsx] (with those of [getSeverityIcon]), in document order: the part after line 170. *)
Definition reports_classes_bottom : list string :=
  ["w-full py-3 px-4 bg-dark-800/50 border border-slate-600 rounded-lg focus:border-primary-500 focus:ring-2 focus:ring-primary-500/20 outline-none transition-all text-white";
   "grid grid-cols-1 lg:grid-cols-2 xl:grid-cols-3 gap-6";
   "glass-effect rounded-xl p-6 hover:bg-white/10 transition-all duration-300 group";
   "flex items-start justify-between mb-4";
   "flex items-center space-x-3";
   "w-12 h-12 bg-primary-500/20 rounded-lg flex items-center justify-center group-hover:bg-primary-500/30 transition-colors";
   "w-6 h-6 text-primary-400";
   "font-semibold text-white group-hover:text-primary-300 transition-colors";
   "text-sm text-slate-400";
   "capitalize";
   "space-y-3 mb-6";
   "flex justify-between items-center";
   "text-slate-400";
   "font-semibold text-white";
   "flex justify-between items-center";
   "text-slate-400";
   "font-semibold text-white";
   "flex justify-between items-center";
   "text-slate-400";
   "font-semibold text-green-400 capitalize";
   "flex space-x-3";
   "flex-1 flex items-center justify-center space-x-2 py-2 px-4 bg-primary-600 hover:bg-primary-700 rounded-lg transition-colors text-sm font-medium";
   "w-4 h-4";
   "flex-1 flex items-center justify-center space-x-2 py-2 px-4 bg-secondary-600 hover:bg-secondary-700 rounded-lg transition-colors text-sm font-medium";
   "w-4 h-4";
   "text-center py-12";
   "w-16 h-16 text-slate-600 mx-auto mb-4";
   "text-xl font-semibold text-slate-400 mb-2";
   "text-slate-500"].

(** The static [className]s of [Scanner.tsx], in document order: the part up to line 210. *)
Definition scanner_classes_top : list string :=
  ["pt-20 pb-12 px-4 sm:px-6 lg:px-8 max-w-7xl mx-auto";
   "text-center mb-12";
   "text-4xl md:text-5xl font-bold gradient-text mb-4";
   "text-xl text-slate-300 max-w-3xl mx-auto";
   "glass-effect rounded-2xl p-8 mb-8";
   "space-y-6";
   "grid grid-cols-1 lg:grid-cols-3 gap-6";
   "lg:col-span-2 space-y-2";
   "text-sm font-medium text-slate-300";
   "relative";
   "absolute left-3 top-1/2 transform -translate-y-1/2 w-5 h-5 text-slate-400";
   "w-full pl-12 pr-4 py-4 bg-dark-800/50 border border-slate-600 rounded-lg focus:border-primary-500 focus:ring-2 focus:ring-primary-500/20 outline-none transition-all text-white placeholder-slate-400 text-lg";
   "text-red-400 text-sm";
   "space-y-2";
   "text-sm font-medium text-slate-300";
   "w-full py-4 px-4 bg-dark-800/50 border border-slate-600 rounded-lg focus:border-primary-500 focus:ring-2 focus:ring-primary-500/20 outline-none transition-all text-white";
   "w-full scan-button flex items-center justify-center space-x-2 text-lg py-4 disabled:opacity-50 disabled:cursor-not-allowed";
   "w-6 h-6 border-2 border-white/30 border-t-white rounded-full animate-spin";
   "w-5 h-5";
   "w-5 h-5"].

(** The static [className]s of [Scanner.tsx], in document order: the part after line 210. *)
Definition scanner_classes_bottom : list string :=
  ["space-y-8";
   "glass-effect rounded-xl p-6";
   "flex flex-col sm:flex-row justify-between items-start sm:items-center gap-4";
   "text-2xl font-bold text-white mb-2";
   "text-slate-400";
   "text-primary-400 font-mono";
   "text-slate-400 text-sm";
   "flex space-x-3";
   "flex items-center space-x-2 px-4 py-2 bg-primary-600 hover:bg-primary-700 rounded-lg transition-colors";
   "w-4 h-4";
   "flex items-center space-x-2 px-4 py-2 bg-secondary-600 hover:bg-secondary-700 rounded-lg transition-colors";
   "w-4 h-4";
   "glass-effect rounded-xl overflow-hidden";
   "flex flex-wrap border-b border-slate-700";
   "w-4 h-4";
   "hidden sm:inline";
   "p-6";
   "space-y-6";
   "grid grid-cols-1 md:grid-cols-3 gap-6";
   "vulnerability-card info";
   "font-semibold text-white mb-3 flex items-center";
   "w-5 h-5 mr-2";
   "text-sm text-slate-300 bg-dark-900/50 p-4 rounded-lg overflow-x-auto";
   "vulnerability-card info";
   "font-semibold text-white mb-3 flex items-center";
   "w-5 h-5 mr-2";
   "text-sm text-slate-300 bg-dark-900/50 p-4 rounded-lg overflow-x-auto";
   "vulnerability-card info";
   "font-semibold text-white mb-3 flex items-center";
   "w-5 h-5 mr-2";
   "text-sm text-slate-300 bg-dark-900/50 p-4 rounded-lg overflow-x-auto";
   "vulnerability-card info";
   "font-semibold text-white mb-4 flex items-center";
   "w-5 h-5 mr-2";
   "text-sm text-slate-300 bg-dark-900/50 p-6 rounded-lg overflow-x-auto"].

(** The [className]s of [LoadingScreen.tsx], in document order. *)
Definition loading_classes : list string :=
  ["fixed inset-0 bg-dark-950/95 backdrop-blur-sm z-50 flex items-center justify-center";
   "text-center space-y-8";
   "flex justify-center";
   "w-24 h-24";
   "space-y-4";
   "text-2xl font-semibold gradient-text";
   "w-80 max-w-full mx-auto";
   "h-2 bg-dark-800 rounded-full overflow-hidden";
   "h-full bg-gradient-to-r from-primary-500 to-secondary-500 rounded-full";
   "text-sm text-slate-400 mt-2";
   "flex justify-center space-x-2";
   "w-3 h-3 bg-primary-500 rounded-full"].

(** The strength meter's bar: [`h-full transition-all duration-300 ${currentPasswordStrength.color}`]. *)
Definition strength_bar_class (color : string) : string := "h-full transition-all duration-300 " ++ color.

(** A report card's severity badge. *)
Definition severity_badge_class (severity : string) : string :=
  "px-3 py-1 rounded-full text-xs font-medium border flex items-center space-x-1 " ++
  Reports.getSeverityColor severity.

Definition severities : list string := ["critical"; "high"; "medium"; "low"; "info"].

(** Every class of each page: the static ones, then those the code
    computes, over all the values the code can pass. *)
Definition site : list (string * list string) :=
  [("App", app_classes);
   ("Home", Home.class_strings Home.render);
   ("Login", login_classes);
   ("SignUp", (signup_classes_top ++ signup_classes_bottom ++ map (fun l => strength_bar_class (SignUp.color l)) SignUp.levels)%list);
   ("Dashboard", Dashboard.class_strings (Dashboard.render Dashboard.initial_stats));
   ("Scanner", (scanner_classes_top ++ scanner_classes_bottom ++ map ScannerPage.tab_button_class [true; false])%list);
   ("Reports", (reports_classes_top ++ reports_classes_bottom ++ map severity_badge_class severities)%list);
   ("ScanProgress", List.concat (map (fun c =>
       let v := ScanProgress.render_step c 1 "" in
       [ScanProgress.sv_box v; ScanProgress.sv_circle v; ScanProgress.sv_icon v; ScanProgress.sv_text v])
       [2; 3; 0]%Z));
   ("LoadingScreen", loading_classes)].

(** The distinct classes of a page naming a shade the palette lacks. *)
Definition undefined_of (classes : list string) : list string :=
  remove_dups (List.concat (map Tailwind.undefined_colors classes)).

(** The colour classes of the site that produce no CSS, page by page:
    the shades [primary-300], [primary-400], [secondary-400],
    [secondary-900], [accent-400] and [dark-700] are missing from the
    palette of [tailwind.config.js], so every class below (including the
    [hover:] and [group-hover:] variants) leaves its element in the
    inherited colour; [App] and the loading screen use only defined
    shades. *)
Theorem site_undefined_colors :
  map (fun '(page, classes) => (page, undefined_of classes)) site =
  [("App", []);
   ("Home", ["text-primary-400"; "group-hover:text-primary-300"; "to-secondary-900/20"]);
   ("Login", ["text-primary-300"; "text-primary-400"; "hover:text-primary-300"]);
   ("SignUp", ["text-primary-400"; "hover:text-primary-300"]);
   ("Dashboard", ["text-secondary-400"; "text-accent-400"; "text-primary-400"]);
   ("Scanner", ["text-primary-400"; "border-primary-400"]);
   ("Reports", ["text-primary-400"; "group-hover:text-primary-300"]);
   ("ScanProgress", ["text-primary-300"; "bg-dark-700"]);
   ("LoadingScreen", [])].
Proof. vm_compute. reflexivity. Qed.

End Styles.
