(* ===== verification/Site.v ===== *)
(** * Site: a page load, from the server of [src/server/index.js] to [App]

    Typing a URL in the browser sends [GET target] to the Express server
    ([Express.app]); when the reply is the build output's [index.html]
    the browser runs the React application, whose root component [App]
    ([src/src/App.tsx]) renders its [div], [ParticleBackground], [Navbar]
    and the page [<Routes>] selects for [window.location.pathname]
    ([App.match_route] of [Components.v]).  [load] composes the two:
    what the visitor sees for a target. *)

From S2P Require Import Prelude JsCore JsDate Url Json ScanServer Express Components Styles.

Local Open Scope string_scope.
Local Open Scope pscan_scope.

Module Site.
Import ScanServer Express.

(** The rendered [App]: the classes of its [div], its two unconditional
    children (their files are absent from the repository, so only their
    presence is kept) and the page of the location, if a route matches. *)
Record app_view := mkAppView { av_classes : list string; av_children : list string;
                               av_page : option App.page }.

Definition render (location : string) : app_view :=
  mkAppView Styles.app_classes ["ParticleBackground"; "Navbar"] (App.match_route location).

(** What the browser shows for a reply. *)
Inductive screen :=
  | Spa (v : app_view)                  (* index.html, then the React application *)
  | RawFile (f : string)                (* another file of the build output *)
  | RawJson (status : Z) (v : jsval)    (* a [res.json] answer shown as text *)
  | ErrorPage (status : Z).             (* Express's HTML error page *)

(** The directory index and [index.html] are the application's shell. *)
Definition is_shell (f : string) : bool := String.eqb f "/" || String.eqb f "/index.html".

(** [GET target], then the application for the target's path when the
    reply is the shell. *)
Definition load (ext_hostname : string -> option string) (ext_json : string -> option jsval)
    (dist_has : string -> bool) (target : string) : ScanM screen :=
  r <- app ext_hostname ext_json dist_has (mkHttp "GET" target None None None) ;;
  ret (match r_payload r with
       | PFile f => if is_shell f then Spa (render (pathname target)) else RawFile f
       | PJson v => RawJson (r_status r) v
       | _ => ErrorPage (r_status r)
       end).

(** A build output holding only [index.html], for the examples. *)
Definition dist_index : string -> bool := fun f => String.eqb f "/index.html".

(** ** Properties *)

Section Properties.
Context (ext_hostname : string -> option string) (ext_json : string -> option jsval)
        (dist_has : string -> bool).

(** A page load does not change the world: a [GET] never reaches the
    [/scan] handler. *)
Lemma load_unfold target w :
  load ext_hostname ext_json dist_has target w =
    (let p := pathname target in
     if dist_has p then (if is_shell p then Spa (render p) else RawFile p)
     else if path_is "/download_report" p
     then RawJson 200 (JObj [("message", JStr "Report download would be implemented here")])
     else if dist_has "/index.html" then Spa (render p) else ErrorPage 404, w).
Proof.
  unfold load, bind. rewrite app_unfold by reflexivity. cbn -[path_is pathname is_shell render].
  destruct (dist_has (pathname target)); cbn -[path_is pathname is_shell render];
    [by destruct (is_shell _)|].
  destruct (path_is _ _); cbn -[path_is pathname is_shell render]; [done|].
  unfold to_reply. by destruct (dist_has "/index.html").
Qed.

(** C23: the server and the client router agree on the six pages: a page
    load of any target whose path is one of [App]'s routes, when the build
    output has its [index.html] and no file at that path, is answered
    with the application's shell, which renders that route's page, and
    the world is unchanged. *)
Theorem load_app_routes target r pg w :
  In (r, pg) App.routes -> pathname target = r -> dist_has "/index.html" = true ->
  dist_has r = false \/ r = "/" ->
  load ext_hostname ext_json dist_has target w = (Spa (render r), w) /\ av_page (render r) = Some pg.
Proof.
  intros Hin Hp Hidx Hr. rewrite load_unfold. cbv zeta. rewrite Hp.
  cbn in Hin. repeat destruct Hin as [[= <- <-] | Hin]; try done;
    destruct Hr as [-> | [=]]; rewrite ?Hidx; try done; by destruct (dist_has "/").
Qed.


End Properties.

(** ** Witnesses *)

Lemma load_app_routes_witness :
  load no_ext (fun _ => None) dist_index "/reports?sort=date" world0 = (Spa (render "/reports"), world0) /\
  av_page (render "/reports") = Some App.Reports.
Proof.
  apply (load_app_routes no_ext (fun _ => None) dist_index "/reports?sort=date" "/reports" App.Reports world0);
    [vm_compute; tauto | reflexivity | reflexivity | left; reflexivity].
Defined.


End Site.
